(** * ngorm hooks: the operation pipeline and the association preloader

    A shallow embedding of [hooks/default.go]: every hook of the source is a
    function of a state-and-error monad over the engine it mutates and the
    world (the heap of record values and the trace of backend calls).  The
    packages the hooks call into ([scope], [util], [search], [builder], the
    dialect and the SQL driver) are taken as an interface, [Collaborators]. *)

From stdpp Require Import base option list gmap strings pretty.
From Stdlib Require Import ZArith String Ascii Lia.

#[local] Set Warnings "-register-all,-at-level-200-changed".

Open Scope Z_scope.

(** ** Go's [strings] and [strconv], as far as the hooks use them *)

Module GoStrings.

(** [strings.LastIndex]: the byte offset of the last instance of [substr]
    in [s], or [-1]. *)
Fixpoint LastIndex (s substr : string) : Z :=
  match s with
  | EmptyString => if String.prefix substr EmptyString then 0 else -1
  | String _ s' =>
      let r := LastIndex s' substr in
      if 0 <=? r then r + 1
      else if String.prefix substr s then 0 else -1
  end.

(** [s[:n]] and [s[n:]] for an offset inside the string. *)
Definition slice_to (s : string) (n : nat) : string := substring 0 n s.
Definition slice_from (s : string) (n : nat) : string :=
  substring n (String.length s - n) s.

(** [string(b)] for a byte [b]: the UTF-8 encoding of the code point. *)
Definition string_of_byte (b : ascii) : string :=
  let n := nat_of_ascii b in
  if (n <? 128)%nat then String b EmptyString
  else String (ascii_of_nat (192 + n / 64))
         (String (ascii_of_nat (128 + n mod 64)) EmptyString).

Definition digit_of (c : ascii) : option Z :=
  let n := Z.of_nat (nat_of_ascii c) in
  if (48 <=? n) && (n <=? 57) then Some (n - 48) else None.

Fixpoint digits (s : string) (acc : Z) : option Z :=
  match s with
  | EmptyString => Some acc
  | String c s' =>
      match digit_of c with
      | Some d => digits s' (10 * acc + d)
      | None => None
      end
  end.

(** [strconv.Atoi]: an optional sign, then one or more decimal digits that
    fit an [int]; [None] stands for the [*NumError]. *)
Definition Atoi (s : string) : option Z :=
  let body sign rest :=
    match rest with
    | EmptyString => None
    | _ => match digits rest 0 with
           | Some n =>
               let v := sign * n in
               if (- 2 ^ 63 <=? v) && (v <? 2 ^ 63) then Some v else None
           | None => None
           end
    end in
  match s with
  | String "+" rest => body 1 rest
  | String "-" rest => body (-1) rest
  | _ => body 1 s
  end.

(** [strings.Split(s, sep)] for a one-byte separator. *)
Fixpoint Split (s : string) (sep : ascii) : list string :=
  match s with
  | EmptyString => [EmptyString]
  | String c s' =>
      if Ascii.eqb c sep then EmptyString :: Split s' sep
      else match Split s' sep with
           | w :: ws => String c w :: ws
           | [] => [String c EmptyString]
           end
  end.

(** [strings.Join]. *)
Fixpoint Join (elems : list string) (sep : string) : string :=
  match elems with
  | [] => EmptyString
  | [x] => x
  | x :: rest => x +:+ sep +:+ Join rest sep
  end.

(** [sub] occurs in [s] at byte offset [i]. *)
Definition occurs_at (sub s : string) (i : nat) : Prop :=
  (i + String.length sub <= String.length s)%nat /\
  substring i (String.length sub) s = sub.

End GoStrings.

(** ** Values, as [interface{}] and [reflect] show them to the hooks *)

Definition addr := nat.

Inductive type :=
| TInt64 | TUint64 | TString | TBool
| TStruct (name : string)
| TPtr (t : type)
| TSlice (t : type)
| TInterface.

Global Instance type_eq_dec : EqDecision type.
Proof. solve_decision. Defined.

(** A struct value lives in a heap cell of its own: a field or a slice
    element of struct type holds the cell's address ([VStruct]), a pointer
    holds it behind [VPtr].  [VPtrIn a f None] points to the field [f] of
    the struct in cell [a], [VPtrIn a f (Some j)] to the [j]-th element of
    the slice in that field.  A slice is [None] when nil. *)
Inductive GoValue :=
| VNil
| VInt64 (z : Z)
| VUint64 (z : Z)
| VString (s : string)
| VBool (b : bool)
| VStruct (a : addr)
| VPtr (p : option addr)
| VPtrIn (a : addr) (f : string) (j : option nat)
| VSlice (t : type) (xs : option (list GoValue)).

Inductive Cell :=
| CStruct (ty : string) (fs : list (string * GoValue))
| CVar (v : GoValue).

(** [int64(v)] for a [uint64]: two's complement wrap-around. *)
Definition int64_of_uint64 (v : Z) : Z :=
  if v <? 2 ^ 63 then v else v - 2 ^ 64.

Fixpoint assoc_get {K V} `{EqDecision K} (k : K) (l : list (K * V)) : option V :=
  match l with
  | [] => None
  | (k', v) :: l' => if decide (k = k') then Some v else assoc_get k l'
  end.

Fixpoint assoc_set {K V} `{EqDecision K} (k : K) (v : V) (l : list (K * V))
  : list (K * V) :=
  match l with
  | [] => [(k, v)]
  | (k', v') :: l' =>
      if decide (k = k') then (k, v) :: l' else (k', v') :: assoc_set k v l'
  end.

(** ** Errors and outcomes *)

Inductive error :=
| ErrorsNew (msg : string)          (* errors.New, fmt.Errorf *)
| ErrRecordNotFound                 (* errmsg.ErrRecordNotFound *)
| ErrUnaddressable                  (* errmsg.ErrUnaddressable *)
| NumError (fn input : string)      (* strconv *)
| DriverError (code : nat).         (* whatever database/sql returns *)

(** What a call can come to: a value, a Go [error], a run-time panic, or the
    fuel of the hook driver running out. *)
Inductive result (A : Type) :=
| Ok (a : A)
| Err (e : error)
| Panic (msg : string)
| OutOfFuel.
Arguments Ok {A} a.
Arguments Err {A} e.
Arguments Panic {A} msg.
Arguments OutOfFuel {A}.

(** State and error monad: the state survives an error, as the mutation of a
    Go object does. *)
Definition M (S A : Type) : Type := S -> S * result A.

Definition ret {S A} (a : A) : M S A := fun s => (s, Ok a).
Definition bind {S A B} (m : M S A) (k : A -> M S B) : M S B :=
  fun s =>
    match m s with
    | (s', Ok a) => k a s'
    | (s', Err e) => (s', Err e)
    | (s', Panic msg) => (s', Panic msg)
    | (s', OutOfFuel) => (s', OutOfFuel)
    end.
Definition fail {S A} (e : error) : M S A := fun s => (s, Err e).
Definition panic {S A} (msg : string) : M S A := fun s => (s, Panic msg).
Definition gets {S A} (f : S -> A) : M S A := fun s => (s, Ok (f s)).
Definition modify {S} (f : S -> S) : M S unit := fun s => (f s, Ok tt).
(** A pure call that may fail, made from inside the monad. *)
Definition lift {S A} (r : result A) : M S A := fun s => (s, r).
(** [if err != nil { return err }] for a call that returns only an error. *)
Definition check {S} (oe : option error) : M S unit :=
  match oe with
  | None => ret tt
  | Some e => fail e
  end.

Declare Scope go_scope.
Delimit Scope go_scope with go.
Notation "'let!' x ':=' m 'in' k" := (bind m (fun x => k))
  (at level 200, x pattern, m at level 100, k at level 200,
   right associativity) : go_scope.
Notation "m ';;;' k" := (bind m (fun _ => k))
  (at level 100, k at level 200, right associativity) : go_scope.
Open Scope go_scope.

(** ** Package [model] *)

Module model.

Record Expr := { Q : string; Args : list GoValue }.

Record JoinTableForeignKey := { FK_DBName : string; AssociationDBName : string }.
Record JoinTableSource :=
  { ModelType : type; ForeignKeys : list JoinTableForeignKey }.
Record JoinTableHandler :=
  { TableName : string; Source : JoinTableSource; Destination : JoinTableSource }.

Record Relationship := {
  Kind : string;
  PolymorphicType : string;
  PolymorphicDBName : string;
  PolymorphicValue : string;
  ForeignFieldNames : list string;
  ForeignDBNames : list string;
  AssociationForeignFieldNames : list string;
  AssociationForeignDBNames : list string;
  JoinTableHandler_ : option JoinTableHandler
}.

(** [reflect.StructField], as far as it is read: the field's type. *)
Record ReflectStructField := { Type_ : type }.

Record StructField := {
  DBName : string;
  Name : string;
  IsPrimaryKey : bool;
  IsNormal : bool;
  IsIgnored : bool;
  HasDefaultValue : bool;
  Struct : ReflectStructField;
  Relationship_ : option Relationship
}.

(** A [reflect.Value]: a designator that is read through the heap when it
    is used.  [RField a f true] is the field [f] of the struct in cell [a],
    reached through a pointer; with [false] the struct was handed over by
    value and the field cannot be set.  [RSlot a f j] is the [j]-th element
    of the slice in that field, [RElem v] an element of any other slice. *)
Inductive RValue :=
| RInvalid
| RTemp (v : GoValue)
| RCell (a : addr)
| RField (a : addr) (f : string) (addressable : bool)
| RSlot (a : addr) (f : string) (j : nat)
| RElem (v : GoValue).

Record Field := {
  StructField_ :> StructField;
  IsBlank : bool;
  Field_ : RValue
}.

Record ModelStruct := {
  PrimaryFields : list StructField;
  StructFields : list StructField;
  MS_ModelType : type
}.

(** The keys of the side channel ([Scope.Set] / [Scope.Get]). *)
Inductive DataKey :=
| QueryDestination | QueryOption | OrderByPK | BlankColWithValue
| InsertOptions | UpdateOptions | DeleteOption
| IgnoreProtectedAttrs | UpdateInterface | UpdateAttrs | UpdateColumn.

Record Scope := {
  Value : GoValue;
  SQL : string;
  SQLVars : list GoValue;
  data : list (DataKey * GoValue);
  MultiExpr : bool;
  Exprs : list Expr
}.

(** [search.Where], [search.Inline], ... leave their arguments in the
    search for the SQL builder to read. *)
Inductive Cond :=
| CWhere (query : GoValue) (args : list GoValue)
| CInline (args : list GoValue)
| CTable (name : string)
| CSelect (query : string)
| CJoin (query : string)
| COrder (query : string).

Record SearchPreload := { Schema : string; Conditions : list GoValue }.

Record Search := {
  Preload : option (list SearchPreload);
  Conds : list Cond
}.

(** The step names of a hook group. *)
Inductive Step :=
| Query | HookQuerySQL | HookQueryExec | HookAfterQuery | HookAfterFindQuery
| BeforeCreate | HookBeforeCreate | HookBeforeSave | HookCreateSQL
| HookCreateExec | AfterCreate | HookSaveBeforeAss | HookSaveAfterAss
| HookUpdateTimestamp | HookAssignUpdatingAttrs
| BeforeUpdate | HookBeforeUpdate | HookUpdateSQL | HookUpdateExec
| AfterUpdate | HookAfterUpdate | HookAfterSave
| BeforeDelete | HookBeforeDelete | DeleteSQL | AfterDelete | HookAfterDelete.

End model.

Global Instance DataKey_eq_dec : EqDecision model.DataKey.
Proof. solve_decision. Defined.
Global Instance Step_eq_dec : EqDecision model.Step.
Proof. solve_decision. Defined.

Definition set_SQL (q : string) (s : model.Scope) : model.Scope :=
  {| model.Value := model.Value s; model.SQL := q;
     model.SQLVars := model.SQLVars s; model.data := model.data s;
     model.MultiExpr := model.MultiExpr s; model.Exprs := model.Exprs s |}.
Definition set_SQLVars (vs : list GoValue) (s : model.Scope) : model.Scope :=
  {| model.Value := model.Value s; model.SQL := model.SQL s;
     model.SQLVars := vs; model.data := model.data s;
     model.MultiExpr := model.MultiExpr s; model.Exprs := model.Exprs s |}.
Definition set_Value (v : GoValue) (s : model.Scope) : model.Scope :=
  {| model.Value := v; model.SQL := model.SQL s;
     model.SQLVars := model.SQLVars s; model.data := model.data s;
     model.MultiExpr := model.MultiExpr s; model.Exprs := model.Exprs s |}.
Definition set_data (d : list (model.DataKey * GoValue)) (s : model.Scope)
  : model.Scope :=
  {| model.Value := model.Value s; model.SQL := model.SQL s;
     model.SQLVars := model.SQLVars s; model.data := d;
     model.MultiExpr := model.MultiExpr s; model.Exprs := model.Exprs s |}.

(** [Scope.Get] and [Scope.Set]. *)
Definition Scope_Get (k : model.DataKey) (s : model.Scope) : option GoValue :=
  assoc_get k (model.data s).
Definition Scope_Set (k : model.DataKey) (d : GoValue) (s : model.Scope)
  : model.Scope :=
  set_data (assoc_set k d (model.data s)) s.

(** ** [fixWhere] *)

Import GoStrings.

(** [s.SQLVars[ni]]: Go panics outside the slice. *)
Definition index_vars (vs : list GoValue) (ni : Z) : option GoValue :=
  if ni <? 0 then None else vs !! Z.to_nat ni.

Definition fixWhere : M model.Scope unit :=
  let! src := gets model.SQL in
  let i := " id = " in
  let rep := " id()= " in
  let w := "WHERE" in
  let lastWhere := LastIndex src w in
  if lastWhere =? -1 then ret tt else
  let lastID := LastIndex src i in
  if lastID =? -1 then ret tt else
  if lastID <? lastWhere then ret tt else
  modify (set_SQL (slice_to src (Z.to_nat lastID) +:+ rep
                   +:+ slice_from src (Z.to_nat lastID + String.length i)));;;
  let n := lastID + Z.of_nat (String.length i) + 1 in
  match String.get (Z.to_nat n) src with
  | None => panic "index out of range"
  | Some c =>
      match Atoi (string_of_byte c) with
      | None => fail (NumError "Atoi" (string_of_byte c))
      | Some ni =>
          let ni := ni - 1 in
          let! vars := gets model.SQLVars in
          match index_vars vars ni with
          | None => panic "index out of range"
          | Some nv =>
              match nv with
              | VUint64 v =>
                  modify (set_SQLVars
                            (<[Z.to_nat ni := VInt64 (int64_of_uint64 v)]> vars))
              | _ => ret tt
              end
          end
      end
  end.

(** ** Package [reflect] over the heap of struct cells *)

Module reflect.
Import model.

Inductive Kind :=
| Invalid | Bool | Int64 | Uint64 | String | Struct | Ptr | Slice.

Global Instance Kind_eq_dec : EqDecision Kind.
Proof. solve_decision. Defined.

Definition KindOf (v : GoValue) : Kind :=
  match v with
  | VNil => Invalid
  | VInt64 _ => Int64
  | VUint64 _ => Uint64
  | VString _ => String
  | VBool _ => Bool
  | VStruct _ => Struct
  | VPtr _ => Ptr
  | VPtrIn _ _ _ => Ptr
  | VSlice _ _ => Slice
  end.

Definition elems (v : GoValue) : list GoValue :=
  match v with
  | VSlice _ (Some xs) => xs
  | _ => []
  end.

Definition field_get (h : list Cell) (a : addr) (f : string) : option GoValue :=
  match h !! a with
  | Some (CStruct _ fs) => assoc_get f fs
  | _ => None
  end.

Definition field_set (h : list Cell) (a : addr) (f : string) (v : GoValue)
  : list Cell :=
  match h !! a with
  | Some (CStruct ty fs) => <[a := CStruct ty (assoc_set f v fs)]> h
  | _ => h
  end.

(** [v.Interface()]: what the designator holds now. *)
Definition Interface (h : list Cell) (r : RValue) : GoValue :=
  match r with
  | RInvalid => VNil
  | RTemp v => v
  | RCell a =>
      match h !! a with
      | Some (CStruct _ _) => VStruct a
      | Some (CVar v) => v
      | None => VNil
      end
  | RField a f _ => default VNil (field_get h a f)
  | RSlot a f j => default VNil (elems (default VNil (field_get h a f)) !! j)
  | RElem v => v
  end.

Definition ValueOf (v : GoValue) : RValue :=
  match v with
  | VNil => RInvalid
  | _ => RTemp v
  end.

Definition Kind_ (h : list Cell) (r : RValue) : Kind := KindOf (Interface h r).

Definition IsValid (r : RValue) : bool :=
  match r with
  | RInvalid => false
  | _ => true
  end.

(** [v.Elem()] of a pointer; the zero Value for a nil pointer. *)
Definition Elem (h : list Cell) (r : RValue) : RValue :=
  match Interface h r with
  | VPtr (Some a) => RCell a
  | VPtrIn a f None => RField a f true
  | VPtrIn a f (Some j) => RSlot a f j
  | _ => RInvalid
  end.

Definition Indirect (h : list Cell) (r : RValue) : RValue :=
  if decide (Kind_ h r = Ptr) then Elem h r else r.

Definition CanAddr (r : RValue) : bool :=
  match r with
  | RCell _ => true
  | RField _ _ b => b
  | RSlot _ _ _ => true
  | RElem _ => true
  | _ => false
  end.

(** [v.Addr().Interface()]: Go panics when [v] is not addressable.  The
    address of a struct is the pointer to its cell. *)
Definition Addr (h : list Cell) (r : RValue) : result GoValue :=
  if CanAddr r then
    match Interface h r, r with
    | VStruct a, _ => Ok (VPtr (Some a))
    | _, RCell a => Ok (VPtr (Some a))
    | _, RField a f _ => Ok (VPtrIn a f None)
    | _, RSlot a f j => Ok (VPtrIn a f (Some j))
    | _, _ => Panic "reflect: address of an element outside a struct"
    end
  else Panic "reflect.Value.Addr of unaddressable value".

Definition Len (h : list Cell) (r : RValue) : nat :=
  List.length (elems (Interface h r)).

(** [v.Index(i)]: the elements of a slice are addressable. *)
Definition Index (h : list Cell) (r : RValue) (i : nat) : RValue :=
  match elems (Interface h r) !! i with
  | Some v =>
      match r with
      | RField a f _ => RSlot a f i
      | _ => RElem v
      end
  | None => RInvalid
  end.

(** [v.FieldByName(name)]: Go panics unless [v] is a struct; the zero
    Value when the struct has no such field. *)
Definition FieldByName (h : list Cell) (r : RValue) (name : string)
  : result RValue :=
  match Interface h r with
  | VStruct a =>
      match field_get h a name with
      | Some _ => Ok (RField a name (CanAddr r))
      | None => Ok RInvalid
      end
  | _ => Panic "reflect: call of reflect.Value.FieldByName on non-struct Value"
  end.

(** [reflect.Append(s, xs...)]. *)
Definition Append (s : GoValue) (xs : list GoValue) : GoValue :=
  match s, xs with
  | _, [] => s
  | VSlice t o, _ => VSlice t (Some (default [] o ++ xs))
  | _, _ => s
  end.

(** [reflect.MakeSlice(t, 0, 0)]: Go panics unless [t] is a slice type. *)
Definition MakeSlice (t : type) : result GoValue :=
  match t with
  | TSlice u => Ok (VSlice u (Some []))
  | _ => Panic "reflect.MakeSlice of non-slice type"
  end.

(** [v.Type()], as far as [reflect.MakeSlice] looks at it: the slice type
    of a slice; of another value, that its type is no slice type. *)
Definition TypeOf (v : GoValue) : type :=
  match v with
  | VSlice t _ => TSlice t
  | _ => TInterface
  end.

(** [v.Type().Elem()] of a slice. *)
Definition TypeOf_elem (v : GoValue) : type :=
  match v with
  | VSlice t _ => t
  | _ => TInterface
  end.

(** [v.Set(x)]: Go panics when [v] cannot be set. *)
Definition Set_ (r : RValue) (x : GoValue) : M (list Cell) unit :=
  match r with
  | RCell a => modify (fun h => <[a := CVar x]> h)
  | RField a f true => modify (fun h => field_set h a f x)
  | RSlot a f j =>
      modify (fun h =>
        match field_get h a f with
        | Some (VSlice t (Some xs)) =>
            field_set h a f (VSlice t (Some (<[j := x]> xs)))
        | _ => h
        end)
  | _ => panic "reflect.Value.Set using unaddressable value"
  end.

(** Allocation of a fresh cell: [reflect.New]. *)
Definition alloc (c : Cell) : M (list Cell) addr :=
  fun h => (h ++ [c], Ok (List.length h)).

End reflect.

(** ** [database/sql]: the backend as a trace of calls and an oracle *)

Module sql.

Inductive Event :=
| EvQuery (q : string) (args : list GoValue)
| EvQueryRow (q : string) (args : list GoValue)
| EvExec (q : string) (args : list GoValue)
| EvBegin
| EvTxExec (q : string) (args : list GoValue)
| EvCommit
| EvRollback.

(** [sql.Result]. *)
Record Result := { RowsAffected : result Z; LastInsertId : result Z }.

(** The rows a query delivers before [rows.Next] turns false. *)
Record Rows := { Columns : list string; Next : list (list GoValue) }.

(** The backend's answers, each a function of the calls made so far. *)
Record DB := {
  Query : list Event -> string -> list GoValue -> result Rows;
  QueryRowScan : list Event -> string -> list GoValue -> result GoValue;
  Exec : list Event -> string -> list GoValue -> result Result;
  Begin : list Event -> option error;
  TxExec : list Event -> string -> list GoValue -> result Result;
  Commit : list Event -> option error;
  Rollback : list Event -> option error
}.

End sql.

Record World := { heap : list Cell; trace : list sql.Event }.

Definition set_heap (h : list Cell) (w : World) : World :=
  {| heap := h; trace := trace w |}.
Definition log (ev : sql.Event) (w : World) : World :=
  {| heap := heap w; trace := trace w ++ [ev] |}.

(** ** Package [engine] *)

Module engine.

Record Dialect := {
  GetName : string;
  LastInsertIDReturningSuffix : string -> string -> string;
  HasColumn : string -> string -> bool;
  BindVar : nat -> string;
  QueryFieldName : string -> string
}.

Record Engine := {
  Scope : model.Scope;
  Search : model.Search;
  RowsAffected : Z;
  Dialect_ : Dialect
}.

End engine.

Definition set_Scope (s : model.Scope) (e : engine.Engine) : engine.Engine :=
  {| engine.Scope := s; engine.Search := engine.Search e;
     engine.RowsAffected := engine.RowsAffected e;
     engine.Dialect_ := engine.Dialect_ e |}.
Definition set_Search (s : model.Search) (e : engine.Engine) : engine.Engine :=
  {| engine.Scope := engine.Scope e; engine.Search := s;
     engine.RowsAffected := engine.RowsAffected e;
     engine.Dialect_ := engine.Dialect_ e |}.
Definition set_RowsAffected (n : Z) (e : engine.Engine) : engine.Engine :=
  {| engine.Scope := engine.Scope e; engine.Search := engine.Search e;
     engine.RowsAffected := n; engine.Dialect_ := engine.Dialect_ e |}.
Definition on_Scope (f : model.Scope -> model.Scope) (e : engine.Engine)
  : engine.Engine := set_Scope (f (engine.Scope e)) e.

(** The state of a hook: the engine it was handed and the world. *)
Record St := { eng : engine.Engine; world : World }.

Definition set_eng (e : engine.Engine) (st : St) : St :=
  {| eng := e; world := world st |}.
Definition set_world (w : World) (st : St) : St :=
  {| eng := eng st; world := w |}.
Definition on_eng (f : engine.Engine -> engine.Engine) (st : St) : St :=
  set_eng (f (eng st)) st.

(** Run a computation over a part of the state. *)
Definition zoom {S T A} (proj : S -> T) (inj : T -> S -> S) (m : M T A) : M S A :=
  fun s => let '(t, r) := m (proj s) in (inj t s, r).

Definition on_heap {A} (m : M (list Cell) A) : M St A :=
  zoom (fun st => heap (world st))
       (fun h st => set_world (set_heap h (world st)) st) m.
Definition on_scope {A} (m : M model.Scope A) : M St A :=
  zoom (fun st => engine.Scope (eng st))
       (fun s st => on_eng (set_Scope s) st) m.

(** A call on another engine [ne] (a clone): it runs in the same world,
    hands back [ne] as the call left it, and leaves the caller's engine
    alone.  [call_on] is [err := f(b, ne); if err != nil { return err }];
    [try_on] hands the error to the caller. *)
Definition try_on {A} (ne : engine.Engine) (m : M St A)
  : M St (engine.Engine * result A) :=
  fun st =>
    let '(st', r) := m (set_eng ne st) in
    (set_eng (eng st) st', Ok (eng st', r)).

Definition call_on {A} (ne : engine.Engine) (m : M St A)
  : M St (engine.Engine * A) :=
  let! (ne', r) := try_on ne m in
  match r with
  | Ok a => ret (ne', a)
  | Err e => fail e
  | Panic msg => panic msg
  | OutOfFuel => fun st => (st, OutOfFuel)
  end.

(** An error the source drops ([_ = f()] or a bare call): a panic still
    unwinds. *)
Definition ignore_err {S A} (m : M S A) : M S unit :=
  fun s =>
    match m s with
    | (s', Ok _) => (s', Ok tt)
    | (s', Err _) => (s', Ok tt)
    | (s', Panic msg) => (s', Panic msg)
    | (s', OutOfFuel) => (s', OutOfFuel)
    end.

(** ** The packages the hooks call into

    [hooks/default.go] leans on [scope], [util], [search], [builder],
    [engine], [dialects] and the SQL driver.  What they compute is left
    open; their signatures are the ones the calls in the source show. *)

Class Collaborators := {
  SQLDB : sql.DB;
  (* package scope *)
  scope_Fields : engine.Engine -> list Cell -> GoValue -> result (list model.Field);
  scope_PrimaryField :
    engine.Engine -> list Cell -> GoValue -> result (option model.Field);
  scope_FieldByName :
    engine.Engine -> list Cell -> GoValue -> string -> result model.Field;
  scope_GetModelStruct :
    engine.Engine -> list Cell -> GoValue -> result model.ModelStruct;
  scope_ChangeableField : engine.Engine -> model.Field -> bool;
  scope_Quote : engine.Engine -> string -> string;
  scope_QuotedTableName : engine.Engine -> list Cell -> GoValue -> string;
  scope_TableName : engine.Engine -> list Cell -> GoValue -> string;
  scope_HasConditions : engine.Engine -> list Cell -> GoValue -> bool;
  scope_ShouldSaveAssociation : engine.Engine -> bool;
  scope_SaveFieldAsAssociation :
    engine.Engine -> list Cell -> model.Field -> bool * option model.Relationship;
  scope_SetColumn : string -> GoValue -> M St unit;
  scope_AddJoinRelation :
    string -> model.JoinTableHandler -> GoValue -> GoValue -> M St model.Expr;
  scope_ToQueryCondition : engine.Engine -> list string -> string;
  scope_Scan :
    list string -> list GoValue -> list model.Field -> list Cell -> list Cell;
  (* package util *)
  util_ColumnAsArray : list string -> list Cell -> GoValue -> list (list GoValue);
  util_ToQueryMarks : list (list GoValue) -> string;
  util_ToQueryValues : list (list GoValue) -> list GoValue;
  util_GetValueFromFields :
    list Cell -> model.RValue -> list string -> list GoValue;
  util_EqualAsString : list GoValue -> list GoValue -> bool;
  util_ToString : list GoValue -> string;
  util_AddExtraSpaceIfExist : string -> string;
  util_ToSearchableMap : list Cell -> GoValue -> GoValue;
  util_WrapTX : string -> string;
  (* package builder: the SQL text and the parameter list of the query the
     engine's search describes *)
  builder_PrepareQuery :
    engine.Engine -> list Cell -> GoValue -> result (string * list GoValue);
  (* packages engine and dialects *)
  engine_Clone : engine.Engine -> engine.Engine;
  dialects_IsQL : engine.Dialect -> bool;
  (* fmt and reflect on types *)
  fmt_Sprint : GoValue -> string;
  reflect_Zero : type -> Cell;
  type_FieldByName : type -> string -> option type;
  type_String : type -> string
}.

(** What the hooks that build and run the write statements call
    besides: the condition builder, which leaves its parameters in the
    engine; the attribute service of an update; the clocks; and the order
    in which [range] walks a map, which Go does not fix. *)
Class Writers := {
  builder_CombinedCondition : GoValue -> M St string;
  scope_UpdatedAttrsWithValues : GoValue -> St -> St * (GoValue * bool);
  engine_Now : St -> GoValue;
  time_Now : St -> GoValue;
  map_range : GoValue -> result (list (string * GoValue))
}.

(** ** The hook registry *)

Inductive Group := CreateHook | QueryHook | UpdateHook | DeleteHook | SaveHook.

Global Instance Group_eq_dec : EqDecision Group.
Proof. solve_decision. Defined.

(** What a hook sees of the [*Book] it is handed: [b.MustExec] and
    [b.Exec], each applied to the engine in the state. *)
Record Driver := {
  MustExec : Group -> model.Step -> M St unit;
  Exec : Group -> model.Step -> M St unit
}.

Definition HookFunc := Driver -> M St unit.

(** Modelled from the spec: the [Book] type and its methods [MustExec] and
    [Exec] are not in [hooks/default.go].  Section 4.1: the registry maps a
    group and a step name to the ordered list of registered functions;
    the required mode runs them in order, stops at the first failure and
    reports a missing registration; the optional mode treats an empty list
    as success. *)
Definition Book := Group -> model.Step -> list HookFunc.

Fixpoint run_hooks (d : Driver) (hs : list HookFunc) : M St unit :=
  match hs with
  | [] => ret tt
  | h :: hs' => h d;;; run_hooks d hs'
  end.

Definition out_of_fuel {S A} : M S A := fun s => (s, OutOfFuel).

(** A hook may call back into the book, so the driver is defined by
    recursion on the depth of nested calls it still allows. *)
Fixpoint book_driver (fuel : nat) (b : Book) : Driver :=
  match fuel with
  | O => {| MustExec := fun _ _ => out_of_fuel; Exec := fun _ _ => out_of_fuel |}
  | S n =>
      {| MustExec := fun g k =>
           match b g k with
           | [] => fail (ErrorsNew "hook not implemented")
           | hs => run_hooks (book_driver n b) hs
           end;
         Exec := fun g k => run_hooks (book_driver n b) (b g k) |}
  end.

(** Modelled from the spec: [Book.Register] is not in the source either.
    Section 4.1: it appends the function to the list of its key. *)
Definition Register (g : Group) (k : model.Step) (f : HookFunc) (b : Book) : Book :=
  fun g' k' =>
    if decide (g = g' /\ k = k') then b g' k' ++ [f] else b g' k'.

Definition empty_book : Book := fun _ _ => [].

(** ** The hooks of [hooks/default.go] *)

Module hooks.

Section Hooks.
Context `{Collaborators}.

Import model.

(** Readers of the state, and the calls into the backend: each leaves
    its event in the trace and takes the oracle's answer. *)
Definition getE : M St engine.Engine := gets eng.
Definition getH : M St (list Cell) := gets (fun st => heap (world st)).
Definition modE (f : engine.Engine -> engine.Engine) : M St unit :=
  modify (on_eng f).

Definition backend {A} (ev : sql.Event) (answer : list sql.Event -> result A)
  : M St A :=
  fun st => (set_world (log ev (world st)) st, answer (trace (world st))).

Definition asResult (oe : option error) : result unit :=
  match oe with
  | None => Ok tt
  | Some e => Err e
  end.

Definition SQLDB_Query (q : string) (args : list GoValue) : M St sql.Rows :=
  backend (sql.EvQuery q args) (fun t => sql.Query SQLDB t q args).
Definition SQLDB_QueryRowScan (q : string) (args : list GoValue) : M St GoValue :=
  backend (sql.EvQueryRow q args) (fun t => sql.QueryRowScan SQLDB t q args).
Definition SQLDB_Exec (q : string) (args : list GoValue) : M St sql.Result :=
  backend (sql.EvExec q args) (fun t => sql.Exec SQLDB t q args).
Definition SQLDB_Begin : M St unit :=
  backend sql.EvBegin (fun t => asResult (sql.Begin SQLDB t)).
Definition tx_Exec (q : string) (args : list GoValue) : M St sql.Result :=
  backend (sql.EvTxExec q args) (fun t => sql.TxExec SQLDB t q args).
Definition tx_Commit : M St unit :=
  backend sql.EvCommit (fun t => asResult (sql.Commit SQLDB t)).
Definition tx_Rollback : M St unit :=
  backend sql.EvRollback (fun t => asResult (sql.Rollback SQLDB t)).

(** [err := f(); if err != nil { ... }]: run [m] and look at its error. *)
Definition try {S A} (m : M S A) : M S (result A) :=
  fun s =>
    match m s with
    | (s', Panic msg) => (s', Panic msg)
    | (s', OutOfFuel) => (s', OutOfFuel)
    | (s', r) => (s', Ok r)
    end.

(** *** Query *)

(** The row loop of [QueryExec]. *)
Fixpoint scanRows (columns : list string) (rows : list (list GoValue))
         (results : RValue) (isSlice isPtr : bool) (resultType : type)
  : M St unit :=
  match rows with
  | [] => ret tt
  | row :: rows' =>
      modE (fun e => set_RowsAffected (engine.RowsAffected e + 1) e);;;
      let! elem :=
        if isSlice
        then let! a := on_heap (reflect.alloc (reflect_Zero resultType)) in
             ret (RCell a)
        else ret results in
      let! h := getH in
      let! p := lift (reflect.Addr h elem) in
      let! e := getE in
      let! fields := lift (scope_Fields e h p) in
      on_heap (modify (scope_Scan columns row fields));;;
      (if isSlice then
         let! h := getH in
         if isPtr
         then on_heap (reflect.Set_ results
                         (reflect.Append (reflect.Interface h results) [p]))
         else on_heap (reflect.Set_ results
                         (reflect.Append (reflect.Interface h results)
                                         [reflect.Interface h elem]))
       else ret tt);;;
      scanRows columns rows' results isSlice isPtr resultType
  end.

(** The destination [QueryExec] scans into: its first lines. *)
Definition queryDestination (e : engine.Engine) (h : list Cell) : RValue :=
  let results := reflect.ValueOf (Value (engine.Scope e)) in
  let results :=
    if decide (reflect.Kind_ h results = reflect.Ptr)
    then reflect.Elem h results else results in
  match Scope_Get QueryDestination (engine.Scope e) with
  | Some value => reflect.Indirect h (reflect.ValueOf value)
  | None => results
  end.

(** [QueryExec] *)
Definition QueryExec (b : Driver) : M St unit :=
  let! e := getE in
  let! h := getH in
  let results := queryDestination e h in
  let kind := reflect.Kind_ h results in
  let! (isSlice, isPtr, resultType) :=
    if decide (kind = reflect.Slice) then
      let resultType := reflect.TypeOf_elem (reflect.Interface h results) in
      let! empty := lift (reflect.MakeSlice (TSlice resultType)) in
      on_heap (reflect.Set_ results empty);;;
      match resultType with
      | TPtr t => ret (true, true, t)
      | _ => ret (true, false, resultType)
      end
    else if decide (kind <> reflect.Struct) then
      fail (ErrorsNew "unsupported destination, should be slice or struct")
    else ret (false, false, TInterface) in
  modE (set_RowsAffected 0);;;
  (match Scope_Get QueryOption (engine.Scope e) with
   | Some str =>
       modE (on_Scope (fun s =>
         set_SQL (SQL s +:+ util_AddExtraSpaceIfExist (fmt_Sprint str)) s))
   | None => ret tt
   end);;;
  let! e := getE in
  let! rows := SQLDB_Query (SQL (engine.Scope e)) (SQLVars (engine.Scope e)) in
  scanRows (sql.Columns rows) (sql.Next rows) results isSlice isPtr resultType;;;
  let! e := getE in
  if (engine.RowsAffected e =? 0) && negb isSlice
  then fail ErrRecordNotFound
  else ret tt.

(** The statement [QueryExec] sends: the scope's SQL and the query
    option behind it. *)
Definition queriedSQL (e : engine.Engine) : string :=
  match Scope_Get QueryOption (engine.Scope e) with
  | Some str => SQL (engine.Scope e) +:+ util_AddExtraSpaceIfExist (fmt_Sprint str)
  | None => SQL (engine.Scope e)
  end.

(** *** The association preloader *)

(** Modelled from the spec: package [search] is not in the source.
    Section 4.6, step 2: each call adds its filter to the query under
    construction; here it is recorded in the engine's search, in call
    order, for [builder.PrepareQuery] to read. *)
Definition add_cond (c : Cond) (e : engine.Engine) : engine.Engine :=
  set_Search {| Preload := Preload (engine.Search e);
                Conds := Conds (engine.Search e) ++ [c] |} e.
Definition search_Where (query : GoValue) (args : list GoValue) :=
  add_cond (CWhere query args).
Definition search_Inline (args : list GoValue) := add_cond (CInline args).
Definition search_Table (name : string) := add_cond (CTable name).
Definition search_Select (query : string) := add_cond (CSelect query).
Definition search_Join (query : string) := add_cond (CJoin query).
Definition search_Order (query : string) := add_cond (COrder query).

(** Modelled from the spec: [util.MakeSlice] is not in the source.
    Section 4.6, step 3: the secondary query scans into a freshly
    allocated sequence of the field's element type; the result is the
    pointer to it. *)
Definition util_MakeSlice (t : type) : M (list Cell) GoValue :=
  let elemType := match t with TSlice u => u | u => u end in
  let! a := reflect.alloc (CVar (VSlice elemType (Some []))) in
  ret (VPtr (Some a)).

(** Modelled from the spec: the method [Field.Set] is not in the source.
    Section 7(d): writing into a field that is not addressable is an
    addressability error; otherwise the value is stored in the field. *)
Definition Field_Set (field : Field) (x : GoValue) : M (list Cell) unit :=
  if reflect.CanAddr (Field_ field)
  then reflect.Set_ (Field_ field) x
  else fail ErrUnaddressable.

(** [v = reflect.ValueOf(x); if v.Kind() == reflect.Ptr { v = v.Elem() }] *)
Definition valueOfIndirect (h : list Cell) (x : GoValue) : RValue :=
  let v := reflect.ValueOf x in
  if decide (reflect.Kind_ h v = reflect.Ptr) then reflect.Elem h v else v.

(** [o := s.Index(j); if o.Kind() == reflect.Ptr { o = o.Elem() }] *)
Definition indexIndirect (h : list Cell) (s : RValue) (j : nat) : RValue :=
  let o := reflect.Index h s j in
  if decide (reflect.Kind_ h o = reflect.Ptr) then reflect.Elem h o else o.

Fixpoint forM {S A} (l : list A) (f : A -> M S unit) : M S unit :=
  match l with
  | [] => ret tt
  | x :: l' => f x;;; forM l' f
  end.

(** [PreloadDBWithConditions] *)
Definition PreloadDBWithConditions (e : engine.Engine) (conditions : list GoValue)
  : engine.Engine * list GoValue :=
  let preloadDB := engine_Clone e in
  let preloadConditions := foldl (fun acc c => acc ++ [c]) [] conditions in
  (preloadDB, preloadConditions).

Definition relationOf (field : Field) : M St Relationship :=
  match Relationship_ field with
  | Some r => ret r
  | None => panic "invalid memory address or nil pointer dereference"
  end.

Definition on_Value (v : GoValue) (e : engine.Engine) : engine.Engine :=
  on_Scope (set_Value v) e.

(** The first loop of the slice branch of [PreloadHasMany]: the rows
    grouped by their rendered foreign key. *)
Definition groupRows (h : list Cell) (rVal : RValue) (names : list string)
  : gmap string (list GoValue) :=
  foldl (fun (preloadMap : gmap string (list GoValue)) i =>
           let result := reflect.Index h rVal i in
           let foreignValues := util_GetValueFromFields h result names in
           <[util_ToString foreignValues :=
               default [] (preloadMap !! util_ToString foreignValues)
               ++ [reflect.Interface h result]]> preloadMap)
        ∅ (seq 0 (reflect.Len h rVal)).

(** The body of its second loop, for the owner at index [j]. *)
Definition assignOwner (field : Field) (relation : Relationship)
           (preloadMap : gmap string (list GoValue)) (iScopeVal : RValue)
           (j : nat) : M St unit :=
  let! h := getH in
  let object := indexIndirect h iScopeVal j in
  let objectRealValue :=
    util_GetValueFromFields h object (AssociationForeignFieldNames relation) in
  let! f := lift (reflect.FieldByName h object (Name field)) in
  match preloadMap !! util_ToString objectRealValue with
  | Some results =>
      on_heap (reflect.Set_ f (reflect.Append (reflect.Interface h f) results))
  | None =>
      let! empty :=
        lift (reflect.MakeSlice (reflect.TypeOf (reflect.Interface h f))) in
      on_heap (reflect.Set_ f empty)
  end.

(** The engine [PreloadHasMany] hands to the query pipeline: a clone of
    [e] whose search holds the IN predicate over the collected keys (and the
    polymorphic discriminator) and the caller's conditions, and whose value
    is [results]. *)
Definition hasManyEngine (e : engine.Engine) (relation : Relationship)
           (conditions : list GoValue) (primaryKeys : list (list GoValue))
           (results : GoValue) : engine.Engine :=
  let '(pdb, pCond) := PreloadDBWithConditions e conditions in
  let query :=
    scope_ToQueryCondition e (ForeignDBNames relation) +:+ " IN ("
    +:+ util_ToQueryMarks primaryKeys +:+ ")" in
  let values := util_ToQueryValues primaryKeys in
  let '(query, values) :=
    if decide (PolymorphicType relation <> "")
    then (query +:+ " AND " +:+ scope_Quote e (PolymorphicDBName relation)
                +:+ " = ?",
          values ++ [VString (PolymorphicValue relation)])
    else (query, values) in
  let pdb := search_Where (VString query) values pdb in
  let pdb := search_Inline pCond pdb in
  on_Value results pdb.

(** [PreloadHasMany] *)
Definition PreloadHasMany (b : Driver) (field : Field) (conditions : list GoValue)
  : M St unit :=
  let! relation := relationOf field in
  let! e := getE in
  let! h := getH in
  let primaryKeys :=
    util_ColumnAsArray (AssociationForeignFieldNames relation) h
                       (Value (engine.Scope e)) in
  if decide (List.length primaryKeys = 0%nat) then ret tt else
  let! results := on_heap (util_MakeSlice (Type_ (Struct field))) in
  let pdb := hasManyEngine e relation conditions primaryKeys results in
  call_on pdb (MustExec b QueryHook Query);;;
  let! h := getH in
  let rVal := valueOfIndirect h results in
  let iScopeVal := valueOfIndirect h (Value (engine.Scope e)) in
  if decide (reflect.Kind_ h iScopeVal = reflect.Slice) then
    let preloadMap := groupRows h rVal (ForeignFieldNames relation) in
    forM (seq 0 (reflect.Len h iScopeVal))
         (assignOwner field relation preloadMap iScopeVal)
  else
    on_heap (Field_Set field (reflect.Interface h rVal)).

(** The inner loop of the slice branch of [PreloadHasOne]: the first row
    whose key matches the owner's is set, then [break]. *)
Fixpoint hasOneInner (field : Field) (rel : Relationship)
         (rVal iScopeVal : RValue) (j : nat) (rest : list nat) : M St unit :=
  match rest with
  | [] => ret tt
  | i :: rest' =>
      let! h := getH in
      let result := reflect.Index h rVal i in
      let foreignValues :=
        util_GetValueFromFields h result (ForeignFieldNames rel) in
      let iVal := indexIndirect h iScopeVal j in
      if util_EqualAsString
           (util_GetValueFromFields h iVal (AssociationForeignFieldNames rel))
           foreignValues
      then
        let! f := lift (reflect.FieldByName h iVal (Name field)) in
        on_heap (reflect.Set_ f (reflect.Interface h result))
      else hasOneInner field rel rVal iScopeVal j rest'
  end.

(** [PreloadHasOne] *)
Definition PreloadHasOne (b : Driver) (field : Field) (conditions : list GoValue)
  : M St unit :=
  let! rel := relationOf field in
  let! e := getE in
  let! h := getH in
  let primaryKeys :=
    util_ColumnAsArray (AssociationForeignFieldNames rel) h
                       (Value (engine.Scope e)) in
  if decide (List.length primaryKeys = 0%nat) then ret tt else
  let '(pdb, pCond) := PreloadDBWithConditions e conditions in
  let query :=
    scope_ToQueryCondition e (ForeignDBNames rel) +:+ " IN ("
    +:+ util_ToQueryMarks primaryKeys +:+ ")" in
  let values := util_ToQueryValues primaryKeys in
  let '(query, values) :=
    if decide (PolymorphicType rel <> "")
    then (query +:+ " AND " +:+ scope_Quote e (PolymorphicDBName rel)
                +:+ " = ?",
          values ++ [VString (PolymorphicValue rel)])
    else (query, values) in
  let! results := on_heap (util_MakeSlice (Type_ (Struct field))) in
  let pdb := search_Where (VString query) values pdb in
  let pdb := search_Inline pCond pdb in
  let pdb := on_Value results pdb in
  call_on pdb (MustExec b QueryHook Query);;;
  let! h := getH in
  let rVal := valueOfIndirect h results in
  let iScopeVal := valueOfIndirect h (Value (engine.Scope e)) in
  if decide (reflect.Kind_ h iScopeVal = reflect.Slice) then
    forM (seq 0 (reflect.Len h iScopeVal))
         (fun j => hasOneInner field rel rVal iScopeVal j
                               (seq 0 (reflect.Len h rVal)))
  else
    forM (seq 0 (reflect.Len h rVal))
         (fun i =>
            let! h := getH in
            on_heap (Field_Set field
                       (reflect.Interface h (reflect.Index h rVal i)))).

(** [PreloadBelongsTo] *)
Definition PreloadBelongsTo (b : Driver) (field : Field) (conditions : list GoValue)
  : M St unit :=
  let! relation := relationOf field in
  let! e := getE in
  let! h := getH in
  let '(pdb, pCond) := PreloadDBWithConditions e conditions in
  let primaryKeys :=
    util_ColumnAsArray (ForeignFieldNames relation) h (Value (engine.Scope e)) in
  if decide (List.length primaryKeys = 0%nat) then ret tt else
  let query :=
    scope_ToQueryCondition e (AssociationForeignDBNames relation) +:+ " IN ("
    +:+ util_ToQueryMarks primaryKeys +:+ ")" in
  let values := util_ToQueryValues primaryKeys in
  let! results := on_heap (util_MakeSlice (Type_ (Struct field))) in
  let pdb := search_Where (VString query) values pdb in
  let pdb := search_Inline pCond pdb in
  let pdb := on_Value results pdb in
  call_on pdb (MustExec b QueryHook Query);;;
  let! h := getH in
  let rVal := valueOfIndirect h results in
  let iScopeVal := valueOfIndirect h (Value (engine.Scope e)) in
  forM (seq 0 (reflect.Len h rVal))
       (fun i =>
          let! h := getH in
          let result := reflect.Index h rVal i in
          if decide (reflect.Kind_ h iScopeVal = reflect.Slice) then
            let value :=
              util_GetValueFromFields h result
                                      (AssociationForeignFieldNames relation) in
            forM (seq 0 (reflect.Len h iScopeVal))
                 (fun j =>
                    let! h := getH in
                    let object := indexIndirect h iScopeVal j in
                    if util_EqualAsString
                         (util_GetValueFromFields h object
                                                  (ForeignFieldNames relation))
                         value
                    then
                      let! f := lift (reflect.FieldByName h object (Name field)) in
                      on_heap (reflect.Set_ f (reflect.Interface h result))
                    else ret tt)
          else
            on_heap (Field_Set field (reflect.Interface h result))).

(** [t.Elem()] of a type: Go panics unless it is a slice or a pointer. *)
Definition type_Elem (t : type) : result type :=
  match t with
  | TSlice u => Ok u
  | TPtr u => Ok u
  | _ => Panic "reflect: Elem of invalid type"
  end.

(** [for _, k := range keys { if f, err := scope.FieldByName(e, v, k);
    err == nil { names = append(names, f.Name) } }] *)
Fixpoint fieldNames (e : engine.Engine) (h : list Cell) (v : GoValue)
         (keys : list string) : result (list string) :=
  match keys with
  | [] => Ok []
  | k :: keys' =>
      match scope_FieldByName e h v k, fieldNames e h v keys' with
      | Ok f, Ok names => Ok (Name f :: names)
      | Err _, Ok names => Ok names
      | Panic msg, _ => Panic msg
      | OutOfFuel, _ => OutOfFuel
      | _, r => r
      end
  end.

(** [JoinWith] *)
Definition JoinWith (e : engine.Engine) (s handler : JoinTableHandler)
           (source : GoValue) : M St engine.Engine :=
  let ne := engine_Clone e in
  let ne := on_Value source ne in
  let tableName := TableName handler in
  let quotedTableName := scope_Quote ne tableName in
  let! h := getH in
  let! m := lift (scope_GetModelStruct ne h source) in
  if decide (ModelType (Source s) = MS_ModelType m) then
    let! a := on_heap (reflect.alloc (reflect_Zero (ModelType (Destination s)))) in
    let! h := getH in
    let destinationTableName := scope_QuotedTableName ne h (VPtr (Some a)) in
    let joinConditions :=
      List.map (fun foreignKey =>
             quotedTableName +:+ "." +:+ scope_Quote e (FK_DBName foreignKey)
             +:+ " = " +:+ destinationTableName +:+ "."
             +:+ scope_Quote ne (AssociationDBName foreignKey))
          (ForeignKeys (Destination s)) in
    let foreignDBNames := List.map FK_DBName (ForeignKeys (Source s)) in
    let! foreignFieldNames :=
      lift (fieldNames ne h source
              (List.map AssociationDBName (ForeignKeys (Source s)))) in
    let foreignFieldValues :=
      util_ColumnAsArray foreignFieldNames h (Value (engine.Scope e)) in
    let condString :=
      if decide (0 < List.length foreignFieldValues)%nat then
        let quotedForeignDBNames :=
          List.map (fun dbName => tableName +:+ "." +:+ dbName) foreignDBNames in
        scope_ToQueryCondition e quotedForeignDBNames +:+ " IN ("
        +:+ util_ToQueryMarks foreignFieldValues +:+ ")"
      else "1 <> 1" in
    let ne :=
      search_Join ("INNER JOIN " +:+ quotedTableName +:+ " ON "
                   +:+ Join joinConditions " AND ") ne in
    let ne :=
      search_Where (VString condString) (util_ToQueryValues foreignFieldValues) ne in
    ret ne
  else fail (ErrorsNew "wrong source type for join table handler").

(** The row loop of [PreloadManyToMany]: [linkHash] keeps its keys in the
    order of their first row. *)
Fixpoint linkRows (columns sourceKeys : list string) (fieldType : type)
         (isPtr : bool) (rows : list (list GoValue))
         (linkHash : list (string * list GoValue))
  : M St (list (string * list GoValue)) :=
  match rows with
  | [] => ret linkHash
  | row :: rows' =>
      let! a := on_heap (reflect.alloc (reflect_Zero fieldType)) in
      let elem := RCell a in
      let! h := getH in
      let! p := lift (reflect.Addr h elem) in
      let! e := getE in
      let! fields := lift (scope_Fields e h p) in
      let! joinTableFields :=
        (fix mk (keys : list string) : M St (list Field) :=
           match keys with
           | [] => ret []
           | sourceKey :: keys' =>
               let! c := on_heap (reflect.alloc (CVar VNil)) in
               let! fs := mk keys' in
               ret ({| StructField_ :=
                         {| DBName := sourceKey; Name := ""; IsPrimaryKey := false;
                            IsNormal := true; IsIgnored := false;
                            HasDefaultValue := false;
                            Struct := {| Type_ := TInterface |};
                            Relationship_ := None |};
                       IsBlank := false; Field_ := RCell c |} :: fs)
           end) sourceKeys in
      on_heap (modify (scope_Scan columns row (fields ++ joinTableFields)));;;
      let! h := getH in
      let foreignKeys :=
        List.map (fun joinTableField => reflect.Interface h (Field_ joinTableField))
            joinTableFields in
      let hashedSourceKeys := util_ToString foreignKeys in
      let link := if isPtr then p else reflect.Interface h elem in
      linkRows columns sourceKeys fieldType isPtr rows'
               (assoc_set hashedSourceKeys
                          (default [] (assoc_get hashedSourceKeys linkHash) ++ [link])
                          linkHash)
  end.

(** [PreloadManyToMany] *)
Definition PreloadManyToMany (b : Driver) (field : Field)
           (conditions : list GoValue) : M St unit :=
  let! relation := relationOf field in
  let joinTableHandler := JoinTableHandler_ relation in
  let! fieldType := lift (type_Elem (Type_ (Struct field))) in
  let '(isPtr, fieldType) :=
    match fieldType with
    | TPtr t => (true, t)
    | t => (false, t)
    end in
  match joinTableHandler with
  | None => panic "invalid memory address or nil pointer dereference"
  | Some joinTableHandler =>
      let sourceKeys := List.map FK_DBName (ForeignKeys (Source joinTableHandler)) in
      let! e := getE in
      let '(preloadDB, preloadConditions) := PreloadDBWithConditions e conditions in
      (* newScope is built and never used *)
      let! a := on_heap (reflect.alloc (reflect_Zero fieldType)) in
      let! h := getH in
      let newScope := on_Value (VPtr (Some a)) (engine_Clone e) in
      let newScope :=
        search_Table (scope_TableName newScope h (Value (engine.Scope newScope)))
                     newScope in
      let newScope := search_Select "*" newScope in
      let! preloadDB :=
        JoinWith preloadDB joinTableHandler joinTableHandler
                 (Value (engine.Scope e)) in
      let preloadDB :=
        match preloadConditions with
        | c :: cs => search_Where c cs preloadDB
        | [] => preloadDB
        end in
      let! h := getH in
      let! (q, args) :=
        lift (builder_PrepareQuery preloadDB h (Value (engine.Scope preloadDB))) in
      let preloadDB := on_Scope (fun s => set_SQLVars args (set_SQL q s)) preloadDB in
      let! rows :=
        SQLDB_Query (SQL (engine.Scope preloadDB))
                    (SQLVars (engine.Scope preloadDB)) in
      let! linkHash :=
        linkRows (sql.Columns rows) sourceKeys fieldType isPtr (sql.Next rows) [] in
      let! h := getH in
      let indirectScopeValue := valueOfIndirect h (Value (engine.Scope e)) in
      let! foreignFieldNames :=
        lift (fieldNames e h (Value (engine.Scope e)) (ForeignFieldNames relation)) in
      let add (h : list Cell) (object : RValue)
              (fieldsSourceMap : gmap string (list RValue))
        : result (gmap string (list RValue)) :=
        let key :=
          util_ToString (util_GetValueFromFields h object foreignFieldNames) in
        match reflect.FieldByName h object (Name field) with
        | Ok f => Ok (<[key := default [] (fieldsSourceMap !! key) ++ [f]]>
                        fieldsSourceMap)
        | Err e => Err e
        | Panic msg => Panic msg
        | OutOfFuel => OutOfFuel
        end in
      let! fieldsSourceMap :=
        if decide (reflect.Kind_ h indirectScopeValue = reflect.Slice) then
          (fix owners (js : list nat) (m : gmap string (list RValue))
             : M St (gmap string (list RValue)) :=
             match js with
             | [] => ret m
             | j :: js' =>
                 let! m := lift (add h (indexIndirect h indirectScopeValue j) m) in
                 owners js' m
             end) (seq 0 (reflect.Len h indirectScopeValue)) ∅
        else if reflect.IsValid indirectScopeValue then
          lift (add h indirectScopeValue ∅)
        else ret ∅ in
      forM linkHash
           (fun '(source, link) =>
              forM (default [] (fieldsSourceMap !! source))
                   (fun f =>
                      let! h := getH in
                      if decide (reflect.Len h f <> 0%nat) then ret tt
                      else on_heap (reflect.Set_ f
                                      (reflect.Append (reflect.Interface h f) link))))
  end.

(** Pointers, compared as the keys of the map [rm] of [ColumnAsScope]. *)
Definition ptr_eqb (p q : GoValue) : bool :=
  match p, q with
  | VPtr (Some a), VPtr (Some b) => (a =? b)%nat
  | VPtrIn a f j, VPtrIn b g k =>
      (a =? b)%nat && String.eqb f g && bool_decide (j = k)
  | _, _ => false
  end.

Definition seen (rm : list GoValue) (p : GoValue) : bool :=
  existsb (ptr_eqb p) rm.

(** [if x.CanAddr() && rm[x.Addr()] != true { rm[x.Addr()] = true;
    results = reflect.Append(results, x.Addr()) }] *)
Definition collect (h : list Cell) (x : RValue) (acc : list GoValue * GoValue)
  : result (list GoValue * GoValue) :=
  let '(rm, results) := acc in
  if reflect.CanAddr x then
    match reflect.Addr h x with
    | Ok p => if seen rm p then Ok acc
              else Ok (p :: rm, reflect.Append results [p])
    | Err e => Err e
    | Panic msg => Panic msg
    | OutOfFuel => OutOfFuel
    end
  else Ok acc.

Fixpoint collectAll (h : list Cell) (xs : list RValue)
         (acc : list GoValue * GoValue) : result (list GoValue * GoValue) :=
  match xs with
  | [] => Ok acc
  | x :: xs' =>
      match collect h x acc with
      | Ok acc' => collectAll h xs' acc'
      | r => r
      end
  end.

(** The loop of the slice branch of [ColumnAsScope]. *)
Fixpoint columnValues (h : list Cell) (iv : RValue) (column : string)
         (idxs : list nat) (acc : list GoValue * GoValue)
  : result (list GoValue * GoValue) :=
  match idxs with
  | [] => Ok acc
  | i :: idxs' =>
      let result := indexIndirect h iv i in
      match reflect.FieldByName h result column with
      | Ok result =>
          let result :=
            if decide (reflect.Kind_ h result = reflect.Ptr)
            then reflect.Elem h result else result in
          let step :=
            if decide (reflect.Kind_ h result = reflect.Slice)
            then collectAll h (List.map (reflect.Index h result)
                                   (seq 0 (reflect.Len h result))) acc
            else collect h result acc in
          match step with
          | Ok acc' => columnValues h iv column idxs' acc'
          | r => r
          end
      | Err e => Err e
      | Panic msg => Panic msg
      | OutOfFuel => OutOfFuel
      end
  end.

(** [ColumnAsScope] *)
Definition ColumnAsScope (e : engine.Engine) (column : string) : M St engine.Engine :=
  let! h := getH in
  let iv := valueOfIndirect h (Value (engine.Scope e)) in
  let giveUp : M St engine.Engine :=
    fail (ErrorsNew ("can get engine out of column " +:+ column)) in
  match reflect.Kind_ h iv with
  | reflect.Slice =>
      let! m := lift (scope_GetModelStruct e h (Value (engine.Scope e))) in
      match type_FieldByName (MS_ModelType m) column with
      | Some fieldType =>
          let fieldType :=
            match fieldType with
            | TSlice u => u
            | TPtr u => u
            | u => u
            end in
          let results := VSlice (TPtr fieldType) None in
          let! (_, results) :=
            lift (columnValues h iv column (seq 0 (reflect.Len h iv))
                               ([], results)) in
          let ne := engine_Clone e in
          ret (on_Value results ne)
      | None => giveUp
      end
  | reflect.Struct =>
      let! field := lift (reflect.FieldByName h iv column) in
      if reflect.CanAddr field then
        let ne := engine_Clone e in
        let! p := lift (reflect.Addr h field) in
        ret (on_Value p ne)
      else giveUp
  | _ => giveUp
  end.

(** The field a path segment names: one with the segment's name and a
    relationship. *)
Definition names (preloadField : string) (field : Field) : bool :=
  match Relationship_ field with
  | Some _ => String.eqb (Name field) preloadField
  | None => false
  end.

(** The innermost loop of [Preload]: the first field of the current type
    that has the segment's name and a relationship is preloaded; the
    result tells whether there was one. *)
Fixpoint preloadSegment (b : Driver) (cs : engine.Engine) (preloadField : string)
         (conds : list GoValue) (currentFields : list Field)
  : M St (engine.Engine * bool) :=
  match currentFields with
  | [] => ret (cs, false)
  | field :: rest =>
      match Relationship_ field with
      | Some relationship =>
          if negb (String.eqb (Name field) preloadField)
          then preloadSegment b cs preloadField conds rest
          else
            let! (cs, _) :=
              if String.eqb (Kind relationship) "has_one" then
                call_on cs (PreloadHasOne b field conds)
              else if String.eqb (Kind relationship) "has_many" then
                call_on cs (PreloadHasMany b field conds)
              else if String.eqb (Kind relationship) "belongs_to" then
                call_on cs (PreloadBelongsTo b field conds)
              else if String.eqb (Kind relationship) "many_to_many" then
                call_on cs (PreloadManyToMany b field conds)
              else
                fail (ErrorsNew ("hooks: can't preload " +:+ Kind relationship
                                 +:+ "unsupported relation")) in
            ret (cs, true)
      | None => preloadSegment b cs preloadField conds rest
      end
  end.

(** The loop over the segments of one path.  [cs] starts as the engine of
    the call and is never nil afterwards ([ColumnAsScope] returns nil only
    with an error), so the [cs == nil] test of the source never fires. *)
Fixpoint preloadPath (b : Driver) (preload : SearchPreload)
         (preloadFields : list string) (idx : nat) (rest : list string)
         (cs : engine.Engine) (currentFields : list Field)
         (preloadedMap : gmap string bool) : M St (gmap string bool) :=
  match rest with
  | [] => ret preloadedMap
  | preloadField :: rest' =>
      let preloadKey := Join (take (S idx) preloadFields) "." in
      let! (cs, preloadedMap) :=
        if negb (default false (preloadedMap !! preloadKey)) then
          let conds :=
            if decide (idx = (List.length preloadFields - 1)%nat)
            then Conditions preload else [] in
          let! (cs, found) :=
            preloadSegment b cs preloadField conds currentFields in
          if found then ret (cs, <[preloadKey := true]> preloadedMap)
          else
            let! e := getE in
            let! h := getH in
            let! m := lift (scope_GetModelStruct e h (Value (engine.Scope e))) in
            fail (ErrorsNew ("can't preload field " +:+ preloadField +:+ " for "
                             +:+ type_String (MS_ModelType m)))
        else ret (cs, preloadedMap) in
      if decide (idx < List.length preloadFields - 1)%nat then
        let! cs := ColumnAsScope cs preloadField in
        let! h := getH in
        let! currentFields :=
          lift (scope_Fields cs h (Value (engine.Scope cs))) in
        preloadPath b preload preloadFields (S idx) rest' cs currentFields
                    preloadedMap
      else
        preloadPath b preload preloadFields (S idx) rest' cs currentFields
                    preloadedMap
  end.

Fixpoint preloadAll (b : Driver) (fields : list Field)
         (preloads : list SearchPreload) (preloadedMap : gmap string bool)
  : M St unit :=
  match preloads with
  | [] => ret tt
  | preload :: preloads' =>
      let preloadFields := Split (Schema preload) "." in
      let! cs := getE in
      let! preloadedMap :=
        preloadPath b preload preloadFields 0 preloadFields cs fields
                    preloadedMap in
      preloadAll b fields preloads' preloadedMap
  end.

(** [Preload] *)
Definition Preload_ (b : Driver) : M St unit :=
  let! e := getE in
  match Preload (engine.Search e) with
  | None => ret tt
  | Some preloads =>
      let! h := getH in
      let! fields := lift (scope_Fields e h (Value (engine.Scope e))) in
      preloadAll b fields preloads ∅
  end.

(** [AfterQuery] *)
Definition AfterQuery (b : Driver) : M St unit :=
  let! e := getE in
  (match Preload (engine.Search e) with
   | Some _ => Preload_ b
   | None => ret tt
   end);;;
  Exec b QueryHook HookAfterFindQuery.

(** [QuerySQL] *)
Definition QuerySQL (b : Driver) : M St unit :=
  let! e := getE in
  let! h := getH in
  (match Scope_Get OrderByPK (engine.Scope e) with
   | Some orderBy =>
       match scope_PrimaryField e h (Value (engine.Scope e)) with
       | Ok (Some pf) =>
           modE (search_Order
                   (engine.QueryFieldName (engine.Dialect_ e)
                      (scope_QuotedTableName e h (Value (engine.Scope e)))
                    +:+ scope_Quote e (DBName pf) +:+ " " +:+ fmt_Sprint orderBy))
       | Ok None => panic "invalid memory address or nil pointer dereference"
       | Err _ => ret tt
       | Panic msg => panic msg
       | OutOfFuel => out_of_fuel
       end
   | None => ret tt
   end);;;
  let! e := getE in
  let! (q, args) := lift (builder_PrepareQuery e h (Value (engine.Scope e))) in
  modE (on_Scope (fun s => set_SQLVars args (set_SQL q s))).

(** [Query] *)
Definition Query_ (b : Driver) : M St unit :=
  MustExec b QueryHook HookQuerySQL;;;
  MustExec b QueryHook HookQueryExec;;;
  Exec b QueryHook HookAfterQuery.

(** *** Create *)

(** Modelled from the spec: [scope.AddToVars] is not in the source.
    Section 6, the bind service: given a value, it appends it to the
    positional parameter list and returns the placeholder token, which
    the dialect renders from the value's position. *)
Definition scope_AddToVars (value : GoValue) : M St string :=
  modE (on_Scope (fun s => set_SQLVars (SQLVars s ++ [value]) s));;;
  let! e := getE in
  ret (engine.BindVar (engine.Dialect_ e)
                      (List.length (SQLVars (engine.Scope e)))).

(** [strings.Replace(s, "$$", "?", -1)] *)
Fixpoint replaceDollars (s : string) : string :=
  match s with
  | String "$" (String "$" s') => String "?" (replaceDollars s')
  | String c s' => String c (replaceDollars s')
  | EmptyString => EmptyString
  end.

Definition strings_value (l : list string) : GoValue :=
  VSlice TString (Some (List.map VString l)).

(** The loop over the foreign keys of a belongs_to field in [create]. *)
Fixpoint createForeignKeys (foreignDBNames : list string)
         (acc : list string * list string) : M St (list string * list string) :=
  match foreignDBNames with
  | [] => ret acc
  | foreignKey :: rest =>
      let '(cols, placeholders) := acc in
      let! e := getE in
      let! h := getH in
      let! foreignField :=
        lift (scope_FieldByName e h (Value (engine.Scope e)) foreignKey) in
      if negb (scope_ChangeableField e foreignField) then
        let! ph :=
          scope_AddToVars (reflect.Interface h (Field_ foreignField)) in
        createForeignKeys rest
          (cols ++ [scope_Quote e (DBName foreignField)], placeholders ++ [ph])
      else createForeignKeys rest acc
  end.

(** The loop over the fields in [create]: the columns, the placeholders
    and [cv], the blank columns with default values. *)
Fixpoint createFields (fds : list Field)
         (acc : list string * list string * list string)
  : M St (list string * list string * list string) :=
  match fds with
  | [] => ret acc
  | field :: rest =>
      let '(cols, placeholders, cv) := acc in
      let! e := getE in
      let! h := getH in
      if scope_ChangeableField e field then
        if IsNormal field then
          if IsBlank field && HasDefaultValue field then
            let cv := cv ++ [scope_Quote e (DBName field)] in
            modE (on_Scope (Scope_Set BlankColWithValue (strings_value cv)));;;
            createFields rest (cols, placeholders, cv)
          else if negb (IsPrimaryKey field) || negb (IsBlank field) then
            let! ph := scope_AddToVars (reflect.Interface h (Field_ field)) in
            createFields rest
              (cols ++ [scope_Quote e (DBName field)], placeholders ++ [ph], cv)
          else createFields rest acc
        else
          match Relationship_ field with
          | Some relationship =>
              if String.eqb (Kind relationship) "belongs_to" then
                let! (cols, placeholders) :=
                  createForeignKeys (ForeignDBNames relationship)
                                    (cols, placeholders) in
                createFields rest (cols, placeholders, cv)
              else createFields rest acc
          | None => createFields rest acc
          end
      else createFields rest acc
  end.

(** The statement [create] formats from its columns and placeholders. *)
Definition insertSQL (tableName : string) (cols placeholders : list string)
           (extraOption suffix : string) : string :=
  if decide (List.length cols = 0%nat) then
    replaceDollars
      ("INSERT INTO " +:+ tableName +:+ " DEFAULT VALUES"
       +:+ util_AddExtraSpaceIfExist extraOption
       +:+ util_AddExtraSpaceIfExist suffix)
  else
    replaceDollars
      ("INSERT INTO " +:+ tableName +:+ " (" +:+ Join cols "," +:+ ") VALUES ("
       +:+ Join placeholders "," +:+ ")"
       +:+ util_AddExtraSpaceIfExist extraOption
       +:+ util_AddExtraSpaceIfExist suffix).

(** [create] *)
Definition create (b : Driver) : M St unit :=
  let! e := getE in
  let! h := getH in
  let! fds := lift (scope_Fields e h (Value (engine.Scope e))) in
  let! (cols, placeholders, cv) := createFields fds ([], [], []) in
  let! e := getE in
  let returningColumn := "*" in
  let tableName := scope_QuotedTableName e h (Value (engine.Scope e)) in
  let! primaryField := lift (scope_PrimaryField e h (Value (engine.Scope e))) in
  let extraOption :=
    match Scope_Get InsertOptions (engine.Scope e) with
    | Some str => fmt_Sprint str
    | None => ""
    end in
  let returningColumn :=
    match primaryField with
    | Some pf => scope_Quote e (DBName pf)
    | None => returningColumn
    end in
  let lastInsertIDReturningSuffix :=
    engine.LastInsertIDReturningSuffix (engine.Dialect_ e) tableName
                                       returningColumn in
  modE (on_Scope (set_SQL (insertSQL tableName cols placeholders extraOption
                                     lastInsertIDReturningSuffix))).

(** [e.RowsAffected, _ = result.RowsAffected()] *)
Definition rowsOrZero (r : sql.Result) : Z :=
  match sql.RowsAffected r with
  | Ok n => n
  | _ => 0
  end.

(** [CreateExec] *)
Definition CreateExec (b : Driver) : M St unit :=
  let! e := getE in
  let! h := getH in
  let! primaryField := lift (scope_PrimaryField e h (Value (engine.Scope e))) in
  let returningColumn :=
    match primaryField with
    | Some pf => scope_Quote e (DBName pf)
    | None => "*"
    end in
  let tableName := scope_QuotedTableName e h (Value (engine.Scope e)) in
  let lastInsertIDReturningSuffix :=
    engine.LastInsertIDReturningSuffix (engine.Dialect_ e) tableName
                                       returningColumn in
  let fallback : M St unit :=
    let! result :=
      if dialects_IsQL (engine.Dialect_ e) then
        SQLDB_Begin;;;
        let! r := try (tx_Exec (SQL (engine.Scope e)) (SQLVars (engine.Scope e))) in
        match r with
        | Ok result => tx_Commit;;; ret result
        | Err err =>
            let! rerr := try tx_Rollback in
            match rerr with
            | Err rerr => fail rerr
            | _ => fail err
            end
        | Panic msg => panic msg
        | OutOfFuel => out_of_fuel
        end
      else SQLDB_Exec (SQL (engine.Scope e)) (SQLVars (engine.Scope e)) in
    modE (set_RowsAffected (rowsOrZero result));;;
    match primaryField with
    | Some pf =>
        if IsBlank pf then
          let! primaryValue := lift (sql.LastInsertId result) in
          ignore_err (on_heap (Field_Set pf (VInt64 primaryValue)))
        else ret tt
    | None => ret tt
    end in
  match primaryField with
  | None => fallback
  | Some pf =>
      if String.eqb lastInsertIDReturningSuffix "" then fallback
      else if reflect.CanAddr (Field_ pf) then
        let! v :=
          SQLDB_QueryRowScan (SQL (engine.Scope e)) (SQLVars (engine.Scope e)) in
        on_heap (reflect.Set_ (Field_ pf) v);;;
        modE (set_RowsAffected 1)
      else fail ErrUnaddressable
  end.

(** [QLAfterCreate] *)
Definition QLAfterCreate (b : Driver) : M St unit :=
  let! e := getE in
  let! h := getH in
  let ne := engine_Clone e in
  let ne := on_Scope (Scope_Set IgnoreProtectedAttrs (VBool true)) ne in
  let ne :=
    on_Scope (Scope_Set UpdateInterface
                        (util_ToSearchableMap h (Value (engine.Scope e)))) ne in
  let ne := on_Value (Value (engine.Scope e)) ne in
  let! (ne, _) := call_on ne (MustExec b UpdateHook HookUpdateSQL) in
  let! (ne, _) := call_on ne (on_scope fixWhere) in
  let! (ne, _) := call_on ne (MustExec b UpdateHook HookUpdateExec) in
  ret tt.

(** *** Update and delete *)

(** [BeforeUpdate] *)
Definition BeforeUpdate (b : Driver) : M St unit :=
  let! e := getE in
  let! h := getH in
  if negb (scope_HasConditions e h (Value (engine.Scope e)))
  then fail (ErrorsNew "missing WHERE condition for update") else
  MustExec b UpdateHook HookUpdateTimestamp;;;
  MustExec b UpdateHook HookAssignUpdatingAttrs;;;
  MustExec b UpdateHook HookSaveBeforeAss;;;
  let! e := getE in
  match Scope_Get UpdateColumn (engine.Scope e) with
  | None =>
      Exec b SaveHook HookBeforeSave;;;
      Exec b UpdateHook HookBeforeUpdate
  | Some _ => ret tt
  end.

(** [UpdateExec] *)
Definition UpdateExec (b : Driver) : M St unit :=
  let! e := getE in
  if String.eqb (SQL (engine.Scope e)) ""
  then fail (ErrorsNew "missing update sql ") else
  SQLDB_Begin;;;
  let! r := try (tx_Exec (SQL (engine.Scope e)) (SQLVars (engine.Scope e))) in
  match r with
  | Ok result =>
      let! r := lift (sql.RowsAffected result) in
      modE (set_RowsAffected r);;;
      tx_Commit
  | Err err =>
      let! rerr := try tx_Rollback in
      match rerr with
      | Err rerr => fail rerr
      | _ => fail err
      end
  | Panic msg => panic msg
  | OutOfFuel => out_of_fuel
  end.

(** [Update] *)
Definition Update (b : Driver) : M St unit :=
  MustExec b UpdateHook model.BeforeUpdate;;;
  MustExec b UpdateHook HookUpdateSQL;;;
  MustExec b UpdateHook HookUpdateExec;;;
  MustExec b UpdateHook model.AfterUpdate.

(** [BeforeDelete] *)
Definition BeforeDelete (b : Driver) : M St unit :=
  let! e := getE in
  let! h := getH in
  if negb (scope_HasConditions e h (Value (engine.Scope e)))
  then fail (ErrorsNew "Missing WHERE clause while deleting") else
  Exec b DeleteHook HookBeforeDelete.

(** [Delete] *)
Definition Delete (b : Driver) : M St unit :=
  MustExec b DeleteHook model.BeforeDelete;;;
  MustExec b DeleteHook model.DeleteSQL;;;
  let! e := getE in
  (if dialects_IsQL (engine.Dialect_ e) then
     SQLDB_Begin;;;
     let! r := try (tx_Exec (SQL (engine.Scope e)) (SQLVars (engine.Scope e))) in
     match r with
     | Ok result =>
         let! a := lift (sql.RowsAffected result) in
         modE (set_RowsAffected a);;;
         tx_Commit
     | Err err =>
         ignore_err tx_Rollback;;;
         fail err
     | Panic msg => panic msg
     | OutOfFuel => out_of_fuel
     end
   else
     let! result :=
       SQLDB_Exec (SQL (engine.Scope e)) (SQLVars (engine.Scope e)) in
     let! a := lift (sql.RowsAffected result) in
     modE (set_RowsAffected a));;;
  MustExec b DeleteHook model.AfterDelete.

(** *** What the write hooks are measured against *)

(** The column and the parameter a foreign key of a belongs_to field
    contributes to the INSERT. *)
Definition foreignKeyColumn (e : engine.Engine) (h : list Cell) (foreignKey : string)
  : list (string * GoValue) :=
  match scope_FieldByName e h (Value (engine.Scope e)) foreignKey with
  | Ok foreignField =>
      if scope_ChangeableField e foreignField then []
      else [(scope_Quote e (DBName foreignField),
             reflect.Interface h (Field_ foreignField))]
  | _ => []
  end.

(** The columns and parameters a field contributes. *)
Definition fieldColumns (e : engine.Engine) (h : list Cell) (field : Field)
  : list (string * GoValue) :=
  if negb (scope_ChangeableField e field) then []
  else if IsNormal field then
    if IsBlank field && HasDefaultValue field then []
    else if negb (IsPrimaryKey field) || negb (IsBlank field)
         then [(scope_Quote e (DBName field), reflect.Interface h (Field_ field))]
         else []
  else match Relationship_ field with
       | Some relationship =>
           if String.eqb (Kind relationship) "belongs_to"
           then flat_map (foreignKeyColumn e h) (ForeignDBNames relationship)
           else []
       | None => []
       end.

(** The blank columns with a default value. *)
Definition defaultColumn (e : engine.Engine) (field : Field) : list string :=
  if scope_ChangeableField e field && IsNormal field
     && IsBlank field && HasDefaultValue field
  then [scope_Quote e (DBName field)] else [].

(** The placeholders of [k] parameters appended behind [n] others. *)
Definition placeholdersFrom (d : engine.Dialect) (n k : nat) : list string :=
  List.map (fun i => engine.BindVar d (n + i)) (seq 1 k).

(** Two engines that differ at most in the statement under construction. *)
Definition sameContext (e1 e2 : engine.Engine) : Prop :=
  engine.Search e1 = engine.Search e2 /\
  engine.Dialect_ e1 = engine.Dialect_ e2 /\
  Value (engine.Scope e1) = Value (engine.Scope e2).

(** The metadata service answers from the search, the dialect and the
    value, not from the statement under construction. *)
Definition Stable (e : engine.Engine) (h : list Cell) : Prop :=
  forall e', sameContext e e' ->
    (forall f, scope_ChangeableField e' f = scope_ChangeableField e f) /\
    (forall s, scope_Quote e' s = scope_Quote e s) /\
    (forall k, scope_FieldByName e' h (Value (engine.Scope e')) k =
               scope_FieldByName e h (Value (engine.Scope e)) k) /\
    scope_QuotedTableName e' h (Value (engine.Scope e')) =
    scope_QuotedTableName e h (Value (engine.Scope e)) /\
    scope_PrimaryField e' h (Value (engine.Scope e')) =
    scope_PrimaryField e h (Value (engine.Scope e)).


(** What the loop of [create] keeps of the state it started from, with
    [params] appended to the parameter list. *)
Definition Built (st0 st : St) (params : list GoValue) : Prop :=
  world st = world st0 /\
  sameContext (eng st0) (eng st) /\
  SQLVars (engine.Scope (eng st)) = SQLVars (engine.Scope (eng st0)) ++ params /\
  Scope_Get InsertOptions (engine.Scope (eng st)) =
  Scope_Get InsertOptions (engine.Scope (eng st0)).

(** The statement of the scope, and the trace once a transaction has been
    opened and the statement sent in it. *)
Definition stmt (st : St) : sql.Event :=
  sql.EvTxExec (SQL (engine.Scope (eng st))) (SQLVars (engine.Scope (eng st))).
Definition begun (st : St) : list sql.Event := trace (world st) ++ [sql.EvBegin].
Definition sent (st : St) : list sql.Event := begun st ++ [stmt st].

Definition txAnswer (st : St) : result sql.Result :=
  sql.TxExec SQLDB (begun st) (SQL (engine.Scope (eng st)))
             (SQLVars (engine.Scope (eng st))).

(** *** Saving the associations after a create or an update *)

(** [for idx, fieldName := range rel.ForeignFieldNames { ... }]: the
    foreign keys of the associated value are set from the owner's fields. *)
Fixpoint setForeignKeys (fds : list Field) (rel : Relationship) (idx : nat)
         (foreignFieldNames : list string) : M St unit :=
  match foreignFieldNames with
  | [] => ret tt
  | fieldName :: rest =>
      match AssociationForeignFieldNames rel !! idx with
      | None => panic "index out of range"
      | Some associationForeignName =>
          forM fds (fun fd =>
            if String.eqb (Name fd) associationForeignName then
              let! h := getH in
              scope_SetColumn fieldName (reflect.Interface h (Field_ fd))
            else ret tt);;;
          setForeignKeys fds rel (S idx) rest
      end
  end.

(** The body of the slice loop of [AfterAssociation] from
    [ne.Scope.Value = elem] on, run on the clone [ne]; [e] is the engine of
    the call.  The result is [true] where the source returns from
    [AfterAssociation] with a nil error, [false] at the end of the body. *)
Definition saveSliceElem (b : Driver) (e : engine.Engine) (fds : list Field)
           (rel : Relationship) (elem : GoValue) : M St bool :=
  modE (on_Value elem);;;
  (match JoinTableHandler_ rel with
   | None =>
       if decide (List.length (ForeignFieldNames rel) <> 0%nat)
       then setForeignKeys fds rel 0 (ForeignFieldNames rel)
       else ret tt
   | Some _ => ret tt
   end);;;
  (if decide (PolymorphicType rel <> "")
   then scope_SetColumn (PolymorphicType rel) (VString (PolymorphicValue rel))
   else ret tt);;;
  MustExec b CreateHook HookCreateSQL;;;
  MustExec b CreateHook HookCreateExec;;;
  (if dialects_IsQL (engine.Dialect_ e)
   then ignore_err (QLAfterCreate b) else ret tt);;;
  match JoinTableHandler_ rel with
  | Some h =>
      modE (on_Scope (fun s => set_SQLVars [] (set_SQL "" s)));;;
      let! ne := getE in
      let! expr :=
        scope_AddJoinRelation (TableName h) h (Value (engine.Scope e))
                              (Value (engine.Scope ne)) in
      if dialects_IsQL (engine.Dialect_ e) then
        let q := util_WrapTX (Q expr) in
        SQLDB_Begin;;;
        let! r := try (tx_Exec q (Args expr)) in
        match r with
        | Ok _ => tx_Commit;;; ret true
        | Err err => ignore_err tx_Rollback;;; fail err
        | Panic msg => panic msg
        | OutOfFuel => out_of_fuel
        end
      else
        SQLDB_Exec (Q expr) (Args expr);;; ret true
  | None => ret false
  end.

(** The slice loop, over the indices the slice has when the loop starts. *)
Fixpoint saveSlice (b : Driver) (fds : list Field) (rel : Relationship)
         (value : RValue) (idxs : list nat) : M St bool :=
  match idxs with
  | [] => ret false
  | i :: rest =>
      let! e := getE in
      let! h := getH in
      let ne := engine_Clone e in
      let vi := reflect.Index h value i in
      let! elem :=
        if decide (reflect.Kind_ h vi = reflect.Ptr)
        then ret (reflect.Interface h vi)
        else lift (reflect.Addr h vi) in
      let! (_, stop) := call_on ne (saveSliceElem b e fds rel elem) in
      if (stop : bool) then ret true else saveSlice b fds rel value rest
  end.

(** The [default] branch: a single associated value. *)
Definition saveSingle (b : Driver) (fds : list Field) (rel : Relationship)
           (field : Field) : M St unit :=
  let! e := getE in
  let! h := getH in
  let! fieldValue := lift (reflect.Addr h (Field_ field)) in
  let ne := engine_Clone e in
  let ne := on_Value fieldValue ne in
  let! _ :=
    call_on ne
      ((if decide (PolymorphicType rel <> "")
        then scope_SetColumn (PolymorphicType rel)
                             (VString (PolymorphicValue rel))
        else ret tt);;;
       (if decide (List.length (ForeignFieldNames rel) <> 0%nat)
        then setForeignKeys fds rel 0 (ForeignFieldNames rel)
        else ret tt);;;
       MustExec b CreateHook HookCreateSQL;;;
       MustExec b CreateHook HookCreateExec;;;
       (if dialects_IsQL (engine.Dialect_ e)
        then ignore_err (QLAfterCreate b) else ret tt)) in
  ret tt.

Definition savedKind (kind : string) : bool :=
  String.eqb kind "has_many" || String.eqb kind "has_one"
  || String.eqb kind "many_to_many".

(** The loop over the fields; [true] when the source has returned. *)
Fixpoint saveFields (b : Driver) (fds : list Field) (rest : list Field)
  : M St bool :=
  match rest with
  | [] => ret false
  | field :: rest' =>
      let! e := getE in
      let! h := getH in
      match scope_SaveFieldAsAssociation e h field with
      | (true, Some rel) =>
          if savedKind (Kind rel) then
            let value := Field_ field in
            let! stop :=
              if decide (reflect.Kind_ h value = reflect.Slice)
              then saveSlice b fds rel value (seq 0 (reflect.Len h value))
              else saveSingle b fds rel field;;; ret false in
            if (stop : bool) then ret true else saveFields b fds rest'
          else saveFields b fds rest'
      | (true, None) => panic "invalid memory address or nil pointer dereference"
      | (false, _) => saveFields b fds rest'
      end
  end.

(** [AfterAssociation] *)
Definition AfterAssociation (b : Driver) : M St unit :=
  let! e := getE in
  let! h := getH in
  if negb (scope_ShouldSaveAssociation e) then ret tt else
  let! fds := lift (scope_Fields e h (Value (engine.Scope e))) in
  saveFields b fds fds;;;
  ret tt.

(** *** What the has_many preloader is measured against *)

(** The record behind an element of the owners slice, as the loops reach
    it with [indirect(indirectScopeValue.Index(j))], and the cell it
    lives in. *)
Definition objectOf (o : GoValue) : RValue :=
  match o with
  | VPtr (Some a) => RCell a
  | _ => RElem o
  end.

Definition addrOf (o : GoValue) : option addr :=
  match o with
  | VStruct a => Some a
  | VPtr (Some a) => Some a
  | _ => None
  end.

(** The rendered association key of an owner and the rendered foreign key
    of a row, as the two loops of [PreloadHasMany] compute them. *)
Definition ownerKey (relation : Relationship) (h : list Cell) (o : GoValue)
  : string :=
  util_ToString
    (util_GetValueFromFields h (objectOf o)
                             (AssociationForeignFieldNames relation)).

Definition rowKey (relation : Relationship) (h : list Cell) (r : GoValue)
  : string :=
  util_ToString
    (util_GetValueFromFields h (RElem r) (ForeignFieldNames relation)).

(** The rows related to an owner, in the order of the result. *)
Definition related (relation : Relationship) (hr ho : list Cell)
           (rows : list GoValue) (o : GoValue) : list GoValue :=
  filter (fun r => rowKey relation hr r = ownerKey relation ho o) rows.

(** An owner whose relationship field is a slice of [u], whatever it
    holds, and the elements the field of an owner holds. *)
Definition sliceOwner (h : list Cell) (name : string) (u : type) (o : GoValue)
  : Prop :=
  exists a ty fs xs,
    addrOf o = Some a /\ h !! a = Some (CStruct ty fs) /\
    assoc_get name fs = Some (VSlice u xs).

Definition held (h : list Cell) (name : string) (o : GoValue) : list GoValue :=
  match addrOf o with
  | Some a => reflect.elems (default VNil (reflect.field_get h a name))
  | None => []
  end.

(** What the second loop of [PreloadHasMany] leaves in a field that held
    [old], where [rows] are the rows with the owner's key: [old] with the
    rows appended when there is such a row, and an empty sequence when
    there is none. *)
Definition grown (old rows : list GoValue) : list GoValue :=
  match rows with
  | [] => []
  | _ => old ++ rows
  end.

(** The book holds the built-in query pipeline. *)
Definition QueryPipeline (b : Book) : Prop :=
  b QueryHook Query = [Query_] /\
  b QueryHook HookQuerySQL = [QuerySQL] /\
  b QueryHook HookQueryExec = [QueryExec] /\
  b QueryHook HookAfterQuery = [AfterQuery] /\
  b QueryHook HookAfterFindQuery = [].

(** The clone of [e] carries over nothing the query hooks would act on: no
    preload of its own, no ordering by primary key, no other destination
    and no query option. *)
Definition PlainClone (e : engine.Engine) : Prop :=
  Preload (engine.Search (engine_Clone e)) = None /\
  Scope_Get OrderByPK (engine.Scope (engine_Clone e)) = None /\
  Scope_Get QueryDestination (engine.Scope (engine_Clone e)) = None /\
  Scope_Get QueryOption (engine.Scope (engine_Clone e)) = None.

(** The record type whose rows [QueryExec] allocates for a slice of [u]. *)
Definition rowType (u : type) : type :=
  match u with
  | TPtr t => t
  | _ => u
  end.

(** Scanning a row into a freshly allocated record of type [t]: the fields
    of the record are found, and the scan writes into that record only. *)
Definition ScansLocally (t : type) : Prop :=
  (exists ty fs, reflect_Zero t = CStruct ty fs) /\
  forall (e : engine.Engine) (h : list Cell) (columns : list string)
         (row : list GoValue),
  exists fields c,
    scope_Fields e (h ++ [reflect_Zero t]) (VPtr (Some (List.length h)))
    = Ok fields /\
    scope_Scan columns row fields (h ++ [reflect_Zero t]) = h ++ [c].

(** The association key of an owner is read from the owner's record. *)
Definition KeyLocal (relation : Relationship) : Prop :=
  forall (h h' : list Cell) (o : GoValue) (a : addr) (ty : string)
         (fs : list (string * GoValue)),
    addrOf o = Some a ->
    h !! a = Some (CStruct ty fs) -> h' !! a = Some (CStruct ty fs) ->
    util_GetValueFromFields h' (objectOf o)
                            (AssociationForeignFieldNames relation) =
    util_GetValueFromFields h (objectOf o)
                            (AssociationForeignFieldNames relation).

(** What the second loop needs of an owner it has not reached yet: its
    field is a slice, and its key renders as [key] says. *)
Definition pending (field : Field) (relation : Relationship) (u : type)
           (key : GoValue -> string) (h : list Cell) (o : GoValue) : Prop :=
  sliceOwner h (Name field) u o /\ ownerKey relation h o = key o.

(** *** The hooks around create, update and delete *)

Context `{Writers}.

(** A line feed and a tab, as [bytes.Buffer] receives them. *)
Definition LF : string := String (ascii_of_nat 10) EmptyString.
Definition TAB : string := String (ascii_of_nat 9) EmptyString.

(** [e.Dialect.GetName() == "ql" || e.Dialect.GetName() == "ql-mem"] *)
Definition isQLName (d : engine.Dialect) : bool :=
  String.eqb (engine.GetName d) "ql" || String.eqb (engine.GetName d) "ql-mem".

(** [BeforeCreate] *)
Definition BeforeCreate (b : Driver) : M St unit :=
  Exec b CreateHook HookBeforeSave;;;
  Exec b CreateHook HookBeforeCreate.

(** [Create] *)
Definition Create (b : Driver) : M St unit :=
  MustExec b CreateHook model.BeforeCreate;;;
  Exec b CreateHook HookCreateSQL;;;
  MustExec b CreateHook HookCreateExec;;;
  MustExec b CreateHook model.AfterCreate.

(** [AfterCreate]: the error of [QLAfterCreate] is not looked at. *)
Definition AfterCreate (b : Driver) : M St unit :=
  let! e := getE in
  (if dialects_IsQL (engine.Dialect_ e)
   then ignore_err (QLAfterCreate b) else ret tt);;;
  MustExec b UpdateHook HookSaveAfterAss.

(** [AfterUpdate] *)
Definition AfterUpdate (b : Driver) : M St unit :=
  let! e := getE in
  let! h := getH in
  if negb (scope_HasConditions e h (Value (engine.Scope e)))
  then fail (ErrorsNew "missing WHERE condition for update") else
  (match Scope_Get UpdateColumn (engine.Scope e) with
   | None =>
       Exec b UpdateHook HookAfterUpdate;;;
       Exec b SaveHook HookAfterSave
   | Some _ => ret tt
   end);;;
  MustExec b UpdateHook HookSaveAfterAss.

(** [UpdateTimestamp] *)
Definition UpdateTimestamp (b : Driver) : M St unit :=
  let! e := getE in
  match Scope_Get UpdateColumn (engine.Scope e) with
  | None =>
      let! now := gets time_Now in
      scope_SetColumn "UpdatedAt" now
  | Some _ => ret tt
  end.

(** [AssignUpdatingAttrs] *)
Definition AssignUpdatingAttrs (b : Driver) : M St unit :=
  let! e := getE in
  match Scope_Get UpdateInterface (engine.Scope e) with
  | Some attrs =>
      let! (u, uok) := (fun st => let '(st', r) := scope_UpdatedAttrsWithValues attrs st
                                  in (st', Ok r)) in
      if (uok : bool) then modE (on_Scope (Scope_Set UpdateAttrs u)) else ret tt
  | None => ret tt
  end.

(** The loop over the foreign field names in [SaveBeforeAssociation]: the
    owner's column is set from the field of the saved value; a field that
    is not found is passed over. *)
Fixpoint copyForeignKeys (relationship : Relationship) (fieldValue : GoValue)
         (idx : nat) (foreignFieldNames : list string) : M St unit :=
  match foreignFieldNames with
  | [] => ret tt
  | fieldName :: rest =>
      match AssociationForeignDBNames relationship !! idx with
      | None => panic "index out of range"
      | Some associationForeignName =>
          let! e := getE in
          let! h := getH in
          (match scope_FieldByName e h fieldValue associationForeignName with
           | Ok foreignField =>
               scope_SetColumn fieldName (reflect.Interface h (Field_ foreignField))
           | Err _ => ret tt
           | Panic msg => panic msg
           | OutOfFuel => out_of_fuel
           end);;;
          copyForeignKeys relationship fieldValue (S idx) rest
      end
  end.

(** The loop over the fields in [SaveBeforeAssociation]. *)
Fixpoint saveBelongsTo (b : Driver) (rest : list Field) : M St unit :=
  match rest with
  | [] => ret tt
  | field :: rest' =>
      let! e := getE in
      let! h := getH in
      match scope_SaveFieldAsAssociation e h field with
      | (true, Some relationship) =>
          if String.eqb (Kind relationship) "belongs_to" then
            let! fieldValue := lift (reflect.Addr h (Field_ field)) in
            let ne := on_Value fieldValue (engine_Clone e) in
            let! _ :=
              call_on ne
                (MustExec b CreateHook HookCreateSQL;;;
                 MustExec b CreateHook HookCreateExec;;;
                 (if dialects_IsQL (engine.Dialect_ e)
                  then ignore_err (QLAfterCreate b) else ret tt)) in
            (if decide (List.length (ForeignFieldNames relationship) <> 0%nat)
             then copyForeignKeys relationship fieldValue 0
                                  (ForeignFieldNames relationship)
             else ret tt);;;
            saveBelongsTo b rest'
          else saveBelongsTo b rest'
      | (true, None) => panic "invalid memory address or nil pointer dereference"
      | (false, _) => saveBelongsTo b rest'
      end
  end.

(** [SaveBeforeAssociation] *)
Definition SaveBeforeAssociation (b : Driver) : M St unit :=
  let! e := getE in
  let! h := getH in
  if negb (scope_ShouldSaveAssociation e) then ret tt else
  let! fds := lift (scope_Fields e h (Value (engine.Scope e))) in
  saveBelongsTo b fds.

(** What [CreateSQL] writes into its buffer. *)
Definition createScript (d : engine.Dialect) (s : Scope) : string :=
  (if isQLName d then "BEGIN TRANSACTION;" +:+ LF else "")
  +:+ (if MultiExpr s
       then String.concat ""
              (List.map (fun expr => TAB +:+ Q expr +:+ ";" +:+ LF) (Exprs s))
       else "")
  +:+ TAB +:+ SQL s +:+ ";" +:+ LF
  +:+ (if isQLName d then "COMMIT;" else "").

(** [CreateSQL] *)
Definition CreateSQL (b : Driver) : M St unit :=
  Exec b CreateHook model.BeforeCreate;;;
  let! e := getE in
  (if scope_ShouldSaveAssociation e
   then MustExec b CreateHook HookSaveBeforeAss else ret tt);;;
  Exec b CreateHook HookUpdateTimestamp;;;
  create b;;;
  let! e := getE in
  modE (on_Scope (set_SQL (createScript (engine.Dialect_ e) (engine.Scope e)))).

(** The loop of [UpdateSQL] over the attributes to update. *)
Fixpoint updateAttrs (attrs : list (string * GoValue)) (sqls : list string)
  : M St (list string) :=
  match attrs with
  | [] => ret sqls
  | (column, value) :: rest =>
      let! e := getE in
      let! ph := scope_AddToVars value in
      updateAttrs rest (sqls ++ [scope_Quote e column +:+ " = " +:+ ph])
  end.

(** Its loop over the foreign keys of a belongs_to field: a foreign key
    whose field is not found is passed over. *)
Fixpoint updateForeignKeys (foreignDBNames : list string) (sqls : list string)
  : M St (list string) :=
  match foreignDBNames with
  | [] => ret sqls
  | foreignKey :: rest =>
      let! e := getE in
      let! h := getH in
      match scope_FieldByName e h (Value (engine.Scope e)) foreignKey with
      | Ok foreignField =>
          if negb (scope_ChangeableField e foreignField) then
            let! ph :=
              scope_AddToVars (reflect.Interface h (Field_ foreignField)) in
            updateForeignKeys rest
              (sqls ++ [scope_Quote e (DBName foreignField) +:+ " = " +:+ ph])
          else updateForeignKeys rest sqls
      | Err _ => updateForeignKeys rest sqls
      | Panic msg => panic msg
      | OutOfFuel => out_of_fuel
      end
  end.

(** Its loop over the fields. *)
Fixpoint updateFields (fds : list Field) (sqls : list string)
  : M St (list string) :=
  match fds with
  | [] => ret sqls
  | field :: rest =>
      let! e := getE in
      let! h := getH in
      if scope_ChangeableField e field then
        if negb (IsPrimaryKey field) && IsNormal field then
          let! ph := scope_AddToVars (reflect.Interface h (Field_ field)) in
          updateFields rest (sqls ++ [scope_Quote e (DBName field) +:+ " = " +:+ ph])
        else
          match Relationship_ field with
          | Some rel =>
              if String.eqb (Kind rel) "belongs_to" then
                let! sqls := updateForeignKeys (ForeignDBNames rel) sqls in
                updateFields rest sqls
              else updateFields rest sqls
          | None => updateFields rest sqls
          end
      else updateFields rest sqls
  end.

(** [UpdateSQL] *)
Definition UpdateSQL (b : Driver) : M St unit :=
  Exec b UpdateHook HookAssignUpdatingAttrs;;;
  let! e := getE in
  let! sqls :=
    match Scope_Get UpdateAttrs (engine.Scope e) with
    | Some attrs =>
        let! pairs := lift (map_range attrs) in
        updateAttrs pairs []
    | None =>
        let! h := getH in
        let! fds := lift (scope_Fields e h (Value (engine.Scope e))) in
        updateFields fds []
    end in
  let! e := getE in
  let extraOption :=
    match Scope_Get UpdateOptions (engine.Scope e) with
    | Some str => fmt_Sprint str
    | None => ""
    end in
  (if decide (0 < List.length sqls)%nat then
     let! c := builder_CombinedCondition (Value (engine.Scope e)) in
     let! e := getE in
     let! h := getH in
     modE (on_Scope (set_SQL
             ("UPDATE " +:+ scope_QuotedTableName e h (Value (engine.Scope e))
              +:+ " SET " +:+ Join sqls ", "
              +:+ util_AddExtraSpaceIfExist c
              +:+ util_AddExtraSpaceIfExist extraOption)))
   else ret tt);;;
  let! e := getE in
  if isQLName (engine.Dialect_ e) then
    modE (on_Scope (fun s =>
            set_SQL ("BEGIN TRANSACTION;" +:+ LF +:+ TAB +:+ SQL s +:+ ";" +:+ LF
                     +:+ "COMMIT;") s))
  else ret tt.

(** [DeleteSQL] *)
Definition DeleteSQL (b : Driver) : M St unit :=
  let! e := getE in
  let! h := getH in
  let extraOption :=
    match Scope_Get DeleteOption (engine.Scope e) with
    | Some str => fmt_Sprint str
    | None => ""
    end in
  let wrap (q : string) : M St unit :=
    let! e := getE in
    modE (on_Scope (set_SQL (if isQLName (engine.Dialect_ e)
                             then util_WrapTX q else q))) in
  if engine.HasColumn (engine.Dialect_ e)
                      (scope_TableName e h (Value (engine.Scope e))) "DeletedAt"
  then
    let! c := builder_CombinedCondition (Value (engine.Scope e)) in
    let! e := getE in
    let! h := getH in
    let table := scope_QuotedTableName e h (Value (engine.Scope e)) in
    let! now := gets engine_Now in
    let! ph := scope_AddToVars now in
    wrap ("UPDATE " +:+ table +:+ " SET deleted_at=" +:+ ph
          +:+ util_AddExtraSpaceIfExist c
          +:+ util_AddExtraSpaceIfExist extraOption)
  else
    let! c := builder_CombinedCondition (Value (engine.Scope e)) in
    let! e := getE in
    let! h := getH in
    let table := scope_QuotedTableName e h (Value (engine.Scope e)) in
    wrap ("DELETE FROM " +:+ table
          +:+ util_AddExtraSpaceIfExist c
          +:+ util_AddExtraSpaceIfExist extraOption).

(** [AfterDelete] *)
Definition AfterDelete (b : Driver) : M St unit :=
  Exec b DeleteHook HookAfterDelete.

(** *** What the preloader's bookkeeping is measured against *)

(** The keys under which [Preload] records the segments [idx], ..., of a
    path as loaded. *)
Definition keysFrom (preloadFields : list string) (idx n : nat) : list string :=
  List.map (fun i => Join (take (S i) preloadFields) ".") (seq idx n).



(** *** What the has_one and belongs_to preloaders are measured against *)

(** The element type [util.MakeSlice] gives the result slice of a field. *)
Definition resultElem (t : type) : type :=
  match t with
  | TSlice u => u
  | u => u
  end.

(** The test of the two loops of [PreloadHasOne]: the keys of the owner
    and of the row are equal as strings. *)
Definition matches (rel : Relationship) (h : list Cell) (o r : GoValue) : bool :=
  util_EqualAsString
    (util_GetValueFromFields h (objectOf o) (AssociationForeignFieldNames rel))
    (util_GetValueFromFields h (RElem r) (ForeignFieldNames rel)).

(** A test that does not read the field [name], which is being set. *)
Definition MatchStable (name : string) (test : list Cell -> GoValue -> GoValue -> bool)
  : Prop :=
  forall (h : list Cell) (a : addr) (x o r : GoValue),
    test (reflect.field_set h a name x) o r = test h o r.

(** An owner record with the field [name]. *)
Definition hasField (h : list Cell) (name : string) (o : GoValue) : Prop :=
  exists a ty fs v,
    addrOf o = Some a /\ h !! a = Some (CStruct ty fs) /\
    assoc_get name fs = Some v.

(** The engine [PreloadBelongsTo] hands to the query pipeline. *)
Definition belongsToEngine (e : engine.Engine) (relation : Relationship)
           (conditions : list GoValue) (primaryKeys : list (list GoValue))
           (results : GoValue) : engine.Engine :=
  let '(pdb, pCond) := PreloadDBWithConditions e conditions in
  let query :=
    scope_ToQueryCondition e (AssociationForeignDBNames relation) +:+ " IN ("
    +:+ util_ToQueryMarks primaryKeys +:+ ")" in
  let values := util_ToQueryValues primaryKeys in
  let pdb := search_Where (VString query) values pdb in
  let pdb := search_Inline pCond pdb in
  on_Value results pdb.

(** The test of the loops of [PreloadBelongsTo]: the owner's foreign key
    and the row's key are equal as strings. *)
Definition owes (rel : Relationship) (h : list Cell) (o r : GoValue) : bool :=
  util_EqualAsString
    (util_GetValueFromFields h (objectOf o) (ForeignFieldNames rel))
    (util_GetValueFromFields h (RElem r) (AssociationForeignFieldNames rel)).

(** The keys [names] of a record are not read from its field [name]. *)
Definition KeysStable (name : string) (names : list string) : Prop :=
  forall (h : list Cell) (a : addr) (x : GoValue) (rv : RValue),
    (exists c, rv = RCell c) \/ (exists v, rv = RElem v) ->
    util_GetValueFromFields (reflect.field_set h a name x) rv names =
    util_GetValueFromFields h rv names.

(** What the loops of [PreloadBelongsTo] keep of the state after the query:
    the result slice in cell [ares], the owners behind cell [aown], the keys
    as they are read in [h2], and the owners' field. *)
Definition Kept (field : Field) (rel : Relationship) (u : type)
           (ares aown : addr) (town : type) (rowvals owners : list GoValue)
           (h2 : list Cell) (st : St) : Prop :=
  heap (world st) !! ares = Some (CVar (VSlice u (Some rowvals))) /\
  heap (world st) !! aown = Some (CVar (VSlice town (Some owners))) /\
  (forall rv, (exists c, rv = RCell c) \/ (exists v, rv = RElem v) ->
     util_GetValueFromFields (heap (world st)) rv (ForeignFieldNames rel) =
     util_GetValueFromFields h2 rv (ForeignFieldNames rel)) /\
  (forall rv, (exists c, rv = RCell c) \/ (exists v, rv = RElem v) ->
     util_GetValueFromFields (heap (world st)) rv (AssociationForeignFieldNames rel) =
     util_GetValueFromFields h2 rv (AssociationForeignFieldNames rel)) /\
  Forall (hasField (heap (world st)) (Name field)) owners.

(** The body of the inner loop of [PreloadBelongsTo], for the row [r] with
    the key [value], and the body of its outer loop. *)
Definition ownerStep (field : Field) (rel : Relationship) (aown : addr)
           (value : list GoValue) (r : GoValue) (j : nat) : M St unit :=
  let! h := getH in
  let object := indexIndirect h (RCell aown) j in
  if util_EqualAsString
       (util_GetValueFromFields h object (ForeignFieldNames rel)) value
  then
    let! f := lift (reflect.FieldByName h object (Name field)) in
    on_heap (reflect.Set_ f (reflect.Interface h (RElem r)))
  else ret tt.

Definition rowStep (field : Field) (rel : Relationship) (ares aown : addr)
           (i : nat) : M St unit :=
  let! h := getH in
  let result := reflect.Index h (RCell ares) i in
  if decide (reflect.Kind_ h (RCell aown) = reflect.Slice) then
    let value :=
      util_GetValueFromFields h result (AssociationForeignFieldNames rel) in
    forM (seq 0 (reflect.Len h (RCell aown)))
         (fun j =>
            let! h := getH in
            let object := indexIndirect h (RCell aown) j in
            if util_EqualAsString
                 (util_GetValueFromFields h object (ForeignFieldNames rel))
                 value
            then
              let! f := lift (reflect.FieldByName h object (Name field)) in
              on_heap (reflect.Set_ f (reflect.Interface h result))
            else ret tt)
  else
    on_heap (Field_Set field (reflect.Interface h result)).

(** *** What the statements of an update and of a delete are measured against *)

(** A state with [params] appended to the parameters of its statement. *)
Definition addVars (params : list GoValue) (st : St) : St :=
  on_eng (on_Scope (fun s => set_SQLVars (SQLVars s ++ params) s)) st.

(** The assignments a field contributes to the SET list of [UpdateSQL]:
    the column and the value. *)
Definition fieldAssignments (e : engine.Engine) (h : list Cell) (field : Field)
  : list (string * GoValue) :=
  if scope_ChangeableField e field then
    if negb (IsPrimaryKey field) && IsNormal field then
      [(scope_Quote e (DBName field), reflect.Interface h (Field_ field))]
    else
      match Relationship_ field with
      | Some rel =>
          if String.eqb (Kind rel) "belongs_to"
          then flat_map (foreignKeyColumn e h) (ForeignDBNames rel)
          else []
      | None => []
      end
  else [].

(** The SET list of the columns [cols], with the placeholders of as many
    parameters behind [n] others. *)
Definition setList (d : engine.Dialect) (n : nat) (cols : list string)
  : list string :=
  zip_with (fun column ph => column +:+ " = " +:+ ph) cols
           (placeholdersFrom d n (List.length cols)).

(** What [UpdateSQL] leaves of a statement on the dialect [d]. *)
Definition updateScript (d : engine.Dialect) (q : string) : string :=
  if isQLName d
  then "BEGIN TRANSACTION;" +:+ LF +:+ TAB +:+ q +:+ ";" +:+ LF +:+ "COMMIT;"
  else q.

(** A metadata answer that is a value or an error. *)
Definition Answered {A} (r : result A) : Prop :=
  match r with
  | Ok _ | Err _ => True
  | _ => False
  end.

(** The built-in steps of a create and of a delete, registered alone under
    their names, with the call-backs [cbs] before a create and none around
    a delete. *)
Definition CreateSteps (b : Book) (cbs : list HookFunc) : Prop :=
  b CreateHook model.BeforeCreate = [BeforeCreate] /\
  b CreateHook HookCreateSQL = [CreateSQL] /\
  b CreateHook HookBeforeSave = [] /\
  b CreateHook HookBeforeCreate = cbs.

Definition DeleteSteps (b : Book) : Prop :=
  b DeleteHook model.BeforeDelete = [BeforeDelete] /\
  b DeleteHook model.DeleteSQL = [DeleteSQL] /\
  b DeleteHook model.AfterDelete = [AfterDelete] /\
  b DeleteHook HookBeforeDelete = [] /\
  b DeleteHook HookAfterDelete = [].

(** The statement of a delete: the row is removed, or marked as deleted
    at the time [now]. *)
Definition deleteSQL (table c extraOption : string) : string :=
  "DELETE FROM " +:+ table
  +:+ util_AddExtraSpaceIfExist c +:+ util_AddExtraSpaceIfExist extraOption.
Definition softDeleteSQL (table ph c extraOption : string) : string :=
  "UPDATE " +:+ table +:+ " SET deleted_at=" +:+ ph
  +:+ util_AddExtraSpaceIfExist c +:+ util_AddExtraSpaceIfExist extraOption.

(** *** What the many_to_many preloader is measured against *)

(** The field [PreloadManyToMany] scans a source key of the join table
    into, a cell of its own, and the fields of all the source keys, their
    cells in a row from [base] on. *)
Definition joinTableField (sourceKey : string) (c : addr) : Field :=
  {| StructField_ :=
       {| DBName := sourceKey; Name := ""; IsPrimaryKey := false;
          IsNormal := true; IsIgnored := false; HasDefaultValue := false;
          Struct := {| Type_ := TInterface |}; Relationship_ := None |};
     IsBlank := false; Field_ := RCell c |}.

Definition joinTableFields (base : addr) (sourceKeys : list string) : list Field :=
  zip_with joinTableField sourceKeys (seq base (List.length sourceKeys)).

(** Scanning a row of the join query into a fresh record of type [t] and
    fresh cells for the source keys: the fields of the record are found,
    and the scan writes into that record and those cells only. *)
Definition LinksLocally (t : type) (sourceKeys : list string) : Prop :=
  (exists ty fs, reflect_Zero t = CStruct ty fs) /\
  forall (e : engine.Engine) (h : list Cell) (columns : list string)
         (row : list GoValue),
  exists fields ty fs ks,
    scope_Fields e (h ++ [reflect_Zero t]) (VPtr (Some (List.length h)))
    = Ok fields /\
    List.length ks = List.length sourceKeys /\
    scope_Scan columns row
      (fields ++ joinTableFields (S (List.length h)) sourceKeys)
      ((h ++ [reflect_Zero t]) ++ replicate (List.length sourceKeys) (CVar VNil))
    = (h ++ [CStruct ty fs]) ++ List.map CVar ks.

(** What a row of the join query leaves in the heap, its record in cell
    [a] and its [k] source keys behind it: the link to the record, and the
    source keys as a string. *)
Definition rowLink (isPtr : bool) (a : addr) : GoValue :=
  if isPtr then VPtr (Some a) else VStruct a.

Definition rowSource (h : list Cell) (a : addr) (k : nat) : string :=
  util_ToString
    (List.map (fun i => reflect.Interface h (RCell (a + 1 + i)%nat)) (seq 0 k)).

(** The [n] rows from cell [base] on, in the order of the result. *)
Fixpoint linkEntries (h : list Cell) (isPtr : bool) (base k n : nat)
  : list (string * GoValue) :=
  match n with
  | O => []
  | S n' => (rowSource h base k, rowLink isPtr base)
            :: linkEntries h isPtr (base + S k)%nat k n'
  end.

(** The links of the rows whose source keys render as [key]. *)
Definition linked (entries : list (string * GoValue)) (key : string)
  : list GoValue :=
  List.map snd (filter (fun entry => entry.1 = key) entries).

(** The key of an owner under which its field waits for links. *)
Definition ownerSource (h : list Cell) (names : list string) (o : GoValue)
  : string :=
  util_ToString (util_GetValueFromFields h (objectOf o) names).

(** [linkHash[key] = append(linkHash[key], link)] *)
Definition addLink (linkHash : list (string * list GoValue))
           (entry : string * GoValue) : list (string * list GoValue) :=
  assoc_set entry.1 (default [] (assoc_get entry.1 linkHash) ++ [entry.2]) linkHash.

(** The field [name] of an owner, as the owners' loop finds it. *)
Definition fieldOf (name : string) (o : GoValue) : RValue :=
  match addrOf o with
  | Some a => RField a name true
  | None => RInvalid
  end.

(** The body of the last loop of [PreloadManyToMany]: a field that holds
    elements is passed over. *)
Definition assignLinks (link : list GoValue) (f : RValue) : M St unit :=
  let! h := getH in
  if decide (reflect.Len h f <> 0%nat) then ret tt
  else on_heap (reflect.Set_ f (reflect.Append (reflect.Interface h f) link)).

(** What that loop leaves in a field that held [v0]. *)
Definition linkedField (v0 : GoValue) (link : list GoValue) : GoValue :=
  if decide (List.length (reflect.elems v0) <> 0%nat) then v0
  else reflect.Append v0 link.

(** *** What the row loop of [QueryExec] is measured against *)

(** What a row leaves in the record allocated for it in cell [a]: the
    outcome of [scope.Scan] on a fresh record of type [t], with the fields
    [scope.Fields] finds for it. *)
Definition scannedInto (t : type) (columns : list string) (row : list GoValue)
           (a : addr) (c : Cell) : Prop :=
  exists (e : engine.Engine) (h : list Cell) (fields : list Field),
    List.length h = a /\
    scope_Fields e (h ++ [reflect_Zero t]) (VPtr (Some a)) = Ok fields /\
    scope_Scan columns row fields (h ++ [reflect_Zero t]) = h ++ [c].

(** The element [QueryExec] appends for the record in cell [a]: the
    pointer to it for a slice of pointers, the record otherwise. *)
Definition rowElem (isPtr : bool) (h : list Cell) (a : addr) : GoValue :=
  if isPtr then VPtr (Some a) else reflect.Interface h (RCell a).

(** *** What the loop of [ColumnAsScope] is measured against *)




(** *** What the save of a many_to_many slice is measured against *)




(** *** What a path of two segments is measured against *)

(** An owner whose field [name] holds no related record: a slice without
    an element, or a nil pointer. *)
Definition noneRelated (h : list Cell) (name : string) (o : GoValue) : Prop :=
  exists a ty fs v,
    addrOf o = Some a /\ h !! a = Some (CStruct ty fs) /\
    assoc_get name fs = Some v /\
    ((exists u xs, v = VSlice u xs /\ default [] xs = []) \/ v = VPtr None).

(** [fieldType.Elem()] of a slice or pointer type in [ColumnAsScope]. *)
Definition columnElem (fieldType : type) : type :=
  match fieldType with
  | TSlice u => u
  | TPtr u => u
  | u => u
  end.

(** The key collector finds no key in a sequence without an element. *)
Definition NoKeysOfNone : Prop :=
  forall (names : list string) (h : list Cell) (t : type),
    util_ColumnAsArray names h (VSlice t None) = [].

End Hooks.

End hooks.

(** ** A small instance of the collaborators

    Record metadata comes from a table by struct name, the SQL builder
    renders the recorded conditions, and the backend is any oracle. *)

Module Demo.
Import model.

Definition isBlank (v : GoValue) : bool :=
  match v with
  | VNil => true
  | VInt64 z => z =? 0
  | VUint64 z => z =? 0
  | VString s => String.eqb s ""
  | VBool b => negb b
  | VStruct _ => false
  | VPtr None => true
  | VPtr (Some _) => false
  | VPtrIn _ _ _ => false
  | VSlice _ None => true
  | VSlice _ (Some xs) => bool_decide (List.length xs = 0%nat)
  end.

Definition zero_of (t : type) : GoValue :=
  match t with
  | TInt64 => VInt64 0
  | TUint64 => VUint64 0
  | TString => VString ""
  | TBool => VBool false
  | TStruct _ => VNil
  | TPtr _ => VPtr None
  | TSlice u => VSlice u None
  | TInterface => VNil
  end.

(** The struct a value stands for: its cell, its type name, its fields,
    and whether it was reached through a pointer. *)
Definition structOf (h : list Cell) (v : GoValue)
  : option (addr * string * list (string * GoValue) * bool) :=
  let at_ (a : addr) (through : bool) :=
    match h !! a with
    | Some (CStruct ty fs) => Some (a, ty, fs, through)
    | _ => None
    end in
  match v with
  | VStruct a => at_ a false
  | VPtr (Some a) => at_ a true
  | _ => None
  end.

Fixpoint structName (t : type) : option string :=
  match t with
  | TStruct n => Some n
  | TPtr u => structName u
  | TSlice u => structName u
  | _ => None
  end.

(** The slice a value stands for, behind at most one pointer. *)
Definition sliceOf (h : list Cell) (v : GoValue) : option (type * list GoValue) :=
  match v with
  | VSlice t xs => Some (t, default [] xs)
  | VPtr (Some a) =>
      match h !! a with
      | Some (CVar (VSlice t xs)) => Some (t, default [] xs)
      | _ => None
      end
  | _ => None
  end.

Definition typeNameOf (h : list Cell) (v : GoValue) : option string :=
  match structOf h v with
  | Some (_, ty, _, _) => Some ty
  | None => match sliceOf h v with
            | Some (t, _) => structName t
            | None => None
            end
  end.

Definition dbKey (s : string) : string := "`" +:+ s +:+ "`".

Definition render (v : GoValue) : string :=
  match v with
  | VNil => "<nil>"
  | VInt64 z => pretty z
  | VUint64 z => pretty z
  | VString s => s
  | VBool true => "true"
  | VBool false => "false"
  | VStruct a => "{" +:+ pretty a +:+ "}"
  | VPtr None => "<nil>"
  | VPtr (Some a) => "&" +:+ pretty a
  | VPtrIn a f _ => "&" +:+ pretty a +:+ "." +:+ f
  | VSlice _ _ => "[]"
  end.

Section Instance.
Variable meta : string -> list StructField.
Variable omit : list string.
Variable db : sql.DB.

Definition fieldsOf (e : engine.Engine) (h : list Cell) (v : GoValue)
  : result (list Field) :=
  match structOf h v with
  | Some (a, ty, fs, through) =>
      Ok (List.map (fun sf =>
                 {| StructField_ := sf;
                    IsBlank := isBlank (default VNil (assoc_get (Name sf) fs));
                    Field_ := RField a (Name sf) through |})
              (meta ty))
  | None =>
      match sliceOf h v with
      | Some (t, _) =>
          match structName t with
          | Some ty =>
              Ok (List.map (fun sf => {| StructField_ := sf; IsBlank := true;
                                    Field_ := RInvalid |})
                      (meta ty))
          | None => Err (ErrorsNew "unsupported destination")
          end
      | None => Err (ErrorsNew "unsupported destination")
      end
  end.

Definition primaryFieldOf (e : engine.Engine) (h : list Cell) (v : GoValue)
  : result (option Field) :=
  match fieldsOf e h v with
  | Ok fs => Ok (List.find (fun f : Field => IsPrimaryKey f) fs)
  | Err err => Err err
  | Panic msg => Panic msg
  | OutOfFuel => OutOfFuel
  end.

Definition fieldByName (e : engine.Engine) (h : list Cell) (v : GoValue)
           (name : string) : result Field :=
  match fieldsOf e h v with
  | Ok fs =>
      match List.find (fun f : Field => String.eqb (Name f) name
                                          || String.eqb (DBName f) name) fs with
      | Some f => Ok f
      | None => Err (ErrorsNew ("field " +:+ name +:+ " not found"))
      end
  | Err err => Err err
  | Panic msg => Panic msg
  | OutOfFuel => OutOfFuel
  end.

Definition modelStructOf (e : engine.Engine) (h : list Cell)
           (v : GoValue) : result ModelStruct :=
  match typeNameOf h v with
  | Some ty =>
      Ok {| PrimaryFields := List.filter (fun sf => IsPrimaryKey sf) (meta ty);
            StructFields := meta ty; MS_ModelType := TStruct ty |}
  | None => Err (ErrorsNew "unsupported destination")
  end.

Definition tableNameOf (e : engine.Engine) (h : list Cell) (v : GoValue)
  : string := default "" (typeNameOf h v).

Definition setColumn (column : string) (value : GoValue) : M St unit :=
  fun st =>
    match structOf (heap (world st)) (Value (engine.Scope (eng st))) with
    | Some (a, _, fs, true) =>
        match assoc_get column fs with
        | Some _ =>
            (set_world (set_heap (reflect.field_set (heap (world st)) a column
                                                     value) (world st)) st,
             Ok tt)
        | None => (st, Err (ErrorsNew ("field " +:+ column +:+ " not found")))
        end
    | _ => (st, Err ErrUnaddressable)
    end.

Definition scanRow (columns : list string) (row : list GoValue)
           (fields : list Field) (h : list Cell) : list Cell :=
  foldl (fun h '(column, v) =>
           match List.find (fun f : Field => String.eqb (DBName f) column) fields with
           | Some f =>
               match Field_ f with
               | RField a name true => reflect.field_set h a name v
               | RCell c => <[c := CVar v]> h
               | _ => h
               end
           | None => h
           end)
        h (zip columns row).

Definition keysOf (h : list Cell) (v : GoValue) (columns : list string)
  : list GoValue :=
  match structOf h v with
  | Some (_, _, fs, _) =>
      List.map (fun c => default VNil (assoc_get c fs)) columns
  | None => []
  end.

Definition columnAsArray (columns : list string) (h : list Cell) (v : GoValue)
  : list (list GoValue) :=
  match sliceOf h v with
  | Some (_, xs) => List.map (fun x => keysOf h x columns) xs
  | None =>
      match structOf h v with
      | Some _ => [keysOf h v columns]
      | None => []
      end
  end.

Definition toString (vs : list GoValue) : string :=
  Join (List.map render vs) "_".

Definition renderCond (c : Cond) : string :=
  match c with
  | CWhere q _ => " WHERE " +:+ render q
  | CInline _ => ""
  | CTable n => " FROM " +:+ n
  | CSelect q => " SELECT " +:+ q
  | CJoin q => " " +:+ q
  | COrder q => " ORDER BY " +:+ q
  end.

Definition condArgs (c : Cond) : list GoValue :=
  match c with
  | CWhere _ args => args
  | CInline args => args
  | _ => []
  end.

Definition prepareQuery (e : engine.Engine) (h : list Cell) (v : GoValue)
  : result (string * list GoValue) :=
  Ok ("SELECT * FROM " +:+ tableNameOf e h v
      +:+ Join (List.map renderCond (Conds (engine.Search e))) "",
      SQLVars (engine.Scope e)
      ++ List.concat (List.map condArgs (Conds (engine.Search e)))).

Definition clone (e : engine.Engine) : engine.Engine :=
  {| engine.Scope := {| Value := VNil; SQL := ""; SQLVars := []; data := [];
                        MultiExpr := false; Exprs := [] |};
     engine.Search := {| Preload := None; Conds := [] |};
     engine.RowsAffected := 0;
     engine.Dialect_ := engine.Dialect_ e |}.

Definition hasWhere (e : engine.Engine) : bool :=
  existsb (fun c => match c with CWhere _ _ => true | _ => false end)
          (Conds (engine.Search e)).

Definition zeroCell (t : type) : Cell :=
  match t with
  | TStruct ty =>
      CStruct ty (List.map (fun sf => (Name sf, zero_of (Type_ (Struct sf))))
                      (meta ty))
  | _ => CVar (zero_of t)
  end.

Definition collaborators : Collaborators := {|
  SQLDB := db;
  scope_Fields := fieldsOf;
  scope_PrimaryField := primaryFieldOf;
  scope_FieldByName := fieldByName;
  scope_GetModelStruct := modelStructOf;
  scope_ChangeableField := fun e f =>
    negb (existsb (String.eqb (Name f)) omit);
  scope_Quote := fun e s => dbKey s;
  scope_QuotedTableName := fun e h v => dbKey (tableNameOf e h v);
  scope_TableName := tableNameOf;
  scope_HasConditions := fun e h v => hasWhere e;
  scope_ShouldSaveAssociation := fun e => true;
  scope_SaveFieldAsAssociation := fun e h f =>
    match Relationship_ f with
    | Some r => (true, Some r)
    | None => (false, None)
    end;
  scope_SetColumn := setColumn;
  scope_AddJoinRelation := fun table handler source destination =>
    ret {| Q := "INSERT INTO " +:+ dbKey table +:+ " DEFAULT VALUES";
           Args := [source; destination] |};
  scope_ToQueryCondition := fun e names => Join names ",";
  scope_Scan := scanRow;
  util_ColumnAsArray := columnAsArray;
  util_ToQueryMarks := fun keys => Join (List.map (fun _ => "?") keys) ",";
  util_ToQueryValues := fun keys => List.concat keys;
  util_GetValueFromFields := fun h r names =>
    keysOf h (reflect.Interface h r) names;
  util_EqualAsString := fun a b => String.eqb (toString a) (toString b);
  util_ToString := toString;
  util_AddExtraSpaceIfExist := fun s =>
    if String.eqb s "" then "" else " " +:+ s;
  util_ToSearchableMap := fun h v => VNil;
  util_WrapTX := fun q => "BEGIN TRANSACTION; " +:+ q +:+ "; COMMIT;";
  builder_PrepareQuery := prepareQuery;
  engine_Clone := clone;
  dialects_IsQL := fun d =>
    String.eqb (engine.GetName d) "ql" || String.eqb (engine.GetName d) "ql-mem";
  fmt_Sprint := render;
  reflect_Zero := zeroCell;
  type_FieldByName := fun t name =>
    match t with
    | TStruct ty =>
        option_map (fun sf => Type_ (Struct sf))
                   (List.find (fun sf => String.eqb (Name sf) name) (meta ty))
    | _ => None
    end;
  type_String := fun t => default "" (structName t)
|}.

End Instance.

(** Two dialects: one with neither a returning suffix nor transactions
    of its own, and the QL family. *)
Definition plain : engine.Dialect := {|
  engine.GetName := "sqlite3";
  engine.LastInsertIDReturningSuffix := fun _ _ => "";
  engine.HasColumn := fun _ _ => false;
  engine.BindVar := fun n => "$" +:+ pretty n;
  engine.QueryFieldName := fun s => s
|}.

Definition ql : engine.Dialect := {|
  engine.GetName := "ql";
  engine.LastInsertIDReturningSuffix := fun _ _ => "";
  engine.HasColumn := fun _ _ => false;
  engine.BindVar := fun n => "$" +:+ pretty n;
  engine.QueryFieldName := fun s => s
|}.

Definition results1 : sql.Result :=
  {| sql.RowsAffected := Ok 1; sql.LastInsertId := Ok 42 |}.

(** A backend on which every call succeeds; queries return [rows]. *)
Definition db_ok (rows : sql.Rows) : sql.DB := {|
  sql.Query := fun _ _ _ => Ok rows;
  sql.QueryRowScan := fun _ _ _ => Ok (VInt64 42);
  sql.Exec := fun _ _ _ => Ok results1;
  sql.Begin := fun _ => None;
  sql.TxExec := fun _ _ _ => Ok results1;
  sql.Commit := fun _ => None;
  sql.Rollback := fun _ => None
|}.

(** A backend on which statements fail with error 1 and rollbacks with
    error 2. *)
Definition db_broken : sql.DB := {|
  sql.Query := fun _ _ _ => Err (DriverError 1);
  sql.QueryRowScan := fun _ _ _ => Err (DriverError 1);
  sql.Exec := fun _ _ _ => Err (DriverError 1);
  sql.Begin := fun _ => None;
  sql.TxExec := fun _ _ _ => Err (DriverError 1);
  sql.Commit := fun _ => None;
  sql.Rollback := fun _ => Some (DriverError 2)
|}.

Definition no_rows : sql.Rows := {| sql.Columns := []; sql.Next := [] |}.

Definition scope0 (v : GoValue) : Scope :=
  {| Value := v; SQL := ""; SQLVars := []; data := [];
     MultiExpr := false; Exprs := [] |}.

Definition engine0 (d : engine.Dialect) (v : GoValue) : engine.Engine :=
  {| engine.Scope := scope0 v;
     engine.Search := {| Preload := None; Conds := [] |};
     engine.RowsAffected := 0;
     engine.Dialect_ := d |}.

Definition state0 (d : engine.Dialect) (v : GoValue) (h : list Cell) : St :=
  {| eng := engine0 d v; world := {| heap := h; trace := [] |} |}.

(** The writers' side of the demo.  The condition is the WHERE clause of
    the search, whose arguments are appended to the parameters; the
    attributes of an update are taken as they are; the clocks stand still;
    no map has an entry. *)
Definition whereClause (e : engine.Engine) : string :=
  match omap (fun c => match c with
                       | CWhere q _ => Some (render q)
                       | _ => None
                       end) (Conds (engine.Search e)) with
  | [] => ""
  | qs => "WHERE " +:+ Join qs " AND "
  end.

Definition whereArgs (e : engine.Engine) : list GoValue :=
  List.concat (omap (fun c => match c with
                              | CWhere _ args => Some args
                              | _ => None
                              end) (Conds (engine.Search e))).

Definition combined (v : GoValue) : M St string :=
  fun st =>
    (on_eng (on_Scope (fun s => set_SQLVars (SQLVars s ++ whereArgs (eng st)) s)) st,
     Ok (whereClause (eng st))).

Definition writers : Writers := {|
  builder_CombinedCondition := combined;
  scope_UpdatedAttrsWithValues := fun attrs st => (st, (attrs, true));
  engine_Now := fun _ => VString "2017-03-04 10:00:00";
  time_Now := fun _ => VString "2017-03-04 10:00:00";
  map_range := fun _ => Ok []
|}.

End Demo.

(** ** Inputs the properties are exercised on *)

(** What [fixWhere] does to the parameter it picks. *)
Definition coerce (nv : GoValue) : GoValue :=
  match nv with
  | VUint64 v => VInt64 (int64_of_uint64 v)
  | _ => nv
  end.

Module Inputs.
Import model.

(** The statement [UpdateSQL] leaves for a QL backend, with numbered
    placeholders, and the same statement with question marks. *)
Definition numbered : Scope :=
  {| Value := VNil;
     SQL := "UPDATE t SET name = $1 WHERE id = $2";
     SQLVars := [VString "ann"; VUint64 7];
     data := []; MultiExpr := false; Exprs := [] |}.

Definition marked : Scope :=
  {| Value := VNil;
     SQL := "UPDATE t SET name = ? WHERE id = ? AND age = ?";
     SQLVars := [VString "ann"; VUint64 7; VInt64 30];
     data := []; MultiExpr := false; Exprs := [] |}.

(** Users with their emails: [Emails] is a has_many field of [User],
    keyed by [Email.UserID = User.ID]. *)
Definition plainField (db name : string) (t : type) (pk : bool) : StructField :=
  {| DBName := db; Name := name; IsPrimaryKey := pk; IsNormal := true;
     IsIgnored := false; HasDefaultValue := false;
     Struct := {| Type_ := t |}; Relationship_ := None |}.

Definition relation (kind : string) (foreignFields foreignDB assocFields assocDB
                                     : list string)
           (handler : option JoinTableHandler) : Relationship :=
  {| Kind := kind; PolymorphicType := ""; PolymorphicDBName := "";
     PolymorphicValue := "";
     ForeignFieldNames := foreignFields; ForeignDBNames := foreignDB;
     AssociationForeignFieldNames := assocFields;
     AssociationForeignDBNames := assocDB;
     JoinTableHandler_ := handler |}.

Definition relationField (name : string) (t : type) (r : Relationship)
  : StructField :=
  {| DBName := name; Name := name; IsPrimaryKey := false; IsNormal := false;
     IsIgnored := false; HasDefaultValue := false;
     Struct := {| Type_ := t |}; Relationship_ := Some r |}.

Definition emails : Relationship :=
  relation "has_many" ["UserID"] ["user_id"] ["ID"] ["id"] None.

(** [Email.User] is a belongs_to field, keyed the same way. *)
Definition owner : Relationship :=
  relation "belongs_to" ["UserID"] ["user_id"] ["ID"] ["id"] None.

(** An account has a role with a default value in the database. *)
Definition defaulted (db name : string) (t : type) : StructField :=
  {| DBName := db; Name := name; IsPrimaryKey := false; IsNormal := true;
     IsIgnored := false; HasDefaultValue := true;
     Struct := {| Type_ := t |}; Relationship_ := None |}.

(** People speak languages: [Person.Languages] is a many_to_many field
    over the join table [person_languages]. *)
Definition spoken : JoinTableHandler :=
  {| TableName := "person_languages";
     Source := {| ModelType := TStruct "Person";
                  ForeignKeys := [{| FK_DBName := "person_id";
                                     AssociationDBName := "id" |}] |};
     Destination := {| ModelType := TStruct "Language";
                       ForeignKeys := [{| FK_DBName := "language_id";
                                          AssociationDBName := "id" |}] |} |}.

Definition languages : Relationship :=
  relation "many_to_many" ["ID"] ["id"] ["ID"] ["id"] (Some spoken).

Definition meta (ty : string) : list StructField :=
  if String.eqb ty "Person" then
    [plainField "id" "ID" TInt64 true;
     plainField "name" "Name" TString false;
     relationField "Languages" (TSlice (TStruct "Language")) languages]
  else if String.eqb ty "Language" then
    [plainField "id" "ID" TInt64 true;
     plainField "name" "Name" TString false]
  else if String.eqb ty "User" then
    [plainField "id" "ID" TInt64 true;
     plainField "name" "Name" TString false;
     relationField "Emails" (TSlice (TStruct "Email")) emails]
  else if String.eqb ty "Email" then
    [plainField "id" "ID" TInt64 true;
     plainField "user_id" "UserID" TInt64 false;
     plainField "address" "Address" TString false;
     relationField "User" (TPtr (TStruct "User")) owner]
  else if String.eqb ty "Account" then
    [plainField "id" "ID" TInt64 true;
     defaulted "role" "Role" TString;
     plainField "nick" "Nick" TString false]
  else [].

Definition email (id userID : Z) (address : string) : Cell :=
  CStruct "Email" [("ID", VInt64 id); ("UserID", VInt64 userID);
                   ("Address", VString address); ("User", VPtr None)].

Definition person (id : Z) (name : string) (langs : option (list GoValue)) : Cell :=
  CStruct "Person" [("ID", VInt64 id); ("Name", VString name);
                    ("Languages", VSlice (TStruct "Language") langs)].

Definition language (id : Z) (name : string) : Cell :=
  CStruct "Language" [("ID", VInt64 id); ("Name", VString name)].

Definition account (id : Z) (role nick : string) : Cell :=
  CStruct "Account" [("ID", VInt64 id); ("Role", VString role);
                     ("Nick", VString nick)].

Definition user (id : Z) (name : string) : Cell :=
  CStruct "User" [("ID", VInt64 id); ("Name", VString name);
                  ("Emails", VSlice (TStruct "Email") None)].

(** The collaborators over this metadata, on a backend that answers every
    query with no rows. *)
Definition quiet : Collaborators :=
  Demo.collaborators meta [] (Demo.db_ok Demo.no_rows).

(** A query into [&users], an empty [[]User] in cell 0. *)
Definition intoUsers : St :=
  Demo.state0 Demo.plain (VPtr (Some 0%nat))
              [CVar (VSlice (TStruct "User") None)].

(** The collaborators on the backend whose statements and rollbacks fail,
    and with [UserID] left out of the changeable fields. *)
Definition broken : Collaborators :=
  Demo.collaborators meta [] Demo.db_broken.
Definition mailer : Collaborators :=
  Demo.collaborators meta ["UserID"] (Demo.db_ok Demo.no_rows).

(** A stand-in for a hook that builds SQL. *)
Definition writeSQL (q : string) : HookFunc :=
  fun _ => modify (on_eng (on_Scope (set_SQL q))).

(** Books with the built-in guards of update and delete. *)
Definition guarded : Book :=
  Register UpdateHook BeforeUpdate (hooks.BeforeUpdate (H := quiet))
    (Register DeleteHook BeforeDelete (hooks.BeforeDelete (H := quiet))
       (Register DeleteHook DeleteSQL (writeSQL "DELETE FROM users WHERE id = 1")
          (Register DeleteHook AfterDelete (fun _ => ret tt) empty_book))).

Definition guarded_broken : Book :=
  Register DeleteHook BeforeDelete (hooks.BeforeDelete (H := broken))
    (Register DeleteHook DeleteSQL (writeSQL "DELETE FROM users WHERE id = 1")
       (Register DeleteHook AfterDelete (fun _ => ret tt) empty_book)).

(** A record handed over by pointer on the QL dialect, with no condition in
    the search, and the same with the condition [id = 1]. *)
Definition unconditioned : St :=
  Demo.state0 Demo.ql (VPtr (Some 0%nat)) [user 1 "ann"].
Definition conditioned : St :=
  on_eng (hooks.search_Where (VString "id = ?") [VInt64 1]) unconditioned.

(** A new user, its key blank, handed to create by pointer and by value;
    the statement is the one [create] builds for it. *)
Definition insertUser (v : GoValue) : St :=
  on_eng (on_Scope (fun s => set_SQLVars [VString "ann"]
                               (set_SQL "INSERT INTO `User` (`name`) VALUES ($1)" s)))
         (Demo.state0 Demo.plain v [user 0 "ann"]).
Definition byPointer : St := insertUser (VPtr (Some 0%nat)).
Definition byValue : St := insertUser (VStruct 0%nat).

(** A new email of user 7; a new account with every field blank but, may
    be, its key. *)
Definition newEmail : St :=
  Demo.state0 Demo.plain (VPtr (Some 0%nat)) [email 0 7 "a@b.c"].
Definition newAccount (id : Z) : St :=
  Demo.state0 Demo.plain (VPtr (Some 0%nat)) [account id "" ""].

(** The fields and the primary field of the value of a state, as the
    metadata service lists them. *)
Definition fieldsOfValue (C : Collaborators) (st : St) : list Field :=
  match scope_Fields (eng st) (heap (world st)) (Value (engine.Scope (eng st))) with
  | Ok fds => fds
  | _ => []
  end.
Definition primaryOfValue (C : Collaborators) (st : St) : option Field :=
  match scope_PrimaryField (eng st) (heap (world st))
                           (Value (engine.Scope (eng st))) with
  | Ok opf => opf
  | _ => None
  end.

(** A book with the built-in create steps. *)
Definition creating : Book :=
  Register CreateHook HookCreateSQL (hooks.create (H := quiet))
    (Register CreateHook HookCreateExec (hooks.CreateExec (H := quiet))
       empty_book).

(** Ann, in cell 0, speaks two languages that are not stored yet. *)
Definition polyglot : St :=
  Demo.state0 Demo.plain (VPtr (Some 0%nat))
    [person 1 "ann" (Some [VStruct 1%nat; VStruct 2%nat]);
     language 0 "en"; language 0 "fr"].

(** The book of the built-in query pipeline. *)
Definition queryBook (C : Collaborators) : Book :=
  Register QueryHook Query hooks.Query_
    (Register QueryHook HookQuerySQL hooks.QuerySQL
       (Register QueryHook HookQueryExec hooks.QueryExec
          (Register QueryHook HookAfterQuery hooks.AfterQuery empty_book))).

(** A state whose search asks for the preload of [paths]. *)
Definition withPreload (paths : list string) (st : St) : St :=
  on_eng (fun e =>
            set_Search
              {| Preload := Some (List.map (fun p => {| Schema := p;
                                                        Conditions := [] |}) paths);
                 Conds := Conds (engine.Search e) |} e) st.

(** Owners behind [&owners], a slice in cell 0: no users, no people, and
    Ann and Bob in cells 1 and 2. *)
Definition slice (ty : string) (xs : list GoValue) : Cell :=
  CVar (VSlice (TStruct ty) (Some xs)).
Definition noUsers : St :=
  Demo.state0 Demo.plain (VPtr (Some 0%nat)) [slice "User" []].
Definition noPeople : St :=
  Demo.state0 Demo.plain (VPtr (Some 0%nat)) [slice "Person" []].
Definition twoUsers : St :=
  Demo.state0 Demo.plain (VPtr (Some 0%nat))
    [slice "User" [VStruct 1%nat; VStruct 2%nat]; user 1 "ann"; user 2 "bob"].

(** The relationship fields as the metadata service lists them for a
    slice, and a field whose relationship kind is not a known one. *)
Definition ofSlice (sf : StructField) : Field :=
  {| StructField_ := sf; IsBlank := true; Field_ := RInvalid |}.
Definition emailsMeta : Field :=
  ofSlice (relationField "Emails" (TSlice (TStruct "Email")) emails).
Definition languagesMeta : Field :=
  ofSlice (relationField "Languages" (TSlice (TStruct "Language")) languages).

(** Three emails, two of Ann's and one of Bob's, and the collaborators on
    the backend that delivers them. *)
Definition mailRows : sql.Rows :=
  {| sql.Columns := ["id"; "user_id"; "address"];
     sql.Next := [[VInt64 10; VInt64 1; VString "a@x"];
                  [VInt64 11; VInt64 2; VString "b@x"];
                  [VInt64 12; VInt64 1; VString "c@x"]] |}.
Definition mail : Collaborators :=
  Demo.collaborators meta [] (Demo.db_ok mailRows).

(** Ann alone, holding an email already, on the backend that delivers her
    two emails. *)
Definition userWith (id : Z) (name : string) (mails : option (list GoValue)) : Cell :=
  CStruct "User" [("ID", VInt64 id); ("Name", VString name);
                  ("Emails", VSlice (TStruct "Email") mails)].
Definition annRows : sql.Rows :=
  {| sql.Columns := ["id"; "user_id"; "address"];
     sql.Next := [[VInt64 10; VInt64 1; VString "a@x"];
                  [VInt64 12; VInt64 1; VString "c@x"]] |}.
Definition annMail : Collaborators :=
  Demo.collaborators meta [] (Demo.db_ok annRows).
Definition annWithMail : St :=
  Demo.state0 Demo.plain (VPtr (Some 0%nat))
    [slice "User" [VStruct 1%nat];
     userWith 1 "ann" (Some [VStruct 2%nat]);
     email 10 1 "a@x"].


(** The path "Emails", listed without and with a condition. *)
Definition emailsPath : SearchPreload :=
  {| Schema := "Emails"; Conditions := [] |}.
Definition emailsPathAgain : SearchPreload :=
  {| Schema := "Emails"; Conditions := [VString "address <> ''"] |}.

(** A dialect with a returning suffix, and a new user handed to create by
    pointer on it; the statement is the one [create] builds there. *)
Definition returning : engine.Dialect := {|
  engine.GetName := "postgres";
  engine.LastInsertIDReturningSuffix := fun table column =>
    "RETURNING " +:+ table +:+ "." +:+ column;
  engine.HasColumn := fun _ _ => false;
  engine.BindVar := fun n => "$" +:+ pretty n;
  engine.QueryFieldName := fun s => s
|}.
Definition insertReturning : St :=
  on_eng (on_Scope (fun s =>
            set_SQLVars [VString "ann"]
              (set_SQL "INSERT INTO `User` (`name`) VALUES ($1) RETURNING `User`.`id`"
                       s)))
         (Demo.state0 returning (VPtr (Some 0%nat)) [user 7 "ann"]).
Definition idOfUser0 : Field :=
  {| StructField_ := plainField "id" "ID" TInt64 true; IsBlank := false;
     Field_ := RField 0%nat "ID" true |}.

(** Ann alone behind the pointer the scope holds, with an email already,
    and her relationship field as the metadata service lists it. *)
Definition annAlone : St :=
  Demo.state0 Demo.plain (VPtr (Some 0%nat))
    [userWith 1 "ann" (Some [VStruct 1%nat]); email 10 1 "a@x"].
Definition emailsOfAnn : Field :=
  {| StructField_ := relationField "Emails" (TSlice (TStruct "Email")) emails;
     IsBlank := false; Field_ := RField 0%nat "Emails" true |}.

(** Members of a club have one primary email: [Member.Primary] is a
    has_one field, keyed by [Email.UserID = Member.ID]. *)
Definition primary : Relationship :=
  relation "has_one" ["UserID"] ["user_id"] ["ID"] ["id"] None.
Definition club (ty : string) : list StructField :=
  if String.eqb ty "Member" then
    [plainField "id" "ID" TInt64 true;
     plainField "name" "Name" TString false;
     relationField "Primary" (TStruct "Email") primary]
  else meta ty.
Definition member (id : Z) (name : string) : Cell :=
  CStruct "Member" [("ID", VInt64 id); ("Name", VString name); ("Primary", VNil)].
Definition clubMail : Collaborators :=
  Demo.collaborators club [] (Demo.db_ok mailRows).
Definition clubAnn : Collaborators :=
  Demo.collaborators club [] (Demo.db_ok annRows).
Definition memberAlone : St :=
  Demo.state0 Demo.plain (VPtr (Some 0%nat)) [member 1 "ann"].
Definition primaryOfAnn : Field :=
  {| StructField_ := relationField "Primary" (TStruct "Email") primary;
     IsBlank := true; Field_ := RField 0%nat "Primary" true |}.
Definition threeMembers : St :=
  Demo.state0 Demo.plain (VPtr (Some 0%nat))
    [slice "Member" [VStruct 1%nat; VStruct 2%nat; VStruct 3%nat];
     member 1 "ann"; member 2 "bob"; member 3 "cy"].
Definition primaryMeta : Field :=
  ofSlice (relationField "Primary" (TStruct "Email") primary).

(** Three emails behind [&owners], and the backend that delivers the two
    users they belong to. *)
Definition threeEmails : St :=
  Demo.state0 Demo.plain (VPtr (Some 0%nat))
    [slice "Email" [VStruct 1%nat; VStruct 2%nat; VStruct 3%nat];
     email 10 1 "a@x"; email 11 9 "b@x"; email 12 1 "c@x"].
Definition userRows : sql.Rows :=
  {| sql.Columns := ["id"; "name"];
     sql.Next := [[VInt64 1; VString "ann"]; [VInt64 2; VString "bob"]] |}.
Definition registry : Collaborators :=
  Demo.collaborators meta [] (Demo.db_ok userRows).
Definition ownerMeta : Field :=
  ofSlice (relationField "User" (TPtr (TStruct "User")) owner).

(** A query for all users into [&users], a slice that holds a user
    already. *)
Definition refill : St :=
  on_eng (on_Scope (set_SQL "SELECT * FROM User"))
         (Demo.state0 Demo.plain (VPtr (Some 0%nat))
                      [slice "User" [VStruct 1%nat]; user 5 "old"]).

(** An email of user 7 to update, with the condition [id = 3]. *)
Definition storedEmail : St :=
  on_eng (hooks.search_Where (VString "id = ?") [VInt64 3])
         (Demo.state0 Demo.plain (VPtr (Some 0%nat)) [email 3 7 "a@b.c"]).

(** A language on the QL dialect, with its name left out of the changeable
    fields: nothing of it is to update. *)
Definition silent : Collaborators :=
  Demo.collaborators meta ["Name"] (Demo.db_ok Demo.no_rows).
Definition fixedLanguage : St :=
  on_eng (hooks.search_Where (VString "id = ?") [VInt64 1])
         (Demo.state0 Demo.ql (VPtr (Some 0%nat)) [language 1 "en"]).

(** A call-back that writes an audit row, and refuses when something has
    been sent to the backend already. *)
Definition auditOnce : M St unit :=
  fun st =>
    match trace (world st) with
    | [] => (set_world (log (sql.EvExec "INSERT INTO audit DEFAULT VALUES" [])
                            (world st)) st, Ok tt)
    | _ => (st, Err (ErrorsNew "audited already"))
    end.
Definition audited : Book :=
  Register CreateHook BeforeCreate hooks.BeforeCreate
    (Register CreateHook HookCreateSQL (hooks.CreateSQL (H := quiet))
       (Register CreateHook HookBeforeCreate (fun _ => auditOnce) empty_book)).

(** The built-in steps of a delete, a dialect whose tables have a column
    for the time of deletion, and Ann to delete, with the condition
    [id = 1], on both dialects. *)
Definition deleting : Book :=
  Register DeleteHook BeforeDelete
           (hooks.BeforeDelete (H := quiet))
    (Register DeleteHook DeleteSQL
              (hooks.DeleteSQL (H := quiet) (H0 := Demo.writers))
       (Register DeleteHook AfterDelete hooks.AfterDelete empty_book)).
Definition keeping : engine.Dialect := {|
  engine.GetName := "sqlite3";
  engine.LastInsertIDReturningSuffix := fun _ _ => "";
  engine.HasColumn := fun _ column => String.eqb column "DeletedAt";
  engine.BindVar := fun n => "$" +:+ pretty n;
  engine.QueryFieldName := fun s => s
|}.
Definition annToDelete (d : engine.Dialect) : St :=
  on_eng (hooks.search_Where (VString "id = ?") [VInt64 1])
         (Demo.state0 d (VPtr (Some 0%nat)) [user 1 "ann"]).

(** Ann, Bob and Cy behind [&owners]; Bob holds a language already.  The
    backend delivers three rows of the join query, with the key of their
    person in the last column. *)
Definition linkRows : sql.Rows :=
  {| sql.Columns := ["id"; "name"; "person_id"];
     sql.Next := [[VInt64 10; VString "en"; VInt64 1];
                  [VInt64 11; VString "fr"; VInt64 2];
                  [VInt64 12; VString "de"; VInt64 1]] |}.
Definition speakers : Collaborators :=
  Demo.collaborators meta [] (Demo.db_ok linkRows).
Definition threePeople : St :=
  Demo.state0 Demo.plain (VPtr (Some 0%nat))
    [slice "Person" [VStruct 1%nat; VStruct 2%nat; VStruct 3%nat];
     person 1 "ann" None;
     person 2 "bob" (Some [VStruct 4%nat]);
     person 3 "cy" None;
     language 9 "la"].

(** The join of [PreloadManyToMany] for the three people: the state it
    leaves and the engine it hands to the query. *)
Definition joining : St * result engine.Engine :=
  hooks.JoinWith (H := speakers) (Demo.clone (eng threePeople)) spoken spoken
    (VPtr (Some 0%nat))
    (set_world (set_heap (heap (world threePeople) ++ [language 0 ""])
                         (world threePeople)) threePeople).
Definition joined : engine.Engine :=
  match snd joining with
  | Ok ne => ne
  | _ => eng threePeople
  end.

(** A book whose update statement has question marks, so that the fix-up
    after a create on QL fails, and whose associations save at once. *)
Definition marking : Book :=
  Register UpdateHook HookUpdateSQL
           (writeSQL "UPDATE t SET name = ? WHERE id = ? AND age = ?")
    (Register UpdateHook HookSaveAfterAss (fun _ => ret tt) empty_book).

End Inputs.

(** * Properties *)

(** ** [strings.LastIndex] finds the last occurrence *)

Section LastIndexFacts.
Import GoStrings.

Lemma prefix_length (sub s : string) :
  String.prefix sub s = true -> (String.length sub <= String.length s)%nat.
Proof.
  revert s. induction sub as [|c sub IH]; intros s Hp; simpl; [lia|].
  destruct s as [|d s]; simpl in Hp; [discriminate|].
  destruct (Ascii.ascii_dec c d); [|discriminate].
  apply IH in Hp. simpl. lia.
Qed.

Lemma occurs_at_0 (sub s : string) :
  occurs_at sub s 0 <-> String.prefix sub s = true.
Proof.
  unfold occurs_at. rewrite prefix_correct. split.
  - intros [_ Hs]. exact Hs.
  - intros Hs. split; [|exact Hs].
    apply prefix_correct in Hs. apply prefix_length in Hs. lia.
Qed.

Lemma occurs_at_S (sub : string) (c : ascii) (s : string) (j : nat) :
  occurs_at sub (String c s) (S j) <-> occurs_at sub s j.
Proof. unfold occurs_at. simpl. split; intros [Hl Hs]; (split; [lia|exact Hs]). Qed.

(** Either [substr] does not occur and the result is [-1], or the result
    is an offset at which it occurs and no occurrence starts later. *)
Lemma LastIndex_spec (s substr : string) :
  (LastIndex s substr = -1 /\ forall j, ~ occurs_at substr s j) \/
  (exists i : nat, LastIndex s substr = Z.of_nat i /\ occurs_at substr s i /\
                   forall j, occurs_at substr s j -> (j <= i)%nat).
Proof.
  induction s as [|c s IH]; cbn [LastIndex].
  - destruct (String.prefix substr "") eqn:Hp.
    + right. exists 0%nat. split; [reflexivity|]. split.
      * by apply occurs_at_0.
      * intros j [Hl _]. simpl in Hl. lia.
    + left. split; [reflexivity|]. intros j Hj.
      assert (j = 0%nat) as -> by (destruct Hj as [Hl _]; simpl in Hl; lia).
      apply occurs_at_0 in Hj. congruence.
  - destruct IH as [[Hr Hno]|(i & Hr & Hocc & Hlast)]; rewrite Hr.
    + replace (0 <=? -1) with false by reflexivity.
      destruct (String.prefix substr (String c s)) eqn:Hp.
      * right. exists 0%nat. split; [reflexivity|]. split.
        -- by apply occurs_at_0.
        -- intros [|j] Hj; [lia|]. apply occurs_at_S in Hj. by apply Hno in Hj.
      * left. split; [reflexivity|]. intros [|j] Hj.
        -- apply occurs_at_0 in Hj. congruence.
        -- apply occurs_at_S in Hj. by apply Hno in Hj.
    + replace (0 <=? Z.of_nat i) with true by (symmetry; apply Z.leb_le; lia).
      right. exists (S i). split; [lia|]. split.
      * by apply occurs_at_S.
      * intros [|j] Hj; [lia|]. apply occurs_at_S in Hj. apply Hlast in Hj. lia.
Qed.

Lemma Atoi_byte (c : ascii) : Atoi (string_of_byte c) = digit_of c.
Proof. destruct c as [[] [] [] [] [] [] [] []]; vm_compute; reflexivity. Qed.

End LastIndexFacts.

(** ** The post-create WHERE fix-up *)

Section FixWhere.
Import GoStrings model.

(** C7, as the code has it.  When "WHERE" or " id = " is absent, or the
    last " id = " starts before the last "WHERE", the scope is left as it
    was and the call succeeds.  Otherwise the last " id = " is replaced
    by " id()= "; the byte two positions after the match is then read as
    one decimal digit: if it is no digit the call fails with the parse
    error and the parameters are untouched; if it is a digit [d] with a
    parameter at index [d - 1], that parameter is coerced to a signed
    64-bit integer when it was unsigned and the call succeeds. *)
Theorem fixWhere_spec (s : Scope) :
  (LastIndex (SQL s) "WHERE" = -1 \/ LastIndex (SQL s) " id = " = -1 \/
   LastIndex (SQL s) " id = " < LastIndex (SQL s) "WHERE" ->
   fixWhere s = (s, Ok tt)) /\
  (forall (i : nat) (c : ascii),
     LastIndex (SQL s) "WHERE" <> -1 ->
     LastIndex (SQL s) " id = " = Z.of_nat i ->
     LastIndex (SQL s) "WHERE" <= Z.of_nat i ->
     String.get (i + 7) (SQL s) = Some c ->
     occurs_at " id = " (SQL s) i /\
     (forall j, occurs_at " id = " (SQL s) j -> (j <= i)%nat) /\
     let s' := set_SQL (slice_to (SQL s) i +:+ " id()= "
                        +:+ slice_from (SQL s) (i + 6)) s in
     match digit_of c with
     | None => fixWhere s = (s', Err (NumError "Atoi" (string_of_byte c)))
     | Some d =>
         forall nv, 1 <= d -> SQLVars s !! Z.to_nat (d - 1) = Some nv ->
           fixWhere s =
             (set_SQLVars (<[Z.to_nat (d - 1) := coerce nv]> (SQLVars s)) s',
              Ok tt)
     end).
Proof.
  split.
  - intros Habs. unfold fixWhere, bind, gets, ret.
    destruct (LastIndex (SQL s) "WHERE" =? -1) eqn:Hw; [reflexivity|].
    destruct (LastIndex (SQL s) " id = " =? -1) eqn:Hi; [reflexivity|].
    destruct (LastIndex (SQL s) " id = " <? LastIndex (SQL s) "WHERE") eqn:Hlt;
      [reflexivity|].
    apply Z.eqb_neq in Hw, Hi. apply Z.ltb_ge in Hlt. lia.
  - intros i c Hw Hi Hle Hc.
    destruct (LastIndex_spec (SQL s) " id = ") as [[Hm _]|(i' & Hi' & Hocc & Hlast)];
      [lia|].
    assert (i' = i) as -> by lia.
    split; [exact Hocc|]. split; [exact Hlast|].
    cbv zeta.
    assert (Hstart : forall T (k : M Scope T),
               fixWhere s =
               (let n := Z.of_nat i + Z.of_nat (String.length " id = ") + 1 in
                match String.get (Z.to_nat n) (SQL s) with
                | None => panic "index out of range"
                | Some c =>
                    match Atoi (string_of_byte c) with
                    | None => fail (NumError "Atoi" (string_of_byte c))
                    | Some ni =>
                        let ni := ni - 1 in
                        let! vars := gets SQLVars in
                        match index_vars vars ni with
                        | None => panic "index out of range"
                        | Some nv =>
                            match nv with
                            | VUint64 v =>
                                modify (set_SQLVars
                                          (<[Z.to_nat ni :=
                                               VInt64 (int64_of_uint64 v)]> vars))
                            | _ => ret tt
                            end
                        end
                    end
                end)
                 (set_SQL (slice_to (SQL s) i +:+ " id()= "
                           +:+ slice_from (SQL s) (i + 6)) s)).
    { intros _ _. unfold fixWhere at 1. unfold bind at 1. unfold gets at 1.
      replace (LastIndex (SQL s) "WHERE" =? -1) with false
        by (symmetry; apply Z.eqb_neq; exact Hw).
      rewrite Hi.
      replace (Z.of_nat i =? -1) with false by (symmetry; apply Z.eqb_neq; lia).
      replace (Z.of_nat i <? LastIndex (SQL s) "WHERE") with false
        by (symmetry; apply Z.ltb_ge; lia).
      unfold bind at 1. unfold modify at 1.
      rewrite Nat2Z.id.
      replace (i + String.length " id = ")%nat with (i + 6)%nat by reflexivity.
      reflexivity. }
    rewrite (Hstart unit (ret tt)). clear Hstart.
    cbv zeta.
    replace (Z.to_nat (Z.of_nat i + Z.of_nat (String.length " id = ") + 1))
      with (i + 7)%nat by (simpl String.length; lia).
    cbn [set_SQL SQL]. rewrite Hc, Atoi_byte.
    destruct (digit_of c) as [d|]; [|reflexivity].
    intros nv Hd Hnv.
    unfold bind, gets. cbn [SQLVars set_SQL].
    unfold index_vars.
    replace (d - 1 <? 0) with false by (symmetry; apply Z.ltb_ge; lia).
    rewrite Hnv.
    destruct nv; cbn [coerce]; unfold modify, ret; try reflexivity;
      rewrite list_insert_id by exact Hnv; reflexivity.
Qed.

(** The theorem at a statement with numbered placeholders: the second
    parameter, an unsigned 7, becomes a signed 7. *)
Lemma fixWhere_spec_witness :
  fixWhere Inputs.numbered =
    (set_SQLVars [VString "ann"; VInt64 7]
       (set_SQL "UPDATE t SET name = $1 WHERE id()= $2" Inputs.numbered),
     Ok tt).
Proof.
  destruct (fixWhere_spec Inputs.numbered) as [_ H].
  destruct (H 28%nat "2"%char) as (_ & _ & H2).
  - vm_compute. discriminate.
  - vm_compute. reflexivity.
  - vm_compute. discriminate.
  - vm_compute. reflexivity.
  - exact (H2 (VUint64 7) ltac:(vm_compute; discriminate) eq_refl).
Defined.

(** C7 as stated fails on a statement with question marks: both
    substrings are present and in order, yet the call ends in the parse
    error of [strconv.Atoi] and the unsigned parameter stays unsigned. *)
Lemma fixWhere_question_marks :
  LastIndex (SQL Inputs.marked) "WHERE" = 22 /\
  LastIndex (SQL Inputs.marked) " id = " = 27 /\
  fixWhere Inputs.marked =
    (set_SQL "UPDATE t SET name = ? WHERE id()= ? AND age = ?" Inputs.marked,
     Err (NumError "Atoi" " ")) /\
  SQLVars (fst (fixWhere Inputs.marked)) = [VString "ann"; VUint64 7; VInt64 30].
Proof. vm_compute. repeat split; reflexivity. Qed.

End FixWhere.

(** ** Query execution *)

Section QueryExecFacts.
Context `{Collaborators}.
Import model hooks.

Lemma assoc_get_set_eq {K V} `{EqDecision K} (k : K) (v : V) (l : list (K * V)) :
  assoc_get k (assoc_set k v l) = Some v.
Proof.
  induction l as [|[k' v'] l IH]; simpl.
  - by rewrite decide_True.
  - destruct (decide (k = k')) as [->|Hne]; simpl.
    + by rewrite decide_True.
    + by rewrite decide_False.
Qed.

Lemma assoc_get_set_ne {K V} `{EqDecision K} (k k' : K) (v : V) (l : list (K * V)) :
  k <> k' -> assoc_get k' (assoc_set k v l) = assoc_get k' l.
Proof.
  intros Hne. induction l as [|[k0 v0] l IH]; simpl.
  - by rewrite decide_False by congruence.
  - destruct (decide (k = k0)) as [->|Hne0]; simpl.
    + by rewrite !decide_False by congruence.
    + destruct (decide (k' = k0)); [done|exact IH].
Qed.

(** Setting a slice that can be set, then reading it back. *)
Lemma Set_Interface (h : list Cell) (r : RValue) (x : GoValue) :
  reflect.CanAddr r = true ->
  reflect.Kind_ h r = reflect.Slice ->
  (forall v, r <> RElem v) ->
  exists h', reflect.Set_ r x h = (h', Ok tt) /\ reflect.Interface h' r = x.
Proof.
  intros Hca Hk Hne. destruct r as [|v|a|a f [|]|a f j|v]; try discriminate.
  - unfold reflect.Kind_, reflect.Interface in Hk.
    destruct (h !! a) as [[ty fs|v]|] eqn:Ha; try discriminate.
    eexists. split; [reflexivity|]. simpl.
    rewrite list_lookup_insert_eq by (by eapply lookup_lt_Some). reflexivity.
  - unfold reflect.Kind_, reflect.Interface, reflect.field_get in Hk.
    destruct (h !! a) as [[ty fs|v]|] eqn:Ha; try discriminate.
    eexists. split; [reflexivity|]. simpl.
    unfold reflect.field_set, reflect.field_get. rewrite Ha.
    rewrite list_lookup_insert_eq by (by eapply lookup_lt_Some).
    by rewrite assoc_get_set_eq.
  - unfold reflect.Kind_, reflect.Interface, reflect.field_get in Hk.
    destruct (h !! a) as [[ty fs|v]|] eqn:Ha; try discriminate.
    destruct (assoc_get f fs) as [[| | | | | | | |t [xs|]]|] eqn:Hf; try discriminate.
    simpl in Hk. destruct (xs !! j) as [y|] eqn:Hj; [|discriminate].
    eexists. split.
    + unfold reflect.Set_, modify, reflect.field_get. rewrite Ha, Hf. reflexivity.
    + simpl. unfold reflect.field_set, reflect.field_get. rewrite Ha.
      rewrite list_lookup_insert_eq by (by eapply lookup_lt_Some).
      rewrite assoc_get_set_eq. simpl.
      rewrite list_lookup_insert_eq by (by eapply lookup_lt_Some). reflexivity.
  - by destruct (Hne v).
Qed.

Lemma Elem_not_RElem (h : list Cell) (r : RValue) (v : GoValue) :
  reflect.Elem h r <> RElem v.
Proof.
  unfold reflect.Elem.
  destruct (reflect.Interface h r) as [| | | | | |[a|]|a f [j|]|]; discriminate.
Qed.

Lemma ValueOf_not_RElem (x v : GoValue) : reflect.ValueOf x <> RElem v.
Proof. destruct x; discriminate. Qed.

Lemma queryDestination_not_RElem (e : engine.Engine) (h : list Cell) (v : GoValue) :
  queryDestination e h <> RElem v.
Proof.
  unfold queryDestination, reflect.Indirect.
  destruct (Scope_Get QueryDestination (engine.Scope e));
    destruct (decide _); auto using Elem_not_RElem, ValueOf_not_RElem.
Qed.

(** C3.  A destination that is neither a struct nor a slice is refused
    with the usage error, before anything is sent to the backend.  For a
    struct destination, a query that delivers no row ends in
    [ErrRecordNotFound], an error of its own: a query the backend refuses
    ends in the backend's error.  For a slice destination that can be set
    (it was handed over by pointer), a query that delivers no row succeeds
    and leaves the destination an empty, non-nil slice. *)
Theorem QueryExec_destination (b : Driver) (st : St) :
  let e := eng st in
  let h := heap (world st) in
  let results := queryDestination e h in
  let answer := sql.Query SQLDB (trace (world st)) (queriedSQL e) (SQLVars (engine.Scope e)) in
  (reflect.Kind_ h results <> reflect.Slice ->
   reflect.Kind_ h results <> reflect.Struct ->
   QueryExec b st =
     (st, Err (ErrorsNew "unsupported destination, should be slice or struct"))) /\
  (reflect.Kind_ h results = reflect.Struct ->
   (forall rows, answer = Ok rows -> sql.Next rows = [] ->
      snd (QueryExec b st) = Err ErrRecordNotFound) /\
   (forall err, answer = Err err -> snd (QueryExec b st) = Err err)) /\
  (reflect.Kind_ h results = reflect.Slice ->
   reflect.CanAddr results = true ->
   forall rows, answer = Ok rows -> sql.Next rows = [] ->
     snd (QueryExec b st) = Ok tt /\
     reflect.Interface (heap (world (fst (QueryExec b st)))) results =
       VSlice (reflect.TypeOf_elem (reflect.Interface h results)) (Some [])).
Proof.
  cbv zeta. split; [|split].
  - intros Hs Ht. unfold QueryExec, bind, getE, getH, gets.
    destruct (decide _) as [?|_]; [done|].
    destruct (decide _) as [_|?]; [|done]. reflexivity.
  - intros Hk.
    assert (Hrun : forall r,
               sql.Query SQLDB (trace (world st)) (queriedSQL (eng st))
                         (SQLVars (engine.Scope (eng st))) = r ->
               snd (QueryExec b st) =
               match r with
               | Ok rows =>
                   match sql.Next rows with
                   | [] => Err ErrRecordNotFound
                   | _ => snd (QueryExec b st)
                   end
               | Err err => Err err
               | Panic msg => Panic msg
               | OutOfFuel => OutOfFuel
               end).
    { intros r Hr. unfold QueryExec, bind, getE, getH, gets.
      destruct (decide _) as [Hc|_]; [congruence|].
      destruct (decide _) as [?|_]; [done|].
      unfold ret, modE, modify, SQLDB_Query, backend, queriedSQL in *.
      destruct (Scope_Get QueryOption (engine.Scope (eng st))) as [str|];
        cbn -[scanRows] in *; rewrite Hr; destruct r as [rows| | |]; try reflexivity;
        destruct (sql.Next rows); reflexivity. }
    split.
    + intros rows Ha Hn. rewrite (Hrun _ Ha), Hn. reflexivity.
    + intros err Ha. rewrite (Hrun _ Ha). reflexivity.
  - intros Hk Hca rows Ha Hn.
    destruct (Set_Interface (heap (world st)) (queryDestination (eng st) (heap (world st)))
                (VSlice (reflect.TypeOf_elem
                           (reflect.Interface (heap (world st))
                              (queryDestination (eng st) (heap (world st)))))
                        (Some [])) Hca Hk (queryDestination_not_RElem _ _))
      as (h' & Hset & Hget).
    unfold QueryExec, bind, getE, getH, gets.
    destruct (decide _) as [_|?]; [|done].
    unfold lift, reflect.MakeSlice, on_heap, zoom. rewrite Hset.
    unfold ret, modE, modify, SQLDB_Query, backend, queriedSQL in *.
    destruct (reflect.TypeOf_elem _);
      destruct (Scope_Get QueryOption (engine.Scope (eng st))) as [str|];
      cbn -[scanRows queryDestination] in *; rewrite Ha; cbn; rewrite Hn; cbn;
      (split; [reflexivity|exact Hget]).
Qed.
End QueryExecFacts.

(** The theorem at a query into [&users] on a backend with no rows. *)
Lemma QueryExec_destination_witness :
  snd (hooks.QueryExec (H := Inputs.quiet) (book_driver 0 empty_book) Inputs.intoUsers)
  = Ok tt /\
  reflect.Interface
    (heap (world (fst (hooks.QueryExec (H := Inputs.quiet) (book_driver 0 empty_book)
                                 Inputs.intoUsers))))
    (model.RCell 0%nat) = VSlice (TStruct "User") (Some []).
Proof.
  destruct (QueryExec_destination (H := Inputs.quiet) (book_driver 0 empty_book)
                                  Inputs.intoUsers) as (_ & _ & H3).
  apply (H3 eq_refl eq_refl Demo.no_rows eq_refl eq_refl).
Defined.

(** ** The monad *)

Section MonadFacts.
Lemma bind_Ok {S A B} (m : M S A) (k : A -> M S B) (s s' : S) (b : B) :
  bind m k s = (s', Ok b) ->
  exists s1 a, m s = (s1, Ok a) /\ k a s1 = (s', Ok b).
Proof.
  unfold bind. destruct (m s) as [s1 [a| | |]]; try discriminate. eauto.
Qed.

Lemma bind_ext_Ok {S A B} (m : M S A) (k1 k2 : A -> M S B) (s : S) :
  (forall s1 a, m s = (s1, Ok a) -> k1 a s1 = k2 a s1) ->
  bind m k1 s = bind m k2 s.
Proof.
  intros Hk. unfold bind. destruct (m s) as [s1 [a| | |]]; try reflexivity.
  by apply Hk.
Qed.

Lemma call_on_Ok {A} (ne ne' : engine.Engine) (m : M St A) (s s' : St) (a : A) :
  call_on ne m s = (s', Ok (ne', a)) ->
  exists s1, m (set_eng ne s) = (s1, Ok a).
Proof.
  unfold call_on, try_on, bind.
  destruct (m (set_eng ne s)) as [s1 [x| | |]]; try discriminate.
  intros Heq. injection Heq as _ _ <-. eauto.
Qed.
End MonadFacts.

(** ** The INSERT of [create] *)

Section CreateFacts.
Context `{Collaborators}.
Import model hooks.

Lemma Built_refl (st : St) : Built st st [].
Proof. unfold Built, sameContext. by rewrite app_nil_r. Qed.

Lemma placeholdersFrom_app (d : engine.Dialect) (n k1 k2 : nat) :
  placeholdersFrom d n (k1 + k2) =
  placeholdersFrom d n k1 ++ placeholdersFrom d (n + k1) k2.
Proof.
  unfold placeholdersFrom. rewrite seq_app, map_app. f_equal.
  revert n. generalize 1%nat as j.
  induction k2 as [|k2 IH]; intros j n; [reflexivity|].
  cbn [seq List.map]. f_equal; [f_equal; lia|].
  replace (S (j + k1)) with (S j + k1)%nat by lia. apply IH.
Qed.

Lemma placeholdersFrom_S (d : engine.Dialect) (n k : nat) :
  placeholdersFrom d n (S k) =
  engine.BindVar d (n + 1) :: placeholdersFrom d (n + 1) k.
Proof. change (S k) with (1 + k)%nat. by rewrite placeholdersFrom_app. Qed.

Lemma placeholdersFrom_length (d : engine.Dialect) (n k : nat) :
  List.length (placeholdersFrom d n k) = k.
Proof. unfold placeholdersFrom. by rewrite length_map, length_seq. Qed.

Lemma AddToVars_run (st0 st : St) (params : list GoValue) (value : GoValue) :
  Built st0 st params ->
  exists st',
    scope_AddToVars value st =
      (st', Ok (engine.BindVar (engine.Dialect_ (eng st0))
                  (List.length (SQLVars (engine.Scope (eng st0)))
                   + List.length params + 1))) /\
    Built st0 st' (params ++ [value]) /\
    Scope_Get BlankColWithValue (engine.Scope (eng st')) =
    Scope_Get BlankColWithValue (engine.Scope (eng st)).
Proof.
  intros (Hw & (Hs & Hd & Hv) & Hvars & Hio).
  eexists. split; [|split].
  - unfold scope_AddToVars, bind, modE, modify, getE, gets, ret. cbn.
    rewrite Hvars, <- Hd, !length_app. cbn. reflexivity.
  - unfold Built, sameContext. cbn. rewrite Hvars, <- app_assoc. by repeat split.
  - reflexivity.
Qed.

Lemma createForeignKeys_run (st0 : St) (fks : list string) :
  Stable (eng st0) (heap (world st0)) ->
  (forall fk, fk ∈ fks ->
     exists ff, scope_FieldByName (eng st0) (heap (world st0))
                  (Value (engine.Scope (eng st0))) fk = Ok ff) ->
  forall cols phs st params,
    Built st0 st params ->
    let new := flat_map (foreignKeyColumn (eng st0) (heap (world st0))) fks in
    exists st',
      createForeignKeys fks (cols, phs) st =
        (st', Ok (cols ++ List.map fst new,
                  phs ++ placeholdersFrom (engine.Dialect_ (eng st0))
                           (List.length (SQLVars (engine.Scope (eng st0)))
                            + List.length params)
                           (List.length new))) /\
      Built st0 st' (params ++ List.map snd new) /\
      Scope_Get BlankColWithValue (engine.Scope (eng st')) =
      Scope_Get BlankColWithValue (engine.Scope (eng st)).
Proof.
  intros Hst. induction fks as [|fk fks IH]; intros Hok cols phs st params Hb.
  - exists st. cbn. rewrite !app_nil_r.
    split; [reflexivity|split; [exact Hb|reflexivity]].
  - cbn [createForeignKeys flat_map].
    destruct (Hok fk) as [ff Hff]; [by left|].
    assert (Hrest : forall fk', fk' ∈ fks ->
               exists ff, scope_FieldByName (eng st0) (heap (world st0))
                            (Value (engine.Scope (eng st0))) fk' = Ok ff)
      by (intros fk' Hin; apply Hok; by right).
    pose proof Hb as (Hw & Hctx & Hvars & Hio).
    destruct (Hst _ Hctx) as (Hch & Hq & Hfb & _).
    cbn [createForeignKeys]. unfold bind, getE, getH, gets, lift.
    rewrite Hw, Hfb, Hff, Hch.
    assert (Hfk : foreignKeyColumn (eng st0) (heap (world st0)) fk =
                  if scope_ChangeableField (eng st0) ff then []
                  else [(scope_Quote (eng st0) (DBName ff),
                         reflect.Interface (heap (world st0)) (Field_ ff))])
      by (unfold foreignKeyColumn; by rewrite Hff).
    cbn [flat_map]. rewrite Hfk. clear Hfk.
    destruct (scope_ChangeableField (eng st0) ff); cbn [negb].
    + cbn [app]. by apply IH.
    + destruct (AddToVars_run st0 st params
                  (reflect.Interface (heap (world st0)) (Field_ ff)) Hb)
        as (st1 & Hrun & Hb1 & Hm1).
      rewrite Hrun.
      destruct (IH Hrest
                  (cols ++ [scope_Quote (eng st) (DBName ff)])
                  (phs ++ [engine.BindVar (engine.Dialect_ (eng st0))
                             (List.length (SQLVars (engine.Scope (eng st0)))
                              + List.length params + 1)])
                  st1 _ Hb1) as (st2 & Hrun2 & Hb2 & Hm2).
      exists st2. split; [|split].
      * rewrite Hrun2. rewrite Hq. cbn [List.map fst app List.length].
        rewrite placeholdersFrom_S, length_app. cbn [List.length].
        rewrite <- !app_assoc. cbn [app].
        replace (List.length (SQLVars (engine.Scope (eng st0)))
                 + (List.length params + 1))%nat
          with (List.length (SQLVars (engine.Scope (eng st0)))
                + List.length params + 1)%nat by lia.
        reflexivity.
      * cbn [List.map snd app]. by rewrite <- app_assoc in Hb2.
      * by rewrite Hm2.
Qed.


Lemma Scope_Set_marker (st0 st : St) (params : list GoValue) (v : GoValue) :
  Built st0 st params ->
  Built st0 (on_eng (on_Scope (Scope_Set BlankColWithValue v)) st) params /\
  Scope_Get BlankColWithValue
    (engine.Scope (eng (on_eng (on_Scope (Scope_Set BlankColWithValue v)) st)))
  = Some v.
Proof.
  intros (Hw & (Hs & Hd & Hv) & Hvars & Hio). split.
  - unfold Built, sameContext. cbn. repeat split; try done.
    rewrite <- Hio. unfold Scope_Get, Scope_Set. cbn.
    by apply assoc_get_set_ne.
  - unfold Scope_Get, Scope_Set. cbn. apply assoc_get_set_eq.
Qed.

Lemma createFields_run (st0 : St) (fds : list Field) :
  Stable (eng st0) (heap (world st0)) ->
  (forall (field : Field) relationship fk,
     field ∈ fds ->
     scope_ChangeableField (eng st0) field = true -> IsNormal field = false ->
     Relationship_ field = Some relationship ->
     Kind relationship = "belongs_to" ->
     fk ∈ ForeignDBNames relationship ->
     exists ff, scope_FieldByName (eng st0) (heap (world st0))
                  (Value (engine.Scope (eng st0))) fk = Ok ff) ->
  forall cols phs cv st params,
    Built st0 st params ->
    (cv <> [] ->
     Scope_Get BlankColWithValue (engine.Scope (eng st)) = Some (strings_value cv)) ->
    let new := flat_map (fieldColumns (eng st0) (heap (world st0))) fds in
    let marked := flat_map (defaultColumn (eng st0)) fds in
    exists st',
      createFields fds (cols, phs, cv) st =
        (st', Ok (cols ++ List.map fst new,
                  phs ++ placeholdersFrom (engine.Dialect_ (eng st0))
                           (List.length (SQLVars (engine.Scope (eng st0)))
                            + List.length params)
                           (List.length new),
                  cv ++ marked)) /\
      Built st0 st' (params ++ List.map snd new) /\
      (cv ++ marked <> [] ->
       Scope_Get BlankColWithValue (engine.Scope (eng st')) =
       Some (strings_value (cv ++ marked))).
Proof.
  intros Hst. induction fds as [|field fds IH]; intros Hok cols phs cv st params Hb Hcv.
  - exists st. cbn. rewrite !app_nil_r.
    split; [reflexivity|split; [exact Hb|exact Hcv]].
  - assert (Hrest : forall (field' : Field) relationship fk,
               field' ∈ fds ->
               scope_ChangeableField (eng st0) field' = true ->
               IsNormal field' = false ->
               Relationship_ field' = Some relationship ->
               Kind relationship = "belongs_to" ->
               fk ∈ ForeignDBNames relationship ->
               exists ff, scope_FieldByName (eng st0) (heap (world st0))
                            (Value (engine.Scope (eng st0))) fk = Ok ff)
      by (intros f' r fk Hin; apply Hok; by right).
    specialize (IH Hrest).
    pose proof Hb as (Hw & Hctx & Hvars & Hio).
    destruct (Hst _ Hctx) as (Hch & Hq & Hfb & _).
    cbn [createFields flat_map].
    remember (fieldColumns (eng st0) (heap (world st0)) field) as fc eqn:Hfc.
    remember (defaultColumn (eng st0) field) as dc eqn:Hdc.
    unfold fieldColumns in Hfc. unfold defaultColumn in Hdc.
    unfold bind at 1, getE, gets.
    unfold bind at 1, getH, gets. rewrite Hw, Hch, Hq.
    destruct (scope_ChangeableField (eng st0) field) eqn:Hcf; cbn [negb andb] in *;
      [|subst fc dc; cbn [app]; by apply IH].
    destruct (IsNormal field) eqn:Hn; cbn [andb] in *.
    + destruct (IsBlank field && HasDefaultValue field) eqn:Hbd.
      * subst fc dc. cbn [app].
        destruct (Scope_Set_marker st0 st params
                    (strings_value (cv ++ [scope_Quote (eng st0) (DBName field)])) Hb)
          as [Hb1 Hm1].
        unfold bind at 1, modE, modify.
        destruct (IH cols phs (cv ++ [scope_Quote (eng st0) (DBName field)])
                    _ params Hb1 (fun _ => Hm1)) as (st2 & Hrun2 & Hb2 & Hm2).
        exists st2. rewrite Hrun2, <- !app_assoc. cbn [app].
        split; [reflexivity|]. split; [exact Hb2|].
        intros _. rewrite <- app_assoc in Hm2. cbn [app] in Hm2. apply Hm2.
        by destruct cv.
      * subst dc. cbn [app].
        destruct (negb (IsPrimaryKey field) || negb (IsBlank field));
          [|subst fc; cbn [app]; by apply IH].
        subst fc.
        destruct (AddToVars_run st0 st params
                    (reflect.Interface (heap (world st0)) (Field_ field)) Hb)
          as (st1 & Hrun & Hb1 & Hm1).
        unfold bind at 1. rewrite Hrun.
        assert (Hcv1 : cv <> [] ->
                       Scope_Get BlankColWithValue (engine.Scope (eng st1)) =
                       Some (strings_value cv))
          by (intros Hne; rewrite Hm1; by apply Hcv).
        destruct (IH (cols ++ [scope_Quote (eng st0) (DBName field)])
                    (phs ++ [engine.BindVar (engine.Dialect_ (eng st0))
                               (List.length (SQLVars (engine.Scope (eng st0)))
                                + List.length params + 1)])
                    cv st1 _ Hb1 Hcv1) as (st2 & Hrun2 & Hb2 & Hm2).
        exists st2. split; [|split].
        -- rewrite Hrun2. cbn [List.map fst app List.length].
           rewrite placeholdersFrom_S, length_app. cbn [List.length].
           rewrite <- !app_assoc. cbn [app].
           replace (List.length (SQLVars (engine.Scope (eng st0)))
                    + (List.length params + 1))%nat
             with (List.length (SQLVars (engine.Scope (eng st0)))
                   + List.length params + 1)%nat by lia.
           reflexivity.
        -- cbn [List.map snd app]. by rewrite <- app_assoc in Hb2.
        -- exact Hm2.
    + subst dc. cbn [app].
      destruct (Relationship_ field) as [relationship|] eqn:Hrel;
        [|subst fc; cbn [app]; by apply IH].
      destruct (String.eqb (Kind relationship) "belongs_to") eqn:Hk;
        [|subst fc; cbn [app]; by apply IH].
      subst fc. apply String.eqb_eq in Hk.
      destruct (createForeignKeys_run st0 (ForeignDBNames relationship) Hst
                  (fun fk Hin => Hok field relationship fk
                                     ltac:(by left) Hcf Hn Hrel Hk Hin)
                  cols phs st params Hb) as (st1 & Hrun & Hb1 & Hm1).
      unfold bind at 1. rewrite Hrun.
      assert (Hcv1 : cv <> [] ->
                     Scope_Get BlankColWithValue (engine.Scope (eng st1)) =
                     Some (strings_value cv))
        by (intros Hne; rewrite Hm1; by apply Hcv).
      destruct (IH (cols ++ List.map fst
                              (flat_map (foreignKeyColumn (eng st0) (heap (world st0)))
                                        (ForeignDBNames relationship)))
                   (phs ++ placeholdersFrom (engine.Dialect_ (eng st0))
                             (List.length (SQLVars (engine.Scope (eng st0)))
                              + List.length params)
                             (List.length
                                (flat_map (foreignKeyColumn (eng st0)
                                             (heap (world st0)))
                                          (ForeignDBNames relationship))))
                   cv st1 _ Hb1 Hcv1) as (st2 & Hrun2 & Hb2 & Hm2).
      exists st2. split; [|split].
      * rewrite Hrun2. rewrite map_app, !length_app, length_map, <- !app_assoc.
        rewrite placeholdersFrom_app.
        replace (List.length (SQLVars (engine.Scope (eng st0)))
                 + (List.length params
                    + List.length (flat_map (foreignKeyColumn (eng st0)
                                               (heap (world st0)))
                                            (ForeignDBNames relationship))))%nat
          with (List.length (SQLVars (engine.Scope (eng st0)))
                + List.length params
                + List.length (flat_map (foreignKeyColumn (eng st0)
                                           (heap (world st0)))
                                        (ForeignDBNames relationship)))%nat by lia.
        reflexivity.
      * rewrite map_app, app_assoc. exact Hb2.
      * exact Hm2.
Qed.


(** C2, as the code has it.  When the metadata service answers and the
    foreign-key fields of the belongs_to relationships are found, [create]
    succeeds and the INSERT it builds lists, in field order, a column for
    every changeable normal field that is not a blank field with a default
    value and that is not a blank primary key, and a column for every
    foreign key of a changeable, not normal, belongs_to field whose
    foreign-key field is not changeable.  Blank fields with a default value
    go to the marker list instead.  There are as many placeholders as
    columns, and as many parameters were appended. *)
Theorem create_columns (b : Driver) (st : St) (fds : list Field)
        (opf : option Field) :
  Stable (eng st) (heap (world st)) ->
  scope_Fields (eng st) (heap (world st)) (Value (engine.Scope (eng st))) = Ok fds ->
  scope_PrimaryField (eng st) (heap (world st)) (Value (engine.Scope (eng st)))
  = Ok opf ->
  (forall (field : Field) relationship fk,
     field ∈ fds ->
     scope_ChangeableField (eng st) field = true -> IsNormal field = false ->
     Relationship_ field = Some relationship ->
     Kind relationship = "belongs_to" ->
     fk ∈ ForeignDBNames relationship ->
     exists ff, scope_FieldByName (eng st) (heap (world st))
                  (Value (engine.Scope (eng st))) fk = Ok ff) ->
  let cols := flat_map (fieldColumns (eng st) (heap (world st))) fds in
  let marked := flat_map (defaultColumn (eng st)) fds in
  let phs := placeholdersFrom (engine.Dialect_ (eng st))
               (List.length (SQLVars (engine.Scope (eng st)))) (List.length cols) in
  let tableName :=
    scope_QuotedTableName (eng st) (heap (world st))
                          (Value (engine.Scope (eng st))) in
  exists st',
    create b st = (st', Ok tt) /\
    SQL (engine.Scope (eng st')) =
      insertSQL tableName (List.map fst cols) phs
        (match Scope_Get InsertOptions (engine.Scope (eng st)) with
         | Some str => fmt_Sprint str
         | None => ""
         end)
        (engine.LastInsertIDReturningSuffix (engine.Dialect_ (eng st)) tableName
           (match opf with
            | Some pf => scope_Quote (eng st) (DBName pf)
            | None => "*"
            end)) /\
    SQLVars (engine.Scope (eng st')) =
      SQLVars (engine.Scope (eng st)) ++ List.map snd cols /\
    List.length (List.map fst cols) = List.length phs /\
    List.length phs =
      (List.length (SQLVars (engine.Scope (eng st')))
       - List.length (SQLVars (engine.Scope (eng st))))%nat /\
    (marked <> [] ->
     Scope_Get BlankColWithValue (engine.Scope (eng st')) =
     Some (strings_value marked)) /\
    world st' = world st.
Proof.
  intros Hst Hf Hpf Hok. cbv zeta.
  destruct (createFields_run st fds Hst Hok [] [] [] st [] (Built_refl st)
              (fun Hne => False_ind _ (Hne eq_refl)))
    as (st1 & Hrun & (Hw & Hctx & Hvars & Hio) & Hm).
  destruct (Hst _ Hctx) as (_ & Hq & _ & Htn & Hp).
  pose proof Hctx as (_ & Hd & _).
  cbn [app] in *. rewrite Nat.add_0_r in Hrun.
  eexists. split; [|split; [|split; [|split; [|split; [|split]]]]].
  - unfold create, bind at 1, getE, gets. unfold bind at 1, getH, gets.
    unfold bind at 1, lift. rewrite Hf.
    unfold bind at 1. rewrite Hrun.
    unfold bind at 1, gets. unfold bind at 1, lift.
    rewrite Hp, Hpf. unfold modE, modify. reflexivity.
  - cbn. rewrite Htn, Hio, <- Hd. by destruct opf as [pf|]; rewrite ?Hq.
  - cbn. exact Hvars.
  - by rewrite length_map, placeholdersFrom_length.
  - cbn. rewrite Hvars, length_app, length_map, placeholdersFrom_length. lia.
  - exact Hm.
  - cbn. exact Hw.
Qed.

End CreateFacts.

Lemma Demo_Stable (meta : string -> list model.StructField) (omit : list string)
      (db : sql.DB) (e : engine.Engine) (h : list Cell) :
  hooks.Stable (H := Demo.collaborators meta omit db) e h.
Proof.
  intros e' (_ & _ & Hv). cbn. rewrite <- Hv. repeat split.
Qed.

(** The theorem at the new email: the address and, through the belongs_to
    field, the foreign key. *)
Lemma create_columns_witness :
  exists st',
    hooks.create (H := Inputs.mailer) (book_driver 0 empty_book) Inputs.newEmail
    = (st', Ok tt) /\
    model.SQL (engine.Scope (eng st')) =
      "INSERT INTO `Email` (`address`,`user_id`) VALUES ($1,$2)" /\
    model.SQLVars (engine.Scope (eng st')) = [VString "a@b.c"; VInt64 7].
Proof.
  destruct (create_columns (H := Inputs.mailer) (book_driver 0 empty_book)
              Inputs.newEmail
              (Inputs.fieldsOfValue Inputs.mailer Inputs.newEmail)
              (Inputs.primaryOfValue Inputs.mailer Inputs.newEmail)
              (Demo_Stable _ _ _ _ _) eq_refl eq_refl)
    as (st' & Hrun & Hsql & Hvars & _).
  - intros field relationship fk Hin _ _ Hrel Hk Hfk.
    apply list_elem_of_In in Hin. vm_compute in Hin.
    destruct Hin as [<-|[<-|[<-|[<-|[]]]]]; try discriminate Hrel.
    injection Hrel as <-.
    apply list_elem_of_In in Hfk. destruct Hfk as [<-|[]].
    eexists. vm_compute. reflexivity.
  - exists st'. split; [exact Hrun|]. split; [exact Hsql|exact Hvars].
Defined.

(** C2 as stated fails on a new account whose fields are all blank: the
    nick, blank and without a default value, is a column of the INSERT;
    and with the key set, the primary key is a column too. *)
Lemma create_blank_column :
  Demo.isBlank (VString "") = true /\
  (let st' := fst (hooks.create (H := Inputs.quiet) (book_driver 0 empty_book)
                                (Inputs.newAccount 0)) in
   model.SQL (engine.Scope (eng st')) = "INSERT INTO `Account` (`nick`) VALUES ($1)" /\
   model.SQLVars (engine.Scope (eng st')) = [VString ""] /\
   Scope_Get model.BlankColWithValue (engine.Scope (eng st')) =
     Some (hooks.strings_value ["`role`"])) /\
  (let st' := fst (hooks.create (H := Inputs.quiet) (book_driver 0 empty_book)
                                (Inputs.newAccount 9)) in
   model.SQL (engine.Scope (eng st')) =
     "INSERT INTO `Account` (`id`,`nick`) VALUES ($1,$2)" /\
   model.SQLVars (engine.Scope (eng st')) = [VInt64 9; VString ""]).
Proof. vm_compute. repeat split; reflexivity. Qed.

(** ** Update and delete without a condition *)

Section Guards.
Context `{Collaborators}.
Import model hooks.

Lemma BeforeUpdate_guard (d : Driver) (st : St) :
  scope_HasConditions (eng st) (heap (world st)) (Value (engine.Scope (eng st))) = false ->
  BeforeUpdate d st = (st, Err (ErrorsNew "missing WHERE condition for update")).
Proof. intros Hc. unfold BeforeUpdate, bind, getE, getH, gets. rewrite Hc. reflexivity. Qed.

Lemma BeforeDelete_guard (d : Driver) (st : St) :
  scope_HasConditions (eng st) (heap (world st)) (Value (engine.Scope (eng st))) = false ->
  BeforeDelete d st = (st, Err (ErrorsNew "Missing WHERE clause while deleting")).
Proof. intros Hc. unfold BeforeDelete, bind, getE, getH, gets. rewrite Hc. reflexivity. Qed.

Theorem no_condition_no_statement (fuel : nat) (b : Book) (st : St) :
  scope_HasConditions (eng st) (heap (world st)) (Value (engine.Scope (eng st))) = false ->
  (forall hs, b UpdateHook model.BeforeUpdate = BeforeUpdate :: hs ->
     Update (book_driver (S fuel) b) st =
       (st, Err (ErrorsNew "missing WHERE condition for update"))) /\
  (forall hs, b DeleteHook model.BeforeDelete = BeforeDelete :: hs ->
     Delete (book_driver (S fuel) b) st =
       (st, Err (ErrorsNew "Missing WHERE clause while deleting"))).
Proof.
  intros Hc. split; intros hs Hb.
  - unfold Update, bind. cbn [book_driver MustExec]. rewrite Hb.
    cbn [run_hooks]. unfold bind. rewrite BeforeUpdate_guard by exact Hc. reflexivity.
  - unfold Delete, bind. cbn [book_driver MustExec]. rewrite Hb.
    cbn [run_hooks]. unfold bind. rewrite BeforeDelete_guard by exact Hc. reflexivity.
Qed.
End Guards.

Lemma no_condition_no_statement_witness :
  hooks.Update (book_driver 1 Inputs.guarded) Inputs.unconditioned =
    (Inputs.unconditioned, Err (ErrorsNew "missing WHERE condition for update")) /\
  hooks.Delete (H := Inputs.quiet) (book_driver 1 Inputs.guarded) Inputs.unconditioned =
    (Inputs.unconditioned, Err (ErrorsNew "Missing WHERE clause while deleting")).
Proof.
  destruct (no_condition_no_statement (H := Inputs.quiet) 0 Inputs.guarded
              Inputs.unconditioned eq_refl) as [Hu Hd].
  split; [exact (Hu [] eq_refl)|exact (Hd [] eq_refl)].
Defined.

(** ** Transactions *)

Section Transactions.
Context `{Collaborators}.
Import model hooks.

(** [UpdateExec]: committed on success; rolled back on failure, and the
    error of a failed rollback is the one returned. *)
Lemma UpdateExec_transaction (d : Driver) (st : St) :
  SQL (engine.Scope (eng st)) <> "" ->
  sql.Begin SQLDB (trace (world st)) = None ->
  (forall r n, txAnswer st = Ok r -> sql.RowsAffected r = Ok n ->
     snd (UpdateExec d st) = asResult (sql.Commit SQLDB (sent st)) /\
     trace (world (fst (UpdateExec d st))) = sent st ++ [sql.EvCommit]) /\
  (forall err, txAnswer st = Err err ->
     trace (world (fst (UpdateExec d st))) = sent st ++ [sql.EvRollback] /\
     snd (UpdateExec d st) =
       match sql.Rollback SQLDB (sent st) with
       | Some rerr => Err rerr
       | None => Err err
       end).
Proof.
  intros Hq Hb.
  assert (Hne : String.eqb (SQL (engine.Scope (eng st))) "" = false)
    by (by apply String.eqb_neq).
  unfold txAnswer, sent, begun, stmt.
  split.
  - intros r n Hr Hn.
    unfold UpdateExec, bind, getE, gets. rewrite Hne.
    unfold SQLDB_Begin, backend. rewrite Hb. cbn.
    rewrite Hr. cbn. rewrite Hn. cbn.
    destruct (sql.Commit SQLDB _); split; reflexivity.
  - intros err Hr.
    unfold UpdateExec, bind, getE, gets. rewrite Hne.
    unfold SQLDB_Begin, backend. rewrite Hb. cbn.
    rewrite Hr. cbn.
    destruct (sql.Rollback SQLDB _); split; reflexivity.
Qed.

(** The fallback path of [CreateExec] on the QL family does the same. *)
Lemma CreateExec_transaction (d : Driver) (st : St) :
  (forall pf, scope_PrimaryField (eng st) (heap (world st))
                (Value (engine.Scope (eng st))) = Ok (Some pf) ->
     engine.LastInsertIDReturningSuffix (engine.Dialect_ (eng st))
       (scope_QuotedTableName (eng st) (heap (world st))
                              (Value (engine.Scope (eng st))))
       (scope_Quote (eng st) (DBName pf)) = "") ->
  (exists opf, scope_PrimaryField (eng st) (heap (world st))
                (Value (engine.Scope (eng st))) = Ok opf) ->
  dialects_IsQL (engine.Dialect_ (eng st)) = true ->
  sql.Begin SQLDB (trace (world st)) = None ->
  forall err, txAnswer st = Err err ->
    trace (world (fst (CreateExec d st))) = sent st ++ [sql.EvRollback] /\
    snd (CreateExec d st) =
      match sql.Rollback SQLDB (sent st) with
      | Some rerr => Err rerr
      | None => Err err
      end.
Proof.
  intros Hsuf [opf Hpf] Hql Hb err Hr.
  unfold txAnswer, sent, begun, stmt in *.
  unfold CreateExec, bind, getE, getH, gets, lift. rewrite Hpf.
  destruct opf as [pf|]; [rewrite (Hsuf pf Hpf); cbn [String.eqb]|];
    rewrite Hql; unfold SQLDB_Begin, backend; rewrite Hb; cbn;
    rewrite Hr; cbn; destruct (sql.Rollback SQLDB _); split; reflexivity.
Qed.

(** [Delete] on the QL family rolls back as well, but returns the error of
    the statement whatever the rollback answers. *)
Lemma Delete_transaction (d : Driver) (st st1 st2 : St) :
  MustExec d DeleteHook model.BeforeDelete st = (st1, Ok tt) ->
  MustExec d DeleteHook model.DeleteSQL st1 = (st2, Ok tt) ->
  dialects_IsQL (engine.Dialect_ (eng st2)) = true ->
  sql.Begin SQLDB (trace (world st2)) = None ->
  forall err, txAnswer st2 = Err err ->
    trace (world (fst (Delete d st))) = sent st2 ++ [sql.EvRollback] /\
    snd (Delete d st) = Err err.
Proof.
  intros H1 H2 Hql Hb err Hr.
  unfold txAnswer, sent, begun, stmt in *.
  unfold Delete, bind. rewrite H1, H2.
  unfold getE, gets. rewrite Hql.
  unfold SQLDB_Begin, backend. rewrite Hb. cbn.
  rewrite Hr. cbn.
  destruct (sql.Rollback SQLDB _); split; reflexivity.
Qed.

End Transactions.

(** C5 fails for [Delete]: on the QL dialect, with a backend whose
    statement fails with error 1 and whose rollback fails with error 2, the
    transaction is rolled back and error 1 is returned; error 2 is lost. *)
Lemma Delete_loses_rollback_error :
  sql.Rollback Demo.db_broken
    [sql.EvBegin; sql.EvTxExec "DELETE FROM users WHERE id = 1" []] =
    Some (DriverError 2) /\
  trace (world (fst (hooks.Delete (H := Inputs.broken)
                       (book_driver 2 Inputs.guarded_broken) Inputs.conditioned))) =
    [sql.EvBegin; sql.EvTxExec "DELETE FROM users WHERE id = 1" []; sql.EvRollback] /\
  snd (hooks.Delete (H := Inputs.broken)
         (book_driver 2 Inputs.guarded_broken) Inputs.conditioned) =
    Err (DriverError 1).
Proof. vm_compute. repeat split; reflexivity. Qed.

(** The sibling [UpdateExec] on the same backend returns error 2. *)
Lemma UpdateExec_keeps_rollback_error :
  snd (hooks.UpdateExec (H := Inputs.broken) (book_driver 0 empty_book)
         (on_eng (on_Scope (set_SQL "UPDATE users SET name = 'bob' WHERE id = 1"))
                 Inputs.conditioned)) =
    Err (DriverError 2).
Proof. vm_compute. reflexivity. Qed.

(** ** The generated key *)

Section CreateExecFacts.
Context `{Collaborators}.
Import model hooks.

Lemma field_set_get (h : list Cell) (a : addr) (f : string) (v0 x : GoValue) :
  reflect.field_get h a f = Some v0 ->
  reflect.field_get (reflect.field_set h a f x) a f = Some x.
Proof.
  unfold reflect.field_get, reflect.field_set. intros Hg.
  destruct (h !! a) as [[ty fs|v]|] eqn:Ha; try discriminate.
  rewrite list_lookup_insert_eq by (by eapply lookup_lt_Some).
  apply assoc_get_set_eq.
Qed.

(** On the path without a returning suffix, on a backend outside the QL
    family: a blank primary key that can be set receives the generated id;
    a primary key that is not blank is left alone. *)
Lemma CreateExec_generated_id (d : Driver) (st : St) (pf : Field) (r : sql.Result) :
  scope_PrimaryField (eng st) (heap (world st)) (Value (engine.Scope (eng st)))
  = Ok (Some pf) ->
  engine.LastInsertIDReturningSuffix (engine.Dialect_ (eng st))
    (scope_QuotedTableName (eng st) (heap (world st)) (Value (engine.Scope (eng st))))
    (scope_Quote (eng st) (DBName pf)) = "" ->
  dialects_IsQL (engine.Dialect_ (eng st)) = false ->
  sql.Exec SQLDB (trace (world st)) (SQL (engine.Scope (eng st)))
           (SQLVars (engine.Scope (eng st))) = Ok r ->
  (IsBlank pf = true ->
   forall id a f v0, sql.LastInsertId r = Ok id ->
     Field_ pf = RField a f true ->
     reflect.field_get (heap (world st)) a f = Some v0 ->
     snd (CreateExec d st) = Ok tt /\
     reflect.Interface (heap (world (fst (CreateExec d st)))) (Field_ pf) = VInt64 id) /\
  (IsBlank pf = false ->
   snd (CreateExec d st) = Ok tt /\
   heap (world (fst (CreateExec d st))) = heap (world st)).
Proof.
  intros Hpf Hsuf Hql Hex. split.
  - intros Hb id a f v0 Hid Hf Hg.
    unfold CreateExec, bind, getE, getH, gets, lift. rewrite Hpf, Hsuf.
    cbn [String.eqb]. rewrite Hql. unfold SQLDB_Exec, backend. rewrite Hex.
    cbn. rewrite Hb, Hid. unfold Field_Set. rewrite Hf. cbn.
    split; [reflexivity|]. by erewrite field_set_get.
  - intros Hb.
    unfold CreateExec, bind, getE, getH, gets, lift. rewrite Hpf, Hsuf.
    cbn [String.eqb]. rewrite Hql. unfold SQLDB_Exec, backend. rewrite Hex.
    cbn. rewrite Hb. split; reflexivity.
Qed.

End CreateExecFacts.

Lemma CreateExec_generated_id_by_pointer :
  snd (hooks.CreateExec (H := Inputs.quiet) (book_driver 0 empty_book)
                        Inputs.byPointer) = Ok tt /\
  reflect.field_get
    (heap (world (fst (hooks.CreateExec (H := Inputs.quiet)
                         (book_driver 0 empty_book) Inputs.byPointer))))
    0%nat "ID" = Some (VInt64 42).
Proof. vm_compute. split; reflexivity. Qed.

(** C6 fails for a record handed over by value: its key is blank, the
    dialect has no returning suffix, the insert succeeds and the backend
    reports 42 as the generated id; [CreateExec] returns no error and the
    key is still 0, because the error of [Field.Set] is dropped. *)
Lemma CreateExec_drops_unaddressable :
  sql.LastInsertId Demo.results1 = Ok 42 /\
  snd (hooks.CreateExec (H := Inputs.quiet) (book_driver 0 empty_book)
                        Inputs.byValue) = Ok tt /\
  trace (world (fst (hooks.CreateExec (H := Inputs.quiet)
                       (book_driver 0 empty_book) Inputs.byValue))) =
    [sql.EvExec "INSERT INTO `User` (`name`) VALUES ($1)" [VString "ann"]] /\
  reflect.field_get
    (heap (world (fst (hooks.CreateExec (H := Inputs.quiet)
                         (book_driver 0 empty_book) Inputs.byValue))))
    0%nat "ID" = Some (VInt64 0).
Proof. vm_compute. repeat split; reflexivity. Qed.

(** ** Saving a many_to_many association *)

Section AfterAssociationFacts.
Context `{Collaborators}.
Import model hooks.

(** With a join-table handler, the body of the slice loop never reaches its
    end: where it does not fail, it has returned from [AfterAssociation]. *)
Lemma saveSliceElem_returns (b : Driver) (e : engine.Engine) (fds : list Field)
      (rel : Relationship) (elem : GoValue) (jth : JoinTableHandler)
      (st st' : St) (stop : bool) :
  JoinTableHandler_ rel = Some jth ->
  saveSliceElem b e fds rel elem st = (st', Ok stop) -> stop = true.
Proof.
  intros Hj Hrun. unfold saveSliceElem in Hrun. rewrite Hj in Hrun.
  repeat (apply bind_Ok in Hrun as (? & ? & _ & Hrun)).
  destruct (dialects_IsQL (engine.Dialect_ e)).
  - repeat (apply bind_Ok in Hrun as (? & ? & _ & Hrun)).
    match type of Hrun with
    | match ?r with _ => _ end _ = _ => destruct r
    end.
    + apply bind_Ok in Hrun as (? & ? & _ & Hrun). by injection Hrun.
    + apply bind_Ok in Hrun as (? & ? & _ & Hrun). discriminate.
    + discriminate.
    + discriminate.
  - apply bind_Ok in Hrun as (? & ? & _ & Hrun). by injection Hrun.
Qed.

(** So the slice loop does for [i :: rest] what it does for [i] alone. *)
Lemma saveSlice_first (b : Driver) (fds : list Field) (rel : Relationship)
      (value : RValue) (jth : JoinTableHandler) (i : nat) (rest : list nat) (st : St) :
  JoinTableHandler_ rel = Some jth ->
  saveSlice b fds rel value (i :: rest) st = saveSlice b fds rel value [i] st /\
  forall st' stop, saveSlice b fds rel value [i] st = (st', Ok stop) -> stop = true.
Proof.
  intros Hj.
  assert (Hbody : forall l,
    saveSlice b fds rel value (i :: l) st =
    (let! e := getE in
     let! h := getH in
     let ne := engine_Clone e in
     let vi := reflect.Index h value i in
     let! elem :=
       if decide (reflect.Kind_ h vi = reflect.Ptr)
       then ret (reflect.Interface h vi)
       else lift (reflect.Addr h vi) in
     let! (_, stop) := call_on ne (saveSliceElem b e fds rel elem) in
     ret true) st).
  { intros l. cbn [saveSlice].
    apply bind_ext_Ok. intros s1 e _.
    apply bind_ext_Ok. intros s2 h _. cbv zeta.
    apply bind_ext_Ok. intros s3 elem _.
    apply bind_ext_Ok. intros s4 [ne stop] Hcall.
    apply call_on_Ok in Hcall as (s5 & Hrun).
    by rewrite (saveSliceElem_returns _ _ _ _ _ _ _ _ _ Hj Hrun). }
  split.
  - by rewrite (Hbody rest), (Hbody []).
  - intros st' stop Hrun. rewrite Hbody in Hrun.
    repeat (apply bind_Ok in Hrun as (? & ? & _ & Hrun)).
    match type of Hrun with
    | (let (_, _) := ?p in _) _ = _ => destruct p
    end.
    by injection Hrun.
Qed.

End AfterAssociationFacts.

Section AfterAssociationTheorem.
Context `{Collaborators}.
Import model hooks.

Lemma saveFields_skip (b : Driver) (fds pre rest : list Field) (st : St) :
  (forall f : Field, f ∈ pre ->
     fst (scope_SaveFieldAsAssociation (eng st) (heap (world st)) f) = false) ->
  saveFields b fds (pre ++ rest) st = saveFields b fds rest st.
Proof.
  induction pre as [|f pre IH]; intros Hpre; [reflexivity|].
  cbn [app saveFields]. unfold bind at 1, getE, gets. unfold bind at 1, getH, gets.
  specialize (Hpre f ltac:(by left)) as Hf.
  destruct (scope_SaveFieldAsAssociation (eng st) (heap (world st)) f) as [[|] r];
    [discriminate|].
  apply IH. intros f' Hin. apply Hpre. by right.
Qed.

End AfterAssociationTheorem.


(** Ann and her two languages: "en" is inserted and joined to Ann; nothing
    is sent for "fr", whose key stays blank. *)
Lemma AfterAssociation_polyglot :
  let r := hooks.AfterAssociation (H := Inputs.quiet)
             (book_driver 2 Inputs.creating) Inputs.polyglot in
  snd r = Ok tt /\
  trace (world (fst r)) =
    [sql.EvExec "INSERT INTO `Language` (`name`) VALUES ($1)" [VString "en"];
     sql.EvExec "INSERT INTO `person_languages` DEFAULT VALUES"
                [VPtr (Some 0%nat); VPtr (Some 1%nat)]] /\
  heap (world (fst r)) !! 2%nat = Some (Inputs.language 0 "fr").
Proof. vm_compute. repeat split; reflexivity. Qed.

(** ** The preloader: segments without keys *)

Section EmptyKeys.
Context `{Collaborators}.
Import model hooks.

Lemma PreloadHasMany_empty (b : Driver) (field : Field) (rel : Relationship)
      (conditions : list GoValue) (st : St) :
  Relationship_ field = Some rel ->
  util_ColumnAsArray (AssociationForeignFieldNames rel) (heap (world st))
                     (Value (engine.Scope (eng st))) = [] ->
  PreloadHasMany b field conditions st = (st, Ok tt).
Proof.
  intros Hr Hk. unfold PreloadHasMany, relationOf, bind, getE, getH, gets.
  rewrite Hr. cbn. rewrite Hk. reflexivity.
Qed.

Lemma PreloadHasOne_empty (b : Driver) (field : Field) (rel : Relationship)
      (conditions : list GoValue) (st : St) :
  Relationship_ field = Some rel ->
  util_ColumnAsArray (AssociationForeignFieldNames rel) (heap (world st))
                     (Value (engine.Scope (eng st))) = [] ->
  PreloadHasOne b field conditions st = (st, Ok tt).
Proof.
  intros Hr Hk. unfold PreloadHasOne, relationOf, bind, getE, getH, gets.
  rewrite Hr. cbn. rewrite Hk. reflexivity.
Qed.

Lemma PreloadBelongsTo_empty (b : Driver) (field : Field) (rel : Relationship)
      (conditions : list GoValue) (st : St) :
  Relationship_ field = Some rel ->
  util_ColumnAsArray (ForeignFieldNames rel) (heap (world st))
                     (Value (engine.Scope (eng st))) = [] ->
  PreloadBelongsTo b field conditions st = (st, Ok tt).
Proof.
  intros Hr Hk. unfold PreloadBelongsTo, relationOf, bind, getE, getH, gets.
  rewrite Hr. cbn. rewrite Hk. reflexivity.
Qed.

Lemma call_on_unchanged (cs : engine.Engine) (m : M St unit) (st : St) :
  m (set_eng cs st) = (set_eng cs st, Ok tt) ->
  call_on cs m st = (st, Ok (cs, tt)).
Proof.
  intros Hm. unfold call_on, try_on, bind. rewrite Hm. cbn. by destruct st.
Qed.

End EmptyKeys.

(** ** The preloader: segments that cannot be resolved *)

Section PreloadErrors.
Context `{Collaborators}.
Import GoStrings model hooks.

Lemma preloadSegment_skip (b : Driver) (cs : engine.Engine) (preloadField : string)
      (conds : list GoValue) (pre fields : list Field) (st : St) :
  Forall (fun f => names preloadField f = false) pre ->
  preloadSegment b cs preloadField conds (pre ++ fields) st =
  preloadSegment b cs preloadField conds fields st.
Proof.
  induction 1 as [|f pre Hf _ IH]; [reflexivity|].
  cbn [app preloadSegment]. unfold names in Hf.
  destruct (Relationship_ f); [|exact IH]. by rewrite Hf.
Qed.




End PreloadErrors.

(** C9 as stated fails at a many_to_many segment: for no people the key
    list is empty, and the join query is sent all the same, with a
    predicate that is never true. *)
Lemma many_to_many_queries_without_keys :
  util_ColumnAsArray (Collaborators := Inputs.quiet) ["ID"]
    (heap (world Inputs.noPeople))
    (model.Value (engine.Scope (eng Inputs.noPeople))) = [] /\
  let r := hooks.preloadSegment (H := Inputs.quiet)
             (book_driver 4 (Inputs.queryBook Inputs.quiet)) (eng Inputs.noPeople)
             "Languages" [] [Inputs.languagesMeta] Inputs.noPeople in
  snd r = Ok (eng Inputs.noPeople, true) /\
  trace (world (fst r)) =
    [sql.EvQuery
       "SELECT * FROM Person INNER JOIN `person_languages` ON `person_languages`.`language_id` = `Language`.`id` WHERE 1 <> 1"
       []].
Proof. vm_compute. repeat split; reflexivity. Qed.

(** The path "Emails.User" over Ann and Bob, on a backend without rows:
    one query for the emails, none for their users. *)
Lemma two_level_path_one_query :
  let r := hooks.Preload_ (H := Inputs.quiet)
             (book_driver 5 (Inputs.queryBook Inputs.quiet))
             (Inputs.withPreload ["Emails.User"] Inputs.twoUsers) in
  snd r = Ok tt /\
  trace (world (fst r)) =
    [sql.EvQuery "SELECT * FROM Email WHERE user_id IN (?,?)" [VInt64 1; VInt64 2]].
Proof. vm_compute. split; reflexivity. Qed.



(** ** The has_many preloader *)

Section HeapFacts.
Import model.

Lemma field_set_length (h : list Cell) (a : addr) (f : string) (x : GoValue) :
  List.length (reflect.field_set h a f x) = List.length h.
Proof.
  unfold reflect.field_set. destruct (h !! a) as [[ty fs|v]|]; try done.
  by rewrite length_insert.
Qed.

Lemma field_set_lookup_ne (h : list Cell) (a a' : addr) (f : string) (x : GoValue) :
  a <> a' -> reflect.field_set h a f x !! a' = h !! a'.
Proof.
  intros Hne. unfold reflect.field_set. destruct (h !! a) as [[ty fs|v]|]; try done.
  by rewrite list_lookup_insert_ne.
Qed.

Lemma field_set_lookup_eq (h : list Cell) (a : addr) (f : string) (x : GoValue)
      (ty : string) (fs : list (string * GoValue)) :
  h !! a = Some (CStruct ty fs) ->
  reflect.field_set h a f x !! a = Some (CStruct ty (assoc_set f x fs)).
Proof.
  intros Ha. unfold reflect.field_set. rewrite Ha.
  rewrite list_lookup_insert_eq; [done|by eapply lookup_lt_Some].
Qed.

(** A loop over the indices of a list is a loop over the list. *)
Lemma foldl_seq_lookup {A B} (g : B -> option A -> B) (pre l : list A) (m : B) :
  foldl (fun m i => g m ((pre ++ l) !! i)) m (seq (List.length pre) (List.length l)) =
  foldl (fun m x => g m (Some x)) m l.
Proof.
  revert pre m. induction l as [|x l IH]; intros pre m; [done|].
  cbn [List.length seq foldl].
  rewrite lookup_app_r by lia. rewrite Nat.sub_diag. cbn [lookup list_lookup].
  specialize (IH (pre ++ [x]) (g m (Some x))).
  rewrite <- app_assoc, length_app in IH. cbn in IH.
  rewrite Nat.add_1_r in IH. exact IH.
Qed.

(** Grouping by key: what the multi-map holds at [k] is what it held
    followed by the elements of key [k], in order. *)
Lemma group_lookup {A} (key : A -> string) (l : list A) (m : gmap string (list A))
      (k : string) :
  foldl (fun m r => <[key r := default [] (m !! key r) ++ [r]]> m) m l !! k =
  match filter (fun r => key r = k) l with
  | [] => m !! k
  | fl => Some (default [] (m !! k) ++ fl)
  end.
Proof.
  revert m. induction l as [|r l IH]; intros m; [done|].
  cbn [foldl]. rewrite IH. rewrite filter_cons.
  destruct (decide (key r = k)) as [<-|Hne].
  - rewrite lookup_insert_eq. cbn.
    destruct (filter _ l) as [|y fl]; [done|].
    by rewrite <- app_assoc.
  - by rewrite lookup_insert_ne.
Qed.
End HeapFacts.

Section Scan.
Context `{Collaborators}.
Import model hooks.

(** The row loop into a slice in cell [ares]: every row takes a fresh
    cell behind the heap, the slice grows by one element per row, nothing
    is sent to the backend and the other cells stay as they were. *)
Lemma scanRows_slice (columns : list string) (ares : addr) (isPtr : bool)
      (t u : type) (rows : list (list GoValue)) :
  ScansLocally t ->
  forall (st : St) (acc : list GoValue),
    heap (world st) !! ares = Some (CVar (VSlice u (Some acc))) ->
    exists st' new,
      scanRows columns rows (RCell ares) true isPtr t st = (st', Ok tt) /\
      trace (world st') = trace (world st) /\
      engine.Search (eng st') = engine.Search (eng st) /\
      List.length new = List.length rows /\
      List.length (heap (world st')) =
        (List.length (heap (world st)) + List.length rows)%nat /\
      heap (world st') !! ares = Some (CVar (VSlice u (Some (acc ++ new)))) /\
      forall a, (a < List.length (heap (world st)))%nat -> a <> ares ->
        heap (world st') !! a = heap (world st) !! a.
Proof.
  intros [[zty [zfs Hz]] Hs]. induction rows as [|row rows IH]; intros st acc Ha.
  - exists st, []. rewrite app_nil_r. cbn. repeat split; try done; lia.
  - destruct st as [e [hk tr]]. simpl in Ha. unfold addr in *.
    assert (Hlt : (ares < List.length hk)%nat) by (by eapply lookup_lt_Some).
    destruct (Hs (set_RowsAffected (engine.RowsAffected e + 1) e) hk columns row)
      as (fields & c & Hf & Hsc).
    assert (HAddr : reflect.Addr (hk ++ [reflect_Zero t]) (RCell (List.length hk))
                    = Ok (VPtr (Some (List.length hk)))).
    { unfold reflect.Addr, reflect.Interface. cbn.
      rewrite lookup_app_r by lia. rewrite Nat.sub_diag. cbn.
      by rewrite Hz. }
    assert (HI : reflect.Interface (hk ++ [c]) (RCell ares) = VSlice u (Some acc)).
    { unfold reflect.Interface. rewrite lookup_app_l by done. by rewrite Ha. }
    cbn [scanRows].
    unfold bind, modE, modify, getH, getE, gets, lift, on_heap, zoom, reflect.alloc, ret.
    cbn -[reflect.Addr reflect.Interface reflect.Append].
    rewrite HAddr. cbn -[reflect.Addr reflect.Interface reflect.Append].
    rewrite Hf. cbn -[reflect.Addr reflect.Interface reflect.Append].
    rewrite Hsc. rewrite HI.
    set (x := if isPtr then VPtr (Some (List.length hk))
              else reflect.Interface (hk ++ [c]) (RCell (List.length hk))).
    assert (Hgo : forall st1,
      eng st1 = set_RowsAffected (engine.RowsAffected e + 1) e ->
      trace (world st1) = tr ->
      heap (world st1) = <[ares := CVar (VSlice u (Some (acc ++ [x])))]> (hk ++ [c]) ->
      exists st' new,
        scanRows columns rows (RCell ares) true isPtr t st1 = (st', Ok tt) /\
        trace (world st') = tr /\
        engine.Search (eng st') = engine.Search e /\
        List.length new = S (List.length rows) /\
        List.length (heap (world st')) = (List.length hk + S (List.length rows))%nat /\
        heap (world st') !! ares = Some (CVar (VSlice u (Some (acc ++ new)))) /\
        forall a, (a < List.length hk)%nat -> a <> ares -> heap (world st') !! a = hk !! a).
    { intros st1 He1 Htr1 Hh1.
      destruct (IH st1 (acc ++ [x])) as (st' & new & Hrun & Htr & Hse & Hlen & Hhl & Hres & Hfr).
      { rewrite Hh1. rewrite list_lookup_insert_eq; [done|]. rewrite length_app. lia. }
      exists st', (x :: new). rewrite Hrun. rewrite Hh1 in Hhl, Hfr.
      rewrite length_insert, length_app in Hhl, Hfr. cbn in Hhl, Hfr.
      repeat split.
      + congruence.
      + rewrite Hse, He1. reflexivity.
      + cbn. lia.
      + lia.
      + rewrite Hres. by rewrite <- app_assoc.
      + intros a0 Ha0 Hne. rewrite Hfr by lia.
        rewrite list_lookup_insert_ne by done. by rewrite lookup_app_l. }
    unfold x in Hgo. clear x.
    destruct isPtr; cbn -[reflect.Interface]; apply Hgo; reflexivity.
Qed.
End Scan.

Section Pipeline.
Context `{Collaborators}.
Import model hooks.

Lemma QuerySQL_run (d : Driver) (st : St) (q : string) (args : list GoValue) :
  Scope_Get OrderByPK (engine.Scope (eng st)) = None ->
  builder_PrepareQuery (eng st) (heap (world st)) (Value (engine.Scope (eng st)))
  = Ok (q, args) ->
  QuerySQL d st
  = (on_eng (on_Scope (fun s => set_SQLVars args (set_SQL q s))) st, Ok tt).
Proof.
  intros Ho Hp. unfold QuerySQL, bind, getE, getH, gets, lift, modE, modify, ret.
  rewrite Ho. cbn. rewrite Hp. reflexivity.
Qed.

(** [QueryExec] into an empty slice behind the pointer the scope holds. *)
Lemma QueryExec_slice (d : Driver) (st : St) (ares : addr) (u : type)
      (rows : sql.Rows) :
  Value (engine.Scope (eng st)) = VPtr (Some ares) ->
  Scope_Get QueryDestination (engine.Scope (eng st)) = None ->
  Scope_Get QueryOption (engine.Scope (eng st)) = None ->
  heap (world st) !! ares = Some (CVar (VSlice u (Some []))) ->
  sql.Query SQLDB (trace (world st)) (SQL (engine.Scope (eng st)))
            (SQLVars (engine.Scope (eng st))) = Ok rows ->
  ScansLocally (rowType u) ->
  exists st' rowvals,
    QueryExec d st = (st', Ok tt) /\
    trace (world st') =
      trace (world st) ++ [sql.EvQuery (SQL (engine.Scope (eng st)))
                                       (SQLVars (engine.Scope (eng st)))] /\
    engine.Search (eng st') = engine.Search (eng st) /\
    List.length rowvals = List.length (sql.Next rows) /\
    List.length (heap (world st')) =
      (List.length (heap (world st)) + List.length (sql.Next rows))%nat /\
    heap (world st') !! ares = Some (CVar (VSlice u (Some rowvals))) /\
    forall a, (a < List.length (heap (world st)))%nat -> a <> ares ->
      heap (world st') !! a = heap (world st) !! a.
Proof.
  intros Hv Hd Ho Ha Hq Hs. destruct st as [e [h tr]]. simpl in *.
  assert (Hdest : queryDestination e h = RCell ares).
  { unfold queryDestination. rewrite Hv, Hd. cbn. reflexivity. }
  assert (Hkind : reflect.Kind_ h (RCell ares) = reflect.Slice).
  { unfold reflect.Kind_, reflect.Interface. by rewrite Ha. }
  assert (HI : reflect.Interface h (RCell ares) = VSlice u (Some [])).
  { unfold reflect.Interface. by rewrite Ha. }
  set (isPtr := match u with TPtr _ => true | _ => false end).
  set (st1 := {| eng := set_RowsAffected 0 e;
                 world := {| heap := h; trace := tr ++ [sql.EvQuery (SQL (engine.Scope e)) (SQLVars (engine.Scope e))] |} |}).
  destruct (scanRows_slice (sql.Columns rows) ares isPtr (rowType u) u (sql.Next rows) Hs
              st1 [] Ha) as (st' & new & Hrun & Htr & Hse & Hlen & Hhl & Hres & Hfr).
  exists st', new. split; [|by repeat split].
  unfold QueryExec, bind, getE, getH, gets, lift, modE, modify, ret.
  cbn -[queryDestination reflect.Kind_ reflect.Interface scanRows].
  rewrite Hdest, Hkind. cbn -[reflect.Interface scanRows]. rewrite HI.
  rewrite decide_True by done. rewrite Ho.
  subst isPtr.
  destruct u; cbn -[scanRows] in *; unfold addr in *;
    rewrite list_insert_id by done; rewrite Hq; cbn -[scanRows];
    match goal with
    | |- context [scanRows _ _ _ _ _ _ ?s] => change s with st1
    end;
    rewrite Hrun; rewrite andb_false_r; reflexivity.
Qed.

Lemma AfterQuery_run (fuel : nat) (b : Book) (st : St) :
  Preload (engine.Search (eng st)) = None ->
  b QueryHook HookAfterFindQuery = [] ->
  AfterQuery (book_driver (S fuel) b) st = (st, Ok tt).
Proof.
  intros Hp Hb. unfold AfterQuery, bind, getE, gets. rewrite Hp. cbn.
  rewrite Hb. reflexivity.
Qed.

Lemma MustExec_S (n : nat) (b : Book) (g : Group) (k : Step) (f : HookFunc)
      (fs : list HookFunc) :
  b g k = f :: fs ->
  MustExec (book_driver (S n) b) g k = run_hooks (book_driver n b) (f :: fs).
Proof. intros Hb. cbn [book_driver MustExec]. by rewrite Hb. Qed.

Lemma Exec_S (n : nat) (b : Book) (g : Group) (k : Step) :
  Exec (book_driver (S n) b) g k = run_hooks (book_driver n b) (b g k).
Proof. reflexivity. Qed.

(** The built-in pipeline, [QuerySQL], [QueryExec], [AfterQuery], on an
    engine without preloads: one query. *)
Lemma Query_run (fuel : nat) (b : Book) (st : St) (ares : addr) (u : type)
      (q : string) (args : list GoValue) (rows : sql.Rows) :
  QueryPipeline b ->
  Preload (engine.Search (eng st)) = None ->
  Scope_Get OrderByPK (engine.Scope (eng st)) = None ->
  Scope_Get QueryDestination (engine.Scope (eng st)) = None ->
  Scope_Get QueryOption (engine.Scope (eng st)) = None ->
  Value (engine.Scope (eng st)) = VPtr (Some ares) ->
  heap (world st) !! ares = Some (CVar (VSlice u (Some []))) ->
  builder_PrepareQuery (eng st) (heap (world st)) (VPtr (Some ares)) = Ok (q, args) ->
  sql.Query SQLDB (trace (world st)) q args = Ok rows ->
  ScansLocally (rowType u) ->
  exists st' rowvals,
    MustExec (book_driver (3 + fuel) b) QueryHook Query st = (st', Ok tt) /\
    trace (world st') = trace (world st) ++ [sql.EvQuery q args] /\
    List.length rowvals = List.length (sql.Next rows) /\
    List.length (heap (world st')) =
      (List.length (heap (world st)) + List.length (sql.Next rows))%nat /\
    heap (world st') !! ares = Some (CVar (VSlice u (Some rowvals))) /\
    forall a, (a < List.length (heap (world st)))%nat -> a <> ares ->
      heap (world st') !! a = heap (world st) !! a.
Proof.
  intros (Hb1 & Hb2 & Hb3 & Hb4 & Hb5) Hp Ho Hd Hqo Hv Ha Hpq Hq Hs.
  set (st1 := on_eng (on_Scope (fun s => set_SQLVars args (set_SQL q s))) st).
  destruct (QueryExec_slice (book_driver (S fuel) b) st1 ares u rows)
    as (st' & rowvals & Hrun & Htr & Hse & Hrest); try done.
  exists st', rowvals. split; [|split; [exact Htr|exact Hrest]].
  change (3 + fuel)%nat with (S (S (S fuel))).
  rewrite (MustExec_S _ _ _ _ _ _ Hb1). cbn [run_hooks]. unfold Query_.
  rewrite (MustExec_S _ _ _ _ _ _ Hb2), (MustExec_S _ _ _ _ _ _ Hb3), Exec_S, Hb4.
  cbn [run_hooks]. unfold bind, ret.
  rewrite (QuerySQL_run _ st q args) by (by rewrite ?Hv).
  fold st1. rewrite Hrun.
  rewrite AfterQuery_run; [done| |done].
  by rewrite Hse.
Qed.
End Pipeline.

Section Assign.
Context `{Collaborators}.
Import model hooks.

(** The multi-map of the first loop, looked up. *)
Lemma groupRows_lookup (h : list Cell) (ares : addr) (u : type)
      (rowvals : list GoValue) (names : list string) (k : string) :
  h !! ares = Some (CVar (VSlice u (Some rowvals))) ->
  groupRows h (RCell ares) names !! k =
  match filter (fun r => util_ToString (util_GetValueFromFields h (RElem r) names) = k)
               rowvals with
  | [] => None
  | fl => Some fl
  end.
Proof.
  intros Ha.
  pose (g := fun (m : gmap string (list GoValue)) (ov : option GoValue) =>
       let result := match ov with Some v => RElem v | None => RInvalid end in
       <[util_ToString (util_GetValueFromFields h result names) :=
           default [] (m !! util_ToString (util_GetValueFromFields h result names))
           ++ [reflect.Interface h result]]> m).
  transitivity
    (foldl (fun m i => g m (([] ++ rowvals) !! i)) ∅
           (seq (List.length (@nil GoValue)) (List.length rowvals)) !! k).
  { unfold groupRows, reflect.Len, reflect.Index, reflect.Interface.
    rewrite Ha. reflexivity. }
  rewrite (foldl_seq_lookup g [] rowvals ∅). subst g. cbn zeta iota beta.
  rewrite (group_lookup (fun r => util_ToString (util_GetValueFromFields h (RElem r) names))).
  rewrite lookup_empty. cbn. reflexivity.
Qed.

Lemma indexIndirect_owner (h : list Cell) (aown : addr) (town : type)
      (owners : list GoValue) (j : nat) (o : GoValue) (a : addr) :
  h !! aown = Some (CVar (VSlice town (Some owners))) ->
  owners !! j = Some o -> addrOf o = Some a ->
  indexIndirect h (RCell aown) j = objectOf o.
Proof.
  intros Ha Ho Hao. unfold indexIndirect, reflect.Index, reflect.Interface.
  rewrite Ha. cbn [reflect.elems]. rewrite Ho.
  destruct o as [| | | | |a'|[a'|]| |]; try discriminate; reflexivity.
Qed.

Lemma FieldByName_owner (h : list Cell) (o : GoValue) (a : addr) (ty : string)
      (fs : list (string * GoValue)) (name : string) (v : GoValue) :
  addrOf o = Some a -> h !! a = Some (CStruct ty fs) ->
  assoc_get name fs = Some v ->
  reflect.FieldByName h (objectOf o) name = Ok (RField a name true) /\
  reflect.Interface h (RField a name true) = v.
Proof.
  intros Hao Ha Hg.
  assert (Hfg : reflect.field_get h a name = Some v).
  { unfold reflect.field_get. by rewrite Ha. }
  split.
  - destruct o as [| | | | |a'|[a'|]| |]; try discriminate;
      injection Hao as ->; unfold reflect.FieldByName; cbn;
      rewrite ?Ha; rewrite Hfg; reflexivity.
  - cbn. by rewrite Hfg.
Qed.

Lemma Append_empty (u : type) (xs : option (list GoValue)) (rs : list GoValue) :
  default [] xs = [] -> rs <> [] ->
  reflect.Append (VSlice u xs) rs = VSlice u (Some rs).
Proof.
  intros Hx Hr. destruct rs as [|r rs]; [done|]. cbn. by rewrite Hx.
Qed.

Section Loop.
Variables (field : Field) (relation : Relationship) (u : type).
Variables (aown : addr) (town : type).
Variable preloadMap : gmap string (list GoValue).
Variable sel : string -> list GoValue.
Variable key : GoValue -> string.
Hypothesis Hmap : forall k,
  preloadMap !! k = match sel k with [] => None | fl => Some fl end.
Hypothesis Hlocal : KeyLocal relation.

Lemma assignOwner_run (st : St) (owners : list GoValue) (j : nat)
      (o : GoValue) (a : addr) :
  heap (world st) !! aown = Some (CVar (VSlice town (Some owners))) ->
  owners !! j = Some o -> addrOf o = Some a ->
  pending field relation u key (heap (world st)) o ->
  assignOwner field relation preloadMap (RCell aown) j st
  = (set_world (set_heap (reflect.field_set (heap (world st)) a (Name field)
                            (VSlice u (Some (grown (held (heap (world st))
                                                         (Name field) o)
                                                   (sel (key o))))))
                         (world st)) st, Ok tt).
Proof.
  intros Ha Ho Hao [(a' & ty & fs & xs & Hao' & Hc & Hg) Hk].
  assert (a' = a) as -> by congruence.
  destruct (FieldByName_owner _ _ _ _ _ _ _ Hao Hc Hg) as [Hfb Hi].
  assert (Hheld : held (heap (world st)) (Name field) o = default [] xs).
  { unfold held, reflect.field_get. rewrite Hao. unfold addr in *.
    rewrite Hc, Hg. by destruct xs. }
  unfold assignOwner, bind, getH, gets, lift, on_heap, zoom.
  rewrite (indexIndirect_owner _ _ _ _ _ _ _ Ha Ho Hao), Hfb.
  unfold ownerKey in Hk. rewrite Hk, Hmap, Hheld.
  destruct (sel (key o)) as [|r rs] eqn:Hs.
  - rewrite Hi. cbn. reflexivity.
  - rewrite Hi. cbn. reflexivity.
Qed.

Lemma held_frame (h h' : list Cell) (name : string) (o : GoValue) (a : addr) :
  addrOf o = Some a -> h' !! a = h !! a -> held h' name o = held h name o.
Proof.
  intros Hao Heq. unfold held, reflect.field_get. rewrite Hao.
  unfold addr in *. by rewrite Heq.
Qed.

Lemma pending_frame (h h' : list Cell) (o : GoValue) (a : addr) :
  addrOf o = Some a -> h' !! a = h !! a ->
  pending field relation u key h o -> pending field relation u key h' o.
Proof.
  intros Hao Heq [(a' & ty & fs & xs & Hao' & Hc & Hg) Hk].
  assert (a' = a) as -> by congruence.
  split.
  - exists a, ty, fs, xs. by rewrite Heq.
  - rewrite <- Hk. unfold ownerKey. f_equal.
    eapply Hlocal; [exact Hao|exact Hc|by rewrite Heq].
Qed.

(** The second loop over the owners not reached yet. *)
Lemma assign_loop (todo : list GoValue) :
  forall (done : list GoValue) (st : St),
    heap (world st) !! aown = Some (CVar (VSlice town (Some (done ++ todo)))) ->
    Forall (pending field relation u key (heap (world st))) todo ->
    NoDup (omap addrOf todo) ->
    exists st',
      forM (seq (List.length done) (List.length todo))
           (assignOwner field relation preloadMap (RCell aown)) st = (st', Ok tt) /\
      eng st' = eng st /\
      trace (world st') = trace (world st) /\
      List.length (heap (world st')) = List.length (heap (world st)) /\
      (forall o a, o ∈ todo -> addrOf o = Some a ->
         reflect.field_get (heap (world st')) a (Name field)
         = Some (VSlice u (Some (grown (held (heap (world st)) (Name field) o)
                                       (sel (key o)))))) /\
      (forall a, a ∉ omap addrOf todo ->
         heap (world st') !! a = heap (world st) !! a).
Proof.
  induction todo as [|o todo IH]; intros done st Ha Hp Hnd.
  - exists st. cbn. repeat split; try done. intros o a Ho. by apply elem_of_nil in Ho.
  - apply Forall_cons in Hp as [Ho Hp].
    pose proof Ho as [(a & ty & fs & xs & Hao & Hc & Hg) Hk].
    cbn [omap list_omap] in Hnd. rewrite Hao in Hnd.
    apply NoDup_cons in Hnd as [Hnin Hnd].
    assert (Hne : a <> aown) by (intros ->; rewrite Ha in Hc; discriminate).
    set (h1 := reflect.field_set (heap (world st)) a (Name field)
                 (VSlice u (Some (grown (held (heap (world st)) (Name field) o)
                                        (sel (key o)))))).
    set (st1 := set_world (set_heap h1 (world st)) st).
    assert (Hfr1 : forall a', a' <> a -> h1 !! a' = heap (world st) !! a').
    { intros a' Hne'. unfold h1. by rewrite field_set_lookup_ne. }
    destruct (IH (done ++ [o]) st1) as (st' & Hrun & He & Ht & Hl & Hset & Hfr).
    { cbn. rewrite Hfr1 by done. by rewrite <- app_assoc. }
    { cbn. apply Forall_forall. intros o' Ho'.
      rewrite Forall_forall in Hp. specialize (Hp o' Ho').
      pose proof Hp as [(a' & ty' & fs' & xs' & Hao' & _) _].
      eapply pending_frame; [exact Hao'| |exact Hp].
      apply Hfr1. intros ->. apply Hnin. apply list_elem_of_omap. eauto. }
    { exact Hnd. }
    exists st'. split; [|repeat split].
    + cbn [List.length seq forM]. unfold bind at 1.
      rewrite (assignOwner_run st (done ++ o :: todo) (List.length done) o a); try done.
      * fold h1 st1. rewrite length_app, Nat.add_1_r in Hrun. exact Hrun.
      * rewrite lookup_app_r by lia. by rewrite Nat.sub_diag.
    + by rewrite He.
    + by rewrite Ht.
    + rewrite Hl. cbn. unfold h1. apply field_set_length.
    + intros o' a' Ho' Hao'. apply elem_of_cons in Ho' as [->|Ho'].
      * assert (a' = a) as -> by congruence.
        unfold reflect.field_get. rewrite Hfr by done. cbn. unfold h1.
        rewrite (field_set_lookup_eq _ _ _ _ _ _ Hc).
        apply assoc_get_set_eq.
      * rewrite (Hset o' a' Ho' Hao'). do 4 f_equal.
        apply (held_frame _ _ _ _ a' Hao'). cbn. apply Hfr1.
        intros ->. apply Hnin. apply list_elem_of_omap. eauto.
    + intros a' Hnin'. cbn [omap list_omap] in Hnin'. rewrite Hao in Hnin'.
      apply not_elem_of_cons in Hnin' as [Hne' Hnin'].
      rewrite Hfr by done. cbn. by apply Hfr1.
Qed.
End Loop.
End Assign.

Section HasMany.
Context `{Collaborators}.
Import model hooks.

Lemma bind_run {S A B} (m : M S A) (k : A -> M S B) (s s1 : S) (a : A) :
  m s = (s1, Ok a) -> bind m k s = k a s1.
Proof. intros Hm. unfold bind. by rewrite Hm. Qed.

Lemma call_on_run {A} (ne : engine.Engine) (m : M St A) (s s1 : St) (a : A) :
  m (set_eng ne s) = (s1, Ok a) ->
  call_on ne m s = (set_eng (eng s) s1, Ok (eng s1, a)).
Proof. intros Hm. unfold call_on, try_on, bind. rewrite Hm. reflexivity. Qed.

Lemma conditions_copied (e : engine.Engine) (conditions : list GoValue) :
  PreloadDBWithConditions e conditions = (engine_Clone e, conditions).
Proof.
  unfold PreloadDBWithConditions. f_equal.
  assert (Hg : forall acc, foldl (fun acc c => acc ++ [c]) acc conditions
                           = acc ++ conditions).
  { induction conditions as [|c cs IH]; intros acc; cbn.
    - by rewrite app_nil_r.
    - rewrite IH. by rewrite <- app_assoc. }
  apply (Hg []).
Qed.

Lemma hasManyEngine_scope (e : engine.Engine) (relation : Relationship)
      (conditions : list GoValue) (keys : list (list GoValue)) (results : GoValue) :
  Preload (engine.Search (hasManyEngine e relation conditions keys results))
  = Preload (engine.Search (engine_Clone e)) /\
  data (engine.Scope (hasManyEngine e relation conditions keys results))
  = data (engine.Scope (engine_Clone e)) /\
  Value (engine.Scope (hasManyEngine e relation conditions keys results)) = results.
Proof.
  unfold hasManyEngine. rewrite conditions_copied.
  destruct (decide (PolymorphicType relation <> "")); done.
Qed.

Lemma hasManyEngine_conds (e : engine.Engine) (relation : Relationship)
      (conditions : list GoValue) (keys : list (list GoValue)) (results : GoValue) :
  PolymorphicType relation = "" ->
  Conds (engine.Search (hasManyEngine e relation conditions keys results))
  = Conds (engine.Search (engine_Clone e))
    ++ [CWhere (VString (scope_ToQueryCondition e (ForeignDBNames relation)
                         +:+ " IN (" +:+ util_ToQueryMarks keys +:+ ")"))
               (util_ToQueryValues keys);
        CInline conditions].
Proof.
  intros Hp. unfold hasManyEngine. rewrite conditions_copied.
  rewrite decide_False by (by intros []).
  cbn. by rewrite <- app_assoc.
Qed.

(** C1, as the code has it.  The owners are distinct records behind the
    slice the scope points to, each with a relationship field that is a
    slice, whatever it holds; the collected key list is not empty; the book
    holds the built-in query pipeline, and the backend answers the query with
    [rows].  Then [PreloadHasMany] succeeds after exactly one query, the one
    built from the clone with the IN predicate over the collected keys and
    the caller's conditions; the rows are scanned into fresh records behind
    the heap, the records that were there are left alone.  The relationship
    field of an owner that no row matches ends as an explicit empty
    sequence, whatever it held.  The field of an owner with matching rows
    ends as what it held followed by the scanned rows whose rendered foreign
    key ([rowKey]) equals the owner's rendered association key ([ownerKey]),
    in the order of the result: its length is the number of those rows only
    where the field held no element. *)
Theorem has_many_preload (fuel : nat) (b : Book) (field : Field)
        (relation : Relationship) (conditions : list GoValue) (st : St)
        (aown : addr) (town u : type) (owners : list GoValue)
        (q : string) (args : list GoValue) (rows : sql.Rows) :
  let e := eng st in
  let h := heap (world st) in
  let keys := util_ColumnAsArray (AssociationForeignFieldNames relation) h
                                 (Value (engine.Scope e)) in
  let results := VPtr (Some (List.length h)) in
  let pdb := hasManyEngine e relation conditions keys results in
  Relationship_ field = Some relation ->
  Type_ (Struct field) = TSlice u ->
  Value (engine.Scope e) = VPtr (Some aown) ->
  h !! aown = Some (CVar (VSlice town (Some owners))) ->
  Forall (sliceOwner h (Name field) u) owners ->
  NoDup (omap addrOf owners) ->
  keys <> [] ->
  QueryPipeline b ->
  PlainClone e ->
  builder_PrepareQuery pdb (h ++ [CVar (VSlice u (Some []))]) results
  = Ok (q, args) ->
  sql.Query SQLDB (trace (world st)) q args = Ok rows ->
  ScansLocally (rowType u) ->
  KeyLocal relation ->
  exists (st' : St) (h2 : list Cell) (rowvals : list GoValue),
    PreloadHasMany (book_driver (3 + fuel) b) field conditions st = (st', Ok tt) /\
    eng st' = e /\
    trace (world st') = trace (world st) ++ [sql.EvQuery q args] /\
    (PolymorphicType relation = "" ->
     Conds (engine.Search pdb)
     = Conds (engine.Search (engine_Clone e))
       ++ [CWhere (VString (scope_ToQueryCondition e (ForeignDBNames relation)
                            +:+ " IN (" +:+ util_ToQueryMarks keys +:+ ")"))
                  (util_ToQueryValues keys);
           CInline conditions]) /\
    h2 !! List.length h = Some (CVar (VSlice u (Some rowvals))) /\
    List.length rowvals = List.length (sql.Next rows) /\
    (forall a, (a < List.length h)%nat -> h2 !! a = h !! a) /\
    (forall o a, o ∈ owners -> addrOf o = Some a ->
       reflect.field_get (heap (world st')) a (Name field)
       = Some (VSlice u (Some (grown (held h (Name field) o)
                                     (related relation h2 h rowvals o))))) /\
    (forall o a, o ∈ owners -> addrOf o = Some a ->
       held h (Name field) o = [] ->
       reflect.field_get (heap (world st')) a (Name field)
       = Some (VSlice u (Some (related relation h2 h rowvals o)))) /\
    (forall a, a ∉ omap addrOf owners -> heap (world st') !! a = h2 !! a).
Proof.
  intros e h keys results pdb Hrel Htype Hval Hown Hempty Hnd Hkeys Hbook
         (Hc1 & Hc2 & Hc3 & Hc4) Hprep Hquery Hscan Hlocal.
  destruct (hasManyEngine_scope e relation conditions keys results)
    as (Hp1 & Hp2 & Hp3). fold pdb in Hp1, Hp2, Hp3.
  assert (Hlt : (aown < List.length h)%nat) by (by eapply lookup_lt_Some).
  set (h1 := h ++ [CVar (VSlice u (Some []))]).
  set (st1 := set_world (set_heap h1 (world st)) st).
  destruct (Query_run fuel b (set_eng pdb st1) (List.length h) u q args rows)
    as (st2 & rowvals & Hrun & Htr & Hlen & Hhl & Hres & Hfr).
  { exact Hbook. }
  { change (Preload (engine.Search pdb) = None). by rewrite Hp1. }
  { change (assoc_get OrderByPK (data (engine.Scope pdb)) = None). by rewrite Hp2. }
  { change (assoc_get QueryDestination (data (engine.Scope pdb)) = None).
    by rewrite Hp2. }
  { change (assoc_get QueryOption (data (engine.Scope pdb)) = None). by rewrite Hp2. }
  { exact Hp3. }
  { change (h1 !! List.length h = Some (CVar (VSlice u (Some [])))).
    unfold h1. rewrite lookup_app_r by lia. by rewrite Nat.sub_diag. }
  { exact Hprep. }
  { exact Hquery. }
  { exact Hscan. }
  cbn in Htr, Hhl, Hres, Hfr. unfold h1 in Hhl, Hfr. rewrite length_app in Hhl, Hfr.
  cbn in Hhl, Hfr.
  set (h2 := heap (world st2)) in *.
  assert (Hold : forall a, (a < List.length h)%nat -> h2 !! a = h !! a).
  { intros a Ha. rewrite Hfr by lia. by rewrite lookup_app_l. }
  set (st3 := set_eng e st2).
  destruct (assign_loop field relation u aown town
              (groupRows h2 (RCell (List.length h)) (ForeignFieldNames relation))
              (fun k => filter (fun r => rowKey relation h2 r = k) rowvals)
              (fun o => ownerKey relation h o)
              (fun k => groupRows_lookup h2 (List.length h) u rowvals
                          (ForeignFieldNames relation) k Hres)
              Hlocal owners [] st3)
    as (st' & Hloop & He & Ht & Hl & Hset & Hframe).
  { cbn. fold h2. rewrite Hold by done. exact Hown. }
  { cbn. fold h2. apply Forall_forall. intros o Ho.
    rewrite Forall_forall in Hempty. specialize (Hempty o Ho).
    pose proof Hempty as (a & ty & fs & xs & Hao & Hc & _).
    eapply (pending_frame field relation u _ Hlocal h h2 o a); [done| |by split].
    apply Hold. by eapply lookup_lt_Some. }
  { exact Hnd. }
  assert (Hfield : forall o a, o ∈ owners -> addrOf o = Some a ->
            reflect.field_get (heap (world st')) a (Name field)
            = Some (VSlice u (Some (grown (held h (Name field) o)
                                          (related relation h2 h rowvals o))))).
  { intros o a Ho Hao. rewrite (Hset o a Ho Hao). do 4 f_equal.
    rewrite Forall_forall in Hempty.
    destruct (Hempty o Ho) as (a' & ty & fs & xs & Hao' & Hc & _).
    assert (a' = a) as -> by congruence.
    apply (held_frame _ _ _ _ a Hao). cbn. fold h2. apply Hold.
    by eapply lookup_lt_Some. }
  exists st', h2, rowvals. split; [|repeat split].
  - unfold PreloadHasMany, relationOf. rewrite Hrel.
    unfold bind at 1, ret at 1. unfold bind at 1, getE, gets at 1.
    unfold bind at 1, getH, gets at 1. fold e h keys.
    rewrite decide_False by (by destruct keys).
    rewrite (bind_run _ _ st st1 results).
    2:{ rewrite Htype. reflexivity. }
    fold pdb. unfold bind at 1.
    rewrite (call_on_run pdb _ st1 st2 tt Hrun).
    change (set_eng (eng st1) st2) with st3.
    unfold bind at 1, gets at 1. change (heap (world st3)) with h2.
    assert (HrV : valueOfIndirect h2 results = RCell (List.length h)) by reflexivity.
    assert (HiV : valueOfIndirect h2 (Value (engine.Scope e)) = RCell aown).
    { rewrite Hval. reflexivity. }
    rewrite HrV, HiV.
    assert (Hk : reflect.Kind_ h2 (RCell aown) = reflect.Slice).
    { unfold reflect.Kind_, reflect.Interface. unfold addr in *.
      rewrite Hold by done. subst h. by rewrite Hown. }
    rewrite decide_True by exact Hk.
    assert (HL : reflect.Len h2 (RCell aown) = List.length owners).
    { unfold reflect.Len, reflect.Interface. unfold addr in *.
      rewrite Hold by done. subst h. by rewrite Hown. }
    rewrite HL. exact Hloop.
  - by rewrite He.
  - rewrite Ht. exact Htr.
  - apply hasManyEngine_conds.
  - exact Hres.
  - exact Hlen.
  - exact Hold.
  - exact Hfield.
  - intros o a Ho Hao Hnone. rewrite (Hfield o a Ho Hao), Hnone.
    unfold grown. by destruct (related relation h2 h rowvals o).
  - exact Hframe.
Qed.
End HasMany.


Section DemoFacts.
Import model.

(** The demo metadata service scans into the record it was asked about. *)
Lemma Demo_scan_local (fields : list Field) (a : addr) (l : list (string * GoValue)) :
  Forall (fun f : Field => exists name, Field_ f = RField a name true) fields ->
  forall (h : list Cell) (ty : string) (fs : list (string * GoValue)),
    List.length h = a ->
    exists fs',
      foldl (fun h '(column, v) =>
               match List.find (fun f : Field => String.eqb (DBName f) column) fields with
               | Some f =>
                   match Field_ f with
                   | RField a name true => reflect.field_set h a name v
                   | RCell c => <[c := CVar v]> h
                   | _ => h
                   end
               | None => h
               end)
            (h ++ [CStruct ty fs]) l
      = h ++ [CStruct ty fs'].
Proof.
  intros Hf. induction l as [|[column v] l IH]; intros h ty fs Hl; [by eexists|].
  cbn [foldl].
  destruct (List.find _ fields) as [f|] eqn:Hfind; [|by apply IH].
  apply find_some in Hfind as [Hin _].
  rewrite Forall_forall in Hf. destruct (Hf f) as [name Hname].
  { by apply list_elem_of_In. }
  rewrite Hname.
  assert (Hc : (h ++ [CStruct ty fs]) !! a = Some (CStruct ty fs)).
  { rewrite lookup_app_r by lia. by rewrite Hl, Nat.sub_diag. }
  unfold reflect.field_set. unfold addr in *. rewrite Hc.
  rewrite insert_app_r_alt by lia. rewrite Hl, Nat.sub_diag. cbn [insert list_insert].
  by apply IH.
Qed.

Lemma Demo_ScansLocally (meta : string -> list StructField) (omit : list string)
      (db : sql.DB) (ty : string) :
  hooks.ScansLocally (H := Demo.collaborators meta omit db) (TStruct ty).
Proof.
  split; [cbn; eauto|].
  intros e h columns row. cbn.
  unfold Demo.fieldsOf, Demo.structOf.
  rewrite lookup_app_r by lia. rewrite Nat.sub_diag. cbn [lookup list_lookup].
  eexists. 
  edestruct (Demo_scan_local
               (List.map (fun sf =>
                  {| StructField_ := sf;
                     IsBlank := Demo.isBlank (default VNil (assoc_get (Name sf)
                        (List.map (fun sf => (Name sf, Demo.zero_of (Type_ (Struct sf)))) (meta ty))));
                     Field_ := RField (List.length h) (Name sf) true |}) (meta ty))
               (List.length h) (zip columns row)) as [fs' Hfs'].
  { apply Forall_forall. intros f Hf. apply list_elem_of_In, in_map_iff in Hf as (sf & <- & _).
    eauto. }
  { reflexivity. }
  eexists. split; [reflexivity|]. unfold Demo.scanRow. exact Hfs'.
Qed.

Lemma Demo_KeyLocal (meta : string -> list StructField) (omit : list string)
      (db : sql.DB) (relation : Relationship) :
  hooks.KeyLocal (H := Demo.collaborators meta omit db) relation.
Proof.
  intros h h' o a ty fs Hao Hc Hc'. cbn.
  destruct o as [| | | | |a'|[a'|]| |]; try discriminate; injection Hao as ->;
    cbn; unfold addr in *; rewrite ?Hc, ?Hc'; unfold Demo.keysOf, Demo.structOf;
    unfold addr in *; by rewrite Hc, Hc'.
Qed.

End DemoFacts.

(** The theorem at Ann, who holds one email when the preloader is called:
    the query delivers two rows with her key, and her field ends with what
    it held followed by these rows. *)
Lemma has_many_preload_witness :
  exists (st' : St) (h2 : list Cell) (rowvals : list GoValue),
    hooks.PreloadHasMany (H := Inputs.annMail)
      (book_driver 3 (Inputs.queryBook Inputs.annMail)) Inputs.emailsMeta []
      Inputs.annWithMail = (st', Ok tt) /\
    eng st' = eng Inputs.annWithMail /\
    trace (world st')
    = [sql.EvQuery "SELECT * FROM Email WHERE user_id IN (?)" [VInt64 1]] /\
    h2 !! 3%nat = Some (CVar (VSlice (TStruct "Email") (Some rowvals))) /\
    List.length rowvals = 2%nat /\
    reflect.field_get (heap (world st')) 1%nat "Emails"
    = Some (VSlice (TStruct "Email")
              (Some (hooks.grown [VStruct 2%nat]
                       (hooks.related (H := Inputs.annMail) Inputs.emails h2
                          (heap (world Inputs.annWithMail)) rowvals
                          (VStruct 1%nat))))).
Proof.
  destruct (has_many_preload (H := Inputs.annMail) 0
              (Inputs.queryBook Inputs.annMail)
              Inputs.emailsMeta Inputs.emails [] Inputs.annWithMail 0%nat
              (TStruct "User") (TStruct "Email") [VStruct 1%nat]
              "SELECT * FROM Email WHERE user_id IN (?)" [VInt64 1]
              Inputs.annRows)
    as (st' & h2 & rowvals & Hrun & He & Ht & _ & Hres & Hlen & _ & Hset & _).
  - reflexivity.
  - reflexivity.
  - reflexivity.
  - reflexivity.
  - repeat constructor.
    exists 1%nat, "User", [("ID", VInt64 1); ("Name", VString "ann");
                           ("Emails", VSlice (TStruct "Email")
                                             (Some [VStruct 2%nat]))],
           (Some [VStruct 2%nat]).
    repeat split; reflexivity.
  - vm_compute. apply NoDup_singleton.
  - vm_compute. discriminate.
  - repeat split; reflexivity.
  - repeat split; reflexivity.
  - vm_compute. reflexivity.
  - reflexivity.
  - apply Demo_ScansLocally.
  - apply Demo_KeyLocal.
  - exists st', h2, rowvals. repeat split; try assumption.
    apply (Hset (VStruct 1%nat) 1%nat); [by left|reflexivity].
Defined.

(** Ann and Bob end with their emails, in the order of the result. *)
Lemma has_many_two_users :
  let r := hooks.PreloadHasMany (H := Inputs.mail)
             (book_driver 3 (Inputs.queryBook Inputs.mail)) Inputs.emailsMeta []
             Inputs.twoUsers in
  snd r = Ok tt /\
  trace (world (fst r)) =
    [sql.EvQuery "SELECT * FROM Email WHERE user_id IN (?,?)" [VInt64 1; VInt64 2]] /\
  reflect.field_get (heap (world (fst r))) 1%nat "Emails"
  = Some (VSlice (TStruct "Email") (Some [VStruct 4%nat; VStruct 6%nat])) /\
  reflect.field_get (heap (world (fst r))) 2%nat "Emails"
  = Some (VSlice (TStruct "Email") (Some [VStruct 5%nat])).
Proof. vm_compute. repeat split; reflexivity. Qed.

(** On the backend that delivers Ann's emails only, Bob ends with an
    empty sequence where he had nil. *)
Lemma has_many_unmatched_owner :
  let r := hooks.PreloadHasMany (H := Inputs.annMail)
             (book_driver 3 (Inputs.queryBook Inputs.annMail)) Inputs.emailsMeta []
             Inputs.twoUsers in
  snd r = Ok tt /\
  reflect.field_get (heap (world Inputs.twoUsers)) 2%nat "Emails"
  = Some (VSlice (TStruct "Email") None) /\
  reflect.field_get (heap (world (fst r))) 2%nat "Emails"
  = Some (VSlice (TStruct "Email") (Some [])).
Proof. vm_compute. repeat split; reflexivity. Qed.

(** C1 as stated fails where an owner holds elements already: the second
    loop appends the matching rows to what the field holds.  Ann holds one
    email; the query delivers her two emails, in cells 4 and 5; afterwards
    her field holds three elements, and two rows have her key. *)
Lemma has_many_appends_to_held_rows :
  let r := hooks.PreloadHasMany (H := Inputs.annMail)
             (book_driver 3 (Inputs.queryBook Inputs.annMail)) Inputs.emailsMeta []
             Inputs.annWithMail in
  snd r = Ok tt /\
  trace (world (fst r)) =
    [sql.EvQuery "SELECT * FROM Email WHERE user_id IN (?)" [VInt64 1]] /\
  heap (world (fst r)) !! 3%nat
  = Some (CVar (VSlice (TStruct "Email") (Some [VStruct 4%nat; VStruct 5%nat]))) /\
  hooks.related (H := Inputs.annMail) Inputs.emails (heap (world (fst r)))
                (heap (world Inputs.annWithMail)) [VStruct 4%nat; VStruct 5%nat]
                (VStruct 1%nat)
  = [VStruct 4%nat; VStruct 5%nat] /\
  reflect.field_get (heap (world (fst r))) 1%nat "Emails"
  = Some (VSlice (TStruct "Email")
            (Some [VStruct 2%nat; VStruct 4%nat; VStruct 5%nat])).
Proof. vm_compute. repeat split; reflexivity. Qed.

(** Nor is there a query when there is no owner: the key list is empty
    and the preloader returns at once. *)
Lemma has_many_no_owner_no_query :
  let r := hooks.PreloadHasMany (H := Inputs.quiet)
             (book_driver 3 (Inputs.queryBook Inputs.quiet)) Inputs.emailsMeta []
             Inputs.noUsers in
  snd r = Ok tt /\ trace (world (fst r)) = [] /\
  heap (world (fst r)) = heap (world Inputs.noUsers).
Proof. vm_compute. repeat split; reflexivity. Qed.

(** ** The preloader's bookkeeping *)

Section PreloadOnce.
Context `{Collaborators}.
Import model hooks GoStrings.

(** [ColumnAsScope] reads the heap and answers: it leaves the state alone. *)
Lemma ColumnAsScope_state (e : engine.Engine) (column : string) (st : St) :
  fst (ColumnAsScope e column st) = st.
Proof.
  unfold ColumnAsScope, bind, getH, gets, lift, ret, fail.
  destruct (reflect.Kind_ _ _); try reflexivity.
  - destruct (reflect.FieldByName _ _ _) as [f| | |]; try reflexivity.
    destruct (reflect.CanAddr f); [|reflexivity].
    destruct (reflect.Addr _ _); reflexivity.
  - destruct (scope_GetModelStruct _ _ _) as [m| | |]; try reflexivity.
    destruct (type_FieldByName _ _); [|reflexivity].
    destruct (columnValues _ _ _ _ _) as [[rm results]| | |]; reflexivity.
Qed.

Lemma preloadPath_done (b : Driver) (preload : SearchPreload)
      (preloadFields : list string) (rest : list string) :
  forall (idx : nat) (cs : engine.Engine) (currentFields : list Field)
         (preloadedMap : gmap string bool) (st : St),
    (forall k, k ∈ keysFrom preloadFields idx (List.length rest) ->
               preloadedMap !! k = Some true) ->
    exists r,
      preloadPath b preload preloadFields idx rest cs currentFields
                  preloadedMap st = (st, r) /\
      forall m, r = Ok m -> m = preloadedMap.
Proof.
  induction rest as [|preloadField rest IH]; intros idx cs cf m st Hk.
  - eexists. split; [reflexivity|]. intros m' Hm. by injection Hm.
  - cbn [preloadPath].
    rewrite (Hk (Join (take (S idx) preloadFields) ".")).
    2:{ unfold keysFrom. cbn. apply elem_of_cons. by left. }
    cbn [default from_option id negb]. unfold bind at 1. unfold ret at 1. cbv beta iota.
    assert (Hk' : forall k, k ∈ keysFrom preloadFields (S idx) (List.length rest) ->
                            m !! k = Some true).
    { intros k Hin. apply Hk. unfold keysFrom in *. cbn. apply elem_of_cons. by right. }
    destruct (decide (idx < List.length preloadFields - 1)%nat).
    + unfold bind at 1.
      pose proof (ColumnAsScope_state cs preloadField st) as Hc.
      destruct (ColumnAsScope cs preloadField st) as [st1 [cs1| | |]];
        cbn in Hc; subst st1; try (eexists; split; [reflexivity|intros; discriminate]).
      unfold bind at 1, getH, gets. unfold bind at 1, lift.
      destruct (scope_Fields _ _ _) as [cf1| | |];
        try (eexists; split; [reflexivity|intros; discriminate]).
      apply IH, Hk'.
    + apply IH, Hk'.
Qed.

Lemma preloadPath_grows (b : Driver) (preload : SearchPreload)
      (preloadFields : list string) (rest : list string) :
  forall (idx : nat) (cs : engine.Engine) (currentFields : list Field)
         (preloadedMap m' : gmap string bool) (st st' : St),
    preloadPath b preload preloadFields idx rest cs currentFields
                preloadedMap st = (st', Ok m') ->
    (forall k, preloadedMap !! k = Some true -> m' !! k = Some true) /\
    (forall k, k ∈ keysFrom preloadFields idx (List.length rest) ->
               m' !! k = Some true).
Proof.
  induction rest as [|preloadField rest IH]; intros idx cs cf m m' st st' Hrun.
  - cbn in Hrun. injection Hrun as _ <-. split; [done|].
    intros k Hk. by apply elem_of_nil in Hk.
  - cbn [preloadPath] in Hrun.
    apply bind_Ok in Hrun as (s1 & [cs1 m1] & Hfirst & Hrest).
    set (key := Join (take (S idx) preloadFields) ".") in *.
    assert (Hm1 : (forall k, m !! k = Some true -> m1 !! k = Some true) /\
                  m1 !! key = Some true).
    { destruct (m !! key) as [[|]|] eqn:Hkey; cbn in Hfirst.
      - injection Hfirst as _ _ <-. done.
      - apply bind_Ok in Hfirst as (s2 & [cs2 [|]] & _ & Hf).
        + injection Hf as _ _ <-. split.
          * intros k Hk. destruct (decide (k = key)) as [->|Hne].
            -- by rewrite lookup_insert_eq.
            -- by rewrite lookup_insert_ne.
          * by rewrite lookup_insert_eq.
        + unfold bind, getE, getH, gets, lift in Hf.
          destruct (scope_GetModelStruct _ _ _); discriminate.
      - apply bind_Ok in Hfirst as (s2 & [cs2 [|]] & _ & Hf).
        + injection Hf as _ _ <-. split.
          * intros k Hk. destruct (decide (k = key)) as [->|Hne].
            -- by rewrite lookup_insert_eq.
            -- by rewrite lookup_insert_ne.
          * by rewrite lookup_insert_eq.
        + unfold bind, getE, getH, gets, lift in Hf.
          destruct (scope_GetModelStruct _ _ _); discriminate. }
    destruct Hm1 as [Hmono Hkey].
    assert (Htail : exists cs2 cf2 s2,
               preloadPath b preload preloadFields (S idx) rest cs2 cf2 m1 s2
               = (st', Ok m')).
    { destruct (decide _) in Hrest; [|eauto].
      apply bind_Ok in Hrest as (s2 & cs2 & _ & Hrest).
      apply bind_Ok in Hrest as (s3 & h3 & _ & Hrest).
      apply bind_Ok in Hrest as (s4 & cf4 & _ & Hrest). eauto. }
    destruct Htail as (cs2 & cf2 & s2 & Htail).
    apply IH in Htail as [Hmono' Hkeys'].
    split; [auto|].
    intros k Hk. unfold keysFrom in Hk. cbn in Hk.
    apply elem_of_cons in Hk as [->|Hk]; [by apply Hmono'|by apply Hkeys'].
Qed.

Lemma preloadPath_done_single (b : Driver) (preload : SearchPreload)
      (preloadField : string) (cs : engine.Engine) (currentFields : list Field)
      (preloadedMap : gmap string bool) (st : St) :
  preloadedMap !! Join [preloadField] "." = Some true ->
  preloadPath b preload [preloadField] 0 [preloadField] cs currentFields
              preloadedMap st = (st, Ok preloadedMap).
Proof.
  intros Hk. cbn [preloadPath take]. rewrite Hk. reflexivity.
Qed.

(** X1.  A preload path that was listed before is not loaded again: when
    the list succeeds, the list followed by a path whose schema is among
    its own ends in the very same state, whatever conditions the repeated
    listing carries; nothing is sent to the backend for it and no record
    is touched.  For a path of one segment the repeated listing succeeds;
    for a longer one it can only fail on the walk down the path that was
    loaded. *)
Theorem preload_listed_twice (b : Driver) (fields : list Field)
        (again : SearchPreload) (preloads : list SearchPreload) :
  forall (preloadedMap : gmap string bool) (st st1 : St),
    ((exists preload, preload ∈ preloads /\ Schema preload = Schema again) \/
     (forall k, k ∈ keysFrom (Split (Schema again) ".") 0
                      (List.length (Split (Schema again) ".")) ->
                preloadedMap !! k = Some true)) ->
    preloadAll b fields preloads preloadedMap st = (st1, Ok tt) ->
    exists r,
      preloadAll b fields (preloads ++ [again]) preloadedMap st = (st1, r) /\
      (List.length (Split (Schema again) ".") = 1%nat -> r = Ok tt).
Proof.
  induction preloads as [|preload preloads IH]; intros m st st1 Hor Hrun.
  - destruct Hor as [(p & Hp & _)|Hk]; [by apply elem_of_nil in Hp|].
    cbn in Hrun. injection Hrun as <-.
    cbn [app preloadAll]. unfold bind at 1, getE, gets.
    destruct (preloadPath_done b again (Split (Schema again) ".")
                (Split (Schema again) ".") 0 (eng st) fields m st Hk)
      as (r & Hr & Hm).
    unfold bind. rewrite Hr.
    destruct r as [m0| | |].
    + eexists. split; [reflexivity|done].
    + eexists. split; [reflexivity|]. intros Hl.
      destruct (Split (Schema again) ".") as [|p [|? ?]] eqn:Hs; try discriminate.
      rewrite preloadPath_done_single in Hr; [discriminate|].
      apply Hk. unfold keysFrom. cbn. apply elem_of_cons. by left.
    + eexists. split; [reflexivity|]. intros Hl.
      destruct (Split (Schema again) ".") as [|p [|? ?]] eqn:Hs; try discriminate.
      rewrite preloadPath_done_single in Hr; [discriminate|].
      apply Hk. unfold keysFrom. cbn. apply elem_of_cons. by left.
    + eexists. split; [reflexivity|]. intros Hl.
      destruct (Split (Schema again) ".") as [|p [|? ?]] eqn:Hs; try discriminate.
      rewrite preloadPath_done_single in Hr; [discriminate|].
      apply Hk. unfold keysFrom. cbn. apply elem_of_cons. by left.
  - cbn [app preloadAll] in *.
    apply bind_Ok in Hrun as (s1 & cs & Hcs & Hrun).
    unfold getE, gets in Hcs. injection Hcs as <- <-.
    apply bind_Ok in Hrun as (s2 & m2 & Hpath & Hrun).
    unfold bind at 1, getE, gets. unfold bind at 1. rewrite Hpath.
    apply (IH m2 s2 st1); [|exact Hrun].
    apply preloadPath_grows in Hpath as [Hmono Hkeys].
    destruct Hor as [(p & Hp & Hsch)|Hk].
    + apply elem_of_cons in Hp as [->|Hp].
      * right. rewrite <- Hsch. exact Hkeys.
      * left. eauto.
    + right. intros k Hin. apply Hmono, Hk, Hin.
Qed.
End PreloadOnce.

(** The theorem at the path "Emails" of Ann and Bob, listed again with a
    condition. *)
Lemma preload_listed_twice_witness :
  exists r,
    hooks.preloadAll (H := Inputs.mail)
      (book_driver 4 (Inputs.queryBook Inputs.mail)) [Inputs.emailsMeta]
      ([Inputs.emailsPath] ++ [Inputs.emailsPathAgain]) ∅ Inputs.twoUsers
    = (fst (hooks.preloadAll (H := Inputs.mail)
              (book_driver 4 (Inputs.queryBook Inputs.mail)) [Inputs.emailsMeta]
              [Inputs.emailsPath] ∅ Inputs.twoUsers), r) /\
    (List.length (GoStrings.Split "Emails" ".") = 1%nat -> r = Ok tt).
Proof.
  apply (preload_listed_twice (H := Inputs.mail)
           (book_driver 4 (Inputs.queryBook Inputs.mail)) [Inputs.emailsMeta]
           Inputs.emailsPathAgain [Inputs.emailsPath] ∅ Inputs.twoUsers).
  - left. exists Inputs.emailsPath. split; [repeat constructor|reflexivity].
  - vm_compute. reflexivity.
Defined.

Section ColumnScope.
Context `{Collaborators}.
Import model hooks.













End ColumnScope.


(** ** Query execution, row by row *)

Section QueryRows.
Context `{Collaborators}.
Import model hooks.

(** Of the engine, the row loop changes the row count alone: one more for
    every row. *)
Lemma scanRows_counts (columns : list string) (results : RValue)
      (isSlice isPtr : bool) (t : type) (rows : list (list GoValue)) :
  forall st st',
    scanRows columns rows results isSlice isPtr t st = (st', Ok tt) ->
    eng st' = set_RowsAffected (engine.RowsAffected (eng st)
                                + Z.of_nat (List.length rows)) (eng st).
Proof.
  induction rows as [|row rows IH]; intros st st' Hrun.
  - cbn in Hrun. injection Hrun as <-. destruct st as [[? ? ? ?] ?]. cbn.
    unfold set_RowsAffected. cbn. f_equal. lia.
  - cbn [scanRows] in Hrun.
    apply bind_Ok in Hrun as (s1 & [] & H1 & Hrun).
    unfold modE, modify in H1. injection H1 as <-.
    apply bind_Ok in Hrun as (s2 & elem & H2 & Hrun).
    assert (He2 : eng s2 = set_RowsAffected (engine.RowsAffected (eng st) + 1) (eng st)).
    { destruct isSlice.
      - apply bind_Ok in H2 as (s & a & Ha & Hr). injection Hr as <- _.
        unfold on_heap, zoom, reflect.alloc in Ha. injection Ha as <- _. reflexivity.
      - injection H2 as <- _. reflexivity. }
    apply bind_Ok in Hrun as (s3 & h3 & H3 & Hrun). injection H3 as <- <-.
    apply bind_Ok in Hrun as (s4 & p & H4 & Hrun).
    unfold lift in H4. destruct (reflect.Addr _ _); try discriminate.
    injection H4 as <- <-.
    apply bind_Ok in Hrun as (s5 & e5 & H5 & Hrun). injection H5 as <- <-.
    apply bind_Ok in Hrun as (s6 & fields & H6 & Hrun).
    unfold lift in H6. destruct (scope_Fields _ _ _); try discriminate.
    injection H6 as <- <-.
    apply bind_Ok in Hrun as (s7 & [] & H7 & Hrun).
    unfold on_heap, zoom, modify in H7. injection H7 as <-.
    apply bind_Ok in Hrun as (s8 & [] & H8 & Hrun).
    assert (He8 : eng s8 = eng s2).
    { destruct isSlice.
      - apply bind_Ok in H8 as (s & h & Hh & H8). injection Hh as <- <-.
        destruct isPtr; unfold on_heap, zoom in H8;
          destruct (reflect.Set_ _ _ _) as [hh [[]| | |]]; try discriminate;
          injection H8 as <-; reflexivity.
      - injection H8 as <-. reflexivity. }
    apply IH in Hrun. rewrite Hrun, He8, He2.
    destruct (eng st) as [? ? ? ?]. unfold set_RowsAffected. cbn. f_equal.
    rewrite Nat2Z.inj_succ. lia.
Qed.

(** The rows one by one: the record of row [i] is the cell [i] cells
    behind the heap the loop started from, and the slice holds it at
    index [i]. *)
Lemma scanRows_rows (columns : list string) (ares : addr) (isPtr : bool)
      (t u : type) (rows : list (list GoValue)) :
  ScansLocally t ->
  forall (st st' : St) (acc new : list GoValue),
    heap (world st) !! ares = Some (CVar (VSlice u (Some acc))) ->
    scanRows columns rows (RCell ares) true isPtr t st = (st', Ok tt) ->
    heap (world st') !! ares = Some (CVar (VSlice u (Some (acc ++ new)))) ->
    forall (i : nat) (row : list GoValue),
      rows !! i = Some row ->
      exists c,
        heap (world st') !! (List.length (heap (world st)) + i)%nat = Some c /\
        scannedInto t columns row (List.length (heap (world st)) + i)%nat c /\
        new !! i = Some (rowElem isPtr (heap (world st'))
                                 (List.length (heap (world st)) + i)%nat).
Proof.
  intros Hs. pose proof Hs as [[zty [zfs Hz]] Hsc].
  induction rows as [|row0 rows IH]; intros st st' acc new Ha Hrun Hres i row Hi.
  { done. }
  destruct st as [e [hk tr]]. simpl in Ha. unfold addr in *.
  assert (Hlt : (ares < List.length hk)%nat) by (by eapply lookup_lt_Some).
  destruct (Hsc (set_RowsAffected (engine.RowsAffected e + 1) e) hk columns row0)
    as (fields & c & Hf & Hscan).
  assert (HAddr : reflect.Addr (hk ++ [reflect_Zero t]) (RCell (List.length hk))
                  = Ok (VPtr (Some (List.length hk)))).
  { unfold reflect.Addr, reflect.Interface. cbn.
    rewrite lookup_app_r by lia. rewrite Nat.sub_diag. cbn.
    by rewrite Hz. }
  assert (HI : reflect.Interface (hk ++ [c]) (RCell ares) = VSlice u (Some acc)).
  { unfold reflect.Interface. rewrite lookup_app_l by done. by rewrite Ha. }
  set (x := rowElem isPtr (hk ++ [c]) (List.length hk)).
  set (st1 := {| eng := set_RowsAffected (engine.RowsAffected e + 1) e;
                 world := {| heap := <[ares := CVar (VSlice u (Some (acc ++ [x])))]>
                                       (hk ++ [c]);
                             trace := tr |} |}).
  assert (Hstep : scanRows columns (row0 :: rows) (RCell ares) true isPtr t
                    {| eng := e; world := {| heap := hk; trace := tr |} |}
                  = scanRows columns rows (RCell ares) true isPtr t st1).
  { cbn [scanRows].
    unfold bind, modE, modify, getH, getE, gets, lift, on_heap, zoom, reflect.alloc, ret.
    cbn -[reflect.Addr reflect.Interface reflect.Append scanRows].
    rewrite HAddr. cbn -[reflect.Addr reflect.Interface reflect.Append scanRows].
    rewrite Hf. cbn -[reflect.Addr reflect.Interface reflect.Append scanRows].
    rewrite Hscan. rewrite HI. subst st1 x. unfold rowElem.
    destruct isPtr; cbn -[reflect.Interface scanRows]; reflexivity. }
  rewrite Hstep in Hrun.
  assert (Ha1 : heap (world st1) !! ares = Some (CVar (VSlice u (Some (acc ++ [x]))))).
  { cbn. rewrite list_lookup_insert_eq; [done|]. rewrite length_app. lia. }
  assert (Hl1 : List.length (heap (world st1)) = S (List.length hk)).
  { cbn. rewrite length_insert, length_app. cbn. lia. }
  destruct (scanRows_slice columns ares isPtr t u rows Hs st1 (acc ++ [x]) Ha1)
    as (st2 & new2 & Hrun2 & _ & _ & Hlen2 & _ & Hres2 & Hfr2).
  rewrite Hrun in Hrun2. injection Hrun2 as Hst. subst st2.
  assert (Hnew : new = x :: new2).
  { pose proof (eq_trans (eq_sym Hres) Hres2) as Heq. injection Heq as Heq.
    rewrite <- app_assoc in Heq. by apply app_inv_head in Heq. }
  assert (Hc : heap (world st') !! List.length hk = Some c).
  { rewrite Hfr2; [|lia|lia]. cbn. rewrite list_lookup_insert_ne by lia.
    rewrite lookup_app_r by lia. by rewrite Nat.sub_diag. }
  cbn [heap world].
  destruct i as [|i].
  - cbn in Hi. injection Hi as <-. exists c. rewrite Nat.add_0_r.
    split; [exact Hc|]. split.
    + exists (set_RowsAffected (engine.RowsAffected e + 1) e), hk, fields. done.
    + rewrite Hnew. cbn. f_equal. subst x. unfold rowElem. destruct isPtr; [done|].
      unfold reflect.Interface. unfold addr in *. rewrite Hc.
      rewrite lookup_app_r by lia. by rewrite Nat.sub_diag.
  - cbn in Hi.
    destruct (IH st1 st' (acc ++ [x]) new2 Ha1 Hrun) with (i := i) (row := row)
      as (c' & Hc' & Hsc' & Hn').
    { rewrite Hres, Hnew. by rewrite <- app_assoc. }
    { exact Hi. }
    rewrite Hl1 in Hc', Hsc', Hn'.
    replace (List.length hk + S i)%nat with (S (List.length hk) + i)%nat by lia.
    exists c'. split; [exact Hc'|]. split; [exact Hsc'|].
    rewrite Hnew. exact Hn'.
Qed.

(** X3.  [QueryExec] into a slice behind the pointer the scope holds.  The
    slice is emptied before the query is sent, so what it held is gone also
    when the backend refuses the query.  When the backend delivers rows, the
    slice ends with one element for every row, each scanned into a record
    of its own: row [i] is scanned into a fresh record in the cell [i] cells
    behind the heap of the call, and the slice holds that record (the
    pointer to it, for a slice of pointers) at index [i].  The engine's row
    count is the number of rows; the records that were there are left
    alone.  The statement sent is the scope's SQL, followed by the query
    option when there is one. *)
Theorem QueryExec_into_slice (d : Driver) (st : St) (ares : addr) (u : type)
        (xs : option (list GoValue)) :
  let e := eng st in
  let h := heap (world st) in
  let sent := sql.EvQuery (queriedSQL e) (SQLVars (engine.Scope e)) in
  let answer := sql.Query SQLDB (trace (world st)) (queriedSQL e)
                          (SQLVars (engine.Scope e)) in
  Value (engine.Scope e) = VPtr (Some ares) ->
  Scope_Get QueryDestination (engine.Scope e) = None ->
  h !! ares = Some (CVar (VSlice u xs)) ->
  ScansLocally (rowType u) ->
  (forall err, answer = Err err ->
     exists st',
       QueryExec d st = (st', Err err) /\
       trace (world st') = trace (world st) ++ [sent] /\
       heap (world st') = <[ares := CVar (VSlice u (Some []))]> h /\
       engine.RowsAffected (eng st') = 0) /\
  (forall rows, answer = Ok rows ->
     exists st' rowvals,
       QueryExec d st = (st', Ok tt) /\
       trace (world st') = trace (world st) ++ [sent] /\
       heap (world st') !! ares = Some (CVar (VSlice u (Some rowvals))) /\
       List.length rowvals = List.length (sql.Next rows) /\
       engine.RowsAffected (eng st') = Z.of_nat (List.length (sql.Next rows)) /\
       (forall a, (a < List.length h)%nat -> a <> ares ->
          heap (world st') !! a = h !! a) /\
       (forall (i : nat) (row : list GoValue),
          sql.Next rows !! i = Some row ->
          exists c,
            heap (world st') !! (List.length h + i)%nat = Some c /\
            scannedInto (rowType u) (sql.Columns rows) row
                        (List.length h + i)%nat c /\
            rowvals !! i
            = Some (rowElem (match u with TPtr _ => true | _ => false end)
                            (heap (world st')) (List.length h + i)%nat))).
Proof.
  intros e h sent answer Hv Hd Ha Hs. subst e h sent answer.
  destruct st as [e [h tr]]. simpl in *.
  assert (Hlt : (ares < List.length h)%nat) by (by eapply lookup_lt_Some).
  assert (Hdest : queryDestination e h = RCell ares).
  { unfold queryDestination. rewrite Hv, Hd. cbn. reflexivity. }
  assert (Hkind : reflect.Kind_ h (RCell ares) = reflect.Slice).
  { unfold reflect.Kind_, reflect.Interface. by rewrite Ha. }
  assert (HI : reflect.Interface h (RCell ares) = VSlice u xs).
  { unfold reflect.Interface. by rewrite Ha. }
  set (h1 := <[ares := CVar (VSlice u (Some []))]> h).
  set (isPtr := match u with TPtr _ => true | _ => false end).
  set (e1 := match Scope_Get QueryOption (engine.Scope e) with
             | Some str =>
                 on_Scope (fun s1 => set_SQL (SQL s1 +:+ util_AddExtraSpaceIfExist
                                                (fmt_Sprint str)) s1)
                          (set_RowsAffected 0 e)
             | None => set_RowsAffected 0 e
             end).
  assert (Hq1 : SQL (engine.Scope e1) = queriedSQL e /\
                SQLVars (engine.Scope e1) = SQLVars (engine.Scope e) /\
                engine.RowsAffected e1 = 0).
  { unfold e1, queriedSQL. destruct (Scope_Get QueryOption _); done. }
  destruct Hq1 as (Hq1 & Hv1 & Hr1).
  assert (Hhead :
    QueryExec d {| eng := e; world := {| heap := h; trace := tr |} |} =
    match sql.Query SQLDB tr (queriedSQL e) (SQLVars (engine.Scope e)) with
    | Ok rows =>
        (scanRows (sql.Columns rows) (sql.Next rows) (RCell ares) true isPtr
                  (rowType u);;; ret tt)
          {| eng := e1;
             world := {| heap := h1;
                         trace := tr ++ [sql.EvQuery (queriedSQL e)
                                                     (SQLVars (engine.Scope e))] |} |}
    | Err err =>
        ({| eng := e1;
            world := {| heap := h1;
                        trace := tr ++ [sql.EvQuery (queriedSQL e)
                                                    (SQLVars (engine.Scope e))] |} |},
         Err err)
    | Panic msg =>
        ({| eng := e1;
            world := {| heap := h1;
                        trace := tr ++ [sql.EvQuery (queriedSQL e)
                                                    (SQLVars (engine.Scope e))] |} |},
         Panic msg)
    | OutOfFuel =>
        ({| eng := e1;
            world := {| heap := h1;
                        trace := tr ++ [sql.EvQuery (queriedSQL e)
                                                    (SQLVars (engine.Scope e))] |} |},
         OutOfFuel)
    end).
  { unfold QueryExec, bind, getE, getH, gets, lift, modE, modify, ret.
    cbn -[queryDestination reflect.Kind_ reflect.Interface scanRows].
    rewrite Hdest, Hkind. cbn -[reflect.Interface scanRows]. rewrite HI.
    rewrite decide_True by done.
    rewrite <- Hq1, <- Hv1. subst e1 isPtr h1.
    destruct (Scope_Get QueryOption (engine.Scope e));
      destruct u; cbn -[scanRows];
      destruct (sql.Query _ _ _ _) as [rows| | |]; cbn -[scanRows]; try reflexivity;
      destruct (scanRows _ _ _ _ _ _ _) as [s' [[]| | |]]; try reflexivity;
      rewrite andb_false_r; reflexivity. }
  split.
  - intros err Herr. rewrite Hhead, Herr. eexists. repeat split; try reflexivity.
    exact Hr1.
  - intros rows Hrows. rewrite Hhead, Hrows.
    set (st1 := {| eng := e1; world := {| heap := h1; trace := _ |} |}).
    destruct (scanRows_slice (sql.Columns rows) ares isPtr (rowType u) u
                (sql.Next rows) Hs st1 [])
      as (st' & new & Hrun & Htr & Hse & Hlen & Hhl & Hres & Hfr).
    { cbn. unfold h1. by rewrite list_lookup_insert_eq. }
    pose proof (scanRows_counts _ _ _ _ _ _ _ _ Hrun) as Hcount.
    exists st', new. unfold bind. rewrite Hrun. cbn in *.
    repeat split; try done.
    + rewrite Hcount. cbn. rewrite Hr1. lia.
    + intros a Hlt' Hne. rewrite Hfr; [|by unfold h1; rewrite length_insert|done].
      unfold h1. by rewrite list_lookup_insert_ne.
    + intros i row Hi.
      destruct (scanRows_rows (sql.Columns rows) ares isPtr (rowType u) u
                  (sql.Next rows) Hs st1 st' [] new) with (i := i) (row := row)
        as (c & Hc & Hsc & Hn).
      { cbn. unfold h1. by rewrite list_lookup_insert_eq. }
      { exact Hrun. }
      { exact Hres. }
      { exact Hi. }
      cbn in Hc, Hsc, Hn. unfold h1 in Hc, Hsc, Hn.
      rewrite length_insert in Hc, Hsc, Hn. eauto.
Qed.
End QueryRows.

(** ** The other outcomes of the write steps *)

Section Returning.
Context `{Collaborators}.
Import model hooks.

(** X4.  [CreateExec] on a dialect with a returning suffix, for a record
    with a primary field.  The insert is sent as one row query, outside any
    transaction, whatever the dialect family.  A primary field that cannot
    be addressed is refused before anything is sent.  Otherwise the value
    the row delivers is stored in the primary field, blank or not, and the
    row count is 1; when the backend refuses, its error is returned and
    the record and the row count are as they were. *)
Theorem CreateExec_returning (d : Driver) (st : St) (pf : Field) :
  let e := eng st in
  let h := heap (world st) in
  let q := SQL (engine.Scope e) in
  let args := SQLVars (engine.Scope e) in
  scope_PrimaryField e h (Value (engine.Scope e)) = Ok (Some pf) ->
  engine.LastInsertIDReturningSuffix (engine.Dialect_ e)
    (scope_QuotedTableName e h (Value (engine.Scope e)))
    (scope_Quote e (DBName pf)) <> "" ->
  (reflect.CanAddr (Field_ pf) = false ->
   CreateExec d st = (st, Err ErrUnaddressable)) /\
  (reflect.CanAddr (Field_ pf) = true ->
   (forall err, sql.QueryRowScan SQLDB (trace (world st)) q args = Err err ->
      CreateExec d st =
        (set_world (log (sql.EvQueryRow q args) (world st)) st, Err err)) /\
   (forall v a f v0,
      sql.QueryRowScan SQLDB (trace (world st)) q args = Ok v ->
      Field_ pf = RField a f true ->
      reflect.field_get h a f = Some v0 ->
      exists st',
        CreateExec d st = (st', Ok tt) /\
        trace (world st') = trace (world st) ++ [sql.EvQueryRow q args] /\
        heap (world st') = reflect.field_set h a f v /\
        reflect.Interface (heap (world st')) (Field_ pf) = v /\
        eng st' = set_RowsAffected 1 e)).
Proof.
  intros e h q args Hpf Hsuf. subst e h q args.
  apply String.eqb_neq in Hsuf.
  split; [|intros Hca; split].
  - intros Hca. unfold CreateExec, bind, getE, getH, gets, lift.
    rewrite Hpf, Hsuf, Hca. reflexivity.
  - intros err Herr. unfold CreateExec, bind, getE, getH, gets, lift.
    rewrite Hpf, Hsuf, Hca. unfold SQLDB_QueryRowScan, backend. rewrite Herr.
    reflexivity.
  - intros v a f v0 Hv Hf Hg. unfold CreateExec, bind, getE, getH, gets, lift.
    rewrite Hpf, Hsuf, Hca. unfold SQLDB_QueryRowScan, backend. rewrite Hv.
    rewrite Hf. cbn -[reflect.field_get reflect.field_set].
    eexists. repeat split.
    change (default VNil (reflect.field_get (reflect.field_set (heap (world st)) a f v) a f) = v).
    by erewrite field_set_get.
Qed.
End Returning.


(** ** The preloaders of a single owner, of has_one and of belongs_to *)

Section SingleOwner.
Context `{Collaborators}.
Import model hooks.

(** X5.  [PreloadHasMany] for a single owner record, behind the pointer the
    scope holds.  After the one query the relationship field is set to the
    sequence of all the rows delivered: what the field held is replaced, not
    kept in front as for the owners of a sequence, and no key of a row is
    looked at. *)
Theorem has_many_single_owner (fuel : nat) (b : Book) (field : Field)
        (relation : Relationship) (conditions : list GoValue) (st : St)
        (aown : addr) (ty : string) (fs : list (string * GoValue)) (u : type)
        (a : addr) (f : string) (v0 : GoValue)
        (q : string) (args : list GoValue) (rows : sql.Rows) :
  let e := eng st in
  let h := heap (world st) in
  let keys := util_ColumnAsArray (AssociationForeignFieldNames relation) h
                                 (Value (engine.Scope e)) in
  let results := VPtr (Some (List.length h)) in
  let pdb := hasManyEngine e relation conditions keys results in
  Relationship_ field = Some relation ->
  Type_ (Struct field) = TSlice u ->
  Value (engine.Scope e) = VPtr (Some aown) ->
  h !! aown = Some (CStruct ty fs) ->
  Field_ field = RField a f true ->
  reflect.field_get h a f = Some v0 ->
  keys <> [] ->
  QueryPipeline b ->
  PlainClone e ->
  builder_PrepareQuery pdb (h ++ [CVar (VSlice u (Some []))]) results
  = Ok (q, args) ->
  sql.Query SQLDB (trace (world st)) q args = Ok rows ->
  ScansLocally (rowType u) ->
  exists (st' : St) (rowvals : list GoValue),
    PreloadHasMany (book_driver (3 + fuel) b) field conditions st = (st', Ok tt) /\
    eng st' = e /\
    trace (world st') = trace (world st) ++ [sql.EvQuery q args] /\
    List.length rowvals = List.length (sql.Next rows) /\
    heap (world st') !! List.length h = Some (CVar (VSlice u (Some rowvals))) /\
    reflect.field_get (heap (world st')) a f = Some (VSlice u (Some rowvals)) /\
    (forall a', (a' < List.length h)%nat -> a' <> a ->
       heap (world st') !! a' = h !! a').
Proof.
  intros e h keys results pdb Hrel Htype Hval Hown Hf Hg Hkeys Hbook
         (Hc1 & Hc2 & Hc3 & Hc4) Hprep Hquery Hscan.
  destruct (hasManyEngine_scope e relation conditions keys results)
    as (Hp1 & Hp2 & Hp3). fold pdb in Hp1, Hp2, Hp3.
  assert (Hlt : (aown < List.length h)%nat) by (by eapply lookup_lt_Some).
  assert (Hca : exists ty' fs', h !! a = Some (CStruct ty' fs')).
  { unfold reflect.field_get in Hg. destruct (h !! a) as [[ty' fs'|]|]; try done. eauto. }
  destruct Hca as (ty' & fs' & Hca).
  assert (Hlta : (a < List.length h)%nat) by (by eapply lookup_lt_Some).
  set (h1 := h ++ [CVar (VSlice u (Some []))]).
  set (st1 := set_world (set_heap h1 (world st)) st).
  destruct (Query_run fuel b (set_eng pdb st1) (List.length h) u q args rows)
    as (st2 & rowvals & Hrun & Htr & Hlen & Hhl & Hres & Hfr).
  { exact Hbook. }
  { change (Preload (engine.Search pdb) = None). by rewrite Hp1. }
  { change (assoc_get OrderByPK (data (engine.Scope pdb)) = None). by rewrite Hp2. }
  { change (assoc_get QueryDestination (data (engine.Scope pdb)) = None).
    by rewrite Hp2. }
  { change (assoc_get QueryOption (data (engine.Scope pdb)) = None). by rewrite Hp2. }
  { exact Hp3. }
  { change (h1 !! List.length h = Some (CVar (VSlice u (Some [])))).
    unfold h1. rewrite lookup_app_r by lia. by rewrite Nat.sub_diag. }
  { exact Hprep. }
  { exact Hquery. }
  { exact Hscan. }
  cbn in Htr, Hhl, Hres, Hfr. unfold h1 in Hhl, Hfr. rewrite length_app in Hhl, Hfr.
  cbn in Hhl, Hfr.
  set (h2 := heap (world st2)) in *.
  assert (Hold : forall a, (a < List.length h)%nat -> h2 !! a = h !! a).
  { intros a0 Ha. rewrite Hfr by lia. by rewrite lookup_app_l. }
  set (st3 := set_eng e st2).
  set (x := VSlice u (Some rowvals)).
  exists (set_world (set_heap (reflect.field_set h2 a f x) (world st3)) st3), rowvals.
  split; [|repeat split].
  - unfold PreloadHasMany, relationOf. rewrite Hrel.
    unfold bind at 1, ret at 1. unfold bind at 1, getE, gets at 1.
    unfold bind at 1, getH, gets at 1. fold e h keys.
    rewrite decide_False by (by destruct keys).
    rewrite (bind_run _ _ st st1 results).
    2:{ rewrite Htype. reflexivity. }
    fold pdb. unfold bind at 1.
    rewrite (call_on_run pdb _ st1 st2 tt Hrun).
    change (set_eng (eng st1) st2) with st3.
    unfold bind at 1, gets at 1. change (heap (world st3)) with h2.
    assert (HrV : valueOfIndirect h2 results = RCell (List.length h)) by reflexivity.
    assert (HiV : valueOfIndirect h2 (Value (engine.Scope e)) = RCell aown).
    { rewrite Hval. reflexivity. }
    rewrite HrV, HiV.
    assert (Hk : reflect.Kind_ h2 (RCell aown) = reflect.Struct).
    { unfold reflect.Kind_, reflect.Interface. unfold addr in *.
      rewrite Hold by done. subst h. by rewrite Hown. }
    rewrite decide_False by (rewrite Hk; discriminate).
    assert (HI : reflect.Interface h2 (RCell (List.length h)) = x).
    { unfold reflect.Interface. unfold addr in *. by rewrite Hres. }
    rewrite HI. unfold Field_Set, on_heap, zoom. rewrite Hf. reflexivity.
  - exact Htr.
  - exact Hlen.
  - cbn. rewrite field_set_lookup_ne by lia. exact Hres.
  - cbn. eapply field_set_get. unfold reflect.field_get.
    rewrite Hold by done. fold h. unfold reflect.field_get in Hg. exact Hg.
  - intros a' Ha' Hne. cbn. rewrite field_set_lookup_ne by done. by apply Hold.
Qed.
End SingleOwner.

Section HasOne.
Context `{Collaborators}.
Import model hooks.

(** [PreloadHasOne] up to the end of its query: the state the two loops
    start from. *)
Lemma PreloadHasOne_query (fuel : nat) (b : Book) (field : Field)
      (rel : Relationship) (conditions : list GoValue) (st : St)
      (q : string) (args : list GoValue) (rows : sql.Rows) :
  let e := eng st in
  let h := heap (world st) in
  let u := resultElem (Type_ (Struct field)) in
  let keys := util_ColumnAsArray (AssociationForeignFieldNames rel) h
                                 (Value (engine.Scope e)) in
  let results := VPtr (Some (List.length h)) in
  let pdb := hasManyEngine e rel conditions keys results in
  Relationship_ field = Some rel ->
  keys <> [] ->
  QueryPipeline b ->
  PlainClone e ->
  builder_PrepareQuery pdb (h ++ [CVar (VSlice u (Some []))]) results
  = Ok (q, args) ->
  sql.Query SQLDB (trace (world st)) q args = Ok rows ->
  ScansLocally (rowType u) ->
  exists (st3 : St) (rowvals : list GoValue),
    eng st3 = e /\
    trace (world st3) = trace (world st) ++ [sql.EvQuery q args] /\
    List.length rowvals = List.length (sql.Next rows) /\
    heap (world st3) !! List.length h = Some (CVar (VSlice u (Some rowvals))) /\
    (forall a, (a < List.length h)%nat -> heap (world st3) !! a = h !! a) /\
    PreloadHasOne (book_driver (3 + fuel) b) field conditions st =
    (let h2 := heap (world st3) in
     let rVal := RCell (List.length h) in
     let iScopeVal := valueOfIndirect h2 (Value (engine.Scope e)) in
     if decide (reflect.Kind_ h2 iScopeVal = reflect.Slice) then
       forM (seq 0 (reflect.Len h2 iScopeVal))
            (fun j => hasOneInner field rel rVal iScopeVal j
                                  (seq 0 (List.length rowvals)))
     else
       forM (seq 0 (List.length rowvals))
            (fun i =>
               let! h := getH in
               on_heap (Field_Set field
                          (reflect.Interface h (reflect.Index h rVal i))))) st3.
Proof.
  intros e h u keys results pdb Hrel Hkeys Hbook (Hc1 & Hc2 & Hc3 & Hc4)
         Hprep Hquery Hscan.
  destruct (hasManyEngine_scope e rel conditions keys results)
    as (Hp1 & Hp2 & Hp3). fold pdb in Hp1, Hp2, Hp3.
  set (h1 := h ++ [CVar (VSlice u (Some []))]).
  set (st1 := set_world (set_heap h1 (world st)) st).
  destruct (Query_run fuel b (set_eng pdb st1) (List.length h) u q args rows)
    as (st2 & rowvals & Hrun & Htr & Hlen & Hhl & Hres & Hfr).
  { exact Hbook. }
  { change (Preload (engine.Search pdb) = None). by rewrite Hp1. }
  { change (assoc_get OrderByPK (data (engine.Scope pdb)) = None). by rewrite Hp2. }
  { change (assoc_get QueryDestination (data (engine.Scope pdb)) = None).
    by rewrite Hp2. }
  { change (assoc_get QueryOption (data (engine.Scope pdb)) = None). by rewrite Hp2. }
  { exact Hp3. }
  { change (h1 !! List.length h = Some (CVar (VSlice u (Some [])))).
    unfold h1. rewrite lookup_app_r by lia. by rewrite Nat.sub_diag. }
  { exact Hprep. }
  { exact Hquery. }
  { exact Hscan. }
  cbn in Htr, Hhl, Hres, Hfr. unfold h1 in Hhl, Hfr. rewrite length_app in Hhl, Hfr.
  cbn in Hhl, Hfr.
  set (h2 := heap (world st2)) in *.
  assert (Hold : forall a, (a < List.length h)%nat -> h2 !! a = h !! a).
  { intros a Ha. rewrite Hfr by lia. by rewrite lookup_app_l. }
  exists (set_eng e st2), rowvals.
  split; [reflexivity|]. split; [exact Htr|]. split; [exact Hlen|].
  split; [exact Hres|]. split; [exact Hold|].
  unfold PreloadHasOne, relationOf. rewrite Hrel.
  unfold bind at 1, ret at 1. unfold bind at 1, getE, gets at 1.
  unfold bind at 1, getH, gets at 1. fold e h keys.
  rewrite decide_False by (by destruct keys).
  rewrite conditions_copied.
  assert (Hpdb : pdb = hasManyEngine e rel conditions keys results) by reflexivity.
  unfold hasManyEngine in Hpdb. rewrite conditions_copied in Hpdb.
  destruct (decide (PolymorphicType rel <> "")).
  all: rewrite (bind_run _ _ st st1 results) by reflexivity.
  all: rewrite <- Hpdb; unfold bind at 1.
  all: rewrite (call_on_run pdb _ st1 st2 tt Hrun).
  all: unfold bind at 1, gets at 1.
  all: change (heap (world (set_eng (eng st1) st2))) with h2.
  all: assert (HrV : valueOfIndirect h2 results = RCell (List.length h)) by reflexivity.
  all: rewrite HrV.
  all: assert (HL : reflect.Len h2 (RCell (List.length h)) = List.length rowvals)
         by (unfold reflect.Len, reflect.Interface; unfold addr in *; by rewrite Hres).
  all: rewrite HL; reflexivity.
Qed.

(** The loop of the single-owner branch: the field is set to every row in
    turn. *)
Lemma setEach_run (field : Field) (a : addr) (f : string) (ares : addr) (u : type)
      (rowvals : list GoValue) :
  Field_ field = RField a f true -> a <> ares ->
  forall (m k : nat) (st : St),
    (k + m = List.length rowvals)%nat ->
    heap (world st) !! ares = Some (CVar (VSlice u (Some rowvals))) ->
    (exists ty fs v, heap (world st) !! a = Some (CStruct ty fs) /\
                     assoc_get f fs = Some v) ->
    exists st',
      forM (seq k m)
           (fun i =>
              let! h := getH in
              on_heap (Field_Set field
                         (reflect.Interface h (reflect.Index h (RCell ares) i)))) st
      = (st', Ok tt) /\
      eng st' = eng st /\
      trace (world st') = trace (world st) /\
      (forall a', a' <> a -> heap (world st') !! a' = heap (world st) !! a') /\
      reflect.field_get (heap (world st')) a f =
        match m with
        | O => reflect.field_get (heap (world st)) a f
        | S _ => rowvals !! (k + m - 1)%nat
        end.
Proof.
  intros Hf Hne. induction m as [|m IH]; intros k st Hkm Hres (ty & fs & v & Hc & Hg).
  - exists st. repeat split; reflexivity.
  - assert (Hr : exists r, rowvals !! k = Some r).
    { apply lookup_lt_is_Some_2. lia. }
    destruct Hr as [r Hr].
    set (st1 := set_world (set_heap (reflect.field_set (heap (world st)) a f r)
                                    (world st)) st).
    destruct (IH (S k) st1) as (st' & Hrun & He & Ht & Hfr & Hget).
    { lia. }
    { cbn. rewrite field_set_lookup_ne by done. exact Hres. }
    { cbn. exists ty, (assoc_set f r fs), r. split.
      - by apply field_set_lookup_eq.
      - apply assoc_get_set_eq. }
    exists st'. split; [|repeat split].
    + cbn [seq forM].
      assert (Hstep : (let! h := getH in
                       on_heap (Field_Set field
                                  (reflect.Interface h
                                     (reflect.Index h (RCell ares) k)))) st
                      = (st1, Ok tt)).
      { unfold bind, getH, gets.
        assert (HI : reflect.Interface (heap (world st))
                       (reflect.Index (heap (world st)) (RCell ares) k) = r).
        { unfold reflect.Index, reflect.Interface. unfold addr in *.
          rewrite Hres. cbn. by rewrite Hr. }
        rewrite HI. unfold Field_Set, on_heap, zoom. rewrite Hf. reflexivity. }
      rewrite (bind_run _ _ _ _ _ Hstep). exact Hrun.
    + by rewrite He.
    + by rewrite Ht.
    + intros a' Ha'. rewrite Hfr by done. cbn. by rewrite field_set_lookup_ne.
    + rewrite Hget. destruct m as [|m'].
      * cbn. unfold reflect.field_get.
        rewrite (field_set_lookup_eq _ _ _ _ _ _ Hc), assoc_get_set_eq.
        replace (k + 1 - 1)%nat with k by lia. by rewrite Hr.
      * f_equal. lia.
Qed.

(** X6.  [PreloadHasOne] for a single owner record, behind the pointer the
    scope holds.  After the one query the relationship field is set to every
    row delivered in turn, so it ends as the last row of the result; no key
    is compared.  When no row is delivered the field is as it was. *)
Theorem has_one_single_owner (fuel : nat) (b : Book) (field : Field)
        (rel : Relationship) (conditions : list GoValue) (st : St)
        (aown : addr) (ty : string) (fs : list (string * GoValue))
        (a : addr) (f : string) (v0 : GoValue)
        (q : string) (args : list GoValue) (rows : sql.Rows) :
  let e := eng st in
  let h := heap (world st) in
  let u := resultElem (Type_ (Struct field)) in
  let keys := util_ColumnAsArray (AssociationForeignFieldNames rel) h
                                 (Value (engine.Scope e)) in
  let results := VPtr (Some (List.length h)) in
  let pdb := hasManyEngine e rel conditions keys results in
  Relationship_ field = Some rel ->
  Value (engine.Scope e) = VPtr (Some aown) ->
  h !! aown = Some (CStruct ty fs) ->
  Field_ field = RField a f true ->
  reflect.field_get h a f = Some v0 ->
  keys <> [] ->
  QueryPipeline b ->
  PlainClone e ->
  builder_PrepareQuery pdb (h ++ [CVar (VSlice u (Some []))]) results
  = Ok (q, args) ->
  sql.Query SQLDB (trace (world st)) q args = Ok rows ->
  ScansLocally (rowType u) ->
  exists (st' : St) (rowvals : list GoValue),
    PreloadHasOne (book_driver (3 + fuel) b) field conditions st = (st', Ok tt) /\
    eng st' = e /\
    trace (world st') = trace (world st) ++ [sql.EvQuery q args] /\
    List.length rowvals = List.length (sql.Next rows) /\
    heap (world st') !! List.length h = Some (CVar (VSlice u (Some rowvals))) /\
    reflect.field_get (heap (world st')) a f = Some (default v0 (last rowvals)) /\
    (forall a', (a' < List.length h)%nat -> a' <> a ->
       heap (world st') !! a' = h !! a').
Proof.
  intros e h u keys results pdb Hrel Hval Hown Hf Hg Hkeys Hbook Hclone
         Hprep Hquery Hscan.
  destruct (PreloadHasOne_query fuel b field rel conditions st q args rows
              Hrel Hkeys Hbook Hclone Hprep Hquery Hscan)
    as (st3 & rowvals & He3 & Ht3 & Hlen & Hres & Hold & Hrun).
  fold e h u in He3, Ht3, Hres, Hold, Hrun.
  assert (Hlt : (aown < List.length h)%nat) by (by eapply lookup_lt_Some).
  assert (Hca : exists ty' fs', h !! a = Some (CStruct ty' fs') /\
                                assoc_get f fs' = Some v0).
  { unfold reflect.field_get in Hg. destruct (h !! a) as [[ty' fs'|]|]; try done. eauto. }
  destruct Hca as (ty' & fs' & Hca & Hga).
  assert (Hlta : (a < List.length h)%nat) by (by eapply lookup_lt_Some).
  destruct (setEach_run field a f (List.length h) u rowvals Hf ltac:(lia)
              (List.length rowvals) 0 st3)
    as (st' & Hloop & He & Ht & Hfr & Hget).
  { lia. }
  { exact Hres. }
  { exists ty', fs', v0. rewrite Hold by done. done. }
  exists st', rowvals. split; [|repeat split].
  - rewrite Hrun. cbv zeta.
    assert (HiV : valueOfIndirect (heap (world st3)) (Value (engine.Scope e))
                  = RCell aown).
    { rewrite Hval. reflexivity. }
    rewrite HiV.
    assert (Hk : reflect.Kind_ (heap (world st3)) (RCell aown) = reflect.Struct).
    { unfold reflect.Kind_, reflect.Interface. unfold addr in *.
      rewrite Hold by done. subst h. by rewrite Hown. }
    rewrite decide_False by (rewrite Hk; discriminate).
    exact Hloop.
  - by rewrite He.
  - by rewrite Ht.
  - exact Hlen.
  - rewrite Hfr by lia. exact Hres.
  - rewrite Hget. destruct rowvals as [|r rowvals] using rev_ind.
    + cbn. unfold reflect.field_get. unfold addr in *. rewrite Hold by done.
      subst h. by rewrite Hca.
    + rewrite last_snoc, length_app. cbn [List.length default].
      destruct (List.length rowvals + 1)%nat eqn:Hn; [lia|].
      replace (0 + S n - 1)%nat with (List.length rowvals) by lia.
      by rewrite list_lookup_middle.
  - intros a' Ha' Hne. rewrite Hfr by done. by apply Hold.
Qed.
End HasOne.

Section HasOneOwners.
Context `{Collaborators}.
Import model hooks.

Section Loops.
Variables (field : Field) (rel : Relationship) (u : type).
Variables (ares aown : addr) (town : type).
Variables (rowvals owners : list GoValue).
Variable h2 : list Cell.
Hypothesis Hstable : MatchStable (Name field) (matches rel).

Lemma hasOneInner_run (st : St) (j : nat) (o : GoValue) (a : addr) :
  heap (world st) !! ares = Some (CVar (VSlice u (Some rowvals))) ->
  heap (world st) !! aown = Some (CVar (VSlice town (Some owners))) ->
  owners !! j = Some o -> addrOf o = Some a ->
  hasField (heap (world st)) (Name field) o ->
  forall (m k : nat),
    (k + m = List.length rowvals)%nat ->
    hasOneInner field rel (RCell ares) (RCell aown) j (seq k m) st =
    match List.find (matches rel (heap (world st)) o) (drop k rowvals) with
    | Some r =>
        (set_world (set_heap (reflect.field_set (heap (world st)) a (Name field) r)
                             (world st)) st, Ok tt)
    | None => (st, Ok tt)
    end.
Proof.
  intros Hres Hown Ho Hao (a' & ty & fs & v & Hao' & Hc & Hg).
  assert (a' = a) as -> by congruence.
  destruct (FieldByName_owner _ _ _ _ _ _ _ Hao Hc Hg) as [Hfb _].
  induction m as [|m IH]; intros k Hkm.
  - rewrite drop_ge by lia. reflexivity.
  - assert (Hr : exists r, rowvals !! k = Some r).
    { apply lookup_lt_is_Some_2. lia. }
    destruct Hr as [r Hr].
    rewrite (drop_S _ _ _ Hr). cbn [seq hasOneInner List.find].
    unfold bind at 1, getH, gets at 1.
    rewrite (indexIndirect_owner _ _ _ _ _ _ _ Hown Ho Hao).
    assert (HI : reflect.Index (heap (world st)) (RCell ares) k = RElem r).
    { unfold reflect.Index, reflect.Interface. unfold addr in *.
      rewrite Hres. cbn. by rewrite Hr. }
    rewrite HI. fold (matches rel (heap (world st)) o r).
    destruct (matches rel (heap (world st)) o r).
    + unfold bind, lift. rewrite Hfb. reflexivity.
    + apply IH. lia.
Qed.

Lemma hasOne_loop (todo : list GoValue) :
  forall (done : list GoValue) (st : St),
    owners = done ++ todo ->
    heap (world st) !! ares = Some (CVar (VSlice u (Some rowvals))) ->
    heap (world st) !! aown = Some (CVar (VSlice town (Some owners))) ->
    (forall o r, matches rel (heap (world st)) o r = matches rel h2 o r) ->
    Forall (hasField (heap (world st)) (Name field)) todo ->
    NoDup (omap addrOf todo) ->
    exists st',
      forM (seq (List.length done) (List.length todo))
           (fun j => hasOneInner field rel (RCell ares) (RCell aown) j
                                 (seq 0 (List.length rowvals))) st
      = (st', Ok tt) /\
      eng st' = eng st /\
      trace (world st') = trace (world st) /\
      (forall o a, o ∈ todo -> addrOf o = Some a ->
         reflect.field_get (heap (world st')) a (Name field) =
         match List.find (matches rel h2 o) rowvals with
         | Some r => Some r
         | None => reflect.field_get (heap (world st)) a (Name field)
         end) /\
      (forall a, a ∉ omap addrOf todo ->
         heap (world st') !! a = heap (world st) !! a).
Proof.
  induction todo as [|o todo IH]; intros done st Hsplit Hres Hown Hm Hf Hnd.
  - exists st. cbn. repeat split; try done. intros o a Ho. by apply elem_of_nil in Ho.
  - apply Forall_cons in Hf as [Ho Hf].
    pose proof Ho as (a & ty & fs & v & Hao & Hc & Hg).
    cbn [omap list_omap] in Hnd. rewrite Hao in Hnd.
    apply NoDup_cons in Hnd as [Hnin Hnd].
    assert (Hne1 : a <> aown) by (intros ->; rewrite Hown in Hc; discriminate).
    assert (Hne2 : a <> ares) by (intros ->; rewrite Hres in Hc; discriminate).
    assert (Hj : owners !! List.length done = Some o).
    { rewrite Hsplit. by rewrite list_lookup_middle. }
    pose proof (hasOneInner_run st (List.length done) o a Hres Hown Hj Hao Ho
                  (List.length rowvals) 0 ltac:(lia)) as Hin.
    rewrite drop_0 in Hin.
    assert (Hfind : List.find (matches rel (heap (world st)) o) rowvals
                    = List.find (matches rel h2 o) rowvals).
    { clear -Hm. induction rowvals as [|r rs IHr]; [done|]. cbn. rewrite Hm.
      by rewrite IHr. }
    rewrite Hfind in Hin.
    set (st1 := match List.find (matches rel h2 o) rowvals with
                | Some r => set_world (set_heap (reflect.field_set (heap (world st)) a
                                                   (Name field) r) (world st)) st
                | None => st
                end).
    assert (Hin' : hasOneInner field rel (RCell ares) (RCell aown) (List.length done)
                     (seq 0 (List.length rowvals)) st = (st1, Ok tt)).
    { rewrite Hin. unfold st1. by destruct (List.find _ _). }
    assert (Hfr1 : forall a', a' <> a -> heap (world st1) !! a' = heap (world st) !! a').
    { intros a' Hne'. unfold st1. destruct (List.find _ _); [|done].
      cbn. by rewrite field_set_lookup_ne. }
    assert (Hm1 : forall o' r, matches rel (heap (world st1)) o' r = matches rel h2 o' r).
    { intros o' r. unfold st1. destruct (List.find _ _); [|by apply Hm].
      cbn. rewrite Hstable. apply Hm. }
    assert (He1 : eng st1 = eng st /\ trace (world st1) = trace (world st)).
    { unfold st1. by destruct (List.find _ _). }
    destruct (IH (done ++ [o]) st1) as (st' & Hrun & He & Ht & Hset & Hfr).
    { rewrite Hsplit. by rewrite <- app_assoc. }
    { rewrite Hfr1 by done. exact Hres. }
    { rewrite Hfr1 by done. exact Hown. }
    { exact Hm1. }
    { apply Forall_forall. intros o' Ho'.
      rewrite Forall_forall in Hf. destruct (Hf o' Ho') as (a' & ty' & fs' & v' & Hao' & Hc' & Hg').
      exists a', ty', fs', v'. split; [done|]. split; [|done].
      rewrite Hfr1; [done|]. intros ->. apply Hnin. apply list_elem_of_omap. eauto. }
    { exact Hnd. }
    exists st'. split; [|repeat split].
    + cbn [List.length seq forM]. rewrite (bind_run _ _ _ _ _ Hin').
      rewrite length_app, Nat.add_1_r in Hrun. exact Hrun.
    + rewrite He. apply He1.
    + rewrite Ht. apply He1.
    + intros o' a' Ho' Hao'. apply elem_of_cons in Ho' as [->|Ho'].
      * assert (a' = a) as -> by congruence.
        unfold reflect.field_get. rewrite Hfr by done. unfold st1.
        destruct (List.find (matches rel h2 o) rowvals) as [r|]; [|done].
        cbn. rewrite (field_set_lookup_eq _ _ _ _ _ _ Hc). by rewrite assoc_get_set_eq.
      * rewrite (Hset o' a' Ho' Hao').
        destruct (List.find (matches rel h2 o') rowvals); [done|].
        unfold reflect.field_get. rewrite Hfr1; [done|].
        intros ->. apply Hnin. apply list_elem_of_omap. eauto.
    + intros a' Hnin'. cbn [omap list_omap] in Hnin'. rewrite Hao in Hnin'.
      apply not_elem_of_cons in Hnin' as [Hne' Hnin'].
      rewrite Hfr by done. by apply Hfr1.
Qed.
End Loops.

(** X7.  [PreloadHasOne] for a sequence of distinct owner records.  After
    the one query every owner's relationship field is set to the first row
    of the result, in result order, whose key equals the owner's as strings;
    an owner that no row matches keeps the field as it was. *)
Theorem has_one_owners (fuel : nat) (b : Book) (field : Field)
        (rel : Relationship) (conditions : list GoValue) (st : St)
        (aown : addr) (town : type) (owners : list GoValue)
        (q : string) (args : list GoValue) (rows : sql.Rows) :
  let e := eng st in
  let h := heap (world st) in
  let u := resultElem (Type_ (Struct field)) in
  let keys := util_ColumnAsArray (AssociationForeignFieldNames rel) h
                                 (Value (engine.Scope e)) in
  let results := VPtr (Some (List.length h)) in
  let pdb := hasManyEngine e rel conditions keys results in
  Relationship_ field = Some rel ->
  Value (engine.Scope e) = VPtr (Some aown) ->
  h !! aown = Some (CVar (VSlice town (Some owners))) ->
  Forall (hasField h (Name field)) owners ->
  NoDup (omap addrOf owners) ->
  keys <> [] ->
  QueryPipeline b ->
  PlainClone e ->
  builder_PrepareQuery pdb (h ++ [CVar (VSlice u (Some []))]) results
  = Ok (q, args) ->
  sql.Query SQLDB (trace (world st)) q args = Ok rows ->
  ScansLocally (rowType u) ->
  MatchStable (Name field) (matches rel) ->
  exists (st' : St) (h2 : list Cell) (rowvals : list GoValue),
    PreloadHasOne (book_driver (3 + fuel) b) field conditions st = (st', Ok tt) /\
    eng st' = e /\
    trace (world st') = trace (world st) ++ [sql.EvQuery q args] /\
    h2 !! List.length h = Some (CVar (VSlice u (Some rowvals))) /\
    List.length rowvals = List.length (sql.Next rows) /\
    (forall a, (a < List.length h)%nat -> h2 !! a = h !! a) /\
    (forall o a, o ∈ owners -> addrOf o = Some a ->
       reflect.field_get (heap (world st')) a (Name field) =
       match List.find (matches rel h2 o) rowvals with
       | Some r => Some r
       | None => reflect.field_get h a (Name field)
       end) /\
    (forall a, a ∉ omap addrOf owners -> heap (world st') !! a = h2 !! a).
Proof.
  intros e h u keys results pdb Hrel Hval Hown Hf Hnd Hkeys Hbook Hclone
         Hprep Hquery Hscan Hstable.
  destruct (PreloadHasOne_query fuel b field rel conditions st q args rows
              Hrel Hkeys Hbook Hclone Hprep Hquery Hscan)
    as (st3 & rowvals & He3 & Ht3 & Hlen & Hres & Hold & Hrun).
  fold e h u in He3, Ht3, Hres, Hold, Hrun.
  assert (Hlt : (aown < List.length h)%nat) by (by eapply lookup_lt_Some).
  set (h2 := heap (world st3)) in *.
  destruct (hasOne_loop field rel u (List.length h) aown town rowvals owners h2
              Hstable owners [] st3)
    as (st' & Hloop & He & Ht & Hset & Hfr).
  { reflexivity. }
  { exact Hres. }
  { fold h2. rewrite Hold by done. exact Hown. }
  { reflexivity. }
  { apply Forall_forall. intros o Ho. rewrite Forall_forall in Hf.
    destruct (Hf o Ho) as (a & ty & fs & v & Hao & Hc & Hg).
    exists a, ty, fs, v. split; [done|]. split; [|done].
    fold h2. rewrite Hold; [done|]. by eapply lookup_lt_Some. }
  { exact Hnd. }
  exists st', h2, rowvals. split; [|repeat split].
  - rewrite Hrun. cbv zeta.
    assert (HiV : valueOfIndirect h2 (Value (engine.Scope e)) = RCell aown).
    { rewrite Hval. reflexivity. }
    rewrite HiV.
    assert (Hk : reflect.Kind_ h2 (RCell aown) = reflect.Slice).
    { unfold reflect.Kind_, reflect.Interface. unfold addr in *.
      rewrite Hold by done. subst h. by rewrite Hown. }
    rewrite decide_True by exact Hk.
    assert (HL : reflect.Len h2 (RCell aown) = List.length owners).
    { unfold reflect.Len, reflect.Interface. unfold addr in *.
      rewrite Hold by done. subst h. by rewrite Hown. }
    rewrite HL. exact Hloop.
  - by rewrite He.
  - by rewrite Ht.
  - exact Hres.
  - exact Hlen.
  - exact Hold.
  - intros o a Ho Hao. rewrite (Hset o a Ho Hao).
    destruct (List.find _ _); [done|].
    rewrite Forall_forall in Hf.
    destruct (Hf o Ho) as (a' & ty & fs & v & Hao' & Hc & Hg).
    assert (a' = a) as -> by congruence.
    unfold reflect.field_get. fold h2. rewrite Hold; [done|]. by eapply lookup_lt_Some.
  - exact Hfr.
Qed.
End HasOneOwners.

Section BelongsTo.
Context `{Collaborators}.
Import model hooks.

Lemma objectOf_record (o : GoValue) :
  (exists c, objectOf o = RCell c) \/ (exists v, objectOf o = RElem v).
Proof. destruct o as [| | | | | |[a|]| |]; cbn; eauto. Qed.

Lemma belongsToEngine_scope (e : engine.Engine) (relation : Relationship)
      (conditions : list GoValue) (keys : list (list GoValue)) (results : GoValue) :
  Preload (engine.Search (belongsToEngine e relation conditions keys results))
  = Preload (engine.Search (engine_Clone e)) /\
  data (engine.Scope (belongsToEngine e relation conditions keys results))
  = data (engine.Scope (engine_Clone e)) /\
  Value (engine.Scope (belongsToEngine e relation conditions keys results)) = results.
Proof. unfold belongsToEngine. rewrite conditions_copied. done. Qed.

(** [PreloadBelongsTo] up to the end of its query. *)
Lemma PreloadBelongsTo_query (fuel : nat) (b : Book) (field : Field)
      (rel : Relationship) (conditions : list GoValue) (st : St)
      (q : string) (args : list GoValue) (rows : sql.Rows) :
  let e := eng st in
  let h := heap (world st) in
  let u := resultElem (Type_ (Struct field)) in
  let keys := util_ColumnAsArray (ForeignFieldNames rel) h
                                 (Value (engine.Scope e)) in
  let results := VPtr (Some (List.length h)) in
  let pdb := belongsToEngine e rel conditions keys results in
  Relationship_ field = Some rel ->
  keys <> [] ->
  QueryPipeline b ->
  PlainClone e ->
  builder_PrepareQuery pdb (h ++ [CVar (VSlice u (Some []))]) results
  = Ok (q, args) ->
  sql.Query SQLDB (trace (world st)) q args = Ok rows ->
  ScansLocally (rowType u) ->
  exists (st3 : St) (rowvals : list GoValue),
    eng st3 = e /\
    trace (world st3) = trace (world st) ++ [sql.EvQuery q args] /\
    List.length rowvals = List.length (sql.Next rows) /\
    heap (world st3) !! List.length h = Some (CVar (VSlice u (Some rowvals))) /\
    (forall a, (a < List.length h)%nat -> heap (world st3) !! a = h !! a) /\
    PreloadBelongsTo (book_driver (3 + fuel) b) field conditions st =
    (let h2 := heap (world st3) in
     let rVal := RCell (List.length h) in
     let iScopeVal := valueOfIndirect h2 (Value (engine.Scope e)) in
     forM (seq 0 (List.length rowvals))
       (fun i =>
          let! h := getH in
          let result := reflect.Index h rVal i in
          if decide (reflect.Kind_ h iScopeVal = reflect.Slice) then
            let value :=
              util_GetValueFromFields h result (AssociationForeignFieldNames rel) in
            forM (seq 0 (reflect.Len h iScopeVal))
                 (fun j =>
                    let! h := getH in
                    let object := indexIndirect h iScopeVal j in
                    if util_EqualAsString
                         (util_GetValueFromFields h object (ForeignFieldNames rel))
                         value
                    then
                      let! f := lift (reflect.FieldByName h object (Name field)) in
                      on_heap (reflect.Set_ f (reflect.Interface h result))
                    else ret tt)
          else
            on_heap (Field_Set field (reflect.Interface h result)))) st3.
Proof.
  intros e h u keys results pdb Hrel Hkeys Hbook (Hc1 & Hc2 & Hc3 & Hc4)
         Hprep Hquery Hscan.
  destruct (belongsToEngine_scope e rel conditions keys results)
    as (Hp1 & Hp2 & Hp3). fold pdb in Hp1, Hp2, Hp3.
  set (h1 := h ++ [CVar (VSlice u (Some []))]).
  set (st1 := set_world (set_heap h1 (world st)) st).
  destruct (Query_run fuel b (set_eng pdb st1) (List.length h) u q args rows)
    as (st2 & rowvals & Hrun & Htr & Hlen & Hhl & Hres & Hfr).
  { exact Hbook. }
  { change (Preload (engine.Search pdb) = None). by rewrite Hp1. }
  { change (assoc_get OrderByPK (data (engine.Scope pdb)) = None). by rewrite Hp2. }
  { change (assoc_get QueryDestination (data (engine.Scope pdb)) = None).
    by rewrite Hp2. }
  { change (assoc_get QueryOption (data (engine.Scope pdb)) = None). by rewrite Hp2. }
  { exact Hp3. }
  { change (h1 !! List.length h = Some (CVar (VSlice u (Some [])))).
    unfold h1. rewrite lookup_app_r by lia. by rewrite Nat.sub_diag. }
  { exact Hprep. }
  { exact Hquery. }
  { exact Hscan. }
  cbn in Htr, Hhl, Hres, Hfr. unfold h1 in Hhl, Hfr. rewrite length_app in Hhl, Hfr.
  cbn in Hhl, Hfr.
  set (h2 := heap (world st2)) in *.
  assert (Hold : forall a, (a < List.length h)%nat -> h2 !! a = h !! a).
  { intros a Ha. rewrite Hfr by lia. by rewrite lookup_app_l. }
  exists (set_eng e st2), rowvals.
  split; [reflexivity|]. split; [exact Htr|]. split; [exact Hlen|].
  split; [exact Hres|]. split; [exact Hold|].
  unfold PreloadBelongsTo, relationOf. rewrite Hrel.
  unfold bind at 1, ret at 1. unfold bind at 1, getE, gets at 1.
  unfold bind at 1, getH, gets at 1. fold e h.
  rewrite conditions_copied. fold keys.
  rewrite decide_False by (by destruct keys).
  assert (Hpdb : pdb = belongsToEngine e rel conditions keys results) by reflexivity.
  unfold belongsToEngine in Hpdb. rewrite conditions_copied in Hpdb.
  rewrite (bind_run _ _ st st1 results) by reflexivity.
  rewrite <- Hpdb; unfold bind at 1.
  rewrite (call_on_run pdb _ st1 st2 tt Hrun).
  unfold bind at 1, gets at 1.
  change (heap (world (set_eng (eng st1) st2))) with h2.
  assert (HrV : valueOfIndirect h2 results = RCell (List.length h)) by reflexivity.
  rewrite HrV.
  assert (HL : reflect.Len h2 (RCell (List.length h)) = List.length rowvals)
    by (unfold reflect.Len, reflect.Interface; unfold addr in *; by rewrite Hres).
  rewrite HL; reflexivity.
Qed.

Section Loops.
Variables (field : Field) (rel : Relationship) (u : type).
Variables (ares aown : addr) (town : type).
Variables (rowvals owners : list GoValue).
Variable h2 : list Cell.
Hypothesis HstableO : KeysStable (Name field) (ForeignFieldNames rel).
Hypothesis HstableR : KeysStable (Name field) (AssociationForeignFieldNames rel).

Local Notation Kept := (hooks.Kept field rel u ares aown town rowvals owners h2).
Local Notation ownerStep := (hooks.ownerStep field rel aown).
Local Notation rowStep := (hooks.rowStep field rel ares aown).

Lemma Kept_set (st : St) (a : addr) (ty : string) (fs : list (string * GoValue))
      (x : GoValue) :
  Kept st -> heap (world st) !! a = Some (CStruct ty fs) ->
  Kept (set_world (set_heap (reflect.field_set (heap (world st)) a (Name field) x)
                            (world st)) st).
Proof.
  intros (Hres & Hown & HkO & HkR & Hf) Hc.
  assert (Hne1 : a <> aown) by (intros ->; rewrite Hown in Hc; discriminate).
  assert (Hne2 : a <> ares) by (intros ->; rewrite Hres in Hc; discriminate).
  split; [|split; [|split; [|split]]]; cbn.
  - by rewrite field_set_lookup_ne.
  - by rewrite field_set_lookup_ne.
  - intros rv Hrv. rewrite HstableO by done. by apply HkO.
  - intros rv Hrv. rewrite HstableR by done. by apply HkR.
  - apply Forall_forall. intros o Ho. rewrite Forall_forall in Hf.
    destruct (Hf o Ho) as (a' & ty' & fs' & v' & Hao' & Hc' & Hg').
    destruct (decide (a' = a)) as [->|Hne].
    + exists a, ty, (assoc_set (Name field) x fs), x. split; [done|].
      split; [by apply field_set_lookup_eq|apply assoc_get_set_eq].
    + exists a', ty', fs', v'. split; [done|]. split; [|done].
      by rewrite field_set_lookup_ne.
Qed.

Lemma owners_loop (r : GoValue) (todo : list GoValue) :
  forall (done : list GoValue) (st : St),
    owners = done ++ todo ->
    Kept st ->
    NoDup (omap addrOf todo) ->
    exists st',
      forM (seq (List.length done) (List.length todo))
           (ownerStep (util_GetValueFromFields h2 (RElem r)
                         (AssociationForeignFieldNames rel)) r) st
      = (st', Ok tt) /\
      eng st' = eng st /\
      trace (world st') = trace (world st) /\
      Kept st' /\
      (forall o a, o ∈ todo -> addrOf o = Some a ->
         reflect.field_get (heap (world st')) a (Name field) =
         if owes rel h2 o r then Some r
         else reflect.field_get (heap (world st)) a (Name field)) /\
      (forall a, a ∉ omap addrOf todo ->
         heap (world st') !! a = heap (world st) !! a).
Proof.
  induction todo as [|o todo IH]; intros done st Hsplit Hk Hnd.
  - exists st. cbn. repeat split; try done; try apply Hk.
    intros o a Ho. by apply elem_of_nil in Ho.
  - pose proof Hk as (Hres & Hown & HkO & HkR & Hf).
    assert (Ho : hasField (heap (world st)) (Name field) o).
    { rewrite Forall_forall in Hf. apply Hf. rewrite Hsplit.
      apply elem_of_app. right. apply elem_of_cons. by left. }
    pose proof Ho as (a & ty & fs & v & Hao & Hc & Hg).
    cbn [omap list_omap] in Hnd. rewrite Hao in Hnd.
    apply NoDup_cons in Hnd as [Hnin Hnd].
    assert (Hj : owners !! List.length done = Some o).
    { rewrite Hsplit. by rewrite list_lookup_middle. }
    destruct (FieldByName_owner _ _ _ _ _ _ _ Hao Hc Hg) as [Hfb _].
    set (st1 := if owes rel h2 o r
                then set_world (set_heap (reflect.field_set (heap (world st)) a
                                            (Name field) r) (world st)) st
                else st).
    assert (Hstep : ownerStep (util_GetValueFromFields h2 (RElem r)
                                 (AssociationForeignFieldNames rel)) r
                              (List.length done) st = (st1, Ok tt)).
    { unfold ownerStep, bind, getH, gets.
      rewrite (indexIndirect_owner _ _ _ _ _ _ _ Hown Hj Hao).
      rewrite (HkO (objectOf o) (objectOf_record o)).
      unfold st1, owes. destruct (util_EqualAsString _ _); [|reflexivity].
      unfold lift. rewrite Hfb. reflexivity. }
    assert (Hk1 : Kept st1).
    { unfold st1. destruct (owes rel h2 o r); [|exact Hk]. by eapply Kept_set. }
    assert (Hfr1 : forall a', a' <> a -> heap (world st1) !! a' = heap (world st) !! a').
    { intros a' Hne'. unfold st1. destruct (owes rel h2 o r); [|done].
      cbn. by rewrite field_set_lookup_ne. }
    assert (He1 : eng st1 = eng st /\ trace (world st1) = trace (world st)).
    { unfold st1. by destruct (owes rel h2 o r). }
    destruct (IH (done ++ [o]) st1) as (st' & Hrun & He & Ht & Hk' & Hset & Hfr).
    { rewrite Hsplit. by rewrite <- app_assoc. }
    { exact Hk1. }
    { exact Hnd. }
    exists st'. split; [|repeat split].
    + cbn [List.length seq forM]. rewrite (bind_run _ _ _ _ _ Hstep).
      rewrite length_app, Nat.add_1_r in Hrun. exact Hrun.
    + rewrite He. apply He1.
    + rewrite Ht. apply He1.
    + apply Hk'.
    + apply Hk'.
    + apply Hk'.
    + apply Hk'.
    + apply Hk'.
    + intros o' a' Ho' Hao'. apply elem_of_cons in Ho' as [->|Ho'].
      * assert (a' = a) as -> by congruence.
        unfold reflect.field_get. rewrite Hfr by done. unfold st1.
        destruct (owes rel h2 o r); [|done].
        cbn. rewrite (field_set_lookup_eq _ _ _ _ _ _ Hc). by rewrite assoc_get_set_eq.
      * rewrite (Hset o' a' Ho' Hao').
        destruct (owes rel h2 o' r); [done|].
        unfold reflect.field_get. rewrite Hfr1; [done|].
        intros ->. apply Hnin. apply list_elem_of_omap. eauto.
    + intros a' Hnin'. cbn [omap list_omap] in Hnin'. rewrite Hao in Hnin'.
      apply not_elem_of_cons in Hnin' as [Hne' Hnin'].
      rewrite Hfr by done. by apply Hfr1.
Qed.

Lemma last_filter_cons {A} (P : A -> bool) (x : A) (l : list A) :
  last (List.filter P (x :: l)) =
  match last (List.filter P l) with
  | Some y => Some y
  | None => if P x then Some x else None
  end.
Proof.
  cbn. destruct (P x); [|by destruct (last _)].
  destruct (List.filter P l) as [|y l'] eqn:Hl; [done|].
  rewrite last_cons. by destruct (last (y :: l')).
Qed.

Lemma rows_loop :
  NoDup (omap addrOf owners) ->
  forall (m k : nat) (st : St),
    (k + m = List.length rowvals)%nat ->
    Kept st ->
    exists st',
      forM (seq k m) rowStep st = (st', Ok tt) /\
      eng st' = eng st /\
      trace (world st') = trace (world st) /\
      Kept st' /\
      (forall o a, o ∈ owners -> addrOf o = Some a ->
         reflect.field_get (heap (world st')) a (Name field) =
         match last (List.filter (owes rel h2 o) (drop k rowvals)) with
         | Some r => Some r
         | None => reflect.field_get (heap (world st)) a (Name field)
         end) /\
      (forall a, a ∉ omap addrOf owners ->
         heap (world st') !! a = heap (world st) !! a).
Proof.
  intros Hnd. induction m as [|m IH]; intros k st Hkm Hk.
  - exists st. rewrite drop_ge by lia. repeat split; try done; apply Hk.
  - pose proof Hk as (Hres & Hown & HkO & HkR & Hf).
    assert (Hr : exists r, rowvals !! k = Some r).
    { apply lookup_lt_is_Some_2. lia. }
    destruct Hr as [r Hr].
    destruct (owners_loop r owners [] st eq_refl Hk Hnd)
      as (st1 & Hin & He1 & Ht1 & Hk1 & Hset1 & Hfr1).
    assert (Hstep : rowStep k st = (st1, Ok tt)).
    { unfold rowStep, bind at 1, getH, gets at 1.
      assert (HI : reflect.Index (heap (world st)) (RCell ares) k = RElem r).
      { unfold reflect.Index, reflect.Interface. unfold addr in *.
        rewrite Hres. cbn. by rewrite Hr. }
      rewrite HI.
      assert (HK : reflect.Kind_ (heap (world st)) (RCell aown) = reflect.Slice).
      { unfold reflect.Kind_, reflect.Interface. unfold addr in *. by rewrite Hown. }
      rewrite decide_True by exact HK.
      assert (HL : reflect.Len (heap (world st)) (RCell aown) = List.length owners).
      { unfold reflect.Len, reflect.Interface. unfold addr in *. by rewrite Hown. }
      rewrite HL. rewrite (HkR (RElem r)) by eauto. exact Hin. }
    destruct (IH (S k) st1 ltac:(lia) Hk1) as (st' & Hrun & He & Ht & Hk' & Hset & Hfr).
    exists st'. split; [|repeat split].
    + cbn [seq forM]. rewrite (bind_run _ _ _ _ _ Hstep). exact Hrun.
    + by rewrite He.
    + by rewrite Ht.
    + apply Hk'.
    + apply Hk'.
    + apply Hk'.
    + apply Hk'.
    + apply Hk'.
    + intros o a Ho Hao. rewrite (Hset o a Ho Hao).
      rewrite (drop_S _ _ _ Hr), last_filter_cons.
      destruct (last _); [done|]. rewrite (Hset1 o a Ho Hao).
      by destruct (owes rel h2 o r).
    + intros a Ha. rewrite Hfr by done. by apply Hfr1.
Qed.
End Loops.

(** X8.  [PreloadBelongsTo] for a sequence of distinct owner records.
    After the one query every row of the result is handed to every owner
    whose foreign key equals the row's key as strings: an owner ends with
    the last such row of the result, several owners may end with the same
    row, and an owner that no row matches keeps the field as it was. *)
Theorem belongs_to_owners (fuel : nat) (b : Book) (field : Field)
        (rel : Relationship) (conditions : list GoValue) (st : St)
        (aown : addr) (town : type) (owners : list GoValue)
        (q : string) (args : list GoValue) (rows : sql.Rows) :
  let e := eng st in
  let h := heap (world st) in
  let u := resultElem (Type_ (Struct field)) in
  let keys := util_ColumnAsArray (ForeignFieldNames rel) h
                                 (Value (engine.Scope e)) in
  let results := VPtr (Some (List.length h)) in
  let pdb := belongsToEngine e rel conditions keys results in
  Relationship_ field = Some rel ->
  Value (engine.Scope e) = VPtr (Some aown) ->
  h !! aown = Some (CVar (VSlice town (Some owners))) ->
  Forall (hasField h (Name field)) owners ->
  NoDup (omap addrOf owners) ->
  keys <> [] ->
  QueryPipeline b ->
  PlainClone e ->
  builder_PrepareQuery pdb (h ++ [CVar (VSlice u (Some []))]) results
  = Ok (q, args) ->
  sql.Query SQLDB (trace (world st)) q args = Ok rows ->
  ScansLocally (rowType u) ->
  KeysStable (Name field) (ForeignFieldNames rel) ->
  KeysStable (Name field) (AssociationForeignFieldNames rel) ->
  exists (st' : St) (h2 : list Cell) (rowvals : list GoValue),
    PreloadBelongsTo (book_driver (3 + fuel) b) field conditions st = (st', Ok tt) /\
    eng st' = e /\
    trace (world st') = trace (world st) ++ [sql.EvQuery q args] /\
    h2 !! List.length h = Some (CVar (VSlice u (Some rowvals))) /\
    List.length rowvals = List.length (sql.Next rows) /\
    (forall a, (a < List.length h)%nat -> h2 !! a = h !! a) /\
    (forall o a, o ∈ owners -> addrOf o = Some a ->
       reflect.field_get (heap (world st')) a (Name field) =
       match last (List.filter (owes rel h2 o) rowvals) with
       | Some r => Some r
       | None => reflect.field_get h a (Name field)
       end) /\
    (forall a, a ∉ omap addrOf owners -> heap (world st') !! a = h2 !! a).
Proof.
  intros e h u keys results pdb Hrel Hval Hown Hf Hnd Hkeys Hbook Hclone
         Hprep Hquery Hscan HsO HsR.
  destruct (PreloadBelongsTo_query fuel b field rel conditions st q args rows
              Hrel Hkeys Hbook Hclone Hprep Hquery Hscan)
    as (st3 & rowvals & He3 & Ht3 & Hlen & Hres & Hold & Hrun).
  fold e h u in He3, Ht3, Hres, Hold, Hrun.
  assert (Hlt : (aown < List.length h)%nat) by (by eapply lookup_lt_Some).
  set (h2 := heap (world st3)) in *.
  destruct (rows_loop field rel u (List.length h) aown town rowvals owners h2
              HsO HsR Hnd (List.length rowvals) 0 st3)
    as (st' & Hloop & He & Ht & _ & Hset & Hfr).
  { lia. }
  { split; [exact Hres|]. split; [fold h2; rewrite Hold by done; exact Hown|].
    split; [done|]. split; [done|].
    apply Forall_forall. intros o Ho. rewrite Forall_forall in Hf.
    destruct (Hf o Ho) as (a & ty & fs & v & Hao & Hc & Hg).
    exists a, ty, fs, v. split; [done|]. split; [|done].
    fold h2. rewrite Hold; [done|]. by eapply lookup_lt_Some. }
  exists st', h2, rowvals. split; [|repeat split].
  - rewrite Hrun. cbv zeta.
    assert (HiV : valueOfIndirect h2 (Value (engine.Scope e)) = RCell aown).
    { rewrite Hval. reflexivity. }
    rewrite HiV. exact Hloop.
  - by rewrite He.
  - by rewrite Ht.
  - exact Hres.
  - exact Hlen.
  - exact Hold.
  - intros o a Ho Hao. rewrite (Hset o a Ho Hao). rewrite drop_0.
    destruct (last _); [done|].
    rewrite Forall_forall in Hf.
    destruct (Hf o Ho) as (a' & ty & fs & v & Hao' & Hc & Hg).
    assert (a' = a) as -> by congruence.
    unfold reflect.field_get. fold h2. rewrite Hold; [done|]. by eapply lookup_lt_Some.
  - exact Hfr.
Qed.
End BelongsTo.

(** ** The properties above on the demo inputs *)

Section DemoKeys.
Import model.

Lemma Demo_keysOf_stable (h : list Cell) (a : addr) (name : string) (x v : GoValue)
      (names : list string) :
  name ∉ names ->
  Demo.keysOf (reflect.field_set h a name x) v names = Demo.keysOf h v names.
Proof.
  intros Hn. unfold Demo.keysOf, Demo.structOf.
  assert (Hat : forall a' : addr,
    match match reflect.field_set h a name x !! a' with
          | Some (CStruct ty fs) => Some (a', ty, fs, true)
          | _ => None
          end with
    | Some (_, _, fs, _) => List.map (fun c => default VNil (assoc_get c fs)) names
    | None => []
    end =
    match match h !! a' with
          | Some (CStruct ty fs) => Some (a', ty, fs, true)
          | _ => None
          end with
    | Some (_, _, fs, _) => List.map (fun c => default VNil (assoc_get c fs)) names
    | None => []
    end).
  { intros a'. destruct (decide (a = a')) as [<-|Hne].
    - destruct (h !! a) as [[ty fs|v0]|] eqn:Hc.
      + rewrite (field_set_lookup_eq _ _ _ _ _ _ Hc). apply map_ext_in.
        intros c Hc'. rewrite assoc_get_set_ne; [done|].
        intros ->. apply Hn. by apply list_elem_of_In.
      + unfold reflect.field_set. unfold addr in *. by rewrite !Hc.
      + unfold reflect.field_set. unfold addr in *. by rewrite !Hc.
    - by rewrite field_set_lookup_ne. }
  destruct v as [| | | | |a'|[a'|]| |]; try reflexivity.
  - specialize (Hat a').
    destruct (reflect.field_set h a name x !! a') as [[? ?|?]|];
      destruct (h !! a') as [[? ?|?]|]; exact Hat.
  - specialize (Hat a').
    destruct (reflect.field_set h a name x !! a') as [[? ?|?]|];
      destruct (h !! a') as [[? ?|?]|]; exact Hat.
Qed.

Lemma Demo_Interface_stable (h : list Cell) (a c : addr) (name : string)
      (x : GoValue) :
  reflect.Interface (reflect.field_set h a name x) (RCell c) =
  reflect.Interface h (RCell c).
Proof.
  cbn. destruct (decide (a = c)) as [<-|Hne].
  - destruct (h !! a) as [[ty fs|v0]|] eqn:Hc.
    + by rewrite (field_set_lookup_eq _ _ _ _ _ _ Hc).
    + unfold reflect.field_set. unfold addr in *. by rewrite !Hc.
    + unfold reflect.field_set. unfold addr in *. by rewrite !Hc.
  - by rewrite field_set_lookup_ne.
Qed.

(** The demo metadata service reads the keys [names] from the fields of
    that name only. *)
Lemma Demo_KeysStable (meta : string -> list StructField) (omit : list string)
      (db : sql.DB) (name : string) (names : list string) :
  name ∉ names ->
  hooks.KeysStable (H := Demo.collaborators meta omit db) name names.
Proof.
  intros Hn h a x rv [[c ->]|[v ->]]; cbn [util_GetValueFromFields Demo.collaborators].
  - rewrite Demo_Interface_stable. by apply Demo_keysOf_stable.
  - by apply Demo_keysOf_stable.
Qed.

Lemma Demo_MatchStable (meta : string -> list StructField) (omit : list string)
      (db : sql.DB) (name : string) (rel : Relationship) :
  name ∉ AssociationForeignFieldNames rel ->
  name ∉ ForeignFieldNames rel ->
  hooks.MatchStable name (hooks.matches (H := Demo.collaborators meta omit db) rel).
Proof.
  intros Ha Hf h a x o r. unfold hooks.matches.
  rewrite (Demo_KeysStable meta omit db name _ Ha).
  - by rewrite (Demo_KeysStable meta omit db name _ Hf) by eauto.
  - unfold hooks.objectOf. destruct o as [| | | | | |[?|]| |]; eauto.
Qed.

End DemoKeys.

(** X3 at the two users the backend delivers: the user the slice held is
    no longer in it, and the two rows are the records in cells 2 and 3. *)
Lemma QueryExec_into_slice_witness :
  exists st' : St,
    hooks.QueryExec (H := Inputs.registry) (book_driver 0 empty_book) Inputs.refill
    = (st', Ok tt) /\
    trace (world st') = [sql.EvQuery "SELECT * FROM User" []] /\
    heap (world st')
    = [CVar (VSlice (TStruct "User") (Some [VStruct 2%nat; VStruct 3%nat]));
       Inputs.user 5 "old"; Inputs.user 1 "ann"; Inputs.user 2 "bob"] /\
    engine.RowsAffected (eng st') = 2 /\
    (forall (i : nat) (row : list GoValue),
       [[VInt64 1; VString "ann"]; [VInt64 2; VString "bob"]] !! i = Some row ->
       exists c,
         heap (world st') !! (2 + i)%nat = Some c /\
         hooks.scannedInto (H := Inputs.registry) (TStruct "User") ["id"; "name"]
                           row (2 + i)%nat c).
Proof.
  destruct (QueryExec_into_slice (H := Inputs.registry) (book_driver 0 empty_book)
              Inputs.refill 0%nat (TStruct "User") (Some [VStruct 1%nat]))
    as [_ Hok].
  - reflexivity.
  - reflexivity.
  - reflexivity.
  - apply Demo_ScansLocally.
  - destruct (Hok Inputs.userRows eq_refl)
      as (st' & rowvals & Hrun & Ht & Hres & Hlen & Hn & Hold & Hrows).
    exists st'. split; [exact Hrun|]. split; [exact Ht|]. split; [|split].
    + replace st' with (fst (hooks.QueryExec (H := Inputs.registry)
                               (book_driver 0 empty_book) Inputs.refill))
        by (by rewrite Hrun).
      vm_compute. reflexivity.
    + exact Hn.
    + intros i row Hi. destruct (Hrows i row Hi) as (c & Hc & Hsc & _). eauto.
Defined.

(** X4 at a new user on the dialect with a returning suffix: the key the
    row delivers replaces the one the record had. *)
Lemma CreateExec_returning_witness :
  exists st' : St,
    hooks.CreateExec (H := Inputs.quiet) (book_driver 0 empty_book)
                     Inputs.insertReturning = (st', Ok tt) /\
    trace (world st')
    = [sql.EvQueryRow "INSERT INTO `User` (`name`) VALUES ($1) RETURNING `User`.`id`"
                      [VString "ann"]] /\
    reflect.field_get (heap (world Inputs.insertReturning)) 0%nat "ID"
    = Some (VInt64 7) /\
    heap (world st') = reflect.field_set (heap (world Inputs.insertReturning))
                                         0%nat "ID" (VInt64 42) /\
    engine.RowsAffected (eng st') = 1.
Proof.
  destruct (CreateExec_returning (H := Inputs.quiet) (book_driver 0 empty_book)
              Inputs.insertReturning Inputs.idOfUser0) as [_ Hok].
  - reflexivity.
  - vm_compute. discriminate.
  - destruct (Hok eq_refl) as [_ Hrow].
    destruct (Hrow (VInt64 42) 0%nat "ID" (VInt64 7) eq_refl eq_refl eq_refl)
      as (st' & Hrun & Ht & Hh & _ & He).
    exists st'. repeat split; try assumption. by rewrite He.
Defined.

(** X5 at Ann alone, who holds an email: her field ends with the two rows
    of the result and without the email she held. *)
Lemma has_many_single_owner_witness :
  exists (st' : St) (rowvals : list GoValue),
    hooks.PreloadHasMany (H := Inputs.annMail)
      (book_driver 3 (Inputs.queryBook Inputs.annMail)) Inputs.emailsOfAnn []
      Inputs.annAlone = (st', Ok tt) /\
    trace (world st')
    = [sql.EvQuery "SELECT * FROM Email WHERE user_id IN (?)" [VInt64 1]] /\
    List.length rowvals = 2%nat /\
    reflect.field_get (heap (world Inputs.annAlone)) 0%nat "Emails"
    = Some (VSlice (TStruct "Email") (Some [VStruct 1%nat])) /\
    reflect.field_get (heap (world st')) 0%nat "Emails"
    = Some (VSlice (TStruct "Email") (Some rowvals)).
Proof.
  destruct (has_many_single_owner (H := Inputs.annMail) 0
              (Inputs.queryBook Inputs.annMail) Inputs.emailsOfAnn Inputs.emails []
              Inputs.annAlone 0%nat "User"
              [("ID", VInt64 1); ("Name", VString "ann");
               ("Emails", VSlice (TStruct "Email") (Some [VStruct 1%nat]))]
              (TStruct "Email") 0%nat "Emails"
              (VSlice (TStruct "Email") (Some [VStruct 1%nat]))
              "SELECT * FROM Email WHERE user_id IN (?)" [VInt64 1] Inputs.annRows)
    as (st' & rowvals & Hrun & _ & Ht & Hlen & _ & Hset & _).
  - reflexivity.
  - reflexivity.
  - reflexivity.
  - reflexivity.
  - reflexivity.
  - reflexivity.
  - vm_compute. discriminate.
  - repeat split; reflexivity.
  - repeat split; reflexivity.
  - vm_compute. reflexivity.
  - reflexivity.
  - apply Demo_ScansLocally.
  - exists st', rowvals. repeat split; assumption.
Defined.

(** X6 at Ann alone in the club: of her two emails the second one ends as
    her primary email. *)
Lemma has_one_single_owner_witness :
  exists (st' : St) (rowvals : list GoValue),
    hooks.PreloadHasOne (H := Inputs.clubAnn)
      (book_driver 3 (Inputs.queryBook Inputs.clubAnn)) Inputs.primaryOfAnn []
      Inputs.memberAlone = (st', Ok tt) /\
    trace (world st')
    = [sql.EvQuery "SELECT * FROM Email WHERE user_id IN (?)" [VInt64 1]] /\
    List.length rowvals = 2%nat /\
    reflect.field_get (heap (world st')) 0%nat "Primary"
    = Some (default VNil (last rowvals)).
Proof.
  destruct (has_one_single_owner (H := Inputs.clubAnn) 0
              (Inputs.queryBook Inputs.clubAnn) Inputs.primaryOfAnn Inputs.primary []
              Inputs.memberAlone 0%nat "Member"
              [("ID", VInt64 1); ("Name", VString "ann"); ("Primary", VNil)]
              0%nat "Primary" VNil
              "SELECT * FROM Email WHERE user_id IN (?)" [VInt64 1] Inputs.annRows)
    as (st' & rowvals & Hrun & _ & Ht & Hlen & _ & Hset & _).
  - reflexivity.
  - reflexivity.
  - reflexivity.
  - reflexivity.
  - reflexivity.
  - vm_compute. discriminate.
  - repeat split; reflexivity.
  - repeat split; reflexivity.
  - vm_compute. reflexivity.
  - reflexivity.
  - apply Demo_ScansLocally.
  - exists st', rowvals. repeat split; assumption.
Defined.

Lemma NoDup_three (a b c : addr) :
  a <> b -> a <> c -> b <> c -> NoDup [a; b; c].
Proof.
  intros Hab Hac Hbc. repeat (apply NoDup_cons; split); try apply NoDup_nil_2.
  - intros Hin. apply elem_of_cons in Hin as [?|Hin]; [done|].
    apply list_elem_of_singleton in Hin. done.
  - intros Hin. apply list_elem_of_singleton in Hin. done.
  - intros Hin. by apply elem_of_nil in Hin.
Qed.

(** X7 at the three members and the three emails. *)
Lemma has_one_owners_witness :
  exists (st' : St) (h2 : list Cell) (rowvals : list GoValue),
    hooks.PreloadHasOne (H := Inputs.clubMail)
      (book_driver 3 (Inputs.queryBook Inputs.clubMail)) Inputs.primaryMeta []
      Inputs.threeMembers = (st', Ok tt) /\
    trace (world st')
    = [sql.EvQuery "SELECT * FROM Email WHERE user_id IN (?,?,?)"
                   [VInt64 1; VInt64 2; VInt64 3]] /\
    h2 !! 4%nat = Some (CVar (VSlice (TStruct "Email") (Some rowvals))) /\
    List.length rowvals = 3%nat /\
    (forall o a, o ∈ [VStruct 1%nat; VStruct 2%nat; VStruct 3%nat] ->
       hooks.addrOf o = Some a ->
       reflect.field_get (heap (world st')) a "Primary" =
       match List.find (hooks.matches (H := Inputs.clubMail) Inputs.primary h2 o)
                       rowvals with
       | Some r => Some r
       | None => reflect.field_get (heap (world Inputs.threeMembers)) a "Primary"
       end).
Proof.
  destruct (has_one_owners (H := Inputs.clubMail) 0 (Inputs.queryBook Inputs.clubMail)
              Inputs.primaryMeta Inputs.primary [] Inputs.threeMembers 0%nat
              (TStruct "Member") [VStruct 1%nat; VStruct 2%nat; VStruct 3%nat]
              "SELECT * FROM Email WHERE user_id IN (?,?,?)"
              [VInt64 1; VInt64 2; VInt64 3] Inputs.mailRows)
    as (st' & h2 & rowvals & Hrun & _ & Ht & Hres & Hlen & _ & Hset & _).
  - reflexivity.
  - reflexivity.
  - reflexivity.
  - repeat constructor.
    + exists 1%nat, "Member",
        [("ID", VInt64 1); ("Name", VString "ann"); ("Primary", VNil)], VNil.
      repeat split; reflexivity.
    + exists 2%nat, "Member",
        [("ID", VInt64 2); ("Name", VString "bob"); ("Primary", VNil)], VNil.
      repeat split; reflexivity.
    + exists 3%nat, "Member",
        [("ID", VInt64 3); ("Name", VString "cy"); ("Primary", VNil)], VNil.
      repeat split; reflexivity.
  - apply NoDup_three; discriminate.
  - vm_compute. discriminate.
  - repeat split; reflexivity.
  - repeat split; reflexivity.
  - vm_compute. reflexivity.
  - reflexivity.
  - apply Demo_ScansLocally.
  - apply Demo_MatchStable; cbn; intros Hin;
      apply list_elem_of_singleton in Hin; discriminate.
  - exists st', h2, rowvals. repeat split; assumption.
Defined.

(** Ann and Bob end with the first of their emails, Cy with none. *)
Lemma has_one_three_members :
  let r := hooks.PreloadHasOne (H := Inputs.clubMail)
             (book_driver 3 (Inputs.queryBook Inputs.clubMail)) Inputs.primaryMeta []
             Inputs.threeMembers in
  snd r = Ok tt /\
  heap (world (fst r)) !! 4%nat
  = Some (CVar (VSlice (TStruct "Email")
                       (Some [VStruct 5%nat; VStruct 6%nat; VStruct 7%nat]))) /\
  reflect.field_get (heap (world (fst r))) 1%nat "Primary" = Some (VStruct 5%nat) /\
  reflect.field_get (heap (world (fst r))) 2%nat "Primary" = Some (VStruct 6%nat) /\
  reflect.field_get (heap (world (fst r))) 3%nat "Primary" = Some VNil.
Proof. vm_compute. repeat split; reflexivity. Qed.

(** X8 at the three emails and the two users the backend delivers. *)
Lemma belongs_to_owners_witness :
  exists (st' : St) (h2 : list Cell) (rowvals : list GoValue),
    hooks.PreloadBelongsTo (H := Inputs.registry)
      (book_driver 3 (Inputs.queryBook Inputs.registry)) Inputs.ownerMeta []
      Inputs.threeEmails = (st', Ok tt) /\
    trace (world st')
    = [sql.EvQuery "SELECT * FROM User WHERE id IN (?,?,?)"
                   [VInt64 1; VInt64 9; VInt64 1]] /\
    h2 !! 4%nat = Some (CVar (VSlice (TPtr (TStruct "User")) (Some rowvals))) /\
    List.length rowvals = 2%nat /\
    (forall o a, o ∈ [VStruct 1%nat; VStruct 2%nat; VStruct 3%nat] ->
       hooks.addrOf o = Some a ->
       reflect.field_get (heap (world st')) a "User" =
       match last (List.filter (hooks.owes (H := Inputs.registry) Inputs.owner h2 o)
                               rowvals) with
       | Some r => Some r
       | None => reflect.field_get (heap (world Inputs.threeEmails)) a "User"
       end).
Proof.
  destruct (belongs_to_owners (H := Inputs.registry) 0
              (Inputs.queryBook Inputs.registry)
              Inputs.ownerMeta Inputs.owner [] Inputs.threeEmails 0%nat
              (TStruct "Email") [VStruct 1%nat; VStruct 2%nat; VStruct 3%nat]
              "SELECT * FROM User WHERE id IN (?,?,?)"
              [VInt64 1; VInt64 9; VInt64 1] Inputs.userRows)
    as (st' & h2 & rowvals & Hrun & _ & Ht & Hres & Hlen & _ & Hset & _).
  - reflexivity.
  - reflexivity.
  - reflexivity.
  - repeat constructor.
    + exists 1%nat, "Email",
        [("ID", VInt64 10); ("UserID", VInt64 1); ("Address", VString "a@x");
         ("User", VPtr None)], (VPtr None).
      repeat split; reflexivity.
    + exists 2%nat, "Email",
        [("ID", VInt64 11); ("UserID", VInt64 9); ("Address", VString "b@x");
         ("User", VPtr None)], (VPtr None).
      repeat split; reflexivity.
    + exists 3%nat, "Email",
        [("ID", VInt64 12); ("UserID", VInt64 1); ("Address", VString "c@x");
         ("User", VPtr None)], (VPtr None).
      repeat split; reflexivity.
  - apply NoDup_three; discriminate.
  - vm_compute. discriminate.
  - repeat split; reflexivity.
  - repeat split; reflexivity.
  - vm_compute. reflexivity.
  - reflexivity.
  - apply Demo_ScansLocally.
  - apply Demo_KeysStable; cbn; intros Hin;
      apply list_elem_of_singleton in Hin; discriminate.
  - apply Demo_KeysStable; cbn; intros Hin;
      apply list_elem_of_singleton in Hin; discriminate.
  - exists st', h2, rowvals. repeat split; assumption.
Defined.

(** The first and the third email end with their user, Ann, in the same
    cell; the second, whose user the backend does not deliver, with none. *)
Lemma belongs_to_three_emails :
  let r := hooks.PreloadBelongsTo (H := Inputs.registry)
             (book_driver 3 (Inputs.queryBook Inputs.registry)) Inputs.ownerMeta []
             Inputs.threeEmails in
  snd r = Ok tt /\
  reflect.field_get (heap (world (fst r))) 1%nat "User" = Some (VPtr (Some 5%nat)) /\
  reflect.field_get (heap (world (fst r))) 2%nat "User" = Some (VPtr None) /\
  reflect.field_get (heap (world (fst r))) 3%nat "User" = Some (VPtr (Some 5%nat)).
Proof. vm_compute. repeat split; reflexivity. Qed.

(** ** The statements of an update and of a delete *)

Section UpdateFacts.
Context `{Collaborators} `{Writers}.
Import model hooks.

Lemma addVars_app (p q : list GoValue) (st : St) :
  addVars q (addVars p st) = addVars (p ++ q) st.
Proof. unfold addVars, on_eng, on_Scope. cbn. by rewrite app_assoc. Qed.

Lemma addVars_nil (st : St) : addVars [] st = st.
Proof.
  destruct st as [[[v q vars d m ex] se ra di] w].
  unfold addVars, on_eng, on_Scope, set_eng, set_Scope, set_SQLVars. cbn.
  by rewrite app_nil_r.
Qed.

Lemma addVars_context (p : list GoValue) (st : St) :
  sameContext (eng st) (eng (addVars p st)).
Proof. by repeat split. Qed.

Lemma AddToVars_addVars (p : list GoValue) (st : St) (value : GoValue) :
  scope_AddToVars value (addVars p st) =
    (addVars (p ++ [value]) st,
     Ok (engine.BindVar (engine.Dialect_ (eng st))
           (List.length (SQLVars (engine.Scope (eng st))) + List.length p + 1))).
Proof.
  unfold scope_AddToVars, bind, modE, modify, getE, gets, ret. cbn.
  rewrite !length_app. cbn [List.length].
  change (on_eng _ (addVars p st)) with (addVars [value] (addVars p st)).
  by rewrite addVars_app.
Qed.

Lemma setList_app (d : engine.Dialect) (n : nat) (c1 c2 : list string) :
  setList d n (c1 ++ c2) = setList d n c1 ++ setList d (n + List.length c1) c2.
Proof.
  unfold setList. rewrite length_app, placeholdersFrom_app.
  rewrite zip_with_app; [done|]. by rewrite placeholdersFrom_length.
Qed.

Lemma updateForeignKeys_run (st0 : St) (fks : list string) :
  Stable (eng st0) (heap (world st0)) ->
  (forall fk, fk ∈ fks ->
     Answered (scope_FieldByName (eng st0) (heap (world st0))
                 (Value (engine.Scope (eng st0))) fk)) ->
  forall sqls p,
    let new := flat_map (foreignKeyColumn (eng st0) (heap (world st0))) fks in
    updateForeignKeys fks sqls (addVars p st0) =
      (addVars (p ++ List.map snd new) st0,
       Ok (sqls ++ setList (engine.Dialect_ (eng st0))
                     (List.length (SQLVars (engine.Scope (eng st0))) + List.length p)
                     (List.map fst new))).
Proof.
  intros Hst. induction fks as [|fk fks IH]; intros Hok sqls p.
  - cbn. by rewrite !app_nil_r.
  - cbn [updateForeignKeys flat_map].
    assert (Hrest : forall fk', fk' ∈ fks ->
               Answered (scope_FieldByName (eng st0) (heap (world st0))
                           (Value (engine.Scope (eng st0))) fk'))
      by (intros fk' Hin; apply Hok; by right).
    destruct (Hst _ (addVars_context p st0)) as (Hch & Hq & Hfb & _).
    unfold bind at 1. unfold getE, gets. unfold bind at 1. unfold getH, gets.
    change (heap (world (addVars p st0))) with (heap (world st0)).
    rewrite Hfb.
    pose proof (Hok fk ltac:(by left)) as Hans.
    assert (Hfk : foreignKeyColumn (eng st0) (heap (world st0)) fk =
                  match scope_FieldByName (eng st0) (heap (world st0))
                          (Value (engine.Scope (eng st0))) fk with
                  | Ok ff => if scope_ChangeableField (eng st0) ff then []
                             else [(scope_Quote (eng st0) (DBName ff),
                                    reflect.Interface (heap (world st0)) (Field_ ff))]
                  | _ => []
                  end) by reflexivity.
    rewrite Hfk. clear Hfk.
    destruct (scope_FieldByName (eng st0) (heap (world st0))
                (Value (engine.Scope (eng st0))) fk) as [ff|err| |] eqn:Hff;
      try done.
    + rewrite Hch. destruct (scope_ChangeableField (eng st0) ff); cbn [negb].
      * cbn [app]. by apply IH.
      * unfold bind at 1. rewrite AddToVars_addVars.
        rewrite IH by done. rewrite Hq.
        cbn [List.map fst snd app]. rewrite <- !app_assoc. cbn [app].
        f_equal. f_equal. f_equal.
        change (scope_Quote (eng st0) (DBName ff) :: List.map fst ?l)
          with ([scope_Quote (eng st0) (DBName ff)] ++ List.map fst l).
        rewrite (setList_app _ _ [_]). cbn [List.length].
        rewrite length_app. cbn [List.length].
        replace (List.length (SQLVars (engine.Scope (eng st0)))
                 + (List.length p + 1))%nat
          with (List.length (SQLVars (engine.Scope (eng st0)))
                + List.length p + 1)%nat by lia.
        reflexivity.
    + cbn [app]. by apply IH.
Qed.

Lemma updateFields_run (st0 : St) (fds : list Field) :
  Stable (eng st0) (heap (world st0)) ->
  (forall (field : Field) rel fk,
     field ∈ fds ->
     Relationship_ field = Some rel ->
     fk ∈ ForeignDBNames rel ->
     Answered (scope_FieldByName (eng st0) (heap (world st0))
                 (Value (engine.Scope (eng st0))) fk)) ->
  forall sqls p,
    let new := flat_map (fieldAssignments (eng st0) (heap (world st0))) fds in
    updateFields fds sqls (addVars p st0) =
      (addVars (p ++ List.map snd new) st0,
       Ok (sqls ++ setList (engine.Dialect_ (eng st0))
                     (List.length (SQLVars (engine.Scope (eng st0))) + List.length p)
                     (List.map fst new))).
Proof.
  intros Hst. induction fds as [|field fds IH]; intros Hok sqls p.
  - cbn. by rewrite !app_nil_r.
  - assert (Hrest : forall (field' : Field) rel fk,
               field' ∈ fds -> Relationship_ field' = Some rel ->
               fk ∈ ForeignDBNames rel ->
               Answered (scope_FieldByName (eng st0) (heap (world st0))
                           (Value (engine.Scope (eng st0))) fk))
      by (intros f' rel fk Hin; apply Hok; by right).
    destruct (Hst _ (addVars_context p st0)) as (Hch & Hq & _).
    cbn [updateFields flat_map].
    unfold bind at 1. unfold getE, gets. unfold bind at 1. unfold getH, gets.
    change (heap (world (addVars p st0))) with (heap (world st0)).
    rewrite Hch.
    assert (Hfa : fieldAssignments (eng st0) (heap (world st0)) field =
      if scope_ChangeableField (eng st0) field then
        if negb (IsPrimaryKey field) && IsNormal field then
          [(scope_Quote (eng st0) (DBName field),
            reflect.Interface (heap (world st0)) (Field_ field))]
        else
          match Relationship_ field with
          | Some rel =>
              if String.eqb (Kind rel) "belongs_to"
              then flat_map (foreignKeyColumn (eng st0) (heap (world st0)))
                            (ForeignDBNames rel)
              else []
          | None => []
          end
      else []) by reflexivity.
    rewrite Hfa. clear Hfa.
    destruct (scope_ChangeableField (eng st0) field); [|by apply IH].
    destruct (negb (IsPrimaryKey field) && IsNormal field).
    + unfold bind at 1. rewrite AddToVars_addVars.
      rewrite IH by done. rewrite Hq.
      cbn [List.map fst snd app]. rewrite <- !app_assoc. cbn [app].
      f_equal. f_equal. f_equal.
      change (scope_Quote (eng st0) (DBName field) :: List.map fst ?l)
        with ([scope_Quote (eng st0) (DBName field)] ++ List.map fst l).
      rewrite (setList_app _ _ [_]). cbn [List.length].
      rewrite length_app. cbn [List.length].
      replace (List.length (SQLVars (engine.Scope (eng st0)))
               + (List.length p + 1))%nat
        with (List.length (SQLVars (engine.Scope (eng st0)))
              + List.length p + 1)%nat by lia.
      reflexivity.
    + destruct (Relationship_ field) as [rel|] eqn:Hrel; [|by apply IH].
      destruct (String.eqb (Kind rel) "belongs_to"); [|by apply IH].
      unfold bind at 1.
      rewrite (updateForeignKeys_run st0 (ForeignDBNames rel) Hst).
      2:{ intros fk Hin. apply (Hok field rel fk); [by left|done|done]. }
      rewrite IH by done.
      rewrite !map_app, setList_app, !length_app, !length_map.
      rewrite <- !app_assoc, Nat.add_assoc. reflexivity.
Qed.

(** X9.  The statement [UpdateSQL] builds from the fields of the record,
    when no update attributes are set.  Every changeable field that is
    normal and not the primary key is assigned its value; a changeable field
    that is the primary key or not normal contributes, when it is a
    belongs_to field, the foreign keys that are found and not changeable,
    and nothing otherwise.  The values are appended to the parameters in the
    order of the SET list, before the condition is built, and the
    placeholders count on from the parameters that were there.  With no
    assignment at all the statement is left as it was, inside the
    transaction script on the QL dialects. *)
Theorem UpdateSQL_from_fields (b : Driver) (st st1 : St) (fds : list Field) :
  let e := eng st1 in
  let h := heap (world st1) in
  let sets := flat_map (fieldAssignments e h) fds in
  let st2 := addVars (List.map snd sets) st1 in
  let extraOption :=
    match Scope_Get UpdateOptions (engine.Scope e) with
    | Some str => fmt_Sprint str
    | None => ""
    end in
  Exec b UpdateHook HookAssignUpdatingAttrs st = (st1, Ok tt) ->
  Scope_Get UpdateAttrs (engine.Scope e) = None ->
  Stable e h ->
  scope_Fields e h (Value (engine.Scope e)) = Ok fds ->
  (forall (field : Field) rel fk,
     field ∈ fds -> Relationship_ field = Some rel -> fk ∈ ForeignDBNames rel ->
     Answered (scope_FieldByName e h (Value (engine.Scope e)) fk)) ->
  SQLVars (engine.Scope (eng st2)) =
    SQLVars (engine.Scope e) ++ List.map snd sets /\
  (sets = [] ->
   UpdateSQL b st =
     (if isQLName (engine.Dialect_ e)
      then on_eng (on_Scope (fun s =>
                     set_SQL (updateScript (engine.Dialect_ e) (SQL s)) s)) st1
      else st1, Ok tt)) /\
  (sets <> [] ->
   (forall st3 err,
      builder_CombinedCondition (Value (engine.Scope e)) st2 = (st3, Err err) ->
      UpdateSQL b st = (st3, Err err)) /\
   (forall st3 c,
      builder_CombinedCondition (Value (engine.Scope e)) st2 = (st3, Ok c) ->
      UpdateSQL b st =
        (on_eng (on_Scope (set_SQL
           (updateScript (engine.Dialect_ (eng st3))
              ("UPDATE "
               +:+ scope_QuotedTableName (eng st3) (heap (world st3))
                                         (Value (engine.Scope (eng st3)))
               +:+ " SET "
               +:+ GoStrings.Join (setList (engine.Dialect_ e)
                                 (List.length (SQLVars (engine.Scope e)))
                                 (List.map fst sets)) ", "
               +:+ util_AddExtraSpaceIfExist c
               +:+ util_AddExtraSpaceIfExist extraOption)))) st3,
         Ok tt))).
Proof.
  intros e h sets st2 extraOption Hhook Hattrs Hst Hfds Hans.
  split; [reflexivity|].
  assert (Hloop : updateFields fds [] (addVars [] st1) =
                  (st2, Ok (setList (engine.Dialect_ e)
                              (List.length (SQLVars (engine.Scope e)))
                              (List.map fst sets)))).
  { rewrite (updateFields_run st1 fds Hst Hans [] []).
    cbn [app List.length]. by rewrite Nat.add_0_r. }
  rewrite addVars_nil in Hloop.
  set (sl := setList (engine.Dialect_ e) (List.length (SQLVars (engine.Scope e)))
                     (List.map fst sets)) in *.
  assert (Hlen : List.length sl = List.length sets).
  { unfold sl, setList.
    rewrite length_zip_with, placeholdersFrom_length, !length_map. lia. }
  assert (Hstep :
    (let! h := getH in
     let! fds := lift (scope_Fields e h (Value (engine.Scope e))) in
     updateFields fds []) st1 = (st2, Ok sl)).
  { unfold bind, getH, gets, lift. fold h. rewrite Hfds. exact Hloop. }
  split; [intros Hsets; destruct (isQLName (engine.Dialect_ e)) eqn:Hql
        |intros Hsets; split; intros st3 x Hc].
  all: unfold UpdateSQL; rewrite (bind_run _ _ _ _ _ Hhook);
    unfold bind at 1; unfold getE at 1; unfold gets at 1; cbv beta iota;
    fold e; rewrite Hattrs; rewrite (bind_run _ _ _ _ _ Hstep);
    unfold bind at 1; unfold getE at 1; unfold gets at 1; cbv beta iota;
    change (Value (engine.Scope (eng st2))) with (Value (engine.Scope e));
    change (Scope_Get UpdateOptions (engine.Scope (eng st2)))
      with (Scope_Get UpdateOptions (engine.Scope e)).
  1,2: assert (Hst2 : st2 = st1) by (unfold st2; rewrite Hsets; apply addVars_nil);
    rewrite Hst2;
    (destruct (decide _) as [Hn|_];
     [rewrite Hlen, Hsets in Hn; cbn in Hn; lia|]);
    unfold bind, ret, getE, gets, modE, modify; fold e;
    unfold updateScript; rewrite Hql; reflexivity.
  all: destruct (decide _) as [_|Hn];
    [|rewrite Hlen in Hn; destruct sets; [done|cbn in Hn; lia]].
  - unfold bind at 1. unfold bind at 1. by rewrite Hc.
  - unfold bind at 1. unfold bind at 1. rewrite Hc.
    unfold bind, ret, getE, getH, gets, modE, modify. cbn.
    unfold updateScript.
    destruct (isQLName (engine.Dialect_ (eng st3))); reflexivity.
Qed.

End UpdateFacts.

Section WriteFacts.
Context `{Collaborators} `{Writers}.
Import model hooks.

(** X10.  On the QL dialects a successful [UpdateSQL] always leaves a
    transaction script, around whatever statement there is: the statement
    of the scope is never empty afterwards, also when there was nothing to
    update, so the guard of [UpdateExec] against a missing statement does
    not fire and a transaction is opened. *)
Theorem UpdateSQL_ql_script (b d : Driver) (st st' : St) :
  UpdateSQL b st = (st', Ok tt) ->
  isQLName (engine.Dialect_ (eng st')) = true ->
  (exists q, SQL (engine.Scope (eng st')) =
             "BEGIN TRANSACTION;" +:+ LF +:+ TAB +:+ q +:+ ";" +:+ LF +:+ "COMMIT;") /\
  (exists tl, trace (world (fst (UpdateExec d st'))) =
              trace (world st') ++ sql.EvBegin :: tl).
Proof.
  intros Hrun Hql.
  assert (Hq : exists q, SQL (engine.Scope (eng st')) =
             "BEGIN TRANSACTION;" +:+ LF +:+ TAB +:+ q +:+ ";" +:+ LF +:+ "COMMIT;").
  { unfold UpdateSQL in Hrun.
    apply bind_Ok in Hrun as (s1 & [] & _ & Hrun).
    apply bind_Ok in Hrun as (s2 & e2 & _ & Hrun).
    apply bind_Ok in Hrun as (s3 & sqls & _ & Hrun).
    apply bind_Ok in Hrun as (s4 & e4 & _ & Hrun).
    apply bind_Ok in Hrun as (s5 & [] & _ & Hrun).
    apply bind_Ok in Hrun as (s6 & e6 & He6 & Hrun).
    unfold getE, gets in He6. injection He6 as <- <-.
    destruct (isQLName (engine.Dialect_ (eng s5))) eqn:Hql5.
    - unfold modE, modify in Hrun. injection Hrun as <-.
      exists (SQL (engine.Scope (eng s5))). reflexivity.
    - unfold ret in Hrun. injection Hrun as <-. congruence. }
  split; [exact Hq|].
  destruct Hq as [q Hq].
  unfold UpdateExec, bind, getE, gets. rewrite Hq.
  change (String.eqb _ "") with false. cbv iota.
  unfold SQLDB_Begin, backend, asResult.
  destruct (sql.Begin SQLDB (trace (world st'))) as [err|];
    [exists []; reflexivity|].
  unfold try, tx_Exec, backend. cbn.
  destruct (sql.TxExec SQLDB _ _ _) as [r|err|msg|]; cbn.
  - unfold lift. destruct (sql.RowsAffected r) as [n|err|msg|]; cbn;
      rewrite <- ?app_assoc; cbn; eauto.
  - destruct (sql.Rollback SQLDB _); cbn; rewrite <- ?app_assoc; cbn; eauto.
  - rewrite <- ?app_assoc; cbn; eauto.
  - rewrite <- ?app_assoc; cbn; eauto.
Qed.

(** X11.  With the built-in [BeforeCreate] and [CreateSQL] registered under
    their names, [Create] runs a call-back registered before a create
    twice: once from [BeforeCreate], and once more from [CreateSQL], which
    runs the step [BeforeCreate] again.  A call-back that succeeds the first
    time and fails the second time fails the create with that error, in the
    state its second run leaves. *)
Theorem Create_runs_callback_twice (fuel : nat) (b : Book) (cb : M St unit)
        (st st1 st2 : St) (err : error) :
  CreateSteps b [fun _ => cb] ->
  cb st = (st1, Ok tt) ->
  cb st1 = (st2, Err err) ->
  Create (book_driver (3 + fuel) b) st = (st2, Err err).
Proof.
  intros (Hb1 & Hb2 & Hb3 & Hb4) H1 H2.
  change (3 + fuel)%nat with (S (S (S fuel))).
  unfold Create. rewrite (MustExec_S _ _ _ _ _ _ Hb1), Exec_S, Hb2.
  assert (Hfirst : run_hooks (book_driver (S (S fuel)) b) [BeforeCreate] st
                   = (st1, Ok tt)).
  { cbn [run_hooks]. unfold BeforeCreate. rewrite !Exec_S, Hb3, Hb4.
    cbn [run_hooks]. unfold bind, ret. by rewrite H1. }
  rewrite (bind_run _ _ _ _ _ Hfirst).
  assert (Hsecond : run_hooks (book_driver (S (S fuel)) b) [CreateSQL] st1
                    = (st2, Err err)).
  { cbn [run_hooks]. unfold CreateSQL. rewrite Exec_S, Hb1.
    cbn [run_hooks]. unfold BeforeCreate at 1. rewrite !Exec_S, Hb3, Hb4.
    cbn [run_hooks]. unfold bind, ret. by rewrite H2. }
  unfold bind at 1. by rewrite Hsecond.
Qed.

(** X12.  [Delete] with the built-in steps on a dialect outside the QL
    family, for a value with conditions.  One statement is sent, outside
    any transaction: a DELETE when the table has no column for the time of
    deletion, and otherwise an UPDATE that sets that column to the
    engine's time, which is appended to the parameters the condition
    builder leaves.  The row count of the answer is stored.  When the
    backend refuses the statement, its error is returned and the row count
    is as it was. *)
Theorem Delete_statement (fuel : nat) (b : Book) (st stc : St) (c : string) :
  let e := eng st in
  let h := heap (world st) in
  let ec := eng stc in
  let d := engine.Dialect_ ec in
  let table := scope_QuotedTableName ec (heap (world stc))
                                     (Value (engine.Scope ec)) in
  let extraOption :=
    match Scope_Get DeleteOption (engine.Scope e) with
    | Some str => fmt_Sprint str
    | None => ""
    end in
  let soft := engine.HasColumn (engine.Dialect_ e)
                (scope_TableName e h (Value (engine.Scope e))) "DeletedAt" in
  let q := if soft
           then softDeleteSQL table
                  (engine.BindVar d (List.length (SQLVars (engine.Scope ec)) + 1))
                  c extraOption
           else deleteSQL table c extraOption in
  let args := if soft then SQLVars (engine.Scope ec) ++ [engine_Now stc]
              else SQLVars (engine.Scope ec) in
  DeleteSteps b ->
  scope_HasConditions e h (Value (engine.Scope e)) = true ->
  builder_CombinedCondition (Value (engine.Scope e)) st = (stc, Ok c) ->
  dialects_IsQL d = false ->
  isQLName d = false ->
  (forall err, sql.Exec SQLDB (trace (world stc)) q args = Err err ->
     exists st',
       Delete (book_driver (3 + fuel) b) st = (st', Err err) /\
       trace (world st') = trace (world stc) ++ [sql.EvExec q args] /\
       engine.RowsAffected (eng st') = engine.RowsAffected ec) /\
  (forall r n, sql.Exec SQLDB (trace (world stc)) q args = Ok r ->
     sql.RowsAffected r = Ok n ->
     exists st',
       Delete (book_driver (3 + fuel) b) st = (st', Ok tt) /\
       trace (world st') = trace (world stc) ++ [sql.EvExec q args] /\
       SQL (engine.Scope (eng st')) = q /\
       SQLVars (engine.Scope (eng st')) = args /\
       engine.RowsAffected (eng st') = n /\
       heap (world st') = heap (world stc)).
Proof.
  intros e h ec d table extraOption soft q args (Hb1 & Hb2 & Hb3 & Hb4 & Hb5)
         Hcond Hc Hql Hname.
  set (st2 := on_eng (on_Scope (fun s => set_SQLVars args (set_SQL q s))) stc).
  assert (Hbefore : MustExec (book_driver (3 + fuel) b) DeleteHook
                      model.BeforeDelete st = (st, Ok tt)).
  { change (3 + fuel)%nat with (S (S (S fuel))).
    rewrite (MustExec_S _ _ _ _ _ _ Hb1). cbn [run_hooks].
    unfold BeforeDelete, bind, getE, getH, gets. fold e h. rewrite Hcond.
    cbn [negb]. rewrite Exec_S, Hb4. reflexivity. }
  assert (Hsql : MustExec (book_driver (3 + fuel) b) DeleteHook
                   model.DeleteSQL st = (st2, Ok tt)).
  { change (3 + fuel)%nat with (S (S (S fuel))).
    rewrite (MustExec_S _ _ _ _ _ _ Hb2). cbn [run_hooks].
    unfold DeleteSQL. unfold bind at 1. unfold bind at 1.
    unfold getE at 1. unfold gets at 1. cbv beta iota.
    unfold bind at 1. unfold getH at 1. unfold gets at 1. cbv beta iota.
    fold e h. unfold st2, q, args. fold soft.
    destruct soft.
    - unfold bind at 1. rewrite Hc.
      unfold bind, getE, getH, gets, scope_AddToVars, modE, modify, ret.
      cbn. fold ec d. rewrite Hname. rewrite length_app. cbn [List.length].
      unfold softDeleteSQL. reflexivity.
    - unfold bind at 1. rewrite Hc.
      unfold bind, getE, getH, gets, modE, modify, ret.
      cbn. fold ec d. rewrite Hname. unfold deleteSQL.
      unfold table, ec.
      destruct stc as [[[v q0 vars dt m ex] se ra di] w]. reflexivity. }
  assert (Hafter : forall s, MustExec (book_driver (3 + fuel) b) DeleteHook
                       model.AfterDelete s = (s, Ok tt)).
  { intros s. change (3 + fuel)%nat with (S (S (S fuel))).
    rewrite (MustExec_S _ _ _ _ _ _ Hb3). cbn [run_hooks].
    unfold AfterDelete. rewrite Exec_S, Hb5. reflexivity. }
  split.
  - intros err Hex. eexists. split.
    + unfold Delete. rewrite (bind_run _ _ _ _ _ Hbefore).
      rewrite (bind_run _ _ _ _ _ Hsql).
      unfold bind, getE, gets.
      change (dialects_IsQL _) with (dialects_IsQL d). rewrite Hql.
      unfold SQLDB_Exec, backend. cbn. rewrite Hex. reflexivity.
    + split; reflexivity.
  - intros r n Hex Hn. eexists. split.
    + unfold Delete. rewrite (bind_run _ _ _ _ _ Hbefore).
      rewrite (bind_run _ _ _ _ _ Hsql).
      unfold bind, getE, gets.
      change (dialects_IsQL _) with (dialects_IsQL d). rewrite Hql.
      unfold SQLDB_Exec, backend. cbn. rewrite Hex. unfold lift. rewrite Hn.
      unfold modE, modify. rewrite Hafter. reflexivity.
    + repeat split; reflexivity.
Qed.

End WriteFacts.

(** X9 at an email of user 7, with [UserID] left out of the changeable
    fields: the address is assigned as a field, the foreign key through the
    belongs_to field [User]. *)
Lemma UpdateSQL_from_fields_witness :
  exists st' : St,
    hooks.UpdateSQL (H := Inputs.mailer) (H0 := Demo.writers)
                    (book_driver 1 empty_book) Inputs.storedEmail = (st', Ok tt) /\
    model.SQL (engine.Scope (eng st')) =
      "UPDATE `Email` SET `address` = $1, `user_id` = $2 WHERE id = ?" /\
    model.SQLVars (engine.Scope (eng st')) = [VString "a@b.c"; VInt64 7; VInt64 3].
Proof.
  destruct (UpdateSQL_from_fields (H := Inputs.mailer) (H0 := Demo.writers)
              (book_driver 1 empty_book) Inputs.storedEmail Inputs.storedEmail
              (Inputs.fieldsOfValue Inputs.mailer Inputs.storedEmail)
              eq_refl eq_refl (Demo_Stable _ _ _ _ _) eq_refl)
    as (_ & _ & Hsets).
  - intros field rel fk Hin Hrel Hfk.
    apply list_elem_of_In in Hin. vm_compute in Hin.
    destruct Hin as [<-|[<-|[<-|[<-|[]]]]]; try discriminate Hrel.
    injection Hrel as <-.
    apply list_elem_of_In in Hfk. destruct Hfk as [<-|[]].
    vm_compute. exact I.
  - destruct Hsets as [_ Hok]; [vm_compute; discriminate|].
    eexists. split; [apply Hok; reflexivity|]. split; reflexivity.
Defined.

(** X10 at a language with nothing to update on the QL dialect: the
    script around the empty statement is sent in a transaction. *)
Lemma UpdateSQL_ql_script_witness :
  let st' := fst (hooks.UpdateSQL (H := Inputs.silent) (H0 := Demo.writers)
                    (book_driver 1 empty_book) Inputs.fixedLanguage) in
  model.SQL (engine.Scope (eng Inputs.fixedLanguage)) = "" /\
  (exists q, model.SQL (engine.Scope (eng st')) =
             "BEGIN TRANSACTION;" +:+ hooks.LF +:+ hooks.TAB +:+ q +:+ ";"
             +:+ hooks.LF +:+ "COMMIT;") /\
  (exists tl,
     trace (world (fst (hooks.UpdateExec (H := Inputs.silent)
                          (book_driver 0 empty_book) st'))) =
     trace (world st') ++ sql.EvBegin :: tl).
Proof.
  intros st'. split; [reflexivity|].
  apply (UpdateSQL_ql_script (H := Inputs.silent) (H0 := Demo.writers)
           (book_driver 1 empty_book) (book_driver 0 empty_book)
           Inputs.fixedLanguage st'); reflexivity.
Defined.

(** X11 at a new user and the call-back that audits once. *)
Lemma Create_runs_callback_twice_witness :
  hooks.Create (book_driver 3 Inputs.audited) (Inputs.annToDelete Demo.plain)
  = (set_world (log (sql.EvExec "INSERT INTO audit DEFAULT VALUES" [])
                    (world (Inputs.annToDelete Demo.plain)))
               (Inputs.annToDelete Demo.plain),
     Err (ErrorsNew "audited already")).
Proof.
  apply (Create_runs_callback_twice (H := Inputs.quiet) 0 Inputs.audited
           Inputs.auditOnce (Inputs.annToDelete Demo.plain)
           (set_world (log (sql.EvExec "INSERT INTO audit DEFAULT VALUES" [])
                           (world (Inputs.annToDelete Demo.plain)))
                      (Inputs.annToDelete Demo.plain))).
  - repeat split; reflexivity.
  - reflexivity.
  - reflexivity.
Defined.

(** X12 at Ann on a dialect whose tables keep the time of deletion. *)
Lemma Delete_statement_witness :
  exists st' : St,
    hooks.Delete (H := Inputs.quiet) (book_driver 3 Inputs.deleting)
                 (Inputs.annToDelete Inputs.keeping) = (st', Ok tt) /\
    trace (world st') =
      [sql.EvExec "UPDATE `User` SET deleted_at=$2 WHERE id = ?"
                  [VInt64 1; VString "2017-03-04 10:00:00"]] /\
    engine.RowsAffected (eng st') = 1.
Proof.
  destruct (Delete_statement (H := Inputs.quiet) (H0 := Demo.writers) 0
              Inputs.deleting (Inputs.annToDelete Inputs.keeping)
              (fst (Demo.combined (VPtr (Some 0%nat))
                      (Inputs.annToDelete Inputs.keeping)))
              "WHERE id = ?")
    as [_ Hok].
  - repeat split; reflexivity.
  - reflexivity.
  - reflexivity.
  - reflexivity.
  - reflexivity.
  - destruct (Hok Demo.results1 1 eq_refl eq_refl)
      as (st' & Hrun & Ht & _ & _ & Hn & _).
    exists st'. split; [exact Hrun|]. split; [exact Ht|exact Hn].
Defined.

(** The same delete on a dialect whose tables do not: the row is
    removed. *)
Lemma Delete_removes_row :
  let r := hooks.Delete (H := Inputs.quiet) (book_driver 3 Inputs.deleting)
                        (Inputs.annToDelete Demo.plain) in
  snd r = Ok tt /\
  trace (world (fst r)) =
    [sql.EvExec "DELETE FROM `User` WHERE id = ?" [VInt64 1]].
Proof. vm_compute. split; reflexivity. Qed.

(** ** The many_to_many preloader *)

Section ManyToMany.
Context `{Collaborators}.
Import model hooks.

Lemma alloc_run (c : Cell) (st : St) :
  on_heap (reflect.alloc c) st =
    (set_world (set_heap (heap (world st) ++ [c]) (world st)) st,
     Ok (List.length (heap (world st)))).
Proof. reflexivity. Qed.

Lemma joinTableFields_cons (base : addr) (key : string) (keys : list string) :
  joinTableFields base (key :: keys) =
  joinTableField key base :: joinTableFields (S base) keys.
Proof. reflexivity. Qed.

(** The cells of the source keys are allocated in a row. *)
Lemma sourceKeyCells_run (keys : list string) :
  forall st : St,
    (fix mk (keys : list string) : M St (list Field) :=
       match keys with
       | [] => ret []
       | sourceKey :: keys' =>
           let! c := on_heap (reflect.alloc (CVar VNil)) in
           let! fs := mk keys' in
           ret ({| StructField_ :=
                     {| DBName := sourceKey; Name := ""; IsPrimaryKey := false;
                        IsNormal := true; IsIgnored := false;
                        HasDefaultValue := false;
                        Struct := {| Type_ := TInterface |};
                        Relationship_ := None |};
                   IsBlank := false; Field_ := RCell c |} :: fs)
       end) keys st =
    (set_world (set_heap (heap (world st)
                          ++ replicate (List.length keys) (CVar VNil)) (world st)) st,
     Ok (joinTableFields (List.length (heap (world st))) keys)).
Proof.
  induction keys as [|key keys IH]; intros st.
  - cbn. unfold ret. rewrite app_nil_r. by destruct st as [e [hk tr]].
  - unfold bind at 1. rewrite alloc_run. unfold bind at 1. rewrite IH.
    unfold ret. cbn [heap world set_world set_heap].
    rewrite length_app. cbn [List.length]. rewrite Nat.add_1_r.
    rewrite joinTableFields_cons. unfold joinTableField at 1.
    cbn [List.length replicate]. rewrite <- app_assoc. reflexivity.
Qed.

Lemma joinTableFields_values (h : list Cell) (keys : list string) (base : addr) :
  List.map (fun joinTableField : Field =>
              reflect.Interface h (Field_ joinTableField))
           (joinTableFields base keys) =
  List.map (fun i => reflect.Interface h (RCell (base + i)%nat))
           (seq 0 (List.length keys)).
Proof.
  revert base. induction keys as [|key keys IH]; intros base; [done|].
  rewrite joinTableFields_cons. cbn [List.map List.length seq].
  rewrite Nat.add_0_r. f_equal. rewrite IH.
  rewrite <- seq_shift, List.map_map.
  apply map_ext. intros i. do 2 f_equal. lia.
Qed.

Lemma rowSource_ext (h h' : list Cell) (a : addr) (k : nat) :
  (forall c, (c < a + S k)%nat -> h' !! c = h !! c) ->
  rowSource h' a k = rowSource h a k.
Proof.
  intros Hc. unfold rowSource. f_equal. apply map_ext_in.
  intros i Hi. apply in_seq in Hi. unfold reflect.Interface.
  rewrite Hc by lia. reflexivity.
Qed.

Lemma linkEntries_ext (h h' : list Cell) (isPtr : bool) (k n : nat) :
  forall base,
    (forall c, (c < base + n * S k)%nat -> h' !! c = h !! c) ->
    linkEntries h' isPtr base k n = linkEntries h isPtr base k n.
Proof.
  induction n as [|n IH]; intros base Hc; [done|].
  cbn [linkEntries]. f_equal.
  - f_equal. apply rowSource_ext. intros c Hlt. apply Hc. lia.
  - apply IH. intros c Hlt. apply Hc. lia.
Qed.

(** The row loop: every row leaves its record and its source keys behind
    the heap it found, and its link under its key. *)
Lemma linkRows_run (columns sourceKeys : list string) (fieldType : type)
      (isPtr : bool) :
  LinksLocally fieldType sourceKeys ->
  forall (rows : list (list GoValue)) (st : St)
         (linkHash : list (string * list GoValue)),
  exists st',
    linkRows columns sourceKeys fieldType isPtr rows linkHash st =
      (st', Ok (foldl addLink linkHash
                  (linkEntries (heap (world st')) isPtr
                     (List.length (heap (world st)))
                     (List.length sourceKeys) (List.length rows)))) /\
    eng st' = eng st /\
    trace (world st') = trace (world st) /\
    List.length (heap (world st')) =
      (List.length (heap (world st))
       + List.length rows * S (List.length sourceKeys))%nat /\
    forall a, (a < List.length (heap (world st)))%nat ->
      heap (world st') !! a = heap (world st) !! a.
Proof.
  intros [[zty [zfs Hz]] Hs].
  induction rows as [|row rows IH]; intros st linkHash.
  - exists st. cbn. repeat split; lia.
  - destruct st as [e [hk tr]].
    destruct (Hs e hk columns row) as (fields & ty & fs & ks & Hf & Hks & Hscan).
    set (k := List.length sourceKeys) in *.
    set (h2 := (hk ++ [CStruct ty fs]) ++ List.map CVar ks).
    set (st2 := {| eng := e; world := {| heap := h2; trace := tr |} |}).
    assert (Hlen2 : List.length h2 = (List.length hk + S k)%nat).
    { unfold h2. rewrite !length_app, length_map. cbn. lia. }
    assert (Hrec : h2 !! List.length hk = Some (CStruct ty fs)).
    { unfold h2. rewrite lookup_app_l by (rewrite length_app; cbn; lia).
      rewrite lookup_app_r by lia. by rewrite Nat.sub_diag. }
    assert (HAddr : reflect.Addr (hk ++ [reflect_Zero fieldType])
                      (RCell (List.length hk)) = Ok (VPtr (Some (List.length hk)))).
    { unfold reflect.Addr, reflect.Interface. cbn.
      rewrite lookup_app_r by lia. rewrite Nat.sub_diag. cbn.
      by rewrite Hz. }
    destruct (IH st2 (addLink linkHash
                        (rowSource h2 (List.length hk) k,
                         rowLink isPtr (List.length hk))))
      as (st' & Hrun & He & Ht & Hl & Hfr).
    cbn [heap world st2] in Hrun, Hl, Hfr. rewrite Hlen2 in Hrun, Hl, Hfr.
    exists st'. split; [|repeat split].
    + cbn [linkRows].
      unfold bind at 1. rewrite alloc_run. cbv beta iota.
      unfold bind at 1. unfold getH at 1. unfold gets at 1. cbv beta iota.
      cbn [heap world set_world set_heap].
      unfold bind at 1. unfold lift at 1. rewrite HAddr.
      unfold bind at 1. unfold getE at 1. unfold gets at 1. cbv beta iota.
      cbn [eng set_world].
      unfold bind at 1. unfold lift at 1. rewrite Hf.
      unfold bind at 1. rewrite sourceKeyCells_run. cbv beta iota.
      cbn [heap world set_world set_heap].
      rewrite length_app. cbn [List.length]. rewrite Nat.add_1_r.
      unfold bind at 1. unfold on_heap, zoom, modify.
      cbn [heap world set_world set_heap]. fold k. rewrite Hscan. fold h2.
      unfold bind at 1. unfold getH at 1. unfold gets at 1. cbv beta iota.
      cbn [heap world set_world set_heap].
      rewrite joinTableFields_values.
      replace (if isPtr then VPtr (Some (List.length hk))
               else reflect.Interface h2 (RCell (List.length hk)))
        with (rowLink isPtr (List.length hk)).
      2:{ unfold rowLink, reflect.Interface. unfold addr in *. by rewrite Hrec. }
      fold k.
      replace (List.map (fun i => reflect.Interface h2 (RCell (S (List.length hk) + i)%nat))
                        (seq 0 k))
        with (List.map (fun i => reflect.Interface h2
                                   (RCell (List.length hk + 1 + i)%nat)) (seq 0 k)).
      2:{ apply map_ext. intros i. do 2 f_equal. lia. }
      change (util_ToString _) with (rowSource h2 (List.length hk) k).
      change (assoc_set ?key (default [] (assoc_get ?key linkHash) ++ [?link]) linkHash)
        with (addLink linkHash (key, link)).
      match goal with
      | |- linkRows _ _ _ _ _ _ ?s = _ => change s with st2
      end.
      rewrite Hrun. cbn [List.length linkEntries foldl heap world].
      rewrite (rowSource_ext h2 (heap (world st')) (List.length hk) k); [done|].
      intros c Hc. apply Hfr. lia.
    + exact He.
    + exact Ht.
    + cbn [heap world List.length]. lia.
    + intros a Ha. cbn [heap world] in *. rewrite Hfr by lia.
      unfold h2. rewrite lookup_app_l by (rewrite length_app; cbn; lia).
      by rewrite lookup_app_l.
Qed.

(** *** The links under their keys *)

Lemma assoc_set_keys {V} (k : string) (v : V) (l : list (string * V)) :
  NoDup (List.map fst l) -> NoDup (List.map fst (assoc_set k v l)) /\
  forall k', k' ∈ List.map fst (assoc_set k v l) -> k' = k \/ k' ∈ List.map fst l.
Proof.
  induction l as [|[k0 v0] l IH]; intros Hnd.
  - cbn. split; [apply NoDup_singleton|].
    intros k' Hin. apply list_elem_of_singleton in Hin. by left.
  - cbn [assoc_set]. cbn in Hnd. apply NoDup_cons in Hnd as [Hnin Hnd].
    destruct (decide (k = k0)) as [->|Hne].
    + cbn. split; [by apply NoDup_cons|]. intros k' Hin. by right.
    + destruct (IH Hnd) as [IH1 IH2]. cbn. split.
      * apply NoDup_cons. split; [|done]. intros Hin.
        destruct (IH2 _ Hin) as [->|?]; done.
      * intros k' Hin. apply elem_of_cons in Hin as [->|Hin].
        -- right. by left.
        -- destruct (IH2 _ Hin) as [->|?]; [by left|]. right. by right.
Qed.

Lemma addLink_NoDup (entries : list (string * GoValue)) :
  forall linkHash,
    NoDup (List.map fst linkHash) ->
    NoDup (List.map fst (foldl addLink linkHash entries)).
Proof.
  induction entries as [|entry entries IH]; intros linkHash Hnd; [done|].
  cbn [foldl]. apply IH. unfold addLink. by apply assoc_set_keys.
Qed.

Lemma addLink_lookup (entries : list (string * GoValue)) (key : string) :
  forall linkHash,
    assoc_get key (foldl addLink linkHash entries) =
    match linked entries key with
    | [] => assoc_get key linkHash
    | fl => Some (default [] (assoc_get key linkHash) ++ fl)
    end.
Proof.
  induction entries as [|[k l] entries IH]; intros linkHash; [done|].
  cbn [foldl]. rewrite IH. unfold linked. rewrite filter_cons. cbn [fst].
  unfold addLink. cbn [fst snd].
  destruct (decide (k = key)) as [->|Hne].
  - rewrite assoc_get_set_eq. cbn [List.map snd default from_option id].
    destruct (List.map snd (filter _ entries)) as [|y fl]; [done|].
    by rewrite <- app_assoc.
  - by rewrite assoc_get_set_ne.
Qed.

Lemma assoc_get_NoDup {V} (l : list (string * V)) (k : string) (v : V) :
  NoDup (List.map fst l) -> (k, v) ∈ l -> assoc_get k l = Some v.
Proof.
  induction l as [|[k0 v0] l IH]; intros Hnd Hin; [by apply elem_of_nil in Hin|].
  cbn in Hnd. apply NoDup_cons in Hnd as [Hnin Hnd].
  apply elem_of_cons in Hin as [Heq|Hin].
  - injection Heq as <- <-. cbn. by rewrite decide_True.
  - cbn. destruct (decide (k = k0)) as [->|Hne]; [|by apply IH].
    exfalso. apply Hnin. apply list_elem_of_fmap. by exists (k0, v).
Qed.

(** *** The owners under their keys *)

Lemma group_lookup_map {A B} (key : A -> string) (val : A -> B) (l : list A)
      (m : gmap string (list B)) (k : string) :
  foldl (fun m r => <[key r := default [] (m !! key r) ++ [val r]]> m) m l !! k =
  match filter (fun r => key r = k) l with
  | [] => m !! k
  | fl => Some (default [] (m !! k) ++ List.map val fl)
  end.
Proof.
  revert m. induction l as [|r l IH]; intros m; [done|].
  cbn [foldl]. rewrite IH. rewrite filter_cons.
  destruct (decide (key r = k)) as [<-|Hne].
  - rewrite lookup_insert_eq. cbn.
    destruct (filter _ l) as [|y fl]; [done|].
    cbn. by rewrite <- app_assoc.
  - by rewrite lookup_insert_ne.
Qed.

Lemma addrOf_NoDup_inj (l : list GoValue) (o o' : GoValue) (a : addr) :
  NoDup (omap addrOf l) -> o ∈ l -> o' ∈ l ->
  addrOf o = Some a -> addrOf o' = Some a -> o = o'.
Proof.
  induction l as [|x l IH]; intros Hnd Ho Ho' Ha Ha';
    [by apply elem_of_nil in Ho|].
  assert (Hx : forall y b, y ∈ l -> addrOf x = Some b -> addrOf y = Some b -> False).
  { intros y b Hy Hxb Hyb. cbn in Hnd. rewrite Hxb in Hnd.
    apply NoDup_cons in Hnd as [Hnin _]. apply Hnin.
    apply list_elem_of_omap. by exists y. }
  assert (Hnd' : NoDup (omap addrOf l)).
  { cbn in Hnd. destruct (addrOf x); [by apply NoDup_cons in Hnd as [_ ?]|done]. }
  apply elem_of_cons in Ho as [->|Ho]; apply elem_of_cons in Ho' as [->|Ho'].
  - done.
  - exfalso. by eapply Hx.
  - exfalso. by eapply Hx.
  - by apply IH.
Qed.

Lemma NoDup_omap_filter (P : GoValue -> Prop) `{forall o, Decision (P o)}
      (l : list GoValue) :
  NoDup (omap addrOf l) -> NoDup (omap addrOf (filter P l)).
Proof.
  induction l as [|x l IH]; intros Hnd; [done|].
  assert (Hnd' : NoDup (omap addrOf l)).
  { cbn in Hnd. destruct (addrOf x); [by apply NoDup_cons in Hnd as [_ ?]|done]. }
  rewrite filter_cons. destruct (decide (P x)); [|by apply IH].
  cbn. destruct (addrOf x) as [a|] eqn:Hx; [|by apply IH].
  apply NoDup_cons. split; [|by apply IH].
  intros Hin. apply list_elem_of_omap in Hin as (y & Hy & Hya).
  apply list_elem_of_filter in Hy as [_ Hy].
  cbn in Hnd. rewrite Hx in Hnd. apply NoDup_cons in Hnd as [Hnin _].
  apply Hnin. apply list_elem_of_omap. by exists y.
Qed.

Lemma ownersLoop_run {A} (F : nat -> gmap string (list RValue)
                                -> result (gmap string (list RValue)))
      (key : A -> string) (val : A -> RValue) (owners : list A) :
  (forall j o m, owners !! j = Some o ->
     F j m = Ok (<[key o := default [] (m !! key o) ++ [val o]]> m)) ->
  forall (l pre : list A) (m : gmap string (list RValue)) (st : St),
    owners = pre ++ l ->
    (fix owners (js : list nat) (m : gmap string (list RValue))
       : M St (gmap string (list RValue)) :=
       match js with
       | [] => ret m
       | j :: js' => let! m := lift (F j m) in owners js' m
       end) (seq (List.length pre) (List.length l)) m st =
    (st, Ok (foldl (fun m o => <[key o := default [] (m !! key o) ++ [val o]]> m)
                   m l)).
Proof.
  intros HF. induction l as [|o l IH]; intros pre m st Hown; [done|].
  cbn [List.length seq foldl].
  unfold bind at 1. unfold lift at 1.
  rewrite (HF (List.length pre) o m).
  2:{ rewrite Hown. by rewrite list_lookup_middle. }
  specialize (IH (pre ++ [o]) (<[key o := default [] (m !! key o) ++ [val o]]> m) st).
  rewrite length_app in IH. cbn [List.length] in IH. rewrite Nat.add_1_r in IH.
  apply IH. rewrite Hown. by rewrite <- app_assoc.
Qed.

(** *** The last loop *)

Lemma hasField_field_set (h : list Cell) (name : string) (o : GoValue)
      (a : addr) (x : GoValue) :
  hasField h name o -> hasField (reflect.field_set h a name x) name o.
Proof.
  intros (a' & ty & fs & v & Hao & Hc & Hg).
  destruct (decide (a = a')) as [->|Hne].
  - exists a', ty, (assoc_set name x fs), x. split; [done|]. split.
    + by apply field_set_lookup_eq.
    + by rewrite assoc_get_set_eq.
  - exists a', ty, fs, v. split; [done|]. split; [|done].
    by rewrite field_set_lookup_ne.
Qed.

Lemma assignLinks_run (name : string) (link : list GoValue) (st : St)
      (o : GoValue) (a : addr) (v0 : GoValue) :
  addrOf o = Some a ->
  reflect.field_get (heap (world st)) a name = Some v0 ->
  assignLinks link (fieldOf name o) st =
    (set_world (set_heap
                  (if decide (List.length (reflect.elems v0) <> 0%nat)
                   then heap (world st)
                   else reflect.field_set (heap (world st)) a name
                          (reflect.Append v0 link))
                  (world st)) st, Ok tt).
Proof.
  intros Hao Hg. unfold assignLinks, fieldOf. rewrite Hao.
  unfold bind, getH, gets, reflect.Len. cbn [reflect.Interface]. rewrite Hg.
  cbn [default from_option id].
  destruct (decide _) as [Hn|Hn].
  - unfold ret. by destruct st as [e [hk tr]].
  - reflexivity.
Qed.

(** The fields of the owners [os], which wait under one key, receive the
    links of that key. *)
Lemma assignOwners_run (name : string) (link : list GoValue) (os : list GoValue) :
  forall st : St,
    NoDup (omap addrOf os) ->
    Forall (hasField (heap (world st)) name) os ->
    exists st',
      forM (List.map (fieldOf name) os) (assignLinks link) st = (st', Ok tt) /\
      eng st' = eng st /\
      trace (world st') = trace (world st) /\
      (forall o, hasField (heap (world st)) name o ->
                 hasField (heap (world st')) name o) /\
      (forall o a v0, o ∈ os -> addrOf o = Some a ->
         reflect.field_get (heap (world st)) a name = Some v0 ->
         reflect.field_get (heap (world st')) a name =
         Some (linkedField v0 link)) /\
      (forall a, a ∉ omap addrOf os -> heap (world st') !! a = heap (world st) !! a).
Proof.
  induction os as [|o os IH]; intros st Hnd Hf.
  - exists st. cbn. repeat split; try done.
    intros o a v0 Hin. by apply elem_of_nil in Hin.
  - apply Forall_cons in Hf as [(a & ty & fs & v & Hao & Hc & Hg) Hf].
    assert (Hfg : reflect.field_get (heap (world st)) a name = Some v).
    { unfold reflect.field_get. unfold addr in *. by rewrite Hc. }
    cbn in Hnd. rewrite Hao in Hnd. apply NoDup_cons in Hnd as [Hnin Hnd].
    set (h1 := if decide (List.length (reflect.elems v) <> 0%nat)
               then heap (world st)
               else reflect.field_set (heap (world st)) a name
                      (reflect.Append v link)).
    set (st1 := set_world (set_heap h1 (world st)) st).
    assert (Hkeep : forall o', hasField (heap (world st)) name o' ->
                               hasField h1 name o').
    { intros o' Ho'. unfold h1. destruct (decide _); [done|].
      by apply hasField_field_set. }
    assert (Hne : forall a', a' <> a -> h1 !! a' = heap (world st) !! a').
    { intros a' Ha'. unfold h1. destruct (decide _); [done|].
      by rewrite field_set_lookup_ne. }
    assert (Hset : reflect.field_get h1 a name = Some (linkedField v link)).
    { unfold h1, linkedField. destruct (decide _); [done|].
      unfold reflect.field_get.
      rewrite (field_set_lookup_eq _ _ _ _ _ _ Hc). by rewrite assoc_get_set_eq. }
    destruct (IH st1 Hnd) as (st' & Hrun & He & Ht & Hhf & Hval & Hfr).
    { eapply Forall_impl; [exact Hf|]. intros o' Ho'. by apply Hkeep. }
    exists st'. split; [|repeat split].
    + cbn [List.map forM]. unfold bind at 1.
      rewrite (assignLinks_run name link st o a v Hao Hfg). fold h1. fold st1.
      exact Hrun.
    + by rewrite He.
    + by rewrite Ht.
    + intros o' Ho'. apply Hhf. by apply Hkeep.
    + intros o' a' v0 Hin Hao' Hg'.
      apply elem_of_cons in Hin as [->|Hin].
      * assert (a' = a) as -> by congruence.
        assert (v0 = v) as -> by congruence.
        unfold reflect.field_get. rewrite Hfr by done.
        exact Hset.
      * apply (Hval o' a' v0 Hin Hao').
        assert (a' <> a).
        { intros ->. apply Hnin. apply list_elem_of_omap. by exists o'. }
        cbn [heap world st1 set_world set_heap]. unfold reflect.field_get.
        rewrite Hne by done. exact Hg'.
    + intros a' Hnin'. rewrite Hfr.
      2:{ intros Hin. apply Hnin'. cbn. rewrite Hao. by right. }
      cbn [heap world st1 set_world set_heap]. apply Hne.
      intros ->. apply Hnin'. cbn. rewrite Hao. by left.
Qed.

Lemma assoc_get_None {V} (l : list (string * V)) (k : string) :
  k ∉ List.map fst l -> assoc_get k l = None.
Proof.
  induction l as [|[k0 v0] l IH]; intros Hnin; [done|].
  cbn. destruct (decide (k = k0)) as [->|Hne].
  - exfalso. apply Hnin. cbn. by left.
  - apply IH. intros Hin. apply Hnin. cbn. by right.
Qed.

(** Every owner whose key has links receives them, once. *)
Lemma assignAll_run (name : string) (owners : list GoValue)
      (key : GoValue -> string) (fieldsSourceMap : gmap string (list RValue)) :
  (forall s, fieldsSourceMap !! s =
             match filter (fun o => key o = s) owners with
             | [] => None
             | fl => Some (List.map (fieldOf name) fl)
             end) ->
  NoDup (omap addrOf owners) ->
  forall (entries : list (string * list GoValue)) (st : St),
    NoDup (List.map fst entries) ->
    Forall (hasField (heap (world st)) name) owners ->
    exists st',
      forM entries
           (fun '(source, link) =>
              forM (default [] (fieldsSourceMap !! source)) (assignLinks link)) st
      = (st', Ok tt) /\
      eng st' = eng st /\
      trace (world st') = trace (world st) /\
      (forall o a v0, o ∈ owners -> addrOf o = Some a ->
         reflect.field_get (heap (world st)) a name = Some v0 ->
         reflect.field_get (heap (world st')) a name =
         Some (match assoc_get (key o) entries with
               | Some link => linkedField v0 link
               | None => v0
               end)) /\
      (forall a, a ∉ omap addrOf owners ->
         heap (world st') !! a = heap (world st) !! a).
Proof.
  intros Hmap Hnd. induction entries as [|[s l] entries IH]; intros st Hk Hf.
  - exists st. cbn. repeat split; done.
  - cbn in Hk. apply NoDup_cons in Hk as [Hs Hk].
    set (os := filter (fun o => key o = s) owners).
    assert (Hfields : default [] (fieldsSourceMap !! s) = List.map (fieldOf name) os).
    { rewrite Hmap. fold os. by destruct os. }
    destruct (assignOwners_run name l os st) as (st1 & Hrun1 & He1 & Ht1 & Hhf1 & Hval1 & Hfr1).
    { by apply NoDup_omap_filter. }
    { apply Forall_forall. intros o Ho. apply list_elem_of_filter in Ho as [_ Ho].
      rewrite Forall_forall in Hf. by apply Hf. }
    destruct (IH st1 Hk) as (st' & Hrun & He & Ht & Hval & Hfr).
    { eapply Forall_impl; [exact Hf|]. intros o Ho. by apply Hhf1. }
    assert (Hsub : forall a, a ∈ omap addrOf os -> a ∈ omap addrOf owners).
    { intros a Ha. apply list_elem_of_omap in Ha as (o & Ho & Hao).
      apply list_elem_of_filter in Ho as [_ Ho].
      apply list_elem_of_omap. by exists o. }
    exists st'. split; [|repeat split].
    + cbn [forM]. unfold bind at 1. rewrite Hfields, Hrun1. exact Hrun.
    + by rewrite He, He1.
    + by rewrite Ht, Ht1.
    + intros o a v0 Ho Hao Hg. cbn [assoc_get].
      destruct (decide (key o = s)) as [Hks|Hks].
      * assert (Hin : o ∈ os) by (by apply list_elem_of_filter).
        rewrite (Hval o a (linkedField v0 l) Ho Hao (Hval1 o a v0 Hin Hao Hg)).
        rewrite Hks. by rewrite (assoc_get_None entries s Hs).
      * apply (Hval o a v0 Ho Hao). unfold reflect.field_get.
        rewrite Hfr1; [exact Hg|].
        intros Hin. apply list_elem_of_omap in Hin as (o' & Ho' & Hao').
        apply list_elem_of_filter in Ho' as [Hk' Ho'].
        assert (o' = o) as -> by (by eapply addrOf_NoDup_inj).
        done.
    + intros a Ha. rewrite Hfr by done. apply Hfr1.
      intros Hin. apply Ha. by apply Hsub.
Qed.

(** [JoinWith] allocates one record, of the destination type, and leaves
    the engine and the trace alone. *)
Lemma JoinWith_world (e : engine.Engine) (s handler : JoinTableHandler)
      (source : GoValue) (st st' : St) (ne : engine.Engine) :
  JoinWith e s handler source st = (st', Ok ne) ->
  eng st' = eng st /\
  trace (world st') = trace (world st) /\
  heap (world st') =
    heap (world st) ++ [reflect_Zero (ModelType (Destination s))].
Proof.
  unfold JoinWith. intros Hrun.
  apply bind_Ok in Hrun as (s1 & h1 & Hh1 & Hrun).
  unfold getH, gets in Hh1. injection Hh1 as <- <-.
  apply bind_Ok in Hrun as (s2 & m & Hm & Hrun).
  unfold lift in Hm. injection Hm as <- Hm.
  destruct (decide _) as [_|_]; [|discriminate].
  apply bind_Ok in Hrun as (s3 & a & Ha & Hrun).
  rewrite alloc_run in Ha. injection Ha as <- <-.
  apply bind_Ok in Hrun as (s4 & h4 & Hh4 & Hrun).
  unfold getH, gets in Hh4. injection Hh4 as <- <-.
  apply bind_Ok in Hrun as (s5 & names & Hn & Hrun).
  unfold lift in Hn. injection Hn as <- Hn.
  unfold ret in Hrun. injection Hrun as <- _.
  repeat split.
Qed.

(** X13.  [PreloadManyToMany] for a sequence of distinct owner records.
    One join query is sent, whatever the keys of the owners.  Every row
    leaves a record, and its link waits under the source keys the join
    table delivered with it, as a string.  Afterwards an owner whose field
    held no element holds the links that wait under its own key, in the
    order of the result; an owner without such a link keeps its field as it
    was, nil where it was nil; and an owner whose field held elements keeps
    them and receives nothing. *)
Theorem many_to_many_owners (b : Driver) (field : Field) (rel : Relationship)
        (jth : JoinTableHandler) (conditions : list GoValue) (st st2 : St)
        (u : type) (aown : addr) (town : type) (owners : list GoValue)
        (pdb : engine.Engine) (names : list string)
        (q : string) (args : list GoValue) (rows : sql.Rows) :
  let e := eng st in
  let h := heap (world st) in
  let isPtr := match u with TPtr _ => true | _ => false end in
  let sourceKeys := List.map FK_DBName (ForeignKeys (Source jth)) in
  let k := List.length sourceKeys in
  let n := List.length (sql.Next rows) in
  let base := (List.length h + 2)%nat in
  let st1 := set_world (set_heap (h ++ [reflect_Zero (rowType u)]) (world st)) st in
  let preloadDB := match conditions with
                   | c :: cs => search_Where c cs pdb
                   | [] => pdb
                   end in
  Relationship_ field = Some rel ->
  JoinTableHandler_ rel = Some jth ->
  Type_ (Struct field) = TSlice u ->
  Value (engine.Scope e) = VPtr (Some aown) ->
  h !! aown = Some (CVar (VSlice town (Some owners))) ->
  Forall (hasField h (Name field)) owners ->
  NoDup (omap addrOf owners) ->
  JoinWith (engine_Clone e) jth jth (Value (engine.Scope e)) st1 = (st2, Ok pdb) ->
  builder_PrepareQuery preloadDB (heap (world st2))
                       (Value (engine.Scope preloadDB)) = Ok (q, args) ->
  sql.Query SQLDB (trace (world st)) q args = Ok rows ->
  LinksLocally (rowType u) sourceKeys ->
  (forall h', h' !! aown = h !! aown ->
     fieldNames e h' (Value (engine.Scope e)) (ForeignFieldNames rel) = Ok names) ->
  exists (st' : St) (h3 : list Cell),
    PreloadManyToMany b field conditions st = (st', Ok tt) /\
    eng st' = e /\
    trace (world st') = trace (world st) ++ [sql.EvQuery q args] /\
    List.length h3 = (base + n * S k)%nat /\
    (forall a, (a < List.length h)%nat -> h3 !! a = h !! a) /\
    (forall o a v0, o ∈ owners -> addrOf o = Some a ->
       reflect.field_get h a (Name field) = Some v0 ->
       reflect.field_get (heap (world st')) a (Name field) =
       Some (linkedField v0
               (linked (linkEntries h3 isPtr base k n)
                       (ownerSource h3 names o)))) /\
    (forall a, a ∉ omap addrOf owners -> heap (world st') !! a = h3 !! a).
Proof.
  intros e h isPtr sourceKeys k n base st1 preloadDB
         Hrel Hjth Hty Hv Hown Hf Hnd Hjoin Hpq Hq Hlinks Hnames.
  destruct (JoinWith_world _ _ _ _ _ _ _ Hjoin) as (He2 & Ht2 & Hh2).
  cbn [st1 heap world set_world set_heap eng trace] in He2, Ht2, Hh2.
  set (st3 := set_world (log (sql.EvQuery q args) (world st2)) st2).
  destruct (linkRows_run (sql.Columns rows) sourceKeys (rowType u) isPtr Hlinks
              (sql.Next rows) st3 [])
    as (st4 & Hrun4 & He4 & Ht4 & Hl4 & Hfr4).
  cbn [st3 heap world set_world log eng trace] in Hrun4, He4, Ht4, Hl4, Hfr4.
  rewrite Hh2 in Hrun4, Hl4, Hfr4.
  rewrite !length_app in Hrun4, Hl4, Hfr4. cbn [List.length] in Hrun4, Hl4, Hfr4.
  fold h k n in Hrun4, Hl4, Hfr4.
  assert (Hbase : (List.length h + 1 + 1)%nat = base) by (unfold base; lia).
  rewrite Hbase in Hrun4, Hl4, Hfr4.
  set (h3 := heap (world st4)) in *.
  assert (Hpre : forall a, (a < List.length h)%nat -> h3 !! a = h !! a).
  { intros a Ha. rewrite Hfr4 by (unfold base; lia).
    rewrite lookup_app_l by (rewrite length_app; cbn; lia).
    by rewrite lookup_app_l. }
  assert (Hown3 : h3 !! aown = Some (CVar (VSlice town (Some owners)))).
  { rewrite Hpre; [done|]. by eapply lookup_lt_Some. }
  assert (Hf3 : Forall (hasField h3 (Name field)) owners).
  { eapply Forall_impl; [exact Hf|].
    intros o (a & ty & fs & v & Hao & Hc & Hg). exists a, ty, fs, v.
    split; [done|]. split; [|done]. rewrite Hpre; [done|].
    by eapply lookup_lt_Some. }
  set (key := ownerSource h3 names).
  set (fsm := foldl (fun (m : gmap string (list RValue)) o =>
                       <[key o := default [] (m !! key o)
                                  ++ [fieldOf (Name field) o]]> m) ∅ owners).
  set (entries := linkEntries h3 isPtr base k n) in *.
  set (linkHash := foldl addLink [] entries) in *.
  destruct (assignAll_run (Name field) owners key fsm) with (entries := linkHash)
                                                           (st := st4)
    as (st' & Hrun & He & Ht & Hval & Hfr); try done.
  { intros s. unfold fsm. rewrite group_lookup_map. rewrite lookup_empty.
    by destruct (filter _ owners). }
  { unfold linkHash. apply addLink_NoDup. constructor. }
  exists st', h3. split; [|repeat split].
  - unfold PreloadManyToMany.
    unfold bind at 1. unfold relationOf. rewrite Hrel. unfold ret at 1.
    cbv beta iota. rewrite Hjth.
    unfold bind at 1. unfold lift at 1. rewrite Hty. cbn [type_Elem].
    cbv beta iota.
    assert (Hu : match u with TPtr t => (true, t) | t => (false, t) end
                 = (isPtr, rowType u)) by (by destruct u).
    rewrite Hu.
    unfold bind at 1. unfold getE at 1. unfold gets at 1. cbv beta iota.
    fold e. rewrite conditions_copied.
    unfold bind at 1. rewrite alloc_run. cbv beta iota. fold h. fold st1.
    unfold bind at 1. unfold getH at 1. unfold gets at 1. cbv beta iota.
    rewrite (bind_run _ _ _ _ _ Hjoin).
    unfold bind at 1. unfold getH at 1. unfold gets at 1. cbv beta iota.
    fold preloadDB.
    unfold bind at 1. unfold lift at 1. rewrite Hpq. cbv beta iota.
    unfold bind at 1. unfold SQLDB_Query, backend.
    cbn [SQL SQLVars engine.Scope on_Scope set_Scope set_SQLVars set_SQL].
    rewrite Ht2, Hq. cbv beta iota. fold st3. fold sourceKeys.
    unfold bind at 1. rewrite Hrun4. cbv beta iota. fold linkHash.
    unfold bind at 1. unfold getH at 1. unfold gets at 1. cbv beta iota.
    fold h3.
    unfold bind at 1. unfold lift at 1. rewrite (Hnames h3) by (by rewrite Hown3).
    cbv beta iota.
    assert (Hisv : valueOfIndirect h3 (Value (engine.Scope e)) = RCell aown)
      by (by rewrite Hv).
    rewrite Hisv.
    assert (Hkind : reflect.Kind_ h3 (RCell aown) = reflect.Slice).
    { unfold reflect.Kind_, reflect.Interface. by rewrite Hown3. }
    destruct (decide (reflect.Kind_ h3 (RCell aown) = reflect.Slice)) as [_|?];
      [|done].
    assert (HLen : reflect.Len h3 (RCell aown) = List.length owners).
    { unfold reflect.Len, reflect.Interface. by rewrite Hown3. }
    rewrite HLen.
    match goal with
    | |- bind ?m _ _ = _ => assert (Hstep : m st4 = (st4, Ok fsm))
    end.
    { apply (ownersLoop_run
               (fun j (m : gmap string (list RValue)) =>
                  match reflect.FieldByName h3 (indexIndirect h3 (RCell aown) j)
                                            (Name field) with
                  | Ok f =>
                      Ok (<[util_ToString
                              (util_GetValueFromFields h3
                                 (indexIndirect h3 (RCell aown) j) names) :=
                              default []
                                (m !! util_ToString
                                        (util_GetValueFromFields h3
                                           (indexIndirect h3 (RCell aown) j) names))
                              ++ [f]]> m)
                  | Err e0 => Err e0
                  | Panic msg => Panic msg
                  | OutOfFuel => OutOfFuel
                  end)
               key (fieldOf (Name field)) owners) with (pre := []); [|done].
      intros j o m Hj.
      rewrite Forall_forall in Hf3.
      destruct (Hf3 o) as (a & ty & fs & v & Hao & Hc & Hg).
      { by eapply list_elem_of_lookup_2. }
      rewrite (indexIndirect_owner h3 aown town owners j o a Hown3 Hj Hao).
      destruct (FieldByName_owner h3 o a ty fs (Name field) v Hao Hc Hg) as [-> _].
      unfold fieldOf. rewrite Hao. reflexivity. }
    rewrite (bind_run _ _ _ _ _ Hstep).
    exact Hrun.
  - rewrite He, He4. exact He2.
  - rewrite Ht, Ht4. cbn. by rewrite Ht2.
  - exact Hl4.
  - exact Hpre.
  - intros o a v0 Ho Hao Hg.
    rewrite (Hval o a v0 Ho Hao).
    2:{ unfold reflect.field_get. fold h3. rewrite Hpre; [exact Hg|].
        unfold reflect.field_get in Hg.
        destruct (h !! a) eqn:Hc; [|done]. by eapply lookup_lt_Some. }
    f_equal. unfold linkHash. rewrite addLink_lookup. cbn [assoc_get].
    fold key entries. destruct (linked entries (key o)) as [|x fl]; [|done].
    unfold linkedField. destruct (decide _); [done|].
    by destruct v0.
  - exact Hfr.
Qed.

End ManyToMany.

(** ** The many_to_many preloader on the demo inputs *)

Section DemoLinks.
Import model.

Lemma joinTableFields_cells (keys : list string) :
  forall base : addr,
    Forall (fun f : Field =>
              exists c, Field_ f = RCell c /\
                        (base <= c < base + List.length keys)%nat)
           (hooks.joinTableFields base keys).
Proof.
  induction keys as [|key keys IH]; intros base; [constructor|].
  unfold hooks.joinTableFields. cbn [List.length seq zip_with].
  constructor.
  - exists base. split; [reflexivity|lia].
  - eapply Forall_impl; [apply (IH (S base))|].
    intros f (c & Hc & Hr). exists c. split; [done|]. cbn in *. lia.
Qed.

(** The demo metadata service scans into the record and the cells it was
    handed. *)
Lemma Demo_scan_links (fields jtfs : list Field) (a : addr) (k : nat)
      (l : list (string * GoValue)) :
  Forall (fun f : Field => exists name, Field_ f = RField a name true) fields ->
  Forall (fun f : Field => exists c, Field_ f = RCell c /\ (S a <= c < S a + k)%nat)
         jtfs ->
  forall (h : list Cell) (ty : string) (fs : list (string * GoValue))
         (ks : list GoValue),
    List.length h = a -> List.length ks = k ->
    exists fs' ks',
      List.length ks' = k /\
      foldl (fun h '(column, v) =>
               match List.find (fun f : Field => String.eqb (DBName f) column)
                               (fields ++ jtfs) with
               | Some f =>
                   match Field_ f with
                   | RField a name true => reflect.field_set h a name v
                   | RCell c => <[c := CVar v]> h
                   | _ => h
                   end
               | None => h
               end)
            ((h ++ [CStruct ty fs]) ++ List.map CVar ks) l
      = (h ++ [CStruct ty fs']) ++ List.map CVar ks'.
Proof.
  intros Hf Hj. induction l as [|[column v] l IH]; intros h ty fs ks Hl Hk;
    [by exists fs, ks|].
  cbn [foldl].
  destruct (List.find _ (fields ++ jtfs)) as [f|] eqn:Hfind; [|by apply IH].
  apply find_some in Hfind as [Hin _]. apply in_app_or in Hin as [Hin|Hin].
  - rewrite Forall_forall in Hf. destruct (Hf f) as [name Hname].
    { by apply list_elem_of_In. }
    rewrite Hname.
    assert (Hc : ((h ++ [CStruct ty fs]) ++ List.map CVar ks) !! a
                 = Some (CStruct ty fs)).
    { rewrite lookup_app_l by (rewrite length_app; cbn; lia).
      rewrite lookup_app_r by lia. by rewrite Hl, Nat.sub_diag. }
    unfold reflect.field_set. unfold addr in *. rewrite Hc.
    rewrite insert_app_l by (rewrite length_app; cbn; lia).
    rewrite insert_app_r_alt by lia. rewrite Hl, Nat.sub_diag.
    cbn [insert list_insert]. by apply IH.
  - rewrite Forall_forall in Hj. destruct (Hj f) as (c & Hcell & Hr).
    { by apply list_elem_of_In. }
    rewrite Hcell.
    rewrite insert_app_r_alt by (rewrite length_app; cbn; lia).
    rewrite length_app. cbn [List.length].
    rewrite <- list_fmap_insert.
    apply IH; [done|]. by rewrite length_insert.
Qed.

Lemma Demo_LinksLocally (meta : string -> list StructField) (omit : list string)
      (db : sql.DB) (ty : string) (sourceKeys : list string) :
  hooks.LinksLocally (H := Demo.collaborators meta omit db) (TStruct ty) sourceKeys.
Proof.
  split; [cbn; eauto|].
  intros e h columns row. cbn.
  unfold Demo.fieldsOf, Demo.structOf.
  rewrite lookup_app_r by lia. rewrite Nat.sub_diag. cbn [lookup list_lookup].
  eexists.
  edestruct (Demo_scan_links
               (List.map (fun sf =>
                  {| StructField_ := sf;
                     IsBlank := Demo.isBlank (default VNil (assoc_get (Name sf)
                        (List.map (fun sf => (Name sf, Demo.zero_of (Type_ (Struct sf)))) (meta ty))));
                     Field_ := RField (List.length h) (Name sf) true |}) (meta ty))
               (hooks.joinTableFields (S (List.length h)) sourceKeys)
               (List.length h) (List.length sourceKeys) (zip columns row))
    as (fs' & ks' & Hks' & Hfs').
  { apply Forall_forall. intros f Hf.
    apply list_elem_of_In, in_map_iff in Hf as (sf & <- & _). eauto. }
  { apply joinTableFields_cells. }
  { reflexivity. }
  { apply (length_replicate (List.length sourceKeys) VNil). }
  exists ty, fs', ks'. split; [reflexivity|]. split; [exact Hks'|].
  unfold Demo.scanRow. rewrite <- Hfs'. by rewrite fmap_replicate.
Qed.

End DemoLinks.

(** X13 at Ann, Bob and Cy and the three rows of the join query. *)
Lemma many_to_many_owners_witness :
  exists (st' : St) (h3 : list Cell),
    hooks.PreloadManyToMany (H := Inputs.speakers) (book_driver 0 empty_book)
                            Inputs.languagesMeta [] Inputs.threePeople
    = (st', Ok tt) /\
    List.length h3 = 13%nat /\
    (forall o a v0, o ∈ [VStruct 1%nat; VStruct 2%nat; VStruct 3%nat] ->
       hooks.addrOf o = Some a ->
       reflect.field_get (heap (world Inputs.threePeople)) a "Languages" = Some v0 ->
       reflect.field_get (heap (world st')) a "Languages" =
       Some (hooks.linkedField v0
               (hooks.linked (hooks.linkEntries (H := Inputs.speakers) h3 false 7 1 3)
                  (hooks.ownerSource (H := Inputs.speakers) h3 ["ID"] o)))).
Proof.
  destruct (many_to_many_owners (H := Inputs.speakers) (book_driver 0 empty_book)
              Inputs.languagesMeta Inputs.languages Inputs.spoken []
              Inputs.threePeople
              (fst Inputs.joining)
              (TStruct "Language") 0%nat (TStruct "Person")
              [VStruct 1%nat; VStruct 2%nat; VStruct 3%nat]
              Inputs.joined
              ["ID"]
              "SELECT * FROM Person INNER JOIN `person_languages` ON `person_languages`.`language_id` = `Language`.`id` WHERE 1 <> 1"
              [] Inputs.linkRows)
    as (st' & h3 & Hrun & _ & _ & Hlen & _ & Hset & _).
  - reflexivity.
  - reflexivity.
  - reflexivity.
  - reflexivity.
  - reflexivity.
  - repeat constructor.
    + exists 1%nat, "Person", [("ID", VInt64 1); ("Name", VString "ann");
                               ("Languages", VSlice (TStruct "Language") None)],
        (VSlice (TStruct "Language") None).
      repeat split; reflexivity.
    + exists 2%nat, "Person", [("ID", VInt64 2); ("Name", VString "bob");
                               ("Languages", VSlice (TStruct "Language")
                                                    (Some [VStruct 4%nat]))],
        (VSlice (TStruct "Language") (Some [VStruct 4%nat])).
      repeat split; reflexivity.
    + exists 3%nat, "Person", [("ID", VInt64 3); ("Name", VString "cy");
                               ("Languages", VSlice (TStruct "Language") None)],
        (VSlice (TStruct "Language") None).
      repeat split; reflexivity.
  - apply NoDup_three; discriminate.
  - reflexivity.
  - reflexivity.
  - reflexivity.
  - apply Demo_LinksLocally.
  - intros h' Hh'. cbn in Hh'.
    cbv [hooks.fieldNames scope_FieldByName Inputs.speakers Demo.collaborators
         Demo.fieldByName Demo.fieldsOf Demo.structOf Demo.sliceOf].
    cbn [model.Value engine.Scope eng Inputs.threePeople Demo.state0 Demo.engine0
         Demo.scope0 model.ForeignFieldNames Inputs.languages Inputs.relation].
    unfold addr in *. rewrite Hh'. reflexivity.
  - exists st', h3. split; [exact Hrun|]. split; [exact Hlen|exact Hset].
Defined.

(** Ann ends with her two languages, in the order of the result; Bob, who
    held one, with that one; Cy with nil. *)
Lemma many_to_many_three_people :
  let r := hooks.PreloadManyToMany (H := Inputs.speakers) (book_driver 0 empty_book)
             Inputs.languagesMeta [] Inputs.threePeople in
  snd r = Ok tt /\
  reflect.field_get (heap (world (fst r))) 1%nat "Languages"
  = Some (VSlice (TStruct "Language") (Some [VStruct 7%nat; VStruct 11%nat])) /\
  reflect.field_get (heap (world (fst r))) 2%nat "Languages"
  = Some (VSlice (TStruct "Language") (Some [VStruct 4%nat])) /\
  reflect.field_get (heap (world (fst r))) 3%nat "Languages"
  = Some (VSlice (TStruct "Language") None).
Proof. vm_compute. repeat split; reflexivity. Qed.

(** ** After a create on the QL dialects *)

Section AfterCreateFacts.
Context `{Collaborators}.
Import model hooks.

(** A call on a clone hands the caller's engine back, however it ends. *)
Lemma call_on_eng {A} (ne : engine.Engine) (m : M St A) (st st' : St)
      (r : result (engine.Engine * A)) :
  call_on ne m st = (st', r) -> eng st' = eng st.
Proof.
  unfold call_on, try_on, bind.
  destruct (m (set_eng ne st)) as [s1 [a|err|msg|]]; cbn;
    intros Heq; injection Heq as <- _; reflexivity.
Qed.

Lemma QLAfterCreate_eng (b : Driver) (st st' : St) (r : result unit) :
  QLAfterCreate b st = (st', r) -> eng st' = eng st.
Proof.
  unfold QLAfterCreate. unfold bind at 1. unfold getE at 1. unfold gets at 1.
  cbv beta iota. unfold bind at 1. unfold getH at 1. unfold gets at 1.
  cbv beta iota.
  unfold bind at 1.
  destruct (call_on _ (MustExec b UpdateHook HookUpdateSQL) st)
    as [s1 r1] eqn:H1.
  apply call_on_eng in H1.
  destruct r1 as [[ne1 []]|err|msg|]; try (intros Heq; by injection Heq as <- _).
  unfold bind at 1.
  destruct (call_on ne1 (on_scope fixWhere) s1) as [s2 r2] eqn:H2.
  apply call_on_eng in H2.
  destruct r2 as [[ne2 []]|err|msg|];
    try (intros Heq; injection Heq as <- _; congruence).
  unfold bind at 1.
  destruct (call_on ne2 (MustExec b UpdateHook HookUpdateExec) s2)
    as [s3 r3] eqn:H3.
  apply call_on_eng in H3.
  destruct r3 as [[ne3 []]|err|msg|];
    intros Heq; injection Heq as <- _; congruence.
Qed.

(** X14.  [AfterCreate] on a dialect of the QL family.  The update that
    follows a create there runs on a clone, and its error is dropped:
    whether it ends well or in an error, [AfterCreate] goes on to save the
    associations, with the engine it was called with, and its answer is the
    answer of that step. *)
Theorem AfterCreate_drops_ql_error (b : Driver) (st st1 : St) (r : result unit) :
  dialects_IsQL (engine.Dialect_ (eng st)) = true ->
  QLAfterCreate b st = (st1, r) ->
  (r = Ok tt \/ exists err, r = Err err) ->
  eng st1 = eng st /\
  AfterCreate b st = MustExec b UpdateHook HookSaveAfterAss st1.
Proof.
  intros Hql Hrun Hr. split; [by eapply QLAfterCreate_eng|].
  unfold AfterCreate. unfold bind at 1. unfold getE at 1. unfold gets at 1.
  cbv beta iota. rewrite Hql. unfold bind at 1. unfold ignore_err. rewrite Hrun.
  destruct Hr as [->|[err ->]]; reflexivity.
Qed.

End AfterCreateFacts.

(** X14 at a user on the QL dialect, with an update statement the fix-up
    cannot read: the create step ends well. *)
Lemma AfterCreate_drops_ql_error_witness :
  snd (hooks.QLAfterCreate (H := Inputs.quiet) (book_driver 2 Inputs.marking)
                           Inputs.unconditioned)
  = Err (NumError "Atoi" " ") /\
  hooks.AfterCreate (H := Inputs.quiet) (book_driver 2 Inputs.marking)
                    Inputs.unconditioned
  = (Inputs.unconditioned, Ok tt).
Proof.
  split; [reflexivity|].
  destruct (AfterCreate_drops_ql_error (H := Inputs.quiet)
              (book_driver 2 Inputs.marking) Inputs.unconditioned
              Inputs.unconditioned (Err (NumError "Atoi" " ")))
    as [_ Hrun].
  - reflexivity.
  - reflexivity.
  - right. by eexists.
  - rewrite Hrun. reflexivity.
Defined.

(** ** Saving a many_to_many association: what is created and sent *)

Section AfterAssociationEffects.
Context `{Collaborators}.
Import model hooks.



End AfterAssociationEffects.


(** ** The preloader: a path of two segments whose first finds nothing *)

Section TwoLevels.
Context `{Collaborators}.
Import GoStrings model hooks.

Lemma append_ne (a s : string) : s <> "" -> a <> a +:+ s.
Proof.
  intros Hs. induction a as [|c a IH]; cbn.
  - intros Heq. by apply Hs.
  - intros Heq. injection Heq as Heq. by apply IH.
Qed.

(** The loop of [ColumnAsScope] over owners without a related record
    collects nothing. *)
Lemma columnValues_none (h : list Cell) (aown : addr) (town : type)
      (name : string) (acc : list GoValue * GoValue) (todo : list GoValue) :
  forall done : list GoValue,
    h !! aown = Some (CVar (VSlice town (Some (done ++ todo)))) ->
    Forall (noneRelated h name) todo ->
    columnValues h (RCell aown) name (seq (List.length done) (List.length todo)) acc
    = Ok acc.
Proof.
  induction todo as [|o todo IH]; intros done Ha Hn; [reflexivity|].
  apply Forall_cons in Hn as [(a & ty & fs & v & Hao & Hc & Hg & Hv) Hn].
  cbn [List.length seq columnValues].
  rewrite (indexIndirect_owner h aown town (done ++ o :: todo) (List.length done) o a
             Ha); [|by rewrite list_lookup_middle|done].
  destruct (FieldByName_owner h o a ty fs name v Hao Hc Hg) as [Hfb Hi].
  rewrite Hfb.
  assert (Hrest : columnValues h (RCell aown) name
                    (seq (S (List.length done)) (List.length todo)) acc = Ok acc).
  { specialize (IH (done ++ [o])). rewrite length_app, Nat.add_1_r in IH.
    apply IH; [by rewrite <- app_assoc|done]. }
  assert (HK : reflect.Kind_ h (RField a name true) = reflect.KindOf v).
  { unfold reflect.Kind_. by rewrite Hi. }
  cbv zeta. rewrite HK.
  destruct Hv as [(u & xs & -> & Hx)| ->]; cbn [reflect.KindOf].
  - destruct (decide (reflect.Slice = reflect.Ptr)) as [?|_]; [discriminate|].
    rewrite HK. cbn [reflect.KindOf].
    destruct (decide (reflect.Slice = reflect.Slice)) as [_|?]; [|done].
    unfold reflect.Len. rewrite Hi.
    assert (reflect.elems (VSlice u xs) = []) as -> by (by destruct xs).
    cbn. exact Hrest.
  - destruct (decide (reflect.Ptr = reflect.Ptr)) as [_|?]; [|done].
    unfold reflect.Elem. rewrite Hi. cbn.
    destruct (decide (reflect.Invalid = reflect.Slice)) as [?|_]; [discriminate|].
    destruct acc as [rm results]. cbn. exact Hrest.
Qed.

(** So the scope of the next level is an empty sequence. *)
Lemma ColumnAsScope_none (e : engine.Engine) (name : string) (st : St)
      (aown : addr) (town : type) (owners : list GoValue) (m : ModelStruct)
      (fieldType : type) :
  Value (engine.Scope e) = VPtr (Some aown) ->
  heap (world st) !! aown = Some (CVar (VSlice town (Some owners))) ->
  Forall (noneRelated (heap (world st)) name) owners ->
  scope_GetModelStruct e (heap (world st)) (Value (engine.Scope e)) = Ok m ->
  type_FieldByName (MS_ModelType m) name = Some fieldType ->
  ColumnAsScope e name st
  = (st, Ok (on_Value (VSlice (TPtr (columnElem fieldType)) None) (engine_Clone e))).
Proof.
  intros Hv Ha Hn Hm Hft.
  assert (Hiv : valueOfIndirect (heap (world st)) (Value (engine.Scope e))
                = RCell aown).
  { rewrite Hv. reflexivity. }
  unfold ColumnAsScope, bind, getH, gets, lift, ret. rewrite Hiv.
  assert (Hk : reflect.Kind_ (heap (world st)) (RCell aown) = reflect.Slice).
  { unfold reflect.Kind_, reflect.Interface. unfold addr in *. by rewrite Ha. }
  rewrite Hk, Hm, Hft.
  assert (HL : reflect.Len (heap (world st)) (RCell aown) = List.length owners).
  { unfold reflect.Len, reflect.Interface. unfold addr in *. by rewrite Ha. }
  rewrite HL.
  rewrite (columnValues_none (heap (world st)) aown town name _ owners []); done.
Qed.

(** A segment whose key list is empty, behind fields it does not name. *)
Lemma preloadSegment_no_keys (b : Driver) (cs : engine.Engine) (field : Field)
      (rel : Relationship) (conds : list GoValue) (pre rest : list Field) (st : St) :
  Forall (fun f => names (Name field) f = false) pre ->
  Relationship_ field = Some rel ->
  ((Kind rel = "has_one" \/ Kind rel = "has_many") /\
   util_ColumnAsArray (AssociationForeignFieldNames rel) (heap (world st))
                      (Value (engine.Scope cs)) = []) \/
  (Kind rel = "belongs_to" /\
   util_ColumnAsArray (ForeignFieldNames rel) (heap (world st))
                      (Value (engine.Scope cs)) = []) ->
  preloadSegment b cs (Name field) conds (pre ++ field :: rest) st
  = (st, Ok (cs, true)).
Proof.
  intros Hpre Hr Hcase. rewrite preloadSegment_skip by exact Hpre.
  cbn [preloadSegment]. rewrite Hr, String.eqb_refl. cbn [negb].
  destruct Hcase as [[[Hk|Hk] He]|[Hk He]]; rewrite Hk; cbn [String.eqb Ascii.eqb Bool.eqb];
    unfold bind at 1.
  - rewrite (call_on_unchanged cs _ st); [reflexivity|].
    by apply (PreloadHasOne_empty _ _ rel).
  - rewrite (call_on_unchanged cs _ st); [reflexivity|].
    by apply (PreloadHasMany_empty _ _ rel).
  - rewrite (call_on_unchanged cs _ st); [reflexivity|].
    by apply (PreloadBelongsTo_empty _ _ rel).
Qed.

(** C9, as the code has it.  First, at any segment: a segment that names a
    has_one, has_many or belongs_to field and whose collected key list is
    empty is resolved with the state as it was: no query, no allocation, no
    error.  Second, for a path of two segments "A.B" that is not loaded yet:
    when segment A has been resolved and no owner of the current level
    holds a related record in its field A afterwards (an empty or nil
    slice, or a nil pointer), [ColumnAsScope] collects nothing, the scope of
    the next level is an empty sequence, and segment B, when it names a
    has_one, has_many or belongs_to field of the next level's type, is
    resolved without a query and without an error: the path ends in the
    state segment A left, with both segments recorded as loaded.  The key
    collector is taken to find no key in a sequence without an element. *)
Theorem empty_keys_no_query (b : Driver) :
  (forall (cs : engine.Engine) (field : Field) (rel : Relationship)
          (conds : list GoValue) (rest : list Field) (st : St),
     Relationship_ field = Some rel ->
     ((Kind rel = "has_one" \/ Kind rel = "has_many") /\
      util_ColumnAsArray (AssociationForeignFieldNames rel) (heap (world st))
                         (Value (engine.Scope cs)) = []) \/
     (Kind rel = "belongs_to" /\
      util_ColumnAsArray (ForeignFieldNames rel) (heap (world st))
                         (Value (engine.Scope cs)) = []) ->
     preloadSegment b cs (Name field) conds (field :: rest) st
     = (st, Ok (cs, true))) /\
  (forall (preload : SearchPreload) (A B : string) (cs cs1 : engine.Engine)
          (fields pre post : list Field) (fieldB : Field) (rel : Relationship)
          (preloadedMap : gmap string bool) (st st1 : St)
          (aown : addr) (town : type) (owners : list GoValue)
          (m : ModelStruct) (fieldType : type),
     let h1 := heap (world st1) in
     let next := on_Value (VSlice (TPtr (columnElem fieldType)) None)
                          (engine_Clone cs1) in
     preloadedMap !! A = None ->
     preloadedMap !! (A +:+ "." +:+ B) = None ->
     preloadSegment b cs A [] fields st = (st1, Ok (cs1, true)) ->
     Value (engine.Scope cs1) = VPtr (Some aown) ->
     h1 !! aown = Some (CVar (VSlice town (Some owners))) ->
     Forall (noneRelated h1 A) owners ->
     scope_GetModelStruct cs1 h1 (Value (engine.Scope cs1)) = Ok m ->
     type_FieldByName (MS_ModelType m) A = Some fieldType ->
     scope_Fields next h1 (Value (engine.Scope next)) = Ok (pre ++ fieldB :: post) ->
     Forall (fun f => names B f = false) pre ->
     Name fieldB = B ->
     Relationship_ fieldB = Some rel ->
     Kind rel = "has_one" \/ Kind rel = "has_many" \/ Kind rel = "belongs_to" ->
     NoKeysOfNone ->
     preloadPath b preload [A; B] 0 [A; B] cs fields preloadedMap st
     = (st1, Ok (<[A +:+ "." +:+ B := true]> (<[A := true]> preloadedMap)))).
Proof.
  split.
  - intros cs field rel conds rest st Hr Hcase.
    by apply (preloadSegment_no_keys b cs field rel conds [] rest st).
  - intros preload A B cs cs1 fields pre post fieldB rel preloadedMap st st1
           aown town owners m fieldType h1 next HA HAB Hseg Hv Ha Hnone Hm Hft
           Hf Hpre HB Hr Hk Hkeys.
    cbn [preloadPath take Join List.length Nat.sub].
    rewrite HA. cbn [default negb].
    rewrite decide_False by lia.
    unfold bind at 1. unfold bind at 1. rewrite Hseg.
    unfold ret at 1. rewrite decide_True by lia.
    unfold bind at 1.
    rewrite (ColumnAsScope_none cs1 A st1 aown town owners m fieldType Hv Ha Hnone Hm Hft).
    fold next. unfold bind at 1, getH, gets. fold h1.
    unfold bind at 1, lift. rewrite Hf.
    cbn [preloadPath take Join List.length Nat.sub].
    rewrite lookup_insert_ne by (by apply append_ne).
    rewrite HAB. cbn [default negb]. rewrite decide_True by lia.
    unfold bind at 1. unfold bind at 1. rewrite <- HB.
    rewrite (preloadSegment_no_keys b next fieldB rel (Conditions preload) pre post st1);
      [| by rewrite HB | exact Hr |].
    + unfold ret at 1. rewrite decide_False by lia. reflexivity.
    + destruct Hk as [Hk|[Hk|Hk]].
      * left. split; [by left|]. apply Hkeys.
      * left. split; [by right|]. apply Hkeys.
      * right. split; [done|]. apply Hkeys.
Qed.
End TwoLevels.

(** C9 at the segment "Emails" of no users, and at the path "Emails.User"
    over Ann and Bob on a backend without rows: one query for the emails,
    which leaves both without one, and none for the users of the emails. *)
Lemma empty_keys_no_query_witness :
  hooks.preloadSegment (H := Inputs.quiet)
    (book_driver 4 (Inputs.queryBook Inputs.quiet)) (eng Inputs.noUsers)
    "Emails" [] [Inputs.emailsMeta] Inputs.noUsers =
  (Inputs.noUsers, Ok (eng Inputs.noUsers, true)) /\
  exists st1 : St,
    hooks.preloadPath (H := Inputs.quiet)
      (book_driver 4 (Inputs.queryBook Inputs.quiet))
      {| model.Schema := "Emails.User"; model.Conditions := [] |}
      ["Emails"; "User"] 0 ["Emails"; "User"]
      (eng Inputs.twoUsers) [Inputs.emailsMeta] ∅ Inputs.twoUsers
    = (st1, Ok (<["Emails.User" := true]> (<["Emails" := true]> ∅))) /\
    trace (world st1)
    = [sql.EvQuery "SELECT * FROM Email WHERE user_id IN (?,?)"
                   [VInt64 1; VInt64 2]] /\
    reflect.field_get (heap (world st1)) 1%nat "Emails"
    = Some (VSlice (TStruct "Email") (Some [])) /\
    reflect.field_get (heap (world st1)) 2%nat "Emails"
    = Some (VSlice (TStruct "Email") (Some [])).
Proof.
  split.
  - apply (proj1 (empty_keys_no_query (H := Inputs.quiet)
                    (book_driver 4 (Inputs.queryBook Inputs.quiet)))
                 (eng Inputs.noUsers) Inputs.emailsMeta Inputs.emails [] []
                 Inputs.noUsers eq_refl).
    left. split; [by right|reflexivity].
  - eexists. split.
    + eapply (proj2 (empty_keys_no_query (H := Inputs.quiet)
                       (book_driver 4 (Inputs.queryBook Inputs.quiet)))
                    {| model.Schema := "Emails.User"; model.Conditions := [] |}
                    "Emails" "User" (eng Inputs.twoUsers) _ [Inputs.emailsMeta]
                    [_; _; _] [] _ _ ∅ Inputs.twoUsers _ 0%nat _
                    [VStruct 1%nat; VStruct 2%nat]).
      * reflexivity.
      * reflexivity.
      * vm_compute. reflexivity.
      * reflexivity.
      * reflexivity.
      * repeat constructor.
        -- eexists 1%nat, _, _, _. repeat split; try reflexivity.
           left. eexists _, _. split; reflexivity.
        -- eexists 2%nat, _, _, _. repeat split; try reflexivity.
           left. eexists _, _. split; reflexivity.
      * reflexivity.
      * reflexivity.
      * vm_compute. reflexivity.
      * repeat constructor.
      * reflexivity.
      * reflexivity.
      * right. right. reflexivity.
      * intros names h t. reflexivity.
    + repeat split; vm_compute; reflexivity.
Defined.
